(** * Training-job orchestrator of the fraud-detection backend

    A shallow embedding of [models/training_job.py], [models/training_config.py],
    [services/training_service.py] and of the job-listing endpoint of
    [controllers/training_controller.py], followed by the properties of the
    orchestrator that the specification states.  The other routes of the
    controller, the decorators of its routes ([decorators/rate_limit.py],
    [decorators/validate_json.py], [decorators/monitor_performance.py]) and
    the model registry ([services/mlflow_service.py],
    [models/model_version.py]) are embedded as well, and further properties
    of the code are proved at the end.

    Python objects are shared and mutated in place: a [TrainingJob] lives in a
    heap and the service's dictionaries hold references to it.  The worker
    threads and the threads that serve the calls of the facade are interleaved
    statement by statement. *)

From Stdlib Require Import ZArith String List Lia Sorted SpecFloat DecimalString DecimalZ
  DecimalPos.
From stdpp Require Import base list strings relations.

Local Open Scope string_scope.

(** ** Python values *)

Module Py.

(** A naive [datetime]: a point of the microsecond timeline. *)
Definition datetime := Z.

(** A Python [float] is an IEEE-754 binary64 number. *)
Definition float := spec_float.
Definition prec : Z := 53.
Definition emax : Z := 1024.

Definition float_of_int (z : Z) : float := binary_normalize prec emax z 0 false.
Definition fadd : float -> float -> float := SFadd prec emax.
Definition fsub : float -> float -> float := SFsub prec emax.
Definition fmul : float -> float -> float := SFmul prec emax.
Definition fdiv : float -> float -> float := SFdiv prec emax.

(** [a / b] on two [int]s (true division), for operands below [2^53] as the
    counts and step numbers of this program are: both convert exactly and the
    quotient is rounded once. *)
Definition int_truediv (a b : Z) : float := fdiv (float_of_int a) (float_of_int b).

(** A decimal literal [n/d] such as [0.8] denotes the binary64 number nearest
    to it, which is what the correctly rounded quotient computes. *)
Definition literal (n d : Z) : float := int_truediv n d.

(** [int(x)]: truncation towards zero. *)
Definition int_of_float (x : float) : Z :=
  match x with
  | S754_finite s m e =>
      let a := match e with
               | Zneg p => Z.shiftr (Zpos m) (Zpos p)
               | _ => Z.shiftl (Zpos m) e
               end in
      if s then (- a)%Z else a
  | _ => 0%Z
  end.

#[local] Unset Elimination Schemes.
Inductive value : Type :=
| VNone
| VBool (b : bool)
| VInt (z : Z)
| VFloat (x : float)
| VStr (s : string)
| VDatetime (d : datetime)
| VDict (d : list (string * value))
| VList (l : list value).
#[local] Set Elimination Schemes.

(** A [dict] keeps its keys in insertion order. *)
Definition dict (V : Type) : Type := list (string * V).

Fixpoint dict_get {V} (k : string) (d : dict V) : option V :=
  match d with
  | [] => None
  | (k', v) :: d' => if String.eqb k k' then Some v else dict_get k d'
  end.

Definition dict_contains {V} (k : string) (d : dict V) : bool :=
  match dict_get k d with Some _ => true | None => false end.

(** [d[k] = v]: an existing key keeps its position, a new one goes last. *)
Fixpoint dict_set {V} (k : string) (v : V) (d : dict V) : dict V :=
  match d with
  | [] => [(k, v)]
  | (k', v') :: d' =>
      if String.eqb k k' then (k', v) :: d' else (k', v') :: dict_set k v d'
  end.

(** [d.pop(k, None)], the dictionary part of it. *)
Fixpoint dict_pop {V} (k : string) (d : dict V) : dict V :=
  match d with
  | [] => []
  | (k', v') :: d' =>
      if String.eqb k k' then d' else (k', v') :: dict_pop k d'
  end.

Definition dict_keys {V} (d : dict V) : list string := map fst d.
Definition dict_values {V} (d : dict V) : list V := map snd d.

(** [d.get(k, default)]. *)
Definition dict_get_default {V} (k : string) (default : V) (d : dict V) : V :=
  match dict_get k d with Some v => v | None => default end.

(** [l[:n]]: a negative [n] counts from the end. *)
Definition slice_to {A} (n : Z) (l : list A) : list A :=
  if (0 <=? n)%Z then firstn (Z.to_nat n) l
  else firstn (length l - Z.to_nat (- n)) l.

(** [l.sort(key=key, reverse=True)]: the sort is stable, also when reversed,
    so its result is the one of this insertion sort. *)
Fixpoint insert_desc {A} (key : A -> Z) (x : A) (l : list A) : list A :=
  match l with
  | [] => [x]
  | y :: l' =>
      if (key x <? key y)%Z then y :: insert_desc key x l' else x :: y :: l'
  end.

Fixpoint sort_desc {A} (key : A -> Z) (l : list A) : list A :=
  match l with
  | [] => []
  | x :: l' => insert_desc key x (sort_desc key l')
  end.

(** What the interpreter supplies to a statement: the clock read by
    [datetime.now()] and the string hash of the process. *)
Record env : Type := Env { now : datetime; hash : string -> Z }.

End Py.

(** ** Outcome of a call: a value or a raised exception *)

Inductive exn : Type :=
| TypeError (msg : string)
| ValueError (msg : string)
| KeyError (key : string)
| IllTyped (attribute : string).
(** [IllTyped a]: the value bound to [a] has not the type the class declares
    for it; the typed record below cannot hold it and the embedding stops. *)

Inductive result (A : Type) : Type :=
| Ok (a : A)
| Raise (e : exn).
Arguments Ok {A} a.
Arguments Raise {A} e.

Definition bind {A B} (r : result A) (k : A -> result B) : result B :=
  match r with
  | Ok a => k a
  | Raise e => Raise e
  end.

Notation "'let!' x ':=' r 'in' k" := (bind r (fun x => k))
  (at level 10, x name, r at level 100, k at level 200).

(** ** Objects and their attributes *)

Module PyObject.

(** The name of the type of a value, as the messages of the interpreter show
    it. *)
Definition type_name (v : Py.value) : string :=
  match v with
  | Py.VNone => "NoneType"
  | Py.VBool _ => "bool"
  | Py.VInt _ => "int"
  | Py.VFloat _ => "float"
  | Py.VStr _ => "str"
  | Py.VDatetime _ => "datetime.datetime"
  | Py.VDict _ => "dict"
  | Py.VList _ => "list"
  end.

(** The truth value of an object: [None], [False], a zero, and an empty
    string, dictionary or list are false; a [nan] is true. *)
Definition truthy (v : Py.value) : bool :=
  match v with
  | Py.VNone => false
  | Py.VBool b => b
  | Py.VInt z => negb (z =? 0)%Z
  | Py.VFloat x => negb (SFeqb x (S754_zero false))
  | Py.VStr s => negb (String.eqb s EmptyString)
  | Py.VDatetime _ => true
  | Py.VDict d => match d with [] => false | _ :: _ => true end
  | Py.VList l => match l with [] => false | _ :: _ => true end
  end.

(** A call [self.method()] on an object whose instance dictionary holds
    [attrs] besides the attributes its class declares: an instance attribute
    of that name hides the method, and none of these values is callable. *)
Definition bound_method (method : string) (attrs : Py.dict Py.value) : result unit :=
  match Py.dict_get method attrs with
  | Some v => Raise (TypeError ("'" ++ type_name v ++ "' object is not callable"))
  | None => Ok tt
  end.

(** [x or default] on a string that may be [None]. *)
Definition str_or (x : option string) (default : string) : string :=
  match x with
  | Some s => if String.eqb s EmptyString then default else s
  | None => default
  end.

(** The exceptions of [exn], and [AttributeError]. *)
Inductive exception : Type :=
| Exception (ex : exn)
| AttributeError (message : string).

(** What a call does that may raise one of them. *)
Inductive outcome (A : Type) : Type :=
| Returns (a : A)
| Raises (ex : exception).

Arguments Returns {A} a.
Arguments Raises {A} ex.

Definition and_then {A B} (r : outcome A) (k : A -> outcome B) : outcome B :=
  match r with
  | Returns a => k a
  | Raises ex => Raises ex
  end.

Definition of_result {A} (r : result A) : outcome A :=
  match r with
  | Ok a => Returns a
  | Raise ex => Raises (Exception ex)
  end.

(** [setattr(self, key, value)] on an object of the class [class_name],
    which has no [__slots__], where [self] is the instance dictionary.  Three
    names are not names of entries of it: [__dict__] is the dictionary
    itself, [__class__] takes a class only, and [__weakref__] cannot be
    written. *)
Definition setattr (class_name key : string) (value : Py.value) (self : Py.dict Py.value)
  : outcome (Py.dict Py.value) :=
  if String.eqb key "__dict__" then
    match value with
    | Py.VDict d => Returns d
    | _ =>
        Raises (Exception
                  (TypeError ("__dict__ must be set to a dictionary, not a '"
                              ++ type_name value ++ "'")))
    end
  else if String.eqb key "__class__" then
    Raises (Exception
              (TypeError ("__class__ must be set to a class, not '"
                          ++ type_name value ++ "' object")))
  else if String.eqb key "__weakref__" then
    Raises (AttributeError
              ("attribute '__weakref__' of '" ++ class_name
               ++ "' objects is not writable"))
  else Returns (Py.dict_set key value self).

(** [self.name], for a name that the class does not define. *)
Definition getattr (class_name name : string) (self : Py.dict Py.value)
  : outcome Py.value :=
  match Py.dict_get name self with
  | Some v => Returns v
  | None =>
      Raises (AttributeError
                ("'" ++ class_name ++ "' object has no attribute '" ++ name ++ "'"))
  end.

(** With [datetime.min] at 0, the microseconds up to [datetime.max], the last
    microsecond of the year 9999. *)
Definition datetime_max : Z := 315537897599999999.

(** The points of the timeline that are datetimes. *)
Definition is_datetime (d : Py.datetime) : bool :=
  (0 <=? d)%Z && (d <=? datetime_max)%Z.

End PyObject.

Notation "'let?' x ':=' r 'in' k" := (PyObject.and_then r (fun x => k))
  (at level 10, x name, r at level 100, k at level 200).

(** ** [models/training_config.py] *)

Module TrainingConfig.

Record t : Type := Build {
  model_name : string;
  algorithm : string;
  dataset_version : string;
  experiment_name : string;
  hyperparameter_tuning : bool;
  config : Py.dict Py.value
}.

Definition to_dict (self : t) : Py.dict Py.value :=
  [ ("model_name", Py.VStr (model_name self));
    ("algorithm", Py.VStr (algorithm self));
    ("dataset_version", Py.VStr (dataset_version self));
    ("experiment_name", Py.VStr (experiment_name self));
    ("hyperparameter_tuning", Py.VBool (hyperparameter_tuning self));
    ("config", Py.VDict (config self)) ].

Definition valid_algorithms : list string :=
  [ "random_forest"; "logistic_regression"; "xgboost"; "neural_network";
    "fraud_detection" ].

(** [not s] on a string. *)
Definition falsy (s : string) : bool := String.eqb s EmptyString.

Definition is_valid (self : t) : bool :=
  if falsy (model_name self) || falsy (algorithm self) then false
  else if negb (existsb (String.eqb (algorithm self)) valid_algorithms) then false
  else true.

(** The text of [f"Algorithm must be one of: {valid_algorithms}"]. *)
Definition must_be_one_of : string :=
  "Algorithm must be one of: ['random_forest', 'logistic_regression', 'xgboost', 'neural_network', 'fraud_detection']".

Definition get_validation_issues (self : t) : list string :=
  let issues : list string := [] in
  let issues :=
    if falsy (model_name self) then (issues ++ ["Model name is required"])%list else issues in
  let issues :=
    if falsy (algorithm self) then (issues ++ ["Algorithm is required"])%list else issues in
  let issues :=
    if negb (falsy (algorithm self))
       && negb (existsb (String.eqb (algorithm self)) valid_algorithms)
    then (issues ++ [must_be_one_of])%list else issues in
  issues.

(** *** Objects of the class

    The record [t] holds the attributes that [__init__] declares, with the
    types that it declares for them.  An object that [from_dict] makes of a
    request has whatever the request holds: it is modelled by its instance
    dictionary, and its methods read their attributes from it. *)

Module Object.

Definition instance : Type := Py.dict Py.value.

Definition getattr : string -> instance -> PyObject.outcome Py.value :=
  PyObject.getattr "TrainingConfig".

Section Init.

(** [str(value)], which [f"{model_name}_experiment"] shows of a model name
    that is not a string. *)
Variable str : Py.value -> string.

Definition format (v : Py.value) : string :=
  match v with
  | Py.VStr s => s
  | _ => str v
  end.

(** The loop [for key, value in kwargs.items(): setattr(self, key, value)]
    of [__init__], which ends at the first exception. *)
Definition set_kwargs (kwargs : Py.dict Py.value) (self : PyObject.outcome instance)
  : PyObject.outcome instance :=
  fold_left
    (fun acc kv =>
       let? self := acc in
       PyObject.setattr "TrainingConfig" (fst kv) (snd kv) self)
    kwargs self.

(** [TrainingConfig.__init__]; a parameter left out at the call is given its
    default by the caller of this function. *)
Definition __init__ (model_name algorithm dataset_version experiment_name
    hyperparameter_tuning config : Py.value) (kwargs : Py.dict Py.value)
  : PyObject.outcome instance :=
  let self : instance :=
    [ ("model_name", model_name);
      ("algorithm", algorithm);
      ("dataset_version", dataset_version);
      ("experiment_name",
       if PyObject.truthy experiment_name then experiment_name
       else Py.VStr (format model_name ++ "_experiment"));
      ("hyperparameter_tuning", hyperparameter_tuning);
      ("config", if PyObject.truthy config then config else Py.VDict []) ] in
  set_kwargs kwargs (PyObject.Returns self).

(** The named parameters of [__init__] after [self]. *)
Definition parameters : list string :=
  [ "model_name"; "algorithm"; "dataset_version"; "experiment_name";
    "hyperparameter_tuning"; "config" ].

(** [from_dict]: the call of [cls] with [data] unpacked into keyword
    arguments.  A key [self] clashes with the first parameter; the keys that
    name a parameter are bound to it, and the two parameters without a
    default must be given; the other keys are collected, in order, into
    [kwargs].  The messages of the two [TypeError]s are abridged. *)
Definition from_dict (data : Py.dict Py.value) : PyObject.outcome instance :=
  if Py.dict_contains "self" data then
    PyObject.Raises
      (PyObject.Exception (TypeError "got multiple values for argument 'self'"))
  else
    match Py.dict_get "model_name" data, Py.dict_get "algorithm" data with
    | Some model_name, Some algorithm =>
        __init__ model_name algorithm
          (Py.dict_get_default "dataset_version" (Py.VStr "latest") data)
          (Py.dict_get_default "experiment_name" Py.VNone data)
          (Py.dict_get_default "hyperparameter_tuning" (Py.VBool false) data)
          (Py.dict_get_default "config" Py.VNone data)
          (List.filter (fun kv => negb (existsb (String.eqb (fst kv)) parameters)) data)
    | _, _ =>
        PyObject.Raises
          (PyObject.Exception (TypeError "missing a required positional argument"))
    end.

End Init.

(** [to_dict], on an object. *)
Definition to_dict (self : instance) : PyObject.outcome (Py.dict Py.value) :=
  let? model_name := getattr "model_name" self in
  let? algorithm := getattr "algorithm" self in
  let? dataset_version := getattr "dataset_version" self in
  let? experiment_name := getattr "experiment_name" self in
  let? hyperparameter_tuning := getattr "hyperparameter_tuning" self in
  let? config := getattr "config" self in
  PyObject.Returns
    [ ("model_name", model_name);
      ("algorithm", algorithm);
      ("dataset_version", dataset_version);
      ("experiment_name", experiment_name);
      ("hyperparameter_tuning", hyperparameter_tuning);
      ("config", config) ].

(** [x in valid_algorithms]: only a string is equal to a string. *)
Definition is_valid_algorithm (x : Py.value) : bool :=
  match x with
  | Py.VStr s => existsb (String.eqb s) valid_algorithms
  | _ => false
  end.

(** [is_valid], on an object: [or] reads the algorithm only if the model
    name is true. *)
Definition is_valid (self : instance) : PyObject.outcome bool :=
  let? model_name := getattr "model_name" self in
  if negb (PyObject.truthy model_name) then PyObject.Returns false
  else
    let? algorithm := getattr "algorithm" self in
    if negb (PyObject.truthy algorithm) then PyObject.Returns false
    else
      let? algorithm := getattr "algorithm" self in
      if negb (is_valid_algorithm algorithm) then PyObject.Returns false
      else PyObject.Returns true.

(** [get_validation_issues], on an object. *)
Definition get_validation_issues (self : instance) : PyObject.outcome (list string) :=
  let issues : list string := [] in
  let? model_name := getattr "model_name" self in
  let issues :=
    if negb (PyObject.truthy model_name)
    then (issues ++ ["Model name is required"])%list else issues in
  let? algorithm := getattr "algorithm" self in
  let issues :=
    if negb (PyObject.truthy algorithm)
    then (issues ++ ["Algorithm is required"])%list else issues in
  let? algorithm := getattr "algorithm" self in
  let issues :=
    if PyObject.truthy algorithm && negb (is_valid_algorithm algorithm)
    then (issues ++ [must_be_one_of])%list else issues in
  PyObject.Returns issues.

(** The attributes of an object as a record, where they have the types that
    [__init__] declares for them; an object that has others is outside the
    typed part of the model ([IllTyped]). *)
Definition fields (self : instance) : result t :=
  match Py.dict_get "model_name" self, Py.dict_get "algorithm" self,
        Py.dict_get "dataset_version" self, Py.dict_get "experiment_name" self,
        Py.dict_get "hyperparameter_tuning" self, Py.dict_get "config" self with
  | Some (Py.VStr model_name), Some (Py.VStr algorithm), Some (Py.VStr dataset_version),
    Some (Py.VStr experiment_name), Some (Py.VBool hyperparameter_tuning),
    Some (Py.VDict config) =>
      Ok (Build model_name algorithm dataset_version experiment_name
            hyperparameter_tuning config)
  | _, _, _, _, _, _ => Raise (IllTyped "TrainingConfig")
  end.

End Object.

End TrainingConfig.

(** ** [models/training_job.py] *)

Module TrainingJob.

(** The attributes [__init__] creates, with the types it declares for them.
    [started_at] is never [None]: [__init__] stores [started_at or
    datetime.now()].  [attrs] holds every other attribute, those that
    [**kwargs] or a later assignment adds to the object. *)
Record t : Type := Build {
  job_id : string;
  model_name : string;
  algorithm : string;
  config : Py.dict Py.value;
  status : string;
  started_at : Py.datetime;
  completed_at : option Py.datetime;
  created_by : string;
  job_type : string;
  progress : Z;
  current_metrics : Py.dict Py.value;
  final_metrics : Py.dict Py.value;
  model_path : option string;
  error_message : option string;
  tuning_strategy : option string;
  max_trials : option Z;
  estimated_completion : option Py.datetime;
  attrs : Py.dict Py.value
}.

(** Attribute assignments [self.a = v]. *)
Definition set_status (v : string) (j : t) : t :=
  Build (job_id j) (model_name j) (algorithm j) (config j) v (started_at j)
    (completed_at j) (created_by j) (job_type j) (progress j) (current_metrics j)
    (final_metrics j) (model_path j) (error_message j) (tuning_strategy j)
    (max_trials j) (estimated_completion j) (attrs j).

Definition set_started_at (v : Py.datetime) (j : t) : t :=
  Build (job_id j) (model_name j) (algorithm j) (config j) (status j) v
    (completed_at j) (created_by j) (job_type j) (progress j) (current_metrics j)
    (final_metrics j) (model_path j) (error_message j) (tuning_strategy j)
    (max_trials j) (estimated_completion j) (attrs j).

Definition set_completed_at (v : option Py.datetime) (j : t) : t :=
  Build (job_id j) (model_name j) (algorithm j) (config j) (status j) (started_at j)
    v (created_by j) (job_type j) (progress j) (current_metrics j)
    (final_metrics j) (model_path j) (error_message j) (tuning_strategy j)
    (max_trials j) (estimated_completion j) (attrs j).

Definition set_progress (v : Z) (j : t) : t :=
  Build (job_id j) (model_name j) (algorithm j) (config j) (status j) (started_at j)
    (completed_at j) (created_by j) (job_type j) v (current_metrics j)
    (final_metrics j) (model_path j) (error_message j) (tuning_strategy j)
    (max_trials j) (estimated_completion j) (attrs j).

Definition set_current_metrics (v : Py.dict Py.value) (j : t) : t :=
  Build (job_id j) (model_name j) (algorithm j) (config j) (status j) (started_at j)
    (completed_at j) (created_by j) (job_type j) (progress j) v
    (final_metrics j) (model_path j) (error_message j) (tuning_strategy j)
    (max_trials j) (estimated_completion j) (attrs j).

Definition set_final_metrics (v : Py.dict Py.value) (j : t) : t :=
  Build (job_id j) (model_name j) (algorithm j) (config j) (status j) (started_at j)
    (completed_at j) (created_by j) (job_type j) (progress j) (current_metrics j)
    v (model_path j) (error_message j) (tuning_strategy j)
    (max_trials j) (estimated_completion j) (attrs j).

Definition set_model_path (v : option string) (j : t) : t :=
  Build (job_id j) (model_name j) (algorithm j) (config j) (status j) (started_at j)
    (completed_at j) (created_by j) (job_type j) (progress j) (current_metrics j)
    (final_metrics j) v (error_message j) (tuning_strategy j)
    (max_trials j) (estimated_completion j) (attrs j).

Definition set_error_message (v : option string) (j : t) : t :=
  Build (job_id j) (model_name j) (algorithm j) (config j) (status j) (started_at j)
    (completed_at j) (created_by j) (job_type j) (progress j) (current_metrics j)
    (final_metrics j) (model_path j) v (tuning_strategy j)
    (max_trials j) (estimated_completion j) (attrs j).

Definition set_tuning_strategy (v : option string) (j : t) : t :=
  Build (job_id j) (model_name j) (algorithm j) (config j) (status j) (started_at j)
    (completed_at j) (created_by j) (job_type j) (progress j) (current_metrics j)
    (final_metrics j) (model_path j) (error_message j) v
    (max_trials j) (estimated_completion j) (attrs j).

Definition set_max_trials (v : option Z) (j : t) : t :=
  Build (job_id j) (model_name j) (algorithm j) (config j) (status j) (started_at j)
    (completed_at j) (created_by j) (job_type j) (progress j) (current_metrics j)
    (final_metrics j) (model_path j) (error_message j) (tuning_strategy j)
    v (estimated_completion j) (attrs j).

Definition set_estimated_completion (v : option Py.datetime) (j : t) : t :=
  Build (job_id j) (model_name j) (algorithm j) (config j) (status j) (started_at j)
    (completed_at j) (created_by j) (job_type j) (progress j) (current_metrics j)
    (final_metrics j) (model_path j) (error_message j) (tuning_strategy j)
    (max_trials j) v (attrs j).

(** [self.name = v] for a [name] the class does not declare. *)
Definition set_attr (name : string) (v : Py.value) (j : t) : t :=
  Build (job_id j) (model_name j) (algorithm j) (config j) (status j) (started_at j)
    (completed_at j) (created_by j) (job_type j) (progress j) (current_metrics j)
    (final_metrics j) (model_path j) (error_message j) (tuning_strategy j)
    (max_trials j) (estimated_completion j) (Py.dict_set name v (attrs j)).

(** Reading a value at a declared type. *)
Definition as_str (a : string) (v : Py.value) : result string :=
  match v with Py.VStr s => Ok s | _ => Raise (IllTyped a) end.

Definition as_int (a : string) (v : Py.value) : result Z :=
  match v with Py.VInt z => Ok z | _ => Raise (IllTyped a) end.

Definition as_dict (a : string) (v : Py.value) : result (Py.dict Py.value) :=
  match v with Py.VDict d => Ok d | _ => Raise (IllTyped a) end.

Definition as_opt_str (a : string) (v : Py.value) : result (option string) :=
  match v with
  | Py.VNone => Ok None
  | Py.VStr s => Ok (Some s)
  | _ => Raise (IllTyped a)
  end.

Definition as_opt_int (a : string) (v : Py.value) : result (option Z) :=
  match v with
  | Py.VNone => Ok None
  | Py.VInt z => Ok (Some z)
  | _ => Raise (IllTyped a)
  end.

Definition as_opt_datetime (a : string) (v : Py.value) : result (option Py.datetime) :=
  match v with
  | Py.VNone => Ok None
  | Py.VDatetime d => Ok (Some d)
  | _ => Raise (IllTyped a)
  end.

(** [setattr(self, key, value)], as the loop over [kwargs] calls it: the
    keys that reach it are not parameters of [__init__]. *)
Definition setattr (key : string) (v : Py.value) (j : t) : result t :=
  if String.eqb key "progress" then
    let! z := as_int key v in Ok (set_progress z j)
  else if String.eqb key "current_metrics" then
    let! d := as_dict key v in Ok (set_current_metrics d j)
  else if String.eqb key "final_metrics" then
    let! d := as_dict key v in Ok (set_final_metrics d j)
  else if String.eqb key "model_path" then
    let! s := as_opt_str key v in Ok (set_model_path s j)
  else if String.eqb key "error_message" then
    let! s := as_opt_str key v in Ok (set_error_message s j)
  else if String.eqb key "tuning_strategy" then
    let! s := as_opt_str key v in Ok (set_tuning_strategy s j)
  else if String.eqb key "max_trials" then
    let! z := as_opt_int key v in Ok (set_max_trials z j)
  else if String.eqb key "estimated_completion" then
    let! d := as_opt_datetime key v in Ok (set_estimated_completion d j)
  else Ok (set_attr key v j).

Fixpoint setattr_all (kwargs : Py.dict Py.value) (j : t) : result t :=
  match kwargs with
  | [] => Ok j
  | (key, v) :: rest => let! j' := setattr key v j in setattr_all rest j'
  end.

(** [TrainingJob.__init__]; a parameter left out at the call is given its
    default by the caller of this function. *)
Definition __init__ (e : Py.env)
    (job_id model_name algorithm : string) (config : Py.dict Py.value)
    (status : string) (started_at completed_at : option Py.datetime)
    (created_by job_type : string) (kwargs : Py.dict Py.value) : result t :=
  let self :=
    Build job_id model_name algorithm config status
      (match started_at with Some d => d | None => Py.now e end)
      completed_at created_by job_type
      0%Z [] [] None None
      None None None
      [] in
  setattr_all kwargs self.

Definition is_completed (self : t) : bool :=
  String.eqb (status self) "completed" || String.eqb (status self) "failed"
  || String.eqb (status self) "cancelled".

Definition is_running (self : t) : bool := String.eqb (status self) "running".

Definition is_successful (self : t) : bool := String.eqb (status self) "completed".

Definition get_progress_percentage (self : t) : Z :=
  Z.max 0 (Z.min 100 (progress self)).

Section Serialization.

(** [datetime.isoformat] and [datetime.fromisoformat] of the standard
    library; [fromisoformat] raises [ValueError] where it gives [None]. *)
Variable isoformat : Py.datetime -> string.
Variable fromisoformat : string -> option Py.datetime.

Definition iso_or_none (d : option Py.datetime) : Py.value :=
  match d with Some d => Py.VStr (isoformat d) | None => Py.VNone end.

Definition str_or_none (s : option string) : Py.value :=
  match s with Some s => Py.VStr s | None => Py.VNone end.

Definition int_or_none (z : option Z) : Py.value :=
  match z with Some z => Py.VInt z | None => Py.VNone end.

(** [to_dict]; the test [if self.started_at] holds of every datetime. *)
Definition to_dict (self : t) : Py.dict Py.value :=
  [ ("job_id", Py.VStr (job_id self));
    ("model_name", Py.VStr (model_name self));
    ("algorithm", Py.VStr (algorithm self));
    ("config", Py.VDict (config self));
    ("status", Py.VStr (status self));
    ("started_at", Py.VStr (isoformat (started_at self)));
    ("completed_at", iso_or_none (completed_at self));
    ("created_by", Py.VStr (created_by self));
    ("job_type", Py.VStr (job_type self));
    ("progress", Py.VInt (progress self));
    ("current_metrics", Py.VDict (current_metrics self));
    ("final_metrics", Py.VDict (final_metrics self));
    ("model_path", str_or_none (model_path self));
    ("error_message", str_or_none (error_message self));
    ("tuning_strategy", str_or_none (tuning_strategy self));
    ("max_trials", int_or_none (max_trials self));
    ("estimated_completion", iso_or_none (estimated_completion self)) ].

(** [if key in data and isinstance(data[key], str):
       data[key] = datetime.fromisoformat(data[key])]. *)
Definition parse_datetime_field (key : string) (data : Py.dict Py.value)
  : result (Py.dict Py.value) :=
  match Py.dict_get key data with
  | Some (Py.VStr s) =>
      match fromisoformat s with
      | Some d => Ok (Py.dict_set key (Py.VDatetime d) data)
      | None => Raise (ValueError "Invalid isoformat string")
      end
  | _ => Ok data
  end.

(** The named parameters of [__init__] after [self]. *)
Definition parameters : list string :=
  [ "job_id"; "model_name"; "algorithm"; "config"; "status"; "started_at";
    "completed_at"; "created_by"; "job_type" ].

Definition required (key : string) (data : Py.dict Py.value) : result Py.value :=
  match Py.dict_get key data with
  | Some v => Ok v
  | None => Raise (TypeError "missing a required positional argument")
  end.

Definition optional {A} (key : string) (data : Py.dict Py.value)
    (read : string -> Py.value -> result A) (default : A) : result A :=
  match Py.dict_get key data with
  | Some v => read key v
  | None => Ok default
  end.

(** The call of [cls] with [data] unpacked into keyword arguments: the keys
    that name a parameter are bound to it, the others are collected, in
    order, into [kwargs]. *)
Definition call_with_keywords (e : Py.env) (data : Py.dict Py.value) : result t :=
  let! v_job_id := required "job_id" data in
  let! a_job_id := as_str "job_id" v_job_id in
  let! v_model_name := required "model_name" data in
  let! a_model_name := as_str "model_name" v_model_name in
  let! v_algorithm := required "algorithm" data in
  let! a_algorithm := as_str "algorithm" v_algorithm in
  let! v_config := required "config" data in
  let! a_config := as_dict "config" v_config in
  let! a_status := optional "status" data as_str "queued" in
  let! a_started_at := optional "started_at" data as_opt_datetime None in
  let! a_completed_at := optional "completed_at" data as_opt_datetime None in
  let! a_created_by := optional "created_by" data as_str "system" in
  let! a_job_type := optional "job_type" data as_str "training" in
  let kwargs :=
    List.filter (fun kv => negb (existsb (String.eqb (fst kv)) parameters)) data in
  __init__ e a_job_id a_model_name a_algorithm a_config a_status a_started_at
    a_completed_at a_created_by a_job_type kwargs.

Definition from_dict (e : Py.env) (data : Py.dict Py.value) : result t :=
  let! data1 := parse_datetime_field "started_at" data in
  let! data2 := parse_datetime_field "completed_at" data1 in
  let! data3 := parse_datetime_field "estimated_completion" data2 in
  call_with_keywords e data3.

End Serialization.

(** Two jobs agree on every attribute that [to_dict] serializes. *)
Definition same_serialized_fields (a b : t) : Prop :=
  job_id a = job_id b /\ model_name a = model_name b /\ algorithm a = algorithm b
  /\ config a = config b /\ status a = status b /\ started_at a = started_at b
  /\ completed_at a = completed_at b /\ created_by a = created_by b
  /\ job_type a = job_type b /\ progress a = progress b
  /\ current_metrics a = current_metrics b /\ final_metrics a = final_metrics b
  /\ model_path a = model_path b /\ error_message a = error_message b
  /\ tuning_strategy a = tuning_strategy b /\ max_trials a = max_trials b
  /\ estimated_completion a = estimated_completion b.

End TrainingJob.

(** ** [services/training_service.py] *)

Module TrainingService.

(** A reference to a [TrainingJob] object: its index in the heap. *)
Abbreviation loc := nat.

(** The service object.  [heap] holds the [TrainingJob] objects the service
    has created; [training_jobs] and [running_jobs] map a job id to a
    reference; [job_queue] is the [queue.Queue] of job ids, oldest first. *)
Record t : Type := Build {
  heap : list TrainingJob.t;
  training_jobs : Py.dict loc;
  job_queue : list string;
  max_concurrent_jobs : Z;
  running_jobs : Py.dict loc
}.

Definition with_heap (h : list TrainingJob.t) (self : t) : t :=
  Build h (training_jobs self) (job_queue self) (max_concurrent_jobs self)
    (running_jobs self).

Definition with_training_jobs (d : Py.dict loc) (self : t) : t :=
  Build (heap self) d (job_queue self) (max_concurrent_jobs self) (running_jobs self).

Definition with_job_queue (q : list string) (self : t) : t :=
  Build (heap self) (training_jobs self) q (max_concurrent_jobs self)
    (running_jobs self).

Definition with_running_jobs (d : Py.dict loc) (self : t) : t :=
  Build (heap self) (training_jobs self) (job_queue self) (max_concurrent_jobs self) d.

(** A new object. *)
Definition alloc (job : TrainingJob.t) (self : t) : loc * t :=
  (length (heap self), with_heap (heap self ++ [job]) self).

(** An attribute assignment through the reference [job]. *)
Definition assign (job : loc) (f : TrainingJob.t -> TrainingJob.t) (self : t) : t :=
  with_heap (alter f job (heap self)) self.

(** The object a job id is stored under. *)
Definition lookup (job_id : string) (self : t) : option TrainingJob.t :=
  match Py.dict_get job_id (training_jobs self) with
  | Some l => heap self !! l
  | None => None
  end.

(** [list(self.training_jobs.values())], dereferenced. *)
Definition jobs (self : t) : list TrainingJob.t :=
  omap (fun l => heap self !! l) (Py.dict_values (training_jobs self)).

(** *** The facade *)

(** [self.training_jobs[job_id] = job], for an object [job] just created. *)
Definition store (job_id : string) (job : TrainingJob.t) (self : t) : loc * t :=
  let (l, self1) := alloc job self in
  (l, with_training_jobs (Py.dict_set job_id l (training_jobs self1)) self1).

(** [self.job_queue.put(job_id)]. *)
Definition put (job_id : string) (self : t) : t :=
  with_job_queue (job_queue self ++ [job_id]) self.

(** The object [start_training] creates. *)
Definition new_training_job (e : Py.env) (job_id : string) (config : TrainingConfig.t)
  : result TrainingJob.t :=
  TrainingJob.__init__ e job_id (TrainingConfig.model_name config)
    (TrainingConfig.algorithm config) (TrainingConfig.to_dict config)
    "queued" (Some (Py.now e)) None "system" "training" [].

Definition start_training (e : Py.env) (job_id : string) (config : TrainingConfig.t)
    (self : t) : result (loc * t) :=
  let! training_job := new_training_job e job_id config in
  let (l, self1) := store job_id training_job self in
  Ok (l, put job_id self1).

Definition subscript (key : string) (d : Py.dict Py.value) : result Py.value :=
  match Py.dict_get key d with Some v => Ok v | None => Raise (KeyError key) end.

(** Microseconds in [timedelta(minutes=n)]. *)
Definition minutes (n : Z) : Z := (n * 60000000)%Z.

(** The object [start_hyperparameter_tuning] creates, with its tuning
    attributes set. *)
Definition new_tuning_job (e : Py.env) (job_id : string)
    (tuning_request : Py.dict Py.value) : result TrainingJob.t :=
  let! v_model_name := subscript "model_name" tuning_request in
  let! a_model_name := TrainingJob.as_str "model_name" v_model_name in
  let! v_algorithm := subscript "algorithm" tuning_request in
  let! a_algorithm := TrainingJob.as_str "algorithm" v_algorithm in
  let! tuning_job :=
    TrainingJob.__init__ e job_id a_model_name a_algorithm tuning_request
      "queued" (Some (Py.now e)) None "system" "hyperparameter_tuning" [] in
  let! strategy :=
    TrainingJob.as_opt_str "tuning_strategy"
      (Py.dict_get_default "tuning_strategy" (Py.VStr "random") tuning_request) in
  let tuning_job := TrainingJob.set_tuning_strategy strategy tuning_job in
  let! trials :=
    TrainingJob.as_int "max_trials"
      (Py.dict_get_default "max_trials" (Py.VInt 50) tuning_request) in
  let tuning_job := TrainingJob.set_max_trials (Some trials) tuning_job in
  let estimated_duration := (trials * 2)%Z in
  Ok (TrainingJob.set_estimated_completion
        (Some (Py.now e + minutes estimated_duration)%Z) tuning_job).

Definition start_hyperparameter_tuning (e : Py.env) (job_id : string)
    (tuning_request : Py.dict Py.value) (self : t) : result (loc * t) :=
  let! tuning_job := new_tuning_job e job_id tuning_request in
  let (l, self1) := store job_id tuning_job self in
  Ok (l, put job_id self1).

(** [get_training_job]: the object is returned by reference; this is what a
    reader sees in it at that moment. *)
Definition get_training_job (job_id : string) (self : t) : option TrainingJob.t :=
  lookup job_id self.

(** A [str] or [None] used as a condition. *)
Definition truthy (status : option string) : bool :=
  match status with
  | Some s => negb (String.eqb s EmptyString)
  | None => false
  end.

Definition list_training_jobs (limit : Z) (status : option string) (self : t)
  : list TrainingJob.t :=
  let all := jobs self in
  let selected :=
    if truthy status
    then List.filter
           (fun job => String.eqb (TrainingJob.status job) (default EmptyString status)) all
    else all in
  let sorted := Py.sort_desc TrainingJob.started_at selected in
  Py.slice_to limit sorted.

(** The parameters of [list_training_jobs] after [self], and a call of it with
    keyword arguments. *)
Definition list_training_jobs_parameters : list string := [ "limit"; "status" ].

Definition unexpected_keyword (name : string) : exn :=
  TypeError ("list_training_jobs() got an unexpected keyword argument '"
             ++ name ++ "'").

Definition list_training_jobs_call (kwargs : Py.dict Py.value) (self : t)
  : result (list TrainingJob.t) :=
  match List.filter
          (fun kv => negb (existsb (String.eqb (fst kv)) list_training_jobs_parameters))
          kwargs with
  | (name, _) :: _ => Raise (unexpected_keyword name)
  | [] =>
      let! limit :=
        TrainingJob.as_int "limit" (Py.dict_get_default "limit" (Py.VInt 100) kwargs) in
      let! status :=
        TrainingJob.as_opt_str "status"
          (Py.dict_get_default "status" Py.VNone kwargs) in
      Ok (list_training_jobs limit status self)
  end.

Definition cancel_training_job (e : Py.env) (job_id : string) (self : t) : bool * t :=
  match Py.dict_get job_id (training_jobs self) with
  | None => (false, self)
  | Some job =>
      match heap self !! job with
      | None => (false, self)
      | Some j =>
          if String.eqb (TrainingJob.status j) "queued"
             || String.eqb (TrainingJob.status j) "running"
          then
            let self1 := assign job (TrainingJob.set_status "cancelled") self in
            let self2 :=
              assign job (TrainingJob.set_completed_at (Some (Py.now e))) self1 in
            let self3 :=
              with_running_jobs (Py.dict_pop job_id (running_jobs self2)) self2 in
            (true, self3)
          else (false, self)
      end
  end.

(** The loop that counts the jobs of each status. *)
Definition count_statuses (all : list TrainingJob.t) : Py.dict Z :=
  fold_left
    (fun status_counts job =>
       Py.dict_set (TrainingJob.status job)
         (Py.dict_get_default (TrainingJob.status job) 0%Z status_counts + 1)%Z
         status_counts)
    all [].

Definition success_rate_of (status_counts : Py.dict Z) : Py.value :=
  let completed_jobs := Py.dict_get_default "completed" 0%Z status_counts in
  let failed_jobs := Py.dict_get_default "failed" 0%Z status_counts in
  if (0 <? completed_jobs + failed_jobs)%Z
  then Py.VFloat (Py.int_truediv completed_jobs (completed_jobs + failed_jobs))
  else Py.VInt 0.

(** The dictionary [get_training_statistics] returns; [timestamp] is the
    datetime it formats. *)
Record statistics : Type := Statistics {
  total_jobs : Z;
  status_breakdown : Py.dict Z;
  success_rate : Py.value;
  currently_running : Z;
  queue_size : Z;
  stat_max_concurrent_jobs : Z;
  timestamp : Py.datetime
}.

Definition get_training_statistics (e : Py.env) (self : t) : statistics :=
  let status_counts := count_statuses (jobs self) in
  Statistics (Z.of_nat (length (training_jobs self))) status_counts
    (success_rate_of status_counts)
    (Z.of_nat (length (running_jobs self))) (Z.of_nat (length (job_queue self)))
    (max_concurrent_jobs self) (Py.now e).

(** *** The worker threads

    A worker is a thread at a program point of [_training_worker]; between
    two of its statements any other thread may run.  The program points carry
    the local variables [job_id], [job] and [step]. *)

Definition total_steps : nat := 100.

(** Program points of [_simulate_training job], inside iteration [step]. *)
Inductive simulate_pc : Type :=
| AtSleep (step : nat)             (* time.sleep(0.1) *)
| AtProgress (step : nat)          (* job.progress = int((step + 1) / total_steps * 100) *)
| AtMetrics (step : nat).          (* if step % 10 == 0: job.current_metrics = {...} *)

(** Program points of [_execute_training_job job_id]. *)
Inductive execute_pc : Type :=
| AtLookup                                     (* job = self.training_jobs.get(job_id) *)
| AtSetRunning (job : loc)                     (* job.status = 'running' *)
| AtSetStartedAt (job : loc)                   (* job.started_at = datetime.now() *)
| AtRegister (job : loc)                       (* self.running_jobs[job_id] = job *)
| AtSimulate (job : loc) (p : simulate_pc)     (* self._simulate_training(job) *)
| AtSetCompleted (job : loc)                   (* job.status = 'completed' *)
| AtSetCompletedAt (job : loc)                 (* job.completed_at = datetime.now() *)
| AtSetProgress (job : loc)                    (* job.progress = 100 *)
| AtSetModelPath (job : loc)                   (* job.model_path = f"models/..." *)
| AtSetMetrics (job : loc)                     (* job.metrics = {...} *)
| AtExceptStatus (job : loc) (msg : string)    (* except: job.status = 'failed' *)
| AtExceptMessage (job : loc) (msg : string)   (* job.error_message = str(e) *)
| AtExceptCompletedAt (job : loc)              (* job.completed_at = datetime.now() *)
| AtFinally.                                   (* finally: self.running_jobs.pop(job_id, None) *)

(** Program points of the loop of [_training_worker]. *)
Inductive worker_pc : Type :=
| AtGet                                        (* job_id = self.job_queue.get(timeout=1) *)
| AtCheck (job_id : string)                    (* if job_id in self.training_jobs: *)
| AtExecute (job_id : string) (p : execute_pc) (* self._execute_training_job(job_id) *)
| AtTaskDone.                                  (* self.job_queue.task_done() *)

Definition progress_at (step : nat) : Z :=
  Py.int_of_float
    (Py.fmul (Py.int_truediv (Z.of_nat step + 1) (Z.of_nat total_steps))
       (Py.float_of_int 100)).

Definition metrics_at (step : nat) : Py.dict Py.value :=
  let ratio := Py.int_truediv (Z.of_nat step) (Z.of_nat total_steps) in
  [ ("loss", Py.VFloat (Py.fsub (Py.float_of_int 1) (Py.fmul ratio (Py.literal 8 10))));
    ("accuracy", Py.VFloat (Py.fadd (Py.literal 5 10) (Py.fmul ratio (Py.literal 4 10))));
    ("epoch", Py.VInt (Z.of_nat step / 10)) ].

(** One statement of [_simulate_training]; [None] when the loop is over. *)
Definition _simulate_training (job : loc) (p : simulate_pc) (self : t)
  : t * option simulate_pc :=
  match p with
  | AtSleep step => (self, Some (AtProgress step))
  | AtProgress step =>
      (assign job (TrainingJob.set_progress (progress_at step)) self,
       Some (AtMetrics step))
  | AtMetrics step =>
      let self1 :=
        if (Z.of_nat step mod 10 =? 0)%Z
        then assign job (TrainingJob.set_current_metrics (metrics_at step)) self
        else self in
      (self1, if Nat.ltb (S step) total_steps then Some (AtSleep (S step)) else None)
  end.

Definition final_metrics_of (e : Py.env) (job_id : string) : Py.dict Py.value :=
  let h := Py.hash e job_id in
  [ ("accuracy", Py.VFloat (Py.fadd (Py.literal 95 100) (Py.int_truediv (h mod 50) 1000)));
    ("precision", Py.VFloat (Py.fadd (Py.literal 93 100) (Py.int_truediv (h mod 70) 1000)));
    ("recall", Py.VFloat (Py.fadd (Py.literal 92 100) (Py.int_truediv (h mod 80) 1000)));
    ("f1_score", Py.VFloat (Py.fadd (Py.literal 94 100) (Py.int_truediv (h mod 60) 1000))) ].

Definition model_path_of (job_id : string) (j : TrainingJob.t) : string :=
  "models/" ++ TrainingJob.model_name j ++ "_" ++ job_id.

(** One statement of [_execute_training_job]; [None] when it returns.  No
    statement of the [try] block raises, so no program point leads into the
    [except] handler; its statements are given all the same. *)
Definition _execute_training_job (e : Py.env) (job_id : string) (p : execute_pc)
    (self : t) : t * option execute_pc :=
  match p with
  | AtLookup =>
      match Py.dict_get job_id (training_jobs self) with
      | Some job => (self, Some (AtSetRunning job))
      | None => (self, None)
      end
  | AtSetRunning job =>
      (assign job (TrainingJob.set_status "running") self, Some (AtSetStartedAt job))
  | AtSetStartedAt job =>
      (assign job (TrainingJob.set_started_at (Py.now e)) self, Some (AtRegister job))
  | AtRegister job =>
      (with_running_jobs (Py.dict_set job_id job (running_jobs self)) self,
       Some (AtSimulate job (AtSleep 0)))
  | AtSimulate job p =>
      let (self1, next) := _simulate_training job p self in
      (self1,
       Some (match next with
             | Some p' => AtSimulate job p'
             | None => AtSetCompleted job
             end))
  | AtSetCompleted job =>
      (assign job (TrainingJob.set_status "completed") self, Some (AtSetCompletedAt job))
  | AtSetCompletedAt job =>
      (assign job (TrainingJob.set_completed_at (Some (Py.now e))) self,
       Some (AtSetProgress job))
  | AtSetProgress job =>
      (assign job (TrainingJob.set_progress 100) self, Some (AtSetModelPath job))
  | AtSetModelPath job =>
      (assign job
         (fun j => TrainingJob.set_model_path (Some (model_path_of job_id j)) j) self,
       Some (AtSetMetrics job))
  | AtSetMetrics job =>
      (assign job
         (TrainingJob.set_attr "metrics" (Py.VDict (final_metrics_of e job_id))) self,
       Some AtFinally)
  | AtExceptStatus job msg =>
      (assign job (TrainingJob.set_status "failed") self, Some (AtExceptMessage job msg))
  | AtExceptMessage job msg =>
      (assign job (TrainingJob.set_error_message (Some msg)) self,
       Some (AtExceptCompletedAt job))
  | AtExceptCompletedAt job =>
      (assign job (TrainingJob.set_completed_at (Some (Py.now e))) self, Some AtFinally)
  | AtFinally =>
      (with_running_jobs (Py.dict_pop job_id (running_jobs self)) self, None)
  end.

(** One statement of the loop of [_training_worker].  On an empty queue
    [get] raises [queue.Empty] after its timeout and the loop continues. *)
Definition _training_worker (e : Py.env) (pc : worker_pc) (self : t) : t * worker_pc :=
  match pc with
  | AtGet =>
      match job_queue self with
      | [] => (self, AtGet)
      | job_id :: rest => (with_job_queue rest self, AtCheck job_id)
      end
  | AtCheck job_id =>
      if Py.dict_contains job_id (training_jobs self)
      then (self, AtExecute job_id AtLookup)
      else (self, AtTaskDone)
  | AtExecute job_id p =>
      let (self1, next) := _execute_training_job e job_id p self in
      (self1,
       match next with
       | Some p' => AtExecute job_id p'
       | None => AtTaskDone
       end)
  | AtTaskDone => (self, AtGet)
  end.

(** *** The request threads

    A request thread executes one call of the facade, statement by statement
    like a worker.  [start_training] and [start_hyperparameter_tuning] work
    on an object of their own until they store it, so a thread of theirs
    starts at the statement after the store. *)

Inductive request_pc : Type :=
| AtPut (job_id : string)                           (* self.job_queue.put(job_id) *)
| AtCancelGet (job_id : string)                     (* job = self.training_jobs.get(job_id) *)
| AtCancelTest (job_id : string) (job : loc)        (* if job.status in ['queued', 'running']: *)
| AtCancelStatus (job_id : string) (job : loc)      (* job.status = 'cancelled' *)
| AtCancelCompletedAt (job_id : string) (job : loc) (* job.completed_at = datetime.now() *)
| AtCancelPop (job_id : string)                     (* self.running_jobs.pop(job_id, None) *)
| Returned (cancelled : option bool).
(** [Returned None]: a submission has returned its job; [Returned (Some b)]:
    [cancel_training_job] has returned [b]. *)

(** One statement of a request thread. *)
Definition _request (e : Py.env) (pc : request_pc) (self : t) : option (t * request_pc) :=
  match pc with
  | AtPut job_id => Some (put job_id self, Returned None)
  | AtCancelGet job_id =>
      match Py.dict_get job_id (training_jobs self) with
      | Some job => Some (self, AtCancelTest job_id job)
      | None => Some (self, Returned (Some false))
      end
  | AtCancelTest job_id job =>
      match heap self !! job with
      | Some j =>
          if String.eqb (TrainingJob.status j) "queued"
             || String.eqb (TrainingJob.status j) "running"
          then Some (self, AtCancelStatus job_id job)
          else Some (self, Returned (Some false))
      | None => Some (self, Returned (Some false))
      end
  | AtCancelStatus job_id job =>
      Some (assign job (TrainingJob.set_status "cancelled") self,
            AtCancelCompletedAt job_id job)
  | AtCancelCompletedAt job_id job =>
      Some (assign job (TrainingJob.set_completed_at (Some (Py.now e))) self,
            AtCancelPop job_id)
  | AtCancelPop job_id =>
      Some (with_running_jobs (Py.dict_pop job_id (running_jobs self)) self,
            Returned (Some true))
  | Returned _ => None
  end.

(** *** The running system: the service object and its threads *)

Record system : Type := System {
  service : t;
  workers : list worker_pc;
  requests : list request_pc
}.

(** [_start_workers]: [range(n)] is empty for a negative [n]. *)
Definition _start_workers (self : t) : list worker_pc :=
  replicate (Z.to_nat (max_concurrent_jobs self)) AtGet.

(** [TrainingService.__init__]. *)
Definition __init__ (config : Py.dict Py.value) : result system :=
  let! n :=
    TrainingJob.as_int "max_concurrent_jobs"
      (Py.dict_get_default "max_concurrent_jobs" (Py.VInt 3) config) in
  let self := Build [] [] [] n [] in
  Ok (System self (_start_workers self) []).

(** Worker [i] executes its next statement. *)
Definition worker_step (e : Py.env) (i : nat) (s : system) : option system :=
  match workers s !! i with
  | Some pc =>
      let (self1, pc') := _training_worker e pc (service s) in
      Some (System self1 (<[i:=pc']> (workers s)) (requests s))
  | None => None
  end.

(** Request thread [r] executes its next statement. *)
Definition request_step (e : Py.env) (r : nat) (s : system) : option system :=
  match requests s !! r with
  | Some pc =>
      match _request e pc (service s) with
      | Some (self1, pc') => Some (System self1 (workers s) (<[r:=pc']> (requests s)))
      | None => None
      end
  | None => None
  end.

(** The calls of the facade that change the state. *)
Inductive call : Type :=
| StartTraining (job_id : string) (config : TrainingConfig.t)
| StartTuning (job_id : string) (tuning_request : Py.dict Py.value)
| Cancel (job_id : string).

(** A call starts a request thread. *)
Definition call_step (e : Py.env) (c : call) (s : system) : option system :=
  match c with
  | StartTraining job_id config =>
      match new_training_job e job_id config with
      | Ok job =>
          Some (System (snd (store job_id job (service s))) (workers s)
                  (requests s ++ [AtPut job_id]))
      | Raise _ => None
      end
  | StartTuning job_id tuning_request =>
      match new_tuning_job e job_id tuning_request with
      | Ok job =>
          Some (System (snd (store job_id job (service s))) (workers s)
                  (requests s ++ [AtPut job_id]))
      | Raise _ => None
      end
  | Cancel job_id =>
      Some (System (service s) (workers s) (requests s ++ [AtCancelGet job_id]))
  end.

(** What may happen next: a worker or a request thread runs a statement, or
    a call comes in. *)
Inductive event : Type :=
| Worker (i : nat)
| Request (r : nat)
| Call (c : call).

Definition run_event (e : Py.env) (ev : event) (s : system) : option system :=
  match ev with
  | Worker i => worker_step e i s
  | Request r => request_step e r s
  | Call c => call_step e c s
  end.

(** A schedule is run event by event; the clock value of each event is given
    with it. *)
Fixpoint run (hash : string -> Z) (schedule : list (Py.datetime * event)) (s : system)
  : option system :=
  match schedule with
  | [] => Some s
  | (now, ev) :: rest =>
      match run_event (Py.Env now hash) ev s with
      | Some s' => run hash rest s'
      | None => None
      end
  end.

(** The job ids of the controller come from [uuid.uuid4()]: an id is
    submitted once. *)
Definition fresh (ev : event) (s : system) : Prop :=
  match ev with
  | Call (StartTraining job_id _) | Call (StartTuning job_id _) =>
      Py.dict_get job_id (training_jobs (service s)) = None
  | _ => True
  end.

Inductive step (s s' : system) : Prop :=
| step_event (e : Py.env) (ev : event) :
    fresh ev s -> run_event e ev s = Some s' -> step s s'.

(** The states the system reaches from [s0]. *)
Inductive reachable (s0 : system) : system -> Prop :=
| reachable_init : reachable s0 s0
| reachable_step s s' : reachable s0 s -> step s s' -> reachable s0 s'.

(** Every submission of a schedule is made under an id that is new then. *)
Fixpoint all_fresh (hash : string -> Z) (schedule : list (Py.datetime * event))
    (s : system) : Prop :=
  match schedule with
  | [] => True
  | (now, ev) :: rest =>
      fresh ev s
      /\ match run_event (Py.Env now hash) ev s with
         | Some s' => all_fresh hash rest s'
         | None => True
         end
  end.

(** A call that no other thread interrupts: its thread, the last one, runs
    until it has returned, or for [fuel] statements. *)
Fixpoint finish (fuel : nat) (e : Py.env) (r : nat) (s : system) : system :=
  match fuel with
  | O => s
  | S fuel' =>
      match request_step e r s with
      | Some s' => finish fuel' e r s'
      | None => s
      end
  end.

Definition uninterrupted (e : Py.env) (c : call) (s : system) : option system :=
  match call_step e c s with
  | Some s' => Some (finish 5 e (length (requests s)) s')
  | None => None
  end.

End TrainingService.

(** ** [models/model_version.py] *)

Module ModelVersion.

Record t : Type := Build {
  name : string;
  version : string;
  stage : string;
  run_id : string;
  creation_time : string;
  description : string;
  attrs : Py.dict Py.value
}.

(** [ModelVersion.__init__]: [description or ''], and the attributes that
    [**kwargs] adds. *)
Definition __init__ (name version stage run_id creation_time : string)
    (description : option string) (kwargs : Py.dict Py.value) : t :=
  Build name version stage run_id creation_time
    (match description with Some d => d | None => EmptyString end)
    (fold_left (fun a kv => Py.dict_set (fst kv) (snd kv) a) kwargs []).

Definition is_production (self : t) : bool := String.eqb (stage self) "Production".

Definition is_staging (self : t) : bool := String.eqb (stage self) "Staging".

End ModelVersion.

(** ** [services/mlflow_service.py]: the model registry *)

Module MLflowService.

(** [str(n)] and [int(s)] on the version numbers: [int] also accepts a sign
    [+], blanks around the number and underscores in it, which no string of
    the registry has. *)
Definition str_of_int (n : Z) : string := NilZero.string_of_int (Z.to_int n).

Definition int_of_str (s : string) : result Z :=
  match NilZero.int_of_string s with
  | Some d => Ok (Z.of_int d)
  | None => Raise (ValueError "invalid literal for int() with base 10")
  end.

(** A dictionary of [model_entry['versions']]; [description] is [None] where
    the dictionary has no such key. *)
Module VersionInfo.
Record t : Type := Build {
  version : string;
  stage : string;
  run_id : string;
  creation_time : string;
  description : option string
}.
Definition set_stage (v : string) (self : t) : t :=
  Build (version self) v (run_id self) (creation_time self) (description self).
End VersionInfo.

(** A dictionary of [models_cache]. *)
Module ModelEntry.
Record t : Type := Build {
  name : string;
  latest_version : string;
  creation_time : string;
  last_updated_time : string;
  description : string;
  versions : list VersionInfo.t
}.
End ModelEntry.

(** A dictionary of [experiments_cache]. *)
Module Experiment.
Record t : Type := Build {
  experiment_id : string;
  name : string;
  lifecycle_stage : string;
  artifact_location : string;
  creation_time : string;
  last_update_time : string
}.
End Experiment.

Record t : Type := Build {
  config : Py.dict Py.value;
  tracking_uri : Py.value;
  experiments_cache : Py.dict Experiment.t;
  models_cache : Py.dict ModelEntry.t
}.

Definition with_models_cache (d : Py.dict ModelEntry.t) (self : t) : t :=
  Build (config self) (tracking_uri self) (experiments_cache self) d.

Definition with_experiments_cache (d : Py.dict Experiment.t) (self : t) : t :=
  Build (config self) (tracking_uri self) d (models_cache self).

Section Service.

Variable isoformat : Py.datetime -> string.

(** A call reads the clock several times, with [datetime.now()]; the
    readings of one call are taken at the same instant, [Py.now e]. *)

(** [MLflowService.__init__] with [_setup_mock_data]. *)
Definition __init__ (e : Py.env) (config : Py.dict Py.value) : t :=
  let now := isoformat (Py.now e) in
  Build config
    (Py.dict_get_default "tracking_uri" (Py.VStr "http://localhost:5002") config)
    [ ("1", Experiment.Build "1" "fraud_detection_experiments" "active" "./mlruns/1"
              now now);
      ("2", Experiment.Build "2" "model_optimization" "active" "./mlruns/2" now now) ]
    [ ("fraud_detection_model",
       ModelEntry.Build "fraud_detection_model" "3" now now
         "Production fraud detection model"
         [ VersionInfo.Build "1" "Archived" "run_123" now None;
           VersionInfo.Build "2" "Staging" "run_456" now None;
           VersionInfo.Build "3" "Production" "run_789" now None ]) ].

Definition list_experiments (self : t) : list Experiment.t :=
  Py.dict_values (experiments_cache self).

Definition get_experiment (experiment_id : string) (self : t) : option Experiment.t :=
  Py.dict_get experiment_id (experiments_cache self).

Definition create_experiment (e : Py.env) (name : string)
    (artifact_location : option string) (self : t) : string * t :=
  let experiment_id :=
    str_of_int (Z.of_nat (length (experiments_cache self)) + 1) in
  let now := isoformat (Py.now e) in
  let experiment :=
    Experiment.Build experiment_id name "active"
      (PyObject.str_or artifact_location ("./mlruns/" ++ experiment_id)) now now in
  (experiment_id,
   with_experiments_cache (Py.dict_set experiment_id experiment (experiments_cache self))
     self).

(** [register_model]; [model_path] is not used.  An exception is raised
    again by the handler, and the registry is then as it was: only [int]
    raises, on the entry of a model that is registered already. *)
Definition register_model (e : Py.env) (run_id model_name model_path description : string)
    (self : t) : result (ModelVersion.t * t) :=
  let now := isoformat (Py.now e) in
  let model_entry :=
    match Py.dict_get model_name (models_cache self) with
    | Some entry => entry
    | None => ModelEntry.Build model_name "0" now now description []
    end in
  let! latest := int_of_str (ModelEntry.latest_version model_entry) in
  let new_version := str_of_int (latest + 1) in
  let version_info := VersionInfo.Build new_version "None" run_id now (Some description) in
  let model_entry :=
    ModelEntry.Build (ModelEntry.name model_entry) new_version
      (ModelEntry.creation_time model_entry) now (ModelEntry.description model_entry)
      (ModelEntry.versions model_entry ++ [version_info]) in
  Ok (ModelVersion.__init__ model_name new_version "None" run_id now None [],
      with_models_cache (Py.dict_set model_name model_entry (models_cache self)) self).

(** The loop of [transition_model_stage]: the first dictionary with the
    wanted version gets the stage; [None] if there is none. *)
Fixpoint set_stage (version stage : string) (versions : list VersionInfo.t)
  : option (list VersionInfo.t) :=
  match versions with
  | [] => None
  | version_info :: rest =>
      if String.eqb (VersionInfo.version version_info) version
      then Some (VersionInfo.set_stage stage version_info :: rest)
      else option_map (cons version_info) (set_stage version stage rest)
  end.

Definition transition_model_stage (e : Py.env) (model_name version stage : string)
    (self : t) : bool * t :=
  match Py.dict_get model_name (models_cache self) with
  | None => (false, self)
  | Some model_entry =>
      match set_stage version stage (ModelEntry.versions model_entry) with
      | Some versions =>
          let model_entry :=
            ModelEntry.Build (ModelEntry.name model_entry)
              (ModelEntry.latest_version model_entry)
              (ModelEntry.creation_time model_entry) (isoformat (Py.now e))
              (ModelEntry.description model_entry) versions in
          (true,
           with_models_cache (Py.dict_set model_name model_entry (models_cache self))
             self)
      | None => (false, self)
      end
  end.

Definition get_model_version (model_name version : string) (self : t)
  : option VersionInfo.t :=
  match Py.dict_get model_name (models_cache self) with
  | None => None
  | Some model_entry =>
      List.find (fun version_info => String.eqb (VersionInfo.version version_info) version)
        (ModelEntry.versions model_entry)
  end.

(** [max(versions, key=lambda x: int(x['version']))] on a list that is not
    empty: the first of the elements with the largest key. *)
Fixpoint max_by_version (best : VersionInfo.t) (best_key : Z)
    (versions : list VersionInfo.t) : result VersionInfo.t :=
  match versions with
  | [] => Ok best
  | version_info :: rest =>
      let! key := int_of_str (VersionInfo.version version_info) in
      if (best_key <? key)%Z then max_by_version version_info key rest
      else max_by_version best best_key rest
  end.

Definition get_latest_model_version (model_name : string) (stage : option string)
    (self : t) : result (option VersionInfo.t) :=
  match Py.dict_get model_name (models_cache self) with
  | None => Ok None
  | Some model_entry =>
      let versions := ModelEntry.versions model_entry in
      let versions :=
        match stage with
        | Some s =>
            if String.eqb s EmptyString then versions
            else List.filter (fun v => String.eqb (VersionInfo.stage v) s) versions
        | None => versions
        end in
      match versions with
      | [] => Ok None
      | first :: rest =>
          let! key := int_of_str (VersionInfo.version first) in
          let! latest := max_by_version first key rest in
          Ok (Some latest)
      end
  end.

Definition list_registered_models (self : t) : list ModelEntry.t :=
  Py.dict_values (models_cache self).

(** The calls that change the registry. *)
Inductive call : Type :=
| RegisterModel (run_id model_name model_path description : string)
| TransitionModelStage (model_name version stage : string)
| CreateExperiment (name : string) (artifact_location : option string).

Definition run_call (e : Py.env) (c : call) (self : t) : t :=
  match c with
  | RegisterModel run_id model_name model_path description =>
      match register_model e run_id model_name model_path description self with
      | Ok (_, self') => self'
      | Raise _ => self
      end
  | TransitionModelStage model_name version stage =>
      snd (transition_model_stage e model_name version stage self)
  | CreateExperiment name artifact_location =>
      snd (create_experiment e name artifact_location self)
  end.

(** The states of a service after its creation and any calls. *)
Inductive reachable : t -> Prop :=
| reachable_init e config : reachable (__init__ e config)
| reachable_call e c self : reachable self -> reachable (run_call e c self).

End Service.

(** The versions of a model are numbered from 1 on, in the order of their
    registration, and [latest_version] is the last of the numbers. *)
Definition numbered (model_entry : ModelEntry.t) : Prop :=
  map VersionInfo.version (ModelEntry.versions model_entry)
  = map (fun k => str_of_int (Z.of_nat k))
      (seq 1 (length (ModelEntry.versions model_entry)))
  /\ ModelEntry.latest_version model_entry
     = str_of_int (Z.of_nat (length (ModelEntry.versions model_entry))).

Definition registry_numbered (self : t) : Prop :=
  forall model_name model_entry,
    Py.dict_get model_name (models_cache self) = Some model_entry ->
    numbered model_entry /\ ModelEntry.name model_entry = model_name.

(** The versions a model has, none if it is not registered. *)
Definition versions_of (model_name : string) (self : t) : list VersionInfo.t :=
  match Py.dict_get model_name (models_cache self) with
  | Some model_entry => ModelEntry.versions model_entry
  | None => []
  end.

(** The experiments have the ids 1, 2, ... in the order of their creation. *)
Definition experiments_numbered (self : t) : Prop :=
  Py.dict_keys (experiments_cache self)
  = map (fun k => str_of_int (Z.of_nat k)) (seq 1 (length (experiments_cache self))).

End MLflowService.

(** ** [services/service_registry.py] *)

Module ServiceRegistry.

(** What a call does: it returns, it raises, or it waits for ever. *)
Inductive outcome (A : Type) : Type :=
| Returns (a : A)
| Raises (ex : exn)
| Blocks.

Arguments Returns {A} a.
Arguments Raises {A} ex.
Arguments Blocks {A}.

(** A service object.  Of the fraud, validation and health services only
    the configuration is kept. *)
Inductive instance : Type :=
| Fraud (config : Py.dict Py.value)
| Training (s : TrainingService.system)
| MLflow (m : MLflowService.t)
| Validation (config : Py.dict Py.value)
| Health (config : Py.dict Py.value).

(** The registry; [_lock] tells whether the lock is held.  It is a
    [threading.Lock], which the thread that holds it cannot acquire again. *)
Record t : Type := Build {
  _services : Py.dict instance;
  _service_configs : Py.dict (Py.dict Py.value);
  _lock : bool
}.

Definition with_services (d : Py.dict instance) (self : t) : t :=
  Build d (_service_configs self) (_lock self).

Definition with_lock (held : bool) (self : t) : t :=
  Build (_services self) (_service_configs self) held.

Section Registry.

Variable isoformat : Py.datetime -> string.

(** The constructors of the fraud, validation and health services are not
    modelled: [constructed name config] is what the call of the constructor
    does, which is to return or to raise; none of them uses the registry. *)
Variable constructed : string -> Py.dict Py.value -> result unit.

Definition construct (service_name : string) (config : Py.dict Py.value)
    (service : instance) (self : t) : option (outcome instance * t) :=
  match constructed service_name config with
  | Ok _ => Some (Returns service, self)
  | Raise ex => Some (Raises ex, self)
  end.

(** [_create_service], where [get_service] is the method that it calls for
    the service that the training service depends on. *)
Definition _create_service
    (get_service : string -> t -> option (outcome instance * t))
    (e : Py.env) (service_name : string) (self : t) : option (outcome instance * t) :=
  let config := Py.dict_get_default service_name [] (_service_configs self) in
  if String.eqb service_name "fraud_service" then
    construct service_name config (Fraud config) self
  else if String.eqb service_name "training_service" then
    match get_service "mlflow_service" self with
    | Some (Returns mlflow_service, self1) =>
        match TrainingService.__init__ config with
        | Ok s => Some (Returns (Training s), self1)
        | Raise ex => Some (Raises ex, self1)
        end
    | Some (Raises ex, self1) => Some (Raises ex, self1)
    | Some (Blocks, self1) => Some (Blocks, self1)
    | None => None
    end
  else if String.eqb service_name "mlflow_service" then
    Some (Returns (MLflow (MLflowService.__init__ isoformat e config)), self)
  else if String.eqb service_name "validation_service" then
    construct service_name config (Validation config) self
  else if String.eqb service_name "health_service" then
    construct service_name config (Health config) self
  else Some (Raises (ValueError ("Unknown service: " ++ service_name)), self).

(** [get_service], in a thread that runs on its own.  The calls nest, in
    [_create_service]; [fuel] bounds their depth, and the result is [None]
    if it does not suffice.  [with self._lock] blocks if the lock is held,
    and releases the lock when its body returns or raises. *)
Fixpoint get_service (fuel : nat) (e : Py.env) (service_name : string) (self : t)
  : option (outcome instance * t) :=
  match fuel with
  | O => None
  | S fuel' =>
      match Py.dict_get service_name (_services self) with
      | Some service => Some (Returns service, self)
      | None =>
          if _lock self then Some (Blocks, self)
          else
            let self := with_lock true self in
            match Py.dict_get service_name (_services self) with
            | Some service => Some (Returns service, with_lock false self)
            | None =>
                match _create_service (get_service fuel' e) e service_name self with
                | Some (Returns service_instance, self1) =>
                    Some (Returns service_instance,
                          with_lock false
                            (with_services
                               (Py.dict_set service_name service_instance
                                  (_services self1))
                               self1))
                | Some (Raises ex, self1) => Some (Raises ex, with_lock false self1)
                | Some (Blocks, self1) => Some (Blocks, self1)
                | None => None
                end
            end
      end
  end.

(** [register_service]. *)
Definition register_service (service_name : string) (service_instance : instance)
    (self : t) : outcome unit * t :=
  if _lock self then (Blocks, self)
  else
    (Returns tt,
     with_services (Py.dict_set service_name service_instance (_services self)) self).

(** [get_service_config]. *)
Definition get_service_config (service_name : string) (self : t) : Py.dict Py.value :=
  Py.dict_get_default service_name [] (_service_configs self).

End Registry.

End ServiceRegistry.

(** ** [controllers/training_controller.py]: the route [GET /jobs] *)

Module TrainingController.

Record response : Type := Response {
  status_code : Z;
  body : Py.dict Py.value
}.

Definition str_of_exn (ex : exn) : string :=
  match ex with
  | TypeError msg => msg
  | ValueError msg => msg
  | KeyError key => "'" ++ key ++ "'"
  | IllTyped a => a
  end.

Section Routes.

Variable isoformat : Py.datetime -> string.

(** [int(s)] on a query-string value; [None] where it raises [ValueError]. *)
Variable parse_int : string -> option Z.

(** [int(request.args.get(name, default))]. *)
Definition int_arg (name : string) (default : Z) (args : Py.dict string) : result Z :=
  match Py.dict_get name args with
  | Some s =>
      match parse_int s with
      | Some z => Ok z
      | None => Raise (ValueError "invalid literal for int() with base 10")
      end
  | None => Ok default
  end.

Definition list_training_jobs (e : Py.env) (args : Py.dict string)
    (training_svc : TrainingService.t) : response :=
  let attempt :=
    let status :=
      match Py.dict_get "status" args with
      | Some s => Py.VStr s
      | None => Py.VNone
      end in
    let! requested := int_arg "limit" 50 args in
    let limit := Z.min requested 200 in
    let! offset := int_arg "offset" 0 args in
    let! jobs :=
      TrainingService.list_training_jobs_call
        [ ("status", status); ("limit", Py.VInt limit); ("offset", Py.VInt offset) ]
        training_svc in
    Ok (Response 200
          [ ("jobs",
             Py.VList (map (fun job => Py.VDict (TrainingJob.to_dict isoformat job)) jobs));
            ("pagination",
             Py.VDict [ ("limit", Py.VInt limit); ("offset", Py.VInt offset);
                        ("total", Py.VInt (Z.of_nat (length jobs))) ]);
            ("timestamp", Py.VStr (isoformat (Py.now e))) ]) in
  match attempt with
  | Ok r => r
  | Raise ex =>
      Response 500
        [ ("error", Py.VStr "Failed to list jobs");
          ("message", Py.VStr (str_of_exn ex));
          ("timestamp", Py.VStr (isoformat (Py.now e))) ]
  end.

(** The first of [required_fields] that the request lacks. *)
Definition missing_field (required_fields : list string) (request : Py.dict Py.value)
  : option string :=
  List.find (fun field => negb (Py.dict_contains field request)) required_fields.

Definition missing_field_response (e : Py.env) (field : string) : response :=
  Response 400
    [ ("error", Py.VStr "Missing required field");
      ("field", Py.VStr field);
      ("timestamp", Py.VStr (isoformat (Py.now e))) ].

(** [str(value)], which [TrainingConfig.__init__] shows of a model name
    that is not a string. *)
Variable str : Py.value -> string.

(** The two handlers of [train_model]: [except ValueError] and
    [except Exception]. *)
Definition train_model_invalid (e : Py.env) (ex : exn) : response :=
  Response 400
    [ ("error", Py.VStr "Invalid request");
      ("message", Py.VStr (str_of_exn ex));
      ("timestamp", Py.VStr (isoformat (Py.now e))) ].

Definition train_model_failed (e : Py.env) : response :=
  Response 500
    [ ("error", Py.VStr "Training job failed");
      ("message", Py.VStr "Failed to start training job");
      ("timestamp", Py.VStr (isoformat (Py.now e))) ].

(** [None] for [IllTyped], which is no exception of the program: the request
    is outside the typed part of this model. *)
Definition train_model_except (e : Py.env) (ex : PyObject.exception) : option response :=
  match ex with
  | PyObject.Exception (IllTyped _) => None
  | PyObject.Exception (ValueError msg) => Some (train_model_invalid e (ValueError msg))
  | _ => Some (train_model_failed e)
  end.

(** The function [train_model] that the decorators of the route
    [POST /train] wrap, on the dictionary that [request.get_json()] returns,
    with the service that [get_services] returns and the id that
    [uuid.uuid4()] gives.  [e] is the environment of the call of
    [start_training], and [answered] the one in which the answer reads the
    clock.

    [start_training] reads [config.model_name] and [config.algorithm] and calls
    [config.to_dict()] before it creates the job.  The answer reads
    [training_job.mlflow_run_id], an attribute that [TrainingJob] does not
    declare: where the object has none, the read raises [AttributeError], and
    [except Exception] catches it.

    The result is [None] where the attributes of the configuration have not
    the types that [TrainingConfig.__init__] declares, which is outside the
    typed part of this model, and where the reference that [start_training]
    returns points to no object, which does not happen. *)
Definition train_model_body (e answered : Py.env) (job_id : string)
    (training_request : Py.dict Py.value) (training_svc : TrainingService.t)
  : option (response * TrainingService.t) :=
  match missing_field [ "model_name"; "algorithm" ] training_request with
  | Some field => Some (missing_field_response answered field, training_svc)
  | None =>
      let attempt : PyObject.outcome (option (response * TrainingService.t)) :=
        let? config := TrainingConfig.Object.from_dict str training_request in
        let? _ := PyObject.of_result (PyObject.bound_method "is_valid" config) in
        let? valid := TrainingConfig.Object.is_valid config in
        if negb valid then
          let? _ :=
            PyObject.of_result (PyObject.bound_method "get_validation_issues" config) in
          let? issues := TrainingConfig.Object.get_validation_issues config in
          PyObject.Returns
            (Some
               (Response 400
                  [ ("error", Py.VStr "Invalid training configuration");
                    ("issues", Py.VList (map Py.VStr issues));
                    ("timestamp", Py.VStr (isoformat (Py.now answered))) ],
                training_svc))
        else
          let? _ := TrainingConfig.Object.getattr "model_name" config in
          let? _ := TrainingConfig.Object.getattr "algorithm" config in
          let? _ := PyObject.of_result (PyObject.bound_method "to_dict" config) in
          let? _ := TrainingConfig.Object.to_dict config in
          let? typed := PyObject.of_result (TrainingConfig.Object.fields config) in
          let? started :=
            PyObject.of_result (TrainingService.start_training e job_id typed training_svc) in
          let (job, svc1) := started in
          match TrainingService.heap svc1 !! job with
          | Some training_job =>
              match Py.dict_get "mlflow_run_id" (TrainingJob.attrs training_job) with
              | Some mlflow_run_id =>
                  PyObject.Returns
                    (Some
                       (Response 202
                          [ ("job_id", Py.VStr job_id);
                            ("status", Py.VStr (TrainingJob.status training_job));
                            ("model_name",
                             Py.VStr (TrainingJob.model_name training_job));
                            ("algorithm",
                             Py.VStr (TrainingJob.algorithm training_job));
                            ("started_at",
                             Py.VStr (isoformat (TrainingJob.started_at training_job)));
                            ("estimated_completion",
                             TrainingJob.iso_or_none isoformat
                               (TrainingJob.estimated_completion training_job));
                            ("tracking_url",
                             Py.VStr ("/api/v1/training/jobs/" ++ job_id));
                            ("mlflow_run_id", mlflow_run_id);
                            ("message", Py.VStr "Training job started successfully") ],
                        svc1))
              | None => PyObject.Returns (Some (train_model_failed answered, svc1))
              end
          | None => PyObject.Returns None
          end in
      match attempt with
      | PyObject.Returns r => r
      | PyObject.Raises ex =>
          option_map (fun answer => (answer, training_svc)) (train_model_except answered ex)
      end
  end.

(** The function [get_training_job] of the route [GET /jobs/<job_id>], which
    [monitor_performance] wraps. *)
Definition get_training_job (e : Py.env) (job_id : string)
    (training_svc : TrainingService.t) : response :=
  match TrainingService.get_training_job job_id training_svc with
  | None =>
      Response 404
        [ ("error", Py.VStr "Job not found");
          ("job_id", Py.VStr job_id);
          ("timestamp", Py.VStr (isoformat (Py.now e))) ]
  | Some job =>
      match PyObject.bound_method "to_dict" (TrainingJob.attrs job) with
      | Ok _ => Response 200 (TrainingJob.to_dict isoformat job)
      | Raise ex =>
          Response 500
            [ ("error", Py.VStr "Failed to get job details");
              ("job_id", Py.VStr job_id);
              ("message", Py.VStr (str_of_exn ex));
              ("timestamp", Py.VStr (isoformat (Py.now e))) ]
      end
  end.

(** The function [cancel_training_job] of the route
    [POST /jobs/<job_id>/cancel], which [monitor_performance] wraps. *)
Definition cancel_training_job (e : Py.env) (job_id : string)
    (training_svc : TrainingService.t) : response * TrainingService.t :=
  let (success, svc1) := TrainingService.cancel_training_job e job_id training_svc in
  if negb success then
    (Response 404
       [ ("error", Py.VStr "Job not found or cannot be cancelled");
         ("job_id", Py.VStr job_id);
         ("timestamp", Py.VStr (isoformat (Py.now e))) ],
     svc1)
  else
    (Response 200
       [ ("job_id", Py.VStr job_id);
         ("status", Py.VStr "cancelled");
         ("message", Py.VStr "Training job cancelled successfully");
         ("timestamp", Py.VStr (isoformat (Py.now e))) ],
     svc1).

(** [str(e)] of the [OverflowError] that the date arithmetic of
    [start_hyperparameter_tuning] raises for a request. *)
Variable overflow : Py.dict Py.value -> string.

(** The function [hyperparameter_tuning] that the decorators of the route
    [POST /hyperparameter-tuning] wrap, on the dictionary that
    [request.get_json()] returns and with the id that [uuid.uuid4()] gives;
    [e] and [answered] as for [train_model_body], and the clock of [e] reads
    a datetime.

    The datetimes of [TrainingService] are not bounded.  Those of the program
    are: where the estimated completion is none of them,
    [timedelta(minutes=estimated_duration)] or the addition raises
    [OverflowError] in [start_hyperparameter_tuning], before the job is
    stored, and the handler of the route answers 500.

    The result is [None] where a value of the request has not the type that
    [TrainingJob] declares for the attribute ([IllTyped]: a [max_trials] that
    is no [int], for one), which is outside the typed part of this model, and
    where the reference that the service returns points to no object, which
    does not happen. *)
Definition hyperparameter_tuning_body (e answered : Py.env) (job_id : string)
    (tuning_request : Py.dict Py.value) (training_svc : TrainingService.t)
  : option (response * TrainingService.t) :=
  match missing_field [ "model_name"; "algorithm"; "parameter_space" ] tuning_request with
  | Some field => Some (missing_field_response answered field, training_svc)
  | None =>
      match TrainingService.start_hyperparameter_tuning e job_id tuning_request
              training_svc with
      | Ok (job, svc1) =>
          match TrainingService.heap svc1 !! job with
          | Some tuning_job =>
              if match TrainingJob.estimated_completion tuning_job with
                 | Some estimated_completion =>
                     negb (PyObject.is_datetime estimated_completion)
                 | None => false
                 end
              then
                Some
                  (Response 500
                     [ ("error", Py.VStr "Tuning job failed");
                       ("message", Py.VStr (overflow tuning_request));
                       ("timestamp", Py.VStr (isoformat (Py.now answered))) ],
                   training_svc)
              else
              Some
              (Response 202
                 [ ("job_id", Py.VStr job_id);
                   ("status", Py.VStr (TrainingJob.status tuning_job));
                   ("tuning_strategy",
                    TrainingJob.str_or_none (TrainingJob.tuning_strategy tuning_job));
                   ("max_trials",
                    TrainingJob.int_or_none (TrainingJob.max_trials tuning_job));
                   ("started_at",
                    Py.VStr (isoformat (TrainingJob.started_at tuning_job)));
                   ("estimated_completion",
                    TrainingJob.iso_or_none isoformat
                      (TrainingJob.estimated_completion tuning_job));
                   ("tracking_url", Py.VStr ("/api/v1/training/jobs/" ++ job_id));
                   ("message", Py.VStr "Hyperparameter tuning started successfully") ],
               svc1)
          | None => None
          end
      | Raise (IllTyped _) => None
      | Raise ex =>
          Some
            (Response 500
               [ ("error", Py.VStr "Tuning job failed");
                 ("message", Py.VStr (str_of_exn ex));
                 ("timestamp", Py.VStr (isoformat (Py.now answered))) ],
             training_svc)
      end
  end.

(** The function [register_model] that the decorators of the route
    [POST /models/register] wrap, on the dictionary that [request.get_json()]
    returns; [e] and [answered] as for [train_model_body].  The values of
    [run_id], [model_name], [model_path] and [description] are strings and
    the one of [stage] is a string or [None]; a request with other types is
    outside the typed part of this model, and the result is [None] for it.
    An exception of [MLflowService.register_model] leaves the registry as it
    was. *)
Definition register_model_body (e answered : Py.env)
    (registration_request : Py.dict Py.value) (mlflow_svc : MLflowService.t)
  : option (response * MLflowService.t) :=
  match missing_field [ "run_id"; "model_name" ] registration_request with
  | Some field => Some (missing_field_response answered field, mlflow_svc)
  | None =>
      let attempt :=
        let! v_run_id := TrainingService.subscript "run_id" registration_request in
        let! run_id := TrainingJob.as_str "run_id" v_run_id in
        let! v_model_name :=
          TrainingService.subscript "model_name" registration_request in
        let! model_name := TrainingJob.as_str "model_name" v_model_name in
        let! model_path :=
          TrainingJob.as_str "model_path"
            (Py.dict_get_default "model_path" (Py.VStr "model") registration_request) in
        let! description :=
          TrainingJob.as_str "description"
            (Py.dict_get_default "description" (Py.VStr EmptyString)
               registration_request) in
        let! registered :=
          MLflowService.register_model isoformat e run_id model_name model_path
            description mlflow_svc in
        let (model_version, svc1) := registered in
        let! stage :=
          TrainingJob.as_opt_str "stage"
            (Py.dict_get_default "stage" Py.VNone registration_request) in
        let svc2 :=
          match stage with
          | Some s =>
              if String.eqb s EmptyString then svc1
              else
                snd (MLflowService.transition_model_stage isoformat e model_name
                       (ModelVersion.version model_version) s svc1)
          | None => svc1
          end in
        Ok (Response 201
              [ ("model_name", Py.VStr (ModelVersion.name model_version));
                ("version", Py.VStr (ModelVersion.version model_version));
                ("stage", Py.VStr (PyObject.str_or stage "None"));
                ("run_id", v_run_id);
                ("registration_time", Py.VStr (isoformat (Py.now answered)));
                ("message", Py.VStr "Model registered successfully") ],
            svc2) in
      match attempt with
      | Ok r => Some r
      | Raise (IllTyped _) => None
      | Raise ex =>
          Some
            (Response 500
               [ ("error", Py.VStr "Model registration failed");
                 ("message", Py.VStr (str_of_exn ex));
                 ("timestamp", Py.VStr (isoformat (Py.now answered))) ],
             mlflow_svc)
      end
  end.

(** [get_services], with the two global variables of the module, which are
    [None] at first, and the registry of the application.  The result is what
    the call does, the two global variables after it, which are the pair it
    returns if it returns, and the registry. *)
Definition get_services
    (constructed : string -> Py.dict Py.value -> result unit) (fuel : nat) (e : Py.env)
    (training_service mlflow_service : option ServiceRegistry.instance)
    (service_registry : ServiceRegistry.t)
  : option (ServiceRegistry.outcome unit
            * (option ServiceRegistry.instance * option ServiceRegistry.instance)
            * ServiceRegistry.t) :=
  match training_service with
  | Some _ =>
      Some (ServiceRegistry.Returns tt, (training_service, mlflow_service),
            service_registry)
  | None =>
      match ServiceRegistry.get_service isoformat constructed fuel e "training_service"
              service_registry with
      | Some (ServiceRegistry.Returns training_service, registry1) =>
          match ServiceRegistry.get_service isoformat constructed fuel e "mlflow_service"
                  registry1 with
          | Some (ServiceRegistry.Returns service, registry2) =>
              Some (ServiceRegistry.Returns tt, (Some training_service, Some service),
                    registry2)
          | Some (ServiceRegistry.Raises ex, registry2) =>
              Some (ServiceRegistry.Raises ex, (Some training_service, mlflow_service),
                    registry2)
          | Some (ServiceRegistry.Blocks, registry2) =>
              Some (ServiceRegistry.Blocks, (Some training_service, mlflow_service),
                    registry2)
          | None => None
          end
      | Some (ServiceRegistry.Raises ex, registry1) =>
          Some (ServiceRegistry.Raises ex, (training_service, mlflow_service), registry1)
      | Some (ServiceRegistry.Blocks, registry1) =>
          Some (ServiceRegistry.Blocks, (training_service, mlflow_service), registry1)
      | None => None
      end
  end.

End Routes.

End TrainingController.

(** ** Concrete data for the examples *)

Module Sample.

(** A printable, parsable rendering of a datetime: its decimal numeral. *)
Definition isoformat (d : Py.datetime) : string :=
  NilEmpty.string_of_int (Z.to_int d).

Definition fromisoformat (s : string) : option Py.datetime :=
  option_map Z.of_int (NilEmpty.int_of_string s).

Definition hash (s : string) : Z := Z.of_nat (String.length s).

Definition env (now : Py.datetime) : Py.env := Py.Env now hash.

Definition rf : TrainingConfig.t :=
  TrainingConfig.Build "rf" "random_forest" "latest" "rf_experiment" false [].

(** A pool of one worker and a pool of two. *)
Definition pool (n : Z) : option TrainingService.system :=
  match TrainingService.__init__ [ ("max_concurrent_jobs", Py.VInt n) ] with
  | Ok s => Some s
  | Raise _ => None
  end.

(** Worker [i] runs [n] statements in a row, at clock values [t, t+1, ...]. *)
Fixpoint worker_runs (i : nat) (t : Py.datetime) (n : nat)
  : list (Py.datetime * TrainingService.event) :=
  match n with
  | O => []
  | S n' => (t, TrainingService.Worker i) :: worker_runs i (t + 1)%Z n'
  end.

(** A finished tuning job, every optional attribute set. *)
Definition job : TrainingJob.t :=
  TrainingJob.Build "job-7" "rf" "random_forest"
    [ ("n_estimators", Py.VInt 100) ] "completed" 1700000000%Z (Some 1700000600%Z)
    "system" "hyperparameter_tuning" 100%Z
    [ ("epoch", Py.VInt 9) ] [ ("accuracy", Py.VFloat (Py.literal 95 100)) ]
    (Some "models/rf_job-7") (Some "none") (Some "bayesian") (Some 50%Z)
    (Some 1700006000%Z) [].

Definition tuning_request : Py.dict Py.value :=
  [ ("model_name", Py.VStr "rf"); ("algorithm", Py.VStr "random_forest");
    ("max_trials", Py.VInt 10);
    ("parameter_space", Py.VDict [ ("max_depth", Py.VList [ Py.VInt 5; Py.VNone ]) ]) ].

(** A call at time [t] whose thread, thread [r], runs [n] statements at once. *)
Definition calls (t : Py.datetime) (c : TrainingService.call) (r n : nat)
  : list (Py.datetime * TrainingService.event) :=
  (t, TrainingService.Call c) :: replicate n (t, TrainingService.Request r).

(** One job is submitted at time 10 to a pool of one worker. *)
Definition submitted : list (Py.datetime * TrainingService.event) :=
  calls 10%Z (TrainingService.StartTraining "job-1" rf) 0 1.

(** The job is cancelled by the second request thread. *)
Definition cancel (t : Py.datetime) : list (Py.datetime * TrainingService.event) :=
  calls t (TrainingService.Cancel "job-1") 1 5.

(** Two jobs are submitted to a pool of one worker, which takes the first
    and goes to sleep in it. *)
Definition one_asleep : list (Py.datetime * TrainingService.event) :=
  calls 10%Z (TrainingService.StartTraining "job-1" rf) 0 1
  ++ calls 11%Z (TrainingService.StartTraining "job-2" rf) 1 1
  ++ worker_runs 0 20%Z 6.

(** The state a schedule leads to from a fresh pool of [n] workers. *)
Definition after (n : Z) (schedule : list (Py.datetime * TrainingService.event))
  : option TrainingService.system :=
  match pool n with
  | Some s => TrainingService.run hash schedule s
  | None => None
  end.

(** What [get_training_job] shows of job [job_id] in that state. *)
Definition observe {A} (field : TrainingJob.t -> A) (job_id : string)
    (s : option TrainingService.system) : option A :=
  match s with
  | Some s =>
      option_map field (TrainingService.get_training_job job_id (TrainingService.service s))
  | None => None
  end.

(** What request thread [r] has returned in that state. *)
Definition returned (r : nat) (s : option TrainingService.system)
  : option TrainingService.request_pc :=
  match s with
  | Some s => TrainingService.requests s !! r
  | None => None
  end.

End Sample.

(** ** Notions the statements use *)

Module Notions.

(** The number of jobs of a list that have a given status. *)
Definition count_status (status : string) (all : list TrainingJob.t) : Z :=
  Z.of_nat (length (List.filter (fun j => String.eqb (TrainingJob.status j) status) all)).

(** A job that has finished with a result: completed or failed. *)
Definition finished (j : TrainingJob.t) : bool :=
  String.eqb (TrainingJob.status j) "completed"
  || String.eqb (TrainingJob.status j) "failed".

(** [a] comes before [b] in a list sorted by [key], largest first. *)
Definition newer_or_equal {A} (key : A -> Z) (a b : A) : Prop := (key b <= key a)%Z.

End Notions.

(** ** The invariant of the running system *)

Module Invariant.

Import TrainingService.

(** The job id a worker has taken from the queue and is not yet done with. *)
Definition holds (pc : worker_pc) : option string :=
  match pc with
  | AtCheck job_id | AtExecute job_id _ => Some job_id
  | AtGet | AtTaskDone => None
  end.

(** The progress a job has when [step] iterations of the loop are over. *)
Definition progress_after (step : nat) : Z :=
  match step with
  | O => 0%Z
  | S k => progress_at k
  end.

Definition not_started (j : TrainingJob.t) : Prop :=
  (TrainingJob.status j = "queued" \/ TrainingJob.status j = "cancelled")
  /\ TrainingJob.progress j = 0%Z.

Definition started (j : TrainingJob.t) : Prop :=
  TrainingJob.status j = "running" \/ TrainingJob.status j = "cancelled".

Definition is_done (j : TrainingJob.t) : Prop :=
  (TrainingJob.status j = "completed" \/ TrainingJob.status j = "cancelled")
  /\ TrainingJob.progress j = 100%Z.

(** What holds of the job [j], stored at [l], that a worker executes at the
    program point [p]. *)
Definition job_at (p : execute_pc) (l : loc) (j : TrainingJob.t) : Prop :=
  match p with
  | AtLookup => not_started j
  | AtSetRunning job => job = l /\ not_started j
  | AtSetStartedAt job | AtRegister job =>
      job = l /\ started j /\ TrainingJob.progress j = 0%Z
  | AtSimulate job (AtSleep step) | AtSimulate job (AtProgress step) =>
      job = l /\ started j /\ step < total_steps
      /\ TrainingJob.progress j = progress_after step
  | AtSimulate job (AtMetrics step) =>
      job = l /\ started j /\ step < total_steps
      /\ TrainingJob.progress j = progress_after (S step)
  | AtSetCompleted job => job = l /\ started j /\ TrainingJob.progress j = 100%Z
  | AtSetCompletedAt job | AtSetProgress job | AtSetModelPath job
  | AtSetMetrics job => job = l /\ is_done j
  | AtFinally => is_done j
  | AtExceptStatus _ _ | AtExceptMessage _ _ | AtExceptCompletedAt _ => False
  end.

Definition job_of (pc : worker_pc) (l : loc) (j : TrainingJob.t) : Prop :=
  match pc with
  | AtCheck _ => not_started j
  | AtExecute _ p => job_at p l j
  | AtGet | AtTaskDone => True
  end.

(** Every job is stored under its id; an id is about to be put on the queue
    by one request thread, or in the queue, or in the hands of one worker, or
    its job is finished; and a job is in the state that the program point of
    its worker implies.  A status may be [cancelled] wherever another is
    expected: a thread of [cancel_training_job] that has passed its test
    writes it whenever it runs next. *)
Record holds_on (h : list TrainingJob.t) (st : Py.dict loc) (q : list string)
    (ws : list worker_pc) (rs : list request_pc) : Prop := Holds {
  stored : forall l j, h !! l = Some j -> Py.dict_get (TrainingJob.job_id j) st = Some l;
  store_valid : forall id l, Py.dict_get id st = Some l ->
    exists j, h !! l = Some j /\ TrainingJob.job_id j = id;
  store_order : Py.dict_values st = seq 0 (length h);
  queue_nodup : NoDup q;
  queued : forall id, id ∈ q ->
    exists l j, Py.dict_get id st = Some l /\ h !! l = Some j /\ not_started j;
  held_not_queued : forall i pc id, ws !! i = Some pc -> holds pc = Some id -> id ∉ q;
  held_once : forall i i' pc pc' id, ws !! i = Some pc -> ws !! i' = Some pc' ->
    holds pc = Some id -> holds pc' = Some id -> i = i';
  held : forall i pc id, ws !! i = Some pc -> holds pc = Some id ->
    exists l j, Py.dict_get id st = Some l /\ h !! l = Some j /\ job_of pc l j;
  put_not_queued : forall r id, rs !! r = Some (AtPut id) -> id ∉ q;
  put_not_held : forall r id i pc, rs !! r = Some (AtPut id) -> ws !! i = Some pc ->
    holds pc <> Some id;
  put_once : forall r r' id, rs !! r = Some (AtPut id) -> rs !! r' = Some (AtPut id) ->
    r = r';
  put_stored : forall r id, rs !! r = Some (AtPut id) ->
    exists l j, Py.dict_get id st = Some l /\ h !! l = Some j /\ not_started j;
  placed : forall l j, h !! l = Some j ->
    (exists r, rs !! r = Some (AtPut (TrainingJob.job_id j)))
    \/ TrainingJob.job_id j ∈ q
    \/ (exists i pc, ws !! i = Some pc /\ holds pc = Some (TrainingJob.job_id j))
    \/ is_done j
}.

Definition inv (s : system) : Prop :=
  holds_on (heap (service s)) (training_jobs (service s)) (job_queue (service s))
    (workers s) (requests s).

(** How a job may change in one transition: it keeps its id, its progress
    does not decrease, and does not change once the job is completed or
    failed. *)
Definition evolves (j j' : TrainingJob.t) : Prop :=
  TrainingJob.job_id j' = TrainingJob.job_id j
  /\ (TrainingJob.progress j <= TrainingJob.progress j')%Z
  /\ (TrainingJob.status j = "completed" \/ TrainingJob.status j = "failed" ->
      TrainingJob.progress j' = TrainingJob.progress j).

Definition heap_evolves (h h' : list TrainingJob.t) : Prop :=
  forall l j, h !! l = Some j -> exists j', h' !! l = Some j' /\ evolves j j'.

End Invariant.

(** ** A pool whose executor blocks *)

Module Blocking.

Import TrainingService.

(** A worker inside [time.sleep]. *)
Definition sleeping (pc : worker_pc) : bool :=
  match pc with
  | AtExecute _ (AtSimulate _ (AtSleep _)) => true
  | _ => false
  end.

(** A thread of a submission. *)
Definition submits (pc : request_pc) : bool :=
  match pc with
  | AtPut _ | Returned None => true
  | _ => false
  end.

Definition submission (ev : event) : bool :=
  match ev with
  | Call (StartTraining _ _) | Call (StartTuning _ _) | Request _ => true
  | Call (Cancel _) | Worker _ => false
  end.

(** A statement of a worker that is not inside [time.sleep]. *)
Definition worker_moves (s s' : system) : Prop :=
  exists e i pc,
    workers s !! i = Some pc /\ sleeping pc = false /\ worker_step e i s = Some s'.

(** The transitions of a pool whose jobs block for ever: [time.sleep] does
    not return, jobs are submitted, nobody cancels. *)
Inductive step (s s' : system) : Prop :=
| step_submit (e : Py.env) (ev : event) :
    submission ev = true -> fresh ev s -> run_event e ev s = Some s' -> step s s'
| step_worker : worker_moves s s' -> step s s'.

Inductive reachable (s0 : system) : system -> Prop :=
| from_start : reachable s0 s0
| one_more s s' : reachable s0 s -> step s s' -> reachable s0 s'.

(** [k] jobs are submitted: so many are stored, and every call has returned. *)
Definition submitted (k : nat) (s : system) : Prop :=
  length (jobs (service s)) = k
  /\ forall r pc, requests s !! r = Some pc -> pc = Returned None.

(** Nothing a worker can do changes the state any more. *)
Definition quiescent (s : system) : Prop :=
  forall s', worker_moves s s' -> s' = s.

(** The statements a worker has still to execute before it sleeps in a job,
    when the queue holds an id for it. *)
Definition statements_to_sleep (pc : worker_pc) : nat :=
  match pc with
  | AtGet => 6
  | AtCheck _ => 5
  | AtExecute _ AtLookup => 4
  | AtExecute _ (AtSetRunning _) => 3
  | AtExecute _ (AtSetStartedAt _) => 2
  | AtExecute _ (AtRegister _) => 1
  | _ => 0
  end.

Definition work_left (s : system) : nat :=
  sum_list_with statements_to_sleep (workers s).

(** The program points up to the first [time.sleep]. *)
Definition early (pc : worker_pc) : bool :=
  match pc with
  | AtGet | AtCheck _ | AtExecute _ AtLookup | AtExecute _ (AtSetRunning _)
  | AtExecute _ (AtSetStartedAt _) | AtExecute _ (AtRegister _)
  | AtExecute _ (AtSimulate _ (AtSleep _)) => true
  | _ => false
  end.

(** The program points after [job.status = 'running']. *)
Definition runs_a_job (pc : worker_pc) : bool :=
  match pc with
  | AtExecute _ (AtSetStartedAt _) | AtExecute _ (AtRegister _)
  | AtExecute _ (AtSimulate _ (AtSleep _)) => true
  | _ => false
  end.

Definition busy (pc : worker_pc) : bool :=
  match pc with
  | AtGet => false
  | _ => true
  end.

Definition count {A} (P : A -> bool) (l : list A) : nat := length (List.filter P l).

Definition putting (pc : request_pc) : bool :=
  match pc with
  | AtPut _ => true
  | _ => false
  end.

(** A schedule of such a pool: submissions under new ids and statements of
    workers that are not asleep. *)
Fixpoint allows (hash : string -> Z) (schedule : list (Py.datetime * event))
    (s : system) : Prop :=
  match schedule with
  | [] => True
  | (now, ev) :: rest =>
      match ev with
      | Worker i => exists pc, workers s !! i = Some pc /\ sleeping pc = false
      | Call (Cancel _) => False
      | _ => fresh ev s
      end
      /\ match run_event (Py.Env now hash) ev s with
         | Some s' => allows hash rest s'
         | None => True
         end
  end.

(** What a blocking pool keeps true besides the invariant of every pool. *)
Record bounded (s : system) : Prop := Bounded {
  all_early : forall i pc, workers s !! i = Some pc -> early pc = true;
  all_submit : forall r pc, requests s !! r = Some pc -> submits pc = true;
  queued_or_running : forall l j, heap (service s) !! l = Some j ->
    TrainingJob.status j = "queued" \/ TrainingJob.status j = "running";
  running_workers :
    count (fun j => String.eqb (TrainingJob.status j) "running") (heap (service s))
    = count runs_a_job (workers s);
  all_placed :
    length (heap (service s))
    = count putting (requests s) + length (job_queue (service s))
      + count busy (workers s)
}.

End Blocking.

(** ** The jobs registered as running *)

Module Running.

Import TrainingService.

(** The program points of a worker between [self.running_jobs[job_id] = job]
    and [self.running_jobs.pop(job_id, None)]. *)
Definition registered (pc : worker_pc) : bool :=
  match pc with
  | AtExecute _ (AtSimulate _ _) | AtExecute _ (AtSetCompleted _)
  | AtExecute _ (AtSetCompletedAt _) | AtExecute _ (AtSetProgress _)
  | AtExecute _ (AtSetModelPath _) | AtExecute _ (AtSetMetrics _)
  | AtExecute _ (AtExceptStatus _ _) | AtExecute _ (AtExceptMessage _ _)
  | AtExecute _ (AtExceptCompletedAt _) | AtExecute _ AtFinally => true
  | _ => false
  end.

(** [running_jobs] has an id once, and only the id of a job that a worker is
    executing past its registration. *)
Record tracked (running_jobs : Py.dict loc) (ws : list worker_pc) : Prop := Tracked {
  keys_once : NoDup (Py.dict_keys running_jobs);
  key_registered : forall id l, Py.dict_get id running_jobs = Some l ->
    exists i pc, ws !! i = Some pc /\ Invariant.holds pc = Some id /\ registered pc = true
}.

End Running.

(** ** A worker that runs on its own *)

Module Alone.

Import TrainingService.

(** Worker [i] executes [n] statements in a row, each at its own time. *)
Inductive executes (i : nat) : nat -> system -> system -> Prop :=
| executes_none s : executes i 0 s s
| executes_next e n s s1 s' :
    worker_step e i s = Some s1 -> executes i n s1 s' -> executes i (S n) s s'.

(** The statements a worker has still to execute, at a program point of the
    [try] block or after it, until it is back at [job_queue.get]. *)
Definition statements_left (pc : worker_pc) : nat :=
  match pc with
  | AtGet => 0
  | AtCheck _ => 312
  | AtExecute _ AtLookup => 311
  | AtExecute _ (AtSetRunning _) => 310
  | AtExecute _ (AtSetStartedAt _) => 309
  | AtExecute _ (AtRegister _) => 308
  | AtExecute _ (AtSimulate _ (AtSleep step)) => 3 * (total_steps - step) + 7
  | AtExecute _ (AtSimulate _ (AtProgress step)) => 3 * (total_steps - step) + 6
  | AtExecute _ (AtSimulate _ (AtMetrics step)) => 3 * (total_steps - step) + 5
  | AtExecute _ (AtSetCompleted _) => 7
  | AtExecute _ (AtSetCompletedAt _) => 6
  | AtExecute _ (AtSetProgress _) => 5
  | AtExecute _ (AtSetModelPath _) => 4
  | AtExecute _ (AtSetMetrics _) => 3
  | AtExecute _ (AtExceptStatus _ _) => 5
  | AtExecute _ (AtExceptMessage _ _) => 4
  | AtExecute _ (AtExceptCompletedAt _) => 3
  | AtExecute _ AtFinally => 2
  | AtTaskDone => 1
  end.

(** What the worker has done to its job [j] when it is at [pc]. *)
Definition done_at (job_id : string) (pc : worker_pc) (j : TrainingJob.t) : Prop :=
  match pc with
  | AtExecute _ (AtSetCompletedAt _) =>
      TrainingJob.status j = "completed"
  | AtExecute _ (AtSetProgress _) =>
      TrainingJob.status j = "completed" /\ TrainingJob.completed_at j <> None
  | AtExecute _ (AtSetModelPath _) =>
      TrainingJob.status j = "completed" /\ TrainingJob.completed_at j <> None
      /\ TrainingJob.progress j = 100%Z
  | AtExecute _ (AtSetMetrics _) =>
      TrainingJob.status j = "completed" /\ TrainingJob.completed_at j <> None
      /\ TrainingJob.progress j = 100%Z
      /\ TrainingJob.model_path j = Some (model_path_of job_id j)
  | AtExecute _ AtFinally | AtTaskDone | AtGet =>
      TrainingJob.status j = "completed" /\ TrainingJob.completed_at j <> None
      /\ TrainingJob.progress j = 100%Z
      /\ TrainingJob.model_path j = Some (model_path_of job_id j)
      /\ Py.dict_contains "metrics" (TrainingJob.attrs j) = true
  | _ => True
  end.

End Alone.

(** ** [decorators/rate_limit.py] *)

Module RateLimit.

(** An entry of [rate_limit_storage]. *)
Record entry : Type := Entry {
  count : Z;
  window_start : Py.float;
  requests : list Py.float
}.

Definition storage : Type := Py.dict entry.

(** [str(n)] of an [int]. *)
Definition str_of_int (n : Z) : string := NilZero.string_of_int (Z.to_int n).

(** [a > b] on two floats. *)
Definition fgt (a b : Py.float) : bool := SFltb b a.

(** The entry of [key], created if there is none: what
    [if key not in rate_limit_storage: rate_limit_storage[key] = {...}]
    and [entry = rate_limit_storage[key]] give. *)
Definition entry_of (current_time : Py.float) (key : string)
    (rate_limit_storage : storage) : entry :=
  match Py.dict_get key rate_limit_storage with
  | Some entry => entry
  | None => Entry 0 current_time []
  end.

(** [is_rate_limited]; [current_time] is what [time.time()] returns in it,
    and [window] is below [2^53]. *)
Definition is_rate_limited (current_time : Py.float) (key : string) (limit window : Z)
    (rate_limit_storage : storage) : bool * storage :=
  let entry := entry_of current_time key rate_limit_storage in
  let cutoff_time := Py.fsub current_time (Py.float_of_int window) in
  let kept := List.filter (fun req_time => fgt req_time cutoff_time) (requests entry) in
  ((limit <=? Z.of_nat (length kept))%Z,
   Py.dict_set key (Entry (count entry) (window_start entry) kept) rate_limit_storage).

Definition record_request (current_time : Py.float) (key : string)
    (rate_limit_storage : storage) : storage :=
  let entry := entry_of current_time key rate_limit_storage in
  Py.dict_set key
    (Entry (count entry + 1) (window_start entry) (requests entry ++ [current_time]))
    rate_limit_storage.

(** [f"{f.__name__}:{client_id}"]. *)
Definition rate_limit_key (name client_id : string) : string :=
  name ++ ":" ++ client_id.

(** The three readings of the clock in a decorated call: in
    [is_rate_limited], in the answer 429, in [record_request]. *)
Record clock : Type := Clock {
  at_check : Py.float;
  at_answer : Py.float;
  at_record : Py.float
}.

Definition too_many_requests (limit per_second : Z) (timestamp : Py.float)
  : TrainingController.response :=
  TrainingController.Response 429
    [ ("error", Py.VStr "Rate limit exceeded");
      ("message",
       Py.VStr ("Maximum " ++ str_of_int limit ++ " requests per "
                ++ str_of_int per_second ++ " seconds"));
      ("retry_after", Py.VInt per_second);
      ("timestamp", Py.VFloat timestamp) ].

(** [decorated_function] of [rate_limit(limit, per_second)(f)], for the
    function named [name] and the client [client_id]: the answer 429, or
    [None] where [f] is called. *)
Definition decorated_function (limit per_second : Z) (name : string)
    (enable_rate_limiting : bool) (client_id : string) (t : clock)
    (rate_limit_storage : storage) : option TrainingController.response * storage :=
  if negb enable_rate_limiting then (None, rate_limit_storage)
  else
    let key := rate_limit_key name client_id in
    let (limited, storage1) :=
      is_rate_limited (at_check t) key limit per_second rate_limit_storage in
    if limited then (Some (too_many_requests limit per_second (at_answer t)), storage1)
    else (None, record_request (at_record t) key storage1).

(** The calls of a decorated function that arrive one after the other, each
    with its client and its clock readings. *)
Fixpoint serve (limit per_second : Z) (name : string)
    (calls : list (string * clock)) (rate_limit_storage : storage)
  : list (option TrainingController.response) * storage :=
  match calls with
  | [] => ([], rate_limit_storage)
  | (client_id, t) :: rest =>
      let (answer, storage1) :=
        decorated_function limit per_second name true client_id t rate_limit_storage in
      let (answers, storage2) := serve limit per_second name rest storage1 in
      (answer :: answers, storage2)
  end.

(** The calls of [client_id] among [calls] that were let through. *)
Fixpoint let_through (client_id : string) (calls : list (string * clock))
    (answers : list (option TrainingController.response)) : list clock :=
  match calls, answers with
  | (c, t) :: calls', answer :: answers' =>
      let rest := let_through client_id calls' answers' in
      if String.eqb c client_id
      then match answer with None => t :: rest | Some _ => rest end
      else rest
  | _, _ => []
  end.

(** What the storage holds for every client of the function [name] after
    the calls of which [history] were let through: no more timestamps than the
    limit, all of them timestamps of such calls, in their order, and the
    number of all such calls. *)
Definition accounts (limit : Z) (name : string) (rate_limit_storage : storage)
    (history : string -> list clock) : Prop :=
  forall client_id,
    match Py.dict_get (rate_limit_key name client_id) rate_limit_storage with
    | Some entry =>
        (Z.of_nat (length (requests entry)) <= Z.max 0 limit)%Z
        /\ count entry = Z.of_nat (length (history client_id))
        /\ requests entry `sublist_of` map at_record (history client_id)
    | None => history client_id = []
    end.

End RateLimit.

(** ** [decorators/validate_json.py] *)

Module ValidateJson.

(** [isinstance(x, (int, float))]: a [bool] is an [int]. *)
Definition is_number (x : Py.value) : bool :=
  match x with
  | Py.VBool _ | Py.VInt _ | Py.VFloat _ => true
  | _ => false
  end.

(** The order of a number and an [int] below [2^53]; none for a [nan]. *)
Definition compare_int (x : Py.value) (n : Z) : option comparison :=
  match x with
  | Py.VBool b => Some (Z.b2z b ?= n)%Z
  | Py.VInt z => Some (z ?= n)%Z
  | Py.VFloat f => SFcompare f (Py.float_of_int n)
  | _ => None
  end.

(** [x < n], [x > n], [x >= n] and [x <= n]. *)
Definition lt (x : Py.value) (n : Z) : bool :=
  match compare_int x n with Some Lt => true | _ => false end.

Definition gt (x : Py.value) (n : Z) : bool :=
  match compare_int x n with Some Gt => true | _ => false end.

Definition ge (x : Py.value) (n : Z) : bool :=
  match compare_int x n with Some Gt | Some Eq => true | _ => false end.

Definition le (x : Py.value) (n : Z) : bool :=
  match compare_int x n with Some Lt | Some Eq => true | _ => false end.

(** [isinstance(x, str) and len(x) > 0]. *)
Definition nonempty_str (x : Py.value) : bool :=
  match x with
  | Py.VStr s => (0 <? String.length s)%nat
  | _ => false
  end.

(** [c in s] for a character [c]. *)
Fixpoint contains (c : Ascii.ascii) (s : string) : bool :=
  match s with
  | EmptyString => false
  | String c' s' => Ascii.eqb c' c || contains c s'
  end.

(** The character [@]. *)
Definition at_sign : Ascii.ascii :=
  Ascii.Ascii false false false false false false true false.

(** The dictionary [validations] of [validate_field_types]. *)
Definition validations : Py.dict (Py.value -> bool) :=
  [ ("amount", fun x => is_number x && ge x 0);
    ("transaction_id", nonempty_str);
    ("customer_id", nonempty_str);
    ("merchant_id", nonempty_str);
    ("email", fun x => match x with Py.VStr s => contains at_sign s | _ => false end);
    ("phone",
     fun x => match x with Py.VStr s => (10 <=? String.length s)%nat | _ => false end);
    ("timestamp", fun x => match x with Py.VStr _ => true | _ => false end);
    ("currency",
     fun x => match x with Py.VStr s => (String.length s =? 3)%nat | _ => false end);
    ("model_name", nonempty_str);
    ("algorithm", nonempty_str) ].

Definition valid_levels : list string := [ "LOW"; "MEDIUM"; "HIGH" ].

Section Validation.

(** [str(value)], which the messages show. *)
Variable str : Py.value -> string.

(** The loop over [data.items()]: none of the validations raises, so the
    handler of the loop is never entered. *)
Definition field_errors (data : Py.dict Py.value) : list string :=
  flat_map
    (fun item =>
       match Py.dict_get (fst item) validations with
       | Some validation =>
           if negb (validation (snd item))
           then [ "Invalid value for field '" ++ fst item ++ "': " ++ str (snd item) ]
           else []
       | None => []
       end)
    data.

Definition amount_errors (data : Py.dict Py.value) : list string :=
  match Py.dict_get "amount" data with
  | Some amount =>
      if is_number amount then
        if lt amount 0 then [ "Amount must be positive" ]
        else if gt amount 1000000 then [ "Amount exceeds maximum limit of $1,000,000" ]
        else []
      else []
  | None => []
  end.

Definition probability_errors (data : Py.dict Py.value) : list string :=
  match Py.dict_get "fraud_probability" data with
  | Some prob =>
      if is_number prob then
        if negb (ge prob 0 && le prob 1)
        then [ "Fraud probability must be between 0 and 1" ]
        else []
      else []
  | None => []
  end.

Definition risk_level_errors (data : Py.dict Py.value) : list string :=
  match Py.dict_get "risk_level" data with
  | Some (Py.VStr risk_level) =>
      if negb (existsb (String.eqb risk_level) valid_levels)
      then [ "Risk level must be one of: ['LOW', 'MEDIUM', 'HIGH']" ]
      else []
  | _ => []
  end.

Definition validate_field_types (data : Py.dict Py.value) : list string :=
  (field_errors data ++ amount_errors data ++ probability_errors data
   ++ risk_level_errors data)%list.

(** What the decorator reads of the request; [get_json] is the result of
    [request.get_json(force=True)]: the text of the exception it raises, or
    the body, [None] for the JSON value [null].  A body that is a JSON value
    other than an object or [null] is outside this model. *)
Record request : Type := Request {
  is_json : bool;
  content_type : Py.value;
  content_length : option Z;
  get_json : string + option (Py.dict Py.value)
}.

Definition str_of_int (n : Z) : string := NilZero.string_of_int (Z.to_int n).

(** [decorated_function] of [validate_json(required_fields, max_size)(f)]:
    the answer of the decorator, or [None] where [f] is called. *)
Definition decorated_function (required_fields : option (list string)) (max_size : Z)
    (r : request) : option TrainingController.response :=
  if negb (is_json r) then
    Some (TrainingController.Response 400
            [ ("error", Py.VStr "Invalid content type");
              ("message", Py.VStr "Content-Type must be application/json");
              ("expected", Py.VStr "application/json");
              ("received", content_type r) ])
  else if match content_length r with
          | Some n => negb (n =? 0)%Z && (max_size <? n)%Z
          | None => false
          end then
    Some (TrainingController.Response 413
            [ ("error", Py.VStr "Payload too large");
              ("message",
               Py.VStr ("Maximum payload size is " ++ str_of_int max_size ++ " bytes"));
              ("received_size",
               match content_length r with Some n => Py.VInt n | None => Py.VNone end) ])
  else
    match get_json r with
    | inl e =>
        Some (TrainingController.Response 400
                [ ("error", Py.VStr "Invalid JSON");
                  ("message", Py.VStr "Request body must be valid JSON");
                  ("details", Py.VStr e) ])
    | inr None =>
        Some (TrainingController.Response 400
                [ ("error", Py.VStr "Empty JSON");
                  ("message", Py.VStr "Request body cannot be empty") ])
    | inr (Some json_data) =>
        let missing_fields :=
          match required_fields with
          | Some fields =>
              List.filter
                (fun field =>
                   match Py.dict_get field json_data with
                   | Some Py.VNone | None => true
                   | Some _ => false
                   end)
                fields
          | None => []
          end in
        match missing_fields, required_fields with
        | _ :: _, Some fields =>
            Some (TrainingController.Response 400
                    [ ("error", Py.VStr "Missing required fields");
                      ("missing_fields", Py.VList (map Py.VStr missing_fields));
                      ("required_fields", Py.VList (map Py.VStr fields)) ])
        | _, _ =>
            match validate_field_types json_data with
            | [] => None
            | validation_errors =>
                Some (TrainingController.Response 400
                        [ ("error", Py.VStr "Validation errors");
                          ("validation_errors",
                           Py.VList (map Py.VStr validation_errors)) ])
            end
        end
    end.

End Validation.

End ValidateJson.

(** ** [decorators/monitor_performance.py] *)

Module MonitorPerformance.

(** An entry of [metrics_storage]. *)
Record metrics : Type := Metrics {
  total_requests : Z;
  total_errors : Z;
  total_time : Py.float;
  min_time : Py.float;
  max_time : Py.float;
  response_times : list Py.float;
  error_types : Py.dict Z;
  last_request : option Py.float
}.

Definition storage : Type := Py.dict metrics.

(** The entry that [decorated_function] creates: [0.0] and [float('inf')]. *)
Definition initial : metrics :=
  Metrics 0 0 (S754_zero false) (S754_infinity false) (S754_zero false) [] [] None.

(** [min(a, b)] and [max(a, b)] on floats: the first argument, unless the
    second is smaller, or larger. *)
Definition fmin (a b : Py.float) : Py.float := if SFltb b a then b else a.
Definition fmax (a b : Py.float) : Py.float := if SFltb a b then b else a.

(** [update_success_metrics]; [now] is what [time.time()] returns in it. *)
Definition update_success_metrics (m : metrics) (duration now : Py.float) : metrics :=
  let times := (response_times m ++ [duration])%list in
  Metrics (total_requests m + 1) (total_errors m) (Py.fadd (total_time m) duration)
    (fmin (min_time m) duration) (fmax (max_time m) duration)
    (if (1000 <? length times)%nat then skipn (length times - 1000) times else times)
    (error_types m) (Some now).

(** [update_error_metrics]; [error_type] is [type(error).__name__]. *)
Definition update_error_metrics (m : metrics) (duration : Py.float)
    (error_type : string) (now : Py.float) : metrics :=
  Metrics (total_requests m + 1) (total_errors m + 1)
    (Py.fadd (total_time m) duration) (min_time m) (max_time m) (response_times m)
    (Py.dict_set error_type (Py.dict_get_default error_type 0%Z (error_types m) + 1)%Z
       (error_types m))
    (Some now).

(** What the header step does, after [update_success_metrics]: the first
    component of the result has no attribute [headers]; or the two headers
    are set; or one of its expressions raises an exception of the type
    [error_type], as [result[0]] does on a result that cannot be subscripted,
    and the handler reads the clock again. *)
Inductive header_step : Type :=
| NoHeaders
| HeadersSet
| HeaderError (error_type : string) (end_time at_update : Py.float).

(** What the decorated function [f] does: it returns a result, at
    [end_time], or it raises an [Exception] of the type [error_type], which
    the handler catches at [end_time]; [at_update] is the reading of the
    clock in the update that follows.  Or the call leaves the [try] block in
    neither way: [f] does not return, or it raises an exception that is not
    an [Exception]. *)
Inductive outcome : Type :=
| Returns (end_time at_update : Py.float) (headers : header_step)
| Raises (error_type : string) (end_time at_update : Py.float)
| Escapes.

(** A call of a decorated function: the method of the request, the first
    reading of the clock, and what the function does. *)
Record call : Type := Call {
  method : string;
  start_time : Py.float;
  run : outcome
}.

(** [(end_time - start_time) * 1000]. *)
Definition duration (start_time end_time : Py.float) : Py.float :=
  Py.fmul (Py.fsub end_time start_time) (Py.float_of_int 1000).

(** [f"{method}:{endpoint}"]. *)
Definition metric_key (endpoint : string) (c : call) : string :=
  method c ++ ":" ++ endpoint.

(** The [try] statement of [decorated_function], on the entry [metrics].
    An exception of the header step is raised inside the [try] block, after
    [update_success_metrics]: the handler then counts the call once more, as
    an error. *)
Definition try_except (metrics : MonitorPerformance.metrics) (c : call)
  : MonitorPerformance.metrics :=
  match run c with
  | Returns end_time at_update headers =>
      let metrics :=
        update_success_metrics metrics (duration (start_time c) end_time) at_update in
      match headers with
      | HeaderError error_type end_time at_update =>
          update_error_metrics metrics (duration (start_time c) end_time) error_type
            at_update
      | NoHeaders | HeadersSet => metrics
      end
  | Raises error_type end_time at_update =>
      update_error_metrics metrics (duration (start_time c) end_time) error_type
        at_update
  | Escapes => metrics
  end.

(** What [decorated_function] of [monitor_performance(f)] does to
    [metrics_storage], for the function named [endpoint].  The entry is
    created before the [try] statement. *)
Definition decorated_function (endpoint : string) (c : call) (metrics_storage : storage)
  : storage :=
  let metric_key := metric_key endpoint c in
  let metrics :=
    match Py.dict_get metric_key metrics_storage with
    | Some metrics => metrics
    | None => initial
    end in
  Py.dict_set metric_key (try_except metrics c) metrics_storage.

(** Whether the decorated call returns the result of [f]; it raises, or does
    not return, otherwise. *)
Definition returns (c : call) : bool :=
  match run c with
  | Returns _ _ (NoHeaders | HeadersSet) => true
  | _ => false
  end.

(** The calls of the decorated functions, one after the other. *)
Definition serve (calls : list (string * call)) (metrics_storage : storage) : storage :=
  fold_left (fun s ec => decorated_function (fst ec) (snd ec) s) calls metrics_storage.

(** The last 1000 elements of a list. *)
Definition rolling_window {A} (l : list A) : list A := skipn (length l - 1000) l.

(** The calls among [calls] that are counted under [key]. *)
Definition counted (key : string) (calls : list (string * call)) : list call :=
  map snd (List.filter (fun ec => String.eqb (metric_key (fst ec) (snd ec)) key) calls).

(** The updates of a call: each adds one to [total_requests]. *)
Definition updates (c : call) : Z :=
  match run c with
  | Returns _ _ (HeaderError _ _ _) => 2
  | Returns _ _ _ => 1
  | Raises _ _ _ => 1
  | Escapes => 0
  end.

(** The updates of a call by [update_error_metrics]. *)
Definition errors (c : call) : Z :=
  match run c with
  | Returns _ _ (HeaderError _ _ _) => 1
  | Returns _ _ _ => 0
  | Raises _ _ _ => 1
  | Escapes => 0
  end.

(** The duration that [update_success_metrics] appends for a call. *)
Definition measured (c : call) : list Py.float :=
  match run c with
  | Returns end_time _ _ => [ duration (start_time c) end_time ]
  | _ => []
  end.

(** The readings of the clock in the updates of a call. *)
Definition readings (c : call) : list Py.float :=
  match run c with
  | Returns _ at_update (HeaderError _ _ at_update') => [ at_update; at_update' ]
  | Returns _ at_update _ => [ at_update ]
  | Raises _ _ at_update => [ at_update ]
  | Escapes => []
  end.

(** What an entry records of the calls [history] counted under its key. *)
Record records (m : metrics) (history : list call) : Prop := Records {
  requests_counted : total_requests m = fold_right Z.add 0%Z (map updates history);
  errors_counted : total_errors m = fold_right Z.add 0%Z (map errors history);
  times_kept : response_times m = rolling_window (flat_map measured history);
  types_counted :
    fold_right Z.add 0%Z (Py.dict_values (error_types m)) = total_errors m;
  last_recorded : last_request m = last (flat_map readings history)
}.

(** An entry has counted as many requests, at least, as it holds response
    times and errors. *)
Definition counts (m : metrics) : Prop :=
  (0 <= total_errors m
   /\ total_errors m + Z.of_nat (length (response_times m)) <= total_requests m)%Z.

(** [a + x] for a sum [a] that is the [int] 0 at first, and a float [x]. *)
Definition add_float (a : Py.value) (x : Py.float) : Py.value :=
  match a with
  | Py.VInt z => Py.VFloat (Py.fadd (Py.float_of_int z) x)
  | Py.VFloat y => Py.VFloat (Py.fadd y x)
  | _ => a
  end.

(** [a / n] for such a sum and an [int] [n] that is not 0. *)
Definition div_int (a : Py.value) (n : Z) : Py.value :=
  match a with
  | Py.VInt z => Py.VFloat (Py.int_truediv z n)
  | Py.VFloat y => Py.VFloat (Py.fdiv y (Py.float_of_int n))
  | _ => a
  end.

(** [a / b] on two [int]s; [None] stands for [ZeroDivisionError]. *)
Definition truediv (a b : Z) : option Py.float :=
  if (b =? 0)%Z then None else Some (Py.int_truediv a b).

(** The loop of [get_health_metrics] over the entries: [recent_errors] and
    [recent_requests] after it. *)
Definition recent (entries : list metrics) : option (Py.value * Z) :=
  fold_left
    (fun acc m =>
       match acc with
       | Some (recent_errors, recent_requests) =>
           match response_times m with
           | [] => Some (recent_errors, recent_requests)
           | _ :: _ =>
               let recent_count := Z.min 100 (Z.of_nat (length (response_times m))) in
               match truediv (total_errors m) (total_requests m) with
               | Some recent_error_rate =>
                   Some (add_float recent_errors
                           (Py.fmul (Py.float_of_int recent_count) recent_error_rate),
                         (recent_requests + recent_count)%Z)
               | None => None
               end
           end
       | None => None
       end)
    entries (Some (Py.VInt 0, 0%Z)).

Section Health.

(** [sum(...)] of floats, from the [int] 0: how it rounds depends on the
    version of the interpreter. *)
Variable fsum : list Py.float -> Py.value.

(** [get_health_metrics]; [now] is what [time.time()] returns in it, and
    [None] stands for [ZeroDivisionError]. *)
Definition get_health_metrics (now : Py.float) (metrics_storage : storage)
  : option (Py.dict Py.value) :=
  let entries := Py.dict_values metrics_storage in
  let total_requests := fold_right Z.add 0%Z (map total_requests entries) in
  let total_errors := fold_right Z.add 0%Z (map total_errors entries) in
  let total_time := fsum (map total_time entries) in
  let avg_response_time :=
    if (0 <? total_requests)%Z then div_int total_time total_requests else Py.VInt 0 in
  match recent entries with
  | Some (recent_errors, recent_requests) =>
      Some
        [ ("total_requests", Py.VInt total_requests);
          ("total_errors", Py.VInt total_errors);
          ("overall_error_rate",
           if (0 <? total_requests)%Z
           then Py.VFloat (Py.int_truediv total_errors total_requests)
           else Py.VInt 0);
          ("avg_response_time_ms", avg_response_time);
          ("recent_error_rate",
           if (0 <? recent_requests)%Z then div_int recent_errors recent_requests
           else Py.VInt 0);
          ("active_endpoints",
           Py.VInt
             (Z.of_nat
                (length
                   (List.filter (fun m => (0 <? MonitorPerformance.total_requests m)%Z)
                      entries))));
          ("timestamp", Py.VFloat now) ]
  | None => None
  end.

End Health.

End MonitorPerformance.

(** ** The routes of [training_bp], with their decorators *)

Module training_bp.

(** What the decorated routes read and write besides the request: the two
    services that [get_services] returns, and the storages of the
    decorators. *)
Record app : Type := App {
  training_svc : TrainingService.t;
  mlflow_svc : MLflowService.t;
  rate_limit_storage : RateLimit.storage;
  metrics_storage : MonitorPerformance.storage
}.

(** A request, and what the call reads of its environment:
    [ENABLE_RATE_LIMITING] of the configuration of the application, the
    result of [get_client_identifier], the readings of the clock in the
    limiter and in the monitor, the environment of the call of the service
    and the one in which the answer reads the clock, and the result of
    [str(uuid.uuid4())]. *)
Record call : Type := Call {
  enable_rate_limiting : bool;
  client_id : string;
  limiter : RateLimit.clock;
  request : ValidateJson.request;
  method : string;
  start_time : Py.float;
  end_time : Py.float;
  at_update : Py.float;
  env : Py.env;
  answered : Py.env;
  uuid4 : string
}.

(** A view function: its answer and what it leaves; [None] where the request
    is outside the typed part of the model. *)
Definition view : Type := call -> app -> option (TrainingController.response * app).

Section Routes.

Variable isoformat : Py.datetime -> string.
Variable str : Py.value -> string.
Variable overflow : Py.dict Py.value -> string.

(** [rate_limit(limit, per_second)(f)], for a function [f] of the name
    [name]. *)
Definition rate_limit (limit per_second : Z) (name : string) (f : view) : view :=
  fun c a =>
    let (answer, storage) :=
      RateLimit.decorated_function limit per_second name (enable_rate_limiting c)
        (client_id c) (limiter c) (rate_limit_storage a) in
    let a := App (training_svc a) (mlflow_svc a) storage (metrics_storage a) in
    match answer with
    | Some answer => Some (answer, a)
    | None => f c a
    end.

(** [validate_json(f)]: the decorator is used without arguments, so that
    [required_fields] is [None] and [max_size] is [1024*1024]. *)
Definition validate_json (f : view) : view :=
  fun c a =>
    match ValidateJson.decorated_function str None (1024 * 1024) (request c) with
    | Some answer => Some (answer, a)
    | None => f c a
    end.

(** [monitor_performance(f)], for a function [f] of the name [name] that
    returns a pair of a response and a status code, as the functions of this
    controller do, which catch every [Exception]: the header step sets the
    two headers of the response, which are not part of
    [TrainingController.response]. *)
Definition monitor_performance (name : string) (f : view) : view :=
  fun c a =>
    match f c a with
    | Some (answer, a) =>
        Some (answer,
              App (training_svc a) (mlflow_svc a) (rate_limit_storage a)
                (MonitorPerformance.decorated_function name
                   (MonitorPerformance.Call (method c) (start_time c)
                      (MonitorPerformance.Returns (end_time c) (at_update c)
                         MonitorPerformance.HeadersSet))
                   (metrics_storage a)))
    | None => None
    end.

(** [request.get_json()] in a view function: where [validate_json] has called
    the function, the body has been parsed and is a dictionary. *)
Definition get_json (c : call) : option (Py.dict Py.value) :=
  match ValidateJson.get_json (request c) with
  | inr (Some json_data) => Some json_data
  | _ => None
  end.

(** The route [POST /train]. *)
Definition train_model : view :=
  rate_limit 5 300 "train_model"
    (validate_json
       (monitor_performance "train_model"
          (fun c a =>
             match get_json c with
             | Some training_request =>
                 match TrainingController.train_model_body isoformat str (env c) (answered c)
                         (uuid4 c) training_request (training_svc a) with
                 | Some (answer, svc) =>
                     Some (answer,
                           App svc (mlflow_svc a) (rate_limit_storage a)
                             (metrics_storage a))
                 | None => None
                 end
             | None => None
             end))).

(** The route [POST /hyperparameter-tuning]. *)
Definition hyperparameter_tuning : view :=
  rate_limit 2 3600 "hyperparameter_tuning"
    (validate_json
       (monitor_performance "hyperparameter_tuning"
          (fun c a =>
             match get_json c with
             | Some tuning_request =>
                 match TrainingController.hyperparameter_tuning_body isoformat overflow (env c)
                         (answered c) (uuid4 c) tuning_request (training_svc a) with
                 | Some (answer, svc) =>
                     Some (answer,
                           App svc (mlflow_svc a) (rate_limit_storage a)
                             (metrics_storage a))
                 | None => None
                 end
             | None => None
             end))).

(** The route [POST /models/register]. *)
Definition register_model : view :=
  rate_limit 10 300 "register_model"
    (validate_json
       (monitor_performance "register_model"
          (fun c a =>
             match get_json c with
             | Some registration_request =>
                 match TrainingController.register_model_body isoformat (env c)
                         (answered c) registration_request (mlflow_svc a) with
                 | Some (answer, svc) =>
                     Some (answer,
                           App (training_svc a) svc (rate_limit_storage a)
                             (metrics_storage a))
                 | None => None
                 end
             | None => None
             end))).

(** A call that the limiter lets through and whose body [validate_json]
    accepts: the two decorators call the function that they wrap. *)
Definition passes (limit per_second : Z) (name : string) (c : call) (a : app) : Prop :=
  fst (RateLimit.decorated_function limit per_second name (enable_rate_limiting c)
         (client_id c) (limiter c) (rate_limit_storage a)) = None
  /\ ValidateJson.decorated_function str None (1024 * 1024) (request c) = None.

End Routes.

End training_bp.

(** ** Concrete requests for the examples *)

Module Requests.

(** [str(value)], for values that no example shows. *)
Definition str (value : Py.value) : string := "...".

(** The text of an [OverflowError], which no example shows. *)
Definition overflow (tuning_request : Py.dict Py.value) : string :=
  "date value out of range".

(** A request with the body [json_data], as a JSON document of 42 bytes. *)
Definition request (json_data : Py.dict Py.value) : ValidateJson.request :=
  ValidateJson.Request true (Py.VStr "application/json") (Some 42%Z)
    (inr (Some json_data)).

(** A call of a route with the method [POST]: every reading of the clock of
    the decorators is 7 seconds, the service runs at 10 and the answer is
    made at 11. *)
Definition post (json_data : Py.dict Py.value) (uuid4 : string) : training_bp.call :=
  let t := Py.float_of_int 7 in
  training_bp.Call true "127.0.0.1" (RateLimit.Clock t t t) (request json_data) "POST"
    t t t (Sample.env 10%Z) (Sample.env 11%Z) uuid4.

(** The application after [initialize_services]: no job, the registry of
    [MLflowService.__init__], and empty storages. *)
Definition app : training_bp.app :=
  training_bp.App (TrainingService.Build [] [] [] 1%Z [])
    (MLflowService.__init__ Sample.isoformat (Sample.env 0%Z) []) [] [].

Definition training_request : Py.dict Py.value :=
  [ ("model_name", Py.VStr "rf"); ("algorithm", Py.VStr "random_forest") ].

Definition registration_request : Py.dict Py.value :=
  [ ("run_id", Py.VStr "run_1"); ("model_name", Py.VStr "fraud_detection_model");
    ("stage", Py.VStr "Staging") ].

End Requests.

(** * Properties *)

Local Open Scope list_scope.

(** ** The definitions on small data *)

Section Examples.

Local Open Scope Z_scope.

(** [0.29 * 100] is just below 29 in binary64, and [int] truncates. *)
Example progress_at_values :
  map TrainingService.progress_at [0; 27; 28; 29; 56; 57; 99]%nat
  = [1; 28; 28; 30; 56; 57; 100].
Proof. vm_compute. reflexivity. Qed.

Example slice_to_negative : Py.slice_to (-1) [1; 2; 3] = [1; 2].
Proof. reflexivity. Qed.

Example sort_desc_stable :
  Py.sort_desc fst [(1, "a"); (2, "b"); (1, "c"); (2, "d")]
  = [(2, "b"); (2, "d"); (1, "a"); (1, "c")].
Proof. reflexivity. Qed.

Example dict_set_keeps_position :
  Py.dict_set "a" 3 [("a", 1); ("b", 2)] = [("a", 3); ("b", 2)]
  /\ Py.dict_set "c" 3 [("a", 1); ("b", 2)] = [("a", 1); ("b", 2); ("c", 3)].
Proof. split; reflexivity. Qed.

(** One job completed out of two finished: the rate is [0.5]. *)
Example success_rate_half :
  TrainingService.success_rate_of [("completed", 1); ("cancelled", 4); ("failed", 1)]
  = Py.VFloat (S754_finite false 4503599627370496 (-53)).
Proof. vm_compute. reflexivity. Qed.

Example success_rate_none_finished :
  TrainingService.success_rate_of [("queued", 2); ("cancelled", 4)] = Py.VInt 0.
Proof. reflexivity. Qed.

End Examples.

(** ** Dictionaries *)

Section DictFacts.

Context {V : Type}.
Implicit Types (d : Py.dict V) (k : string) (v : V).

Lemma dict_get_set_eq k v d : Py.dict_get k (Py.dict_set k v d) = Some v.
Proof.
  induction d as [|[k' v'] d IH]; simpl.
  - by rewrite String.eqb_refl.
  - destruct (String.eqb k k') eqn:E; simpl; rewrite E; [done | apply IH].
Qed.

Lemma dict_get_set_ne k k' v d :
  k <> k' -> Py.dict_get k' (Py.dict_set k v d) = Py.dict_get k' d.
Proof.
  intros Hne. induction d as [|[k0 v0] d IH]; simpl.
  - apply String.eqb_neq in Hne. rewrite String.eqb_sym in Hne. by rewrite Hne.
  - destruct (String.eqb k k0) eqn:E; simpl.
    + apply String.eqb_eq in E. subst k0.
      destruct (String.eqb k' k) eqn:E'; [|done].
      apply String.eqb_eq in E'. congruence.
    + by rewrite IH.
Qed.

Lemma dict_get_set k k' v d :
  Py.dict_get k' (Py.dict_set k v d)
  = if String.eqb k k' then Some v else Py.dict_get k' d.
Proof.
  destruct (String.eqb k k') eqn:E.
  - apply String.eqb_eq in E. subst. apply dict_get_set_eq.
  - apply String.eqb_neq in E. by apply dict_get_set_ne.
Qed.

End DictFacts.

(** ** The facade, call by call *)

Section Facade.

Import TrainingService.

Lemma cancel_true_iff e job_id self :
  fst (cancel_training_job e job_id self) = true
  <-> exists j, get_training_job job_id self = Some j
        /\ (TrainingJob.status j = "queued" \/ TrainingJob.status j = "running").
Proof.
  unfold cancel_training_job, get_training_job, lookup.
  destruct (Py.dict_get job_id (training_jobs self)) as [l|]; simpl.
  - destruct (heap self !! l) as [j|]; simpl.
    + destruct (String.eqb (TrainingJob.status j) "queued") eqn:Eq;
        destruct (String.eqb (TrainingJob.status j) "running") eqn:Er; simpl;
        rewrite ?String.eqb_eq, ?String.eqb_neq in *; split; eauto;
        try (intros (j' & [= <-] & [?|?]); congruence); done.
    + split; [done | by intros (? & ? & _)].
  - split; [done | by intros (? & ? & _)].
Qed.

(** The last request thread runs a statement. *)
Lemma request_step_last e self ws rs pc :
  request_step e (length rs) (System self ws (rs ++ [pc]))
  = match _request e pc self with
    | Some (self1, pc') => Some (System self1 ws (rs ++ [pc']))
    | None => None
    end.
Proof.
  unfold request_step. cbn [requests service workers].
  rewrite lookup_app_r, Nat.sub_diag by done.
  change ([pc] !! 0) with (Some pc). cbv beta iota.
  destruct (_request e pc self) as [[self1 pc']|]; [|done].
  by rewrite insert_app_r_alt, Nat.sub_diag.
Qed.

Lemma finish_returned fuel e self ws rs b :
  finish fuel e (length rs) (System self ws (rs ++ [Returned b]))
  = System self ws (rs ++ [Returned b]).
Proof. destruct fuel; [done|]. cbn [finish]. by rewrite request_step_last. Qed.

Lemma finish_put fuel e self ws rs job_id :
  finish (S fuel) e (length rs) (System self ws (rs ++ [AtPut job_id]))
  = System (put job_id self) ws (rs ++ [Returned None]).
Proof. cbn [finish]. rewrite request_step_last. cbn [_request]. apply finish_returned. Qed.

(** [cancel_training_job] is what its thread does when no other thread
    interrupts it. *)
Lemma cancel_training_job_uninterrupted e job_id s :
  uninterrupted e (Cancel job_id) s
  = Some (System (snd (cancel_training_job e job_id (service s))) (workers s)
            (requests s ++ [Returned (Some (fst (cancel_training_job e job_id (service s))))])).
Proof.
  destruct s as [self ws rs]. unfold uninterrupted, call_step, cancel_training_job.
  cbn [service workers requests]. f_equal.
  cbn [finish]. rewrite request_step_last. cbn [_request].
  destruct (Py.dict_get job_id (training_jobs self)) as [l|];
    [|by rewrite request_step_last].
  rewrite request_step_last. cbn [_request].
  destruct (heap self !! l) as [j|]; [|by rewrite request_step_last].
  destruct (String.eqb (TrainingJob.status j) "queued"
            || String.eqb (TrainingJob.status j) "running");
    [|by rewrite request_step_last].
  rewrite request_step_last. cbn [_request].
  rewrite request_step_last. cbn [_request].
  rewrite request_step_last. cbn [_request]. done.
Qed.

Lemma cancel_stores e job_id self :
  let r := cancel_training_job e job_id self in
  (fst r = true ->
   exists j, get_training_job job_id self = Some j
     /\ get_training_job job_id (snd r)
        = Some (TrainingJob.set_completed_at (Some (Py.now e))
                  (TrainingJob.set_status "cancelled" j)))
  /\ (forall e', fst (cancel_training_job e' job_id (snd r)) = false).
Proof.
  intros r. subst r. unfold cancel_training_job, get_training_job.
  destruct (Py.dict_get job_id (training_jobs self)) as [l|] eqn:El; simpl;
    [|split; [done | intros e'; by rewrite El]].
  destruct (heap self !! l) as [j|] eqn:Ej; simpl;
    [|split; [done | intros e'; by rewrite El, Ej]].
  destruct (String.eqb (TrainingJob.status j) "queued"
            || String.eqb (TrainingJob.status j) "running") eqn:Es; simpl.
  - split.
    + intros _. exists j. split; [unfold lookup; by rewrite El|].
      unfold lookup. cbn [training_jobs with_running_jobs assign with_heap heap snd].
      rewrite El. by rewrite !list_lookup_alter_eq, Ej.
    + intros e'. cbn [training_jobs with_running_jobs assign with_heap heap].
      rewrite El. by rewrite !list_lookup_alter_eq, Ej.
  - split; [done|]. intros e'. by rewrite El, Ej, Es.
Qed.

(** One call of [cancel_training_job], as its thread executes it when no
    other thread runs a statement in between: it returns [True] exactly when
    the job exists and is queued or running; it then stores the status
    [cancelled] and the current time as [completed_at]; and a second call on
    the state that the first has left returns [False]. *)
Theorem cancel_training_job_spec (e : Py.env) (job_id : string) (self : TrainingService.t) :
  let r := cancel_training_job e job_id self in
  (fst r = true
   <-> exists j, get_training_job job_id self = Some j
         /\ (TrainingJob.status j = "queued" \/ TrainingJob.status j = "running"))
  /\ (fst r = true ->
      exists j, get_training_job job_id self = Some j
        /\ get_training_job job_id (snd r)
           = Some (TrainingJob.set_completed_at (Some (Py.now e))
                     (TrainingJob.set_status "cancelled" j)))
  /\ (forall e', fst (cancel_training_job e' job_id (snd r)) = false)
  /\ (forall ws rs,
        uninterrupted e (Cancel job_id) (System self ws rs)
        = Some (System (snd r) ws (rs ++ [Returned (Some (fst r))]))).
Proof.
  intros r. destruct (cancel_stores e job_id self) as [Hstores Hagain].
  split; [apply cancel_true_iff|]. split; [exact Hstores|]. split; [exact Hagain|].
  intros ws rs. apply (cancel_training_job_uninterrupted e job_id (System self ws rs)).
Qed.

Lemma init_no_kwargs e job_id model_name algorithm config status started_at
    completed_at created_by job_type :
  TrainingJob.__init__ e job_id model_name algorithm config status started_at
    completed_at created_by job_type []
  = Ok (TrainingJob.Build job_id model_name algorithm config status
          (match started_at with Some d => d | None => Py.now e end)
          completed_at created_by job_type 0 [] [] None None None None None []).
Proof. reflexivity. Qed.

Lemma heap_after_alloc (j : TrainingJob.t) (h : list TrainingJob.t) :
  (h ++ [j]) !! length h = Some j.
Proof. by rewrite lookup_app_r, Nat.sub_diag. Qed.

Lemma lookup_after_store job_id j self :
  lookup job_id (put job_id (snd (store job_id j self))) = Some j.
Proof.
  unfold lookup, put, store.
  cbn [alloc snd training_jobs with_job_queue with_training_jobs heap with_heap].
  rewrite dict_get_set_eq. apply heap_after_alloc.
Qed.

(** The objects the two submissions create. *)
Lemma new_training_job_queued e job_id config :
  exists j, new_training_job e job_id config = Ok j
    /\ TrainingJob.job_id j = job_id /\ TrainingJob.status j = "queued"
    /\ TrainingJob.progress j = 0%Z /\ TrainingJob.final_metrics j = [].
Proof. unfold new_training_job. rewrite init_no_kwargs. by eexists. Qed.

Lemma new_tuning_job_queued e job_id request j :
  new_tuning_job e job_id request = Ok j ->
  TrainingJob.job_id j = job_id /\ TrainingJob.status j = "queued"
  /\ TrainingJob.progress j = 0%Z /\ TrainingJob.final_metrics j = [].
Proof.
  unfold new_tuning_job.
  destruct (subscript "model_name" request) as [v1|]; cbn [bind]; [|done].
  destruct (TrainingJob.as_str "model_name" v1) as [m|]; cbn [bind]; [|done].
  destruct (subscript "algorithm" request) as [v2|]; cbn [bind]; [|done].
  destruct (TrainingJob.as_str "algorithm" v2) as [a|]; cbn [bind]; [|done].
  rewrite init_no_kwargs. cbn [bind].
  destruct (TrainingJob.as_opt_str _ _) as [strategy|]; cbn [bind]; [|done].
  destruct (TrainingJob.as_int _ _) as [n|]; cbn [bind]; [|done].
  by intros [= <-].
Qed.

(** C7. [start_training] and [start_hyperparameter_tuning] create a record
    with status [queued] and progress 0, store it under the job id and push
    the id onto the queue; the call returns after these statements of its own
    thread, without a statement of a worker, and [get_training_job] right
    after it returns that record. *)
Theorem start_training_queued (e : Py.env) (job_id : string) :
  (forall config s, exists l self' j,
      start_training e job_id config (service s) = Ok (l, self')
      /\ uninterrupted e (StartTraining job_id config) s
         = Some (System self' (workers s) (requests s ++ [Returned None]))
      /\ job_queue self' = job_queue (service s) ++ [job_id]
      /\ get_training_job job_id self' = Some j
      /\ heap self' !! l = Some j
      /\ TrainingJob.job_id j = job_id
      /\ TrainingJob.status j = "queued"
      /\ TrainingJob.progress j = 0%Z)
  /\ (forall request s l self',
      start_hyperparameter_tuning e job_id request (service s) = Ok (l, self') ->
      exists j,
        uninterrupted e (StartTuning job_id request) s
        = Some (System self' (workers s) (requests s ++ [Returned None]))
        /\ job_queue self' = job_queue (service s) ++ [job_id]
        /\ get_training_job job_id self' = Some j
        /\ heap self' !! l = Some j
        /\ TrainingJob.job_id j = job_id
        /\ TrainingJob.status j = "queued"
        /\ TrainingJob.progress j = 0%Z).
Proof.
  split.
  - intros config s.
    destruct (new_training_job_queued e job_id config) as (j & Hnew & Hid & Hst & Hpr & _).
    exists (length (heap (service s))), (put job_id (snd (store job_id j (service s)))), j.
    unfold start_training, uninterrupted, call_step. rewrite Hnew. cbn [bind].
    split; [reflexivity|]. split; [by rewrite finish_put|]. split; [reflexivity|].
    split; [apply lookup_after_store|]. split; [apply heap_after_alloc|]. done.
  - intros request s l self'. unfold start_hyperparameter_tuning, uninterrupted, call_step.
    destruct (new_tuning_job e job_id request) as [j|] eqn:Hnew; cbn [bind]; [|done].
    destruct (new_tuning_job_queued _ _ _ _ Hnew) as (Hid & Hst & Hpr & _).
    intros [= <- <-]. exists j.
    split; [by rewrite finish_put|]. split; [reflexivity|].
    split; [apply lookup_after_store|]. split; [apply heap_after_alloc|]. done.
Qed.

End Facade.

(** ** Statistics *)

Section Statistics.

Import TrainingService Notions.

Lemma count_status_cons status j all :
  count_status status (j :: all)
  = ((if String.eqb (TrainingJob.status j) status then 1 else 0)
     + count_status status all)%Z.
Proof.
  unfold count_status; simpl.
  destruct (String.eqb (TrainingJob.status j) status); simpl; lia.
Qed.

Lemma count_status_nonneg status all : (0 <= count_status status all)%Z.
Proof. unfold count_status. lia. Qed.

Lemma count_statuses_from status all acc :
  Py.dict_get_default status 0%Z
    (fold_left
       (fun status_counts job =>
          Py.dict_set (TrainingJob.status job)
            (Py.dict_get_default (TrainingJob.status job) 0%Z status_counts + 1)%Z
            status_counts)
       all acc)
  = (Py.dict_get_default status 0%Z acc + count_status status all)%Z.
Proof.
  revert acc. induction all as [|j all IH]; intros acc.
  - unfold count_status; simpl. lia.
  - cbn [fold_left]. rewrite IH, count_status_cons.
    unfold Py.dict_get_default at 1. rewrite dict_get_set.
    destruct (String.eqb (TrainingJob.status j) status) eqn:E.
    + apply String.eqb_eq in E. subst status. lia.
    + fold (Py.dict_get_default status 0%Z acc). lia.
Qed.

Lemma count_statuses_get status all :
  Py.dict_get_default status 0%Z (count_statuses all) = count_status status all.
Proof. unfold count_statuses. by rewrite count_statuses_from. Qed.

Lemma count_status_finished status all :
  status = "completed" \/ status = "failed" ->
  count_status status (List.filter finished all) = count_status status all.
Proof.
  intros Hs. induction all as [|j all IH]; [done|].
  cbn [List.filter]. rewrite count_status_cons.
  destruct (finished j) eqn:Ef.
  - rewrite count_status_cons. lia.
  - rewrite IH. unfold finished in Ef. apply orb_false_iff in Ef as [E1 E2].
    destruct Hs as [-> | ->]; [rewrite E1 | rewrite E2]; lia.
Qed.

(** C8. The success rate of [get_training_statistics] is the number of
    completed jobs divided by the number of completed and failed jobs, and 0
    when there is none of either; the jobs of any other status play no part:
    the rate is the one of the completed and failed jobs alone. *)
Theorem success_rate_spec (e : Py.env) (self : TrainingService.t) :
  let completed := count_status "completed" (jobs self) in
  let failed := count_status "failed" (jobs self) in
  success_rate (get_training_statistics e self)
  = (if (completed + failed =? 0)%Z then Py.VInt 0
     else Py.VFloat (Py.int_truediv completed (completed + failed)))
  /\ success_rate (get_training_statistics e self)
     = success_rate_of (count_statuses (List.filter finished (jobs self))).
Proof.
  intros completed failed.
  assert (Hrate : forall all,
    success_rate_of (count_statuses all)
    = (if (count_status "completed" all + count_status "failed" all =? 0)%Z
       then Py.VInt 0
       else Py.VFloat
              (Py.int_truediv (count_status "completed" all)
                 (count_status "completed" all + count_status "failed" all)))).
  { intros all. unfold success_rate_of. rewrite !count_statuses_get.
    pose proof (count_status_nonneg "completed" all).
    pose proof (count_status_nonneg "failed" all).
    destruct (Z.ltb_spec 0 (count_status "completed" all + count_status "failed" all));
      destruct (Z.eqb_spec (count_status "completed" all + count_status "failed" all) 0);
      (done || lia). }
  cbn [get_training_statistics success_rate]. split.
  - apply Hrate.
  - rewrite !Hrate, !count_status_finished by auto. done.
Qed.

End Statistics.

(** ** Serialization of a job *)

Section RoundTrip.

Import TrainingJob.

Variable isoformat : Py.datetime -> string.
Variable fromisoformat : string -> option Py.datetime.

(** The standard library documents [fromisoformat] as the inverse of
    [isoformat]. *)
Hypothesis fromisoformat_isoformat : forall d, fromisoformat (isoformat d) = Some d.

Lemma from_dict_to_dict e (j : TrainingJob.t) :
  from_dict fromisoformat e (to_dict isoformat j)
  = Ok (Build (job_id j) (model_name j) (algorithm j) (config j) (status j)
          (started_at j) (completed_at j) (created_by j) (job_type j) (progress j)
          (current_metrics j) (final_metrics j) (model_path j) (error_message j)
          (tuning_strategy j) (max_trials j) (estimated_completion j) []).
Proof using fromisoformat_isoformat.
  destruct j as [a1 a2 a3 a4 a5 a6 a7 a8 a9 a10 a11 a12 a13 a14 a15 a16 a17 a18].
  unfold from_dict, to_dict, parse_datetime_field; cbn.
  rewrite fromisoformat_isoformat; cbn.
  destruct a7 as [d7|]; cbn; rewrite ?fromisoformat_isoformat; cbn;
    destruct a17 as [d17|]; cbn; rewrite ?fromisoformat_isoformat; cbn;
    destruct a13, a14, a15, a16; reflexivity.
Qed.

(** C10. [from_dict (to_dict job)] returns a job, and every attribute that
    [to_dict] serializes has in it the value it has in [job]. *)
Theorem from_dict_to_dict_roundtrip (e : Py.env) (job : TrainingJob.t) :
  exists job', from_dict fromisoformat e (to_dict isoformat job) = Ok job'
    /\ same_serialized_fields job' job.
Proof using fromisoformat_isoformat.
  eexists. split; [apply from_dict_to_dict|].
  repeat split.
Qed.

End RoundTrip.

(** ** Runs of one job on a pool of one worker *)

Section Runs.

Import TrainingService.

Local Open Scope Z_scope.

(** A worker executes 313 statements on a job: 3 up to the lookup, 3 before
    the training loop, 3 in each of its 100 iterations, 5 on completion, then
    [finally] and [task_done]. *)
Example run_to_completion :
  let s := Sample.after 1 (Sample.submitted ++ Sample.worker_runs 0 20 313) in
  Sample.observe TrainingJob.status "job-1" s = Some "completed"
  /\ option_map workers s = Some [AtGet].
Proof. vm_compute. done. Qed.

(** C1. A job is submitted and cancelled while it is queued; [cancel] returns
    [True] and the status is [cancelled].  The worker that dequeues the id
    does not skip it: four statements later the status is [running], and at
    the end of the run it is [completed]. *)
Theorem cancelled_while_queued_is_executed :
  let cancelled := Sample.submitted ++ Sample.cancel 11 in
  Sample.returned 1 (Sample.after 1 cancelled) = Some (Returned (Some true))
  /\ Sample.observe TrainingJob.status "job-1" (Sample.after 1 cancelled)
     = Some "cancelled"
  /\ Sample.observe TrainingJob.status "job-1"
       (Sample.after 1 (cancelled ++ Sample.worker_runs 0 20 4))
     = Some "running"
  /\ Sample.observe TrainingJob.status "job-1"
       (Sample.after 1 (cancelled ++ Sample.worker_runs 0 20 313))
     = Some "completed".
Proof. repeat split; vm_compute; reflexivity. Qed.

(** C2. A job is cancelled while it runs, after 48 training steps; [cancel]
    returns [True] and the status is [cancelled].  The executor does not look
    at the status: its next step raises the progress to 49, it runs the
    remaining steps, and its completion overwrites the status with
    [completed]. *)
Theorem cancelled_while_running_is_completed :
  let running := Sample.submitted ++ Sample.worker_runs 0 20 150 in
  let cancelled := running ++ Sample.cancel 500 in
  Sample.observe TrainingJob.status "job-1" (Sample.after 1 running) = Some "running"
  /\ Sample.observe TrainingJob.progress "job-1" (Sample.after 1 running) = Some 48
  /\ Sample.returned 1 (Sample.after 1 cancelled) = Some (Returned (Some true))
  /\ Sample.observe TrainingJob.status "job-1" (Sample.after 1 cancelled)
     = Some "cancelled"
  /\ Sample.observe TrainingJob.status "job-1"
       (Sample.after 1 (cancelled ++ Sample.worker_runs 0 600 3))
     = Some "cancelled"
  /\ Sample.observe TrainingJob.progress "job-1"
       (Sample.after 1 (cancelled ++ Sample.worker_runs 0 600 3))
     = Some 49
  /\ Sample.observe TrainingJob.status "job-1"
       (Sample.after 1 (cancelled ++ Sample.worker_runs 0 600 163))
     = Some "completed"
  /\ Sample.observe TrainingJob.progress "job-1"
       (Sample.after 1 (cancelled ++ Sample.worker_runs 0 600 163))
     = Some 100.
Proof. repeat split; vm_compute; reflexivity. Qed.

(** The test and the assignments of [cancel_training_job] are separate
    statements.  A thread of it that has read the status [running] may go on
    after the worker has completed the job: the call returns [True], and the
    completed job becomes [cancelled]. *)
Example cancel_after_completion :
  let tested :=
    Sample.submitted ++ Sample.worker_runs 0 20 306
    ++ Sample.calls 500 (Cancel "job-1") 1 2 in
  let completed := tested ++ Sample.worker_runs 0 600 7 in
  let returned := completed ++ replicate 3 (700, Request 1) in
  Sample.observe TrainingJob.status "job-1" (Sample.after 1 tested) = Some "running"
  /\ Sample.returned 1 (Sample.after 1 tested) = Some (AtCancelStatus "job-1" 0%nat)
  /\ Sample.observe TrainingJob.status "job-1" (Sample.after 1 completed)
     = Some "completed"
  /\ Sample.returned 1 (Sample.after 1 returned) = Some (Returned (Some true))
  /\ Sample.observe TrainingJob.status "job-1" (Sample.after 1 returned)
     = Some "cancelled"
  /\ Sample.observe TrainingJob.progress "job-1" (Sample.after 1 returned) = Some 100.
Proof. repeat split; vm_compute; reflexivity. Qed.

(** C5. A job is submitted and cancelled while it is queued: the first call
    of [cancel_training_job] returns [True] and the status is [cancelled].
    The worker then takes the id from the queue and sets the cancelled job
    [running]; a second call of [cancel_training_job] on the same id returns
    [True] as well, not [False], and cancels the job once more. *)
Example cancel_twice_around_a_worker :
  let once := Sample.submitted ++ Sample.cancel 11 in
  let taken := once ++ Sample.worker_runs 0 20 4 in
  let twice := taken ++ Sample.calls 30 (Cancel "job-1") 2 5 in
  Sample.returned 1 (Sample.after 1 once) = Some (Returned (Some true))
  /\ Sample.observe TrainingJob.status "job-1" (Sample.after 1 once) = Some "cancelled"
  /\ Sample.observe TrainingJob.status "job-1" (Sample.after 1 taken) = Some "running"
  /\ Sample.returned 1 (Sample.after 1 twice) = Some (Returned (Some true))
  /\ Sample.returned 2 (Sample.after 1 twice) = Some (Returned (Some true))
  /\ Sample.observe TrainingJob.status "job-1" (Sample.after 1 twice) = Some "cancelled".
Proof. repeat split; vm_compute; reflexivity. Qed.

(** C3. A job runs to completion: its status is [completed], its progress is
    100 and its model path is set, but [final_metrics] is still the empty
    dictionary; the executor has stored the metrics in an attribute [metrics]
    that [to_dict] does not serialize. *)
Theorem completed_job_has_empty_final_metrics :
  let s := Sample.after 1 (Sample.submitted ++ Sample.worker_runs 0 20 313) in
  Sample.observe TrainingJob.status "job-1" s = Some "completed"
  /\ Sample.observe TrainingJob.progress "job-1" s = Some 100
  /\ Sample.observe TrainingJob.model_path "job-1" s = Some (Some "models/rf_job-1")
  /\ Sample.observe TrainingJob.final_metrics "job-1" s = Some []
  /\ Sample.observe (fun j => Py.dict_keys (TrainingJob.attrs j)) "job-1" s
     = Some ["metrics"]
  /\ Sample.observe
       (fun j => Py.dict_get "final_metrics" (TrainingJob.to_dict Sample.isoformat j))
       "job-1" s
     = Some (Some (Py.VDict [])).
Proof. repeat split; vm_compute; reflexivity. Qed.

End Runs.

(** ** [final_metrics] in every state *)

Section FinalMetrics.

Import TrainingService.

Lemma Forall_assign {A} (P : A -> Prop) (f : A -> A) (l : nat) (h : list A) :
  (forall x, P x -> P (f x)) -> Forall P h -> Forall P (alter f l h).
Proof. intros Hf Hh. apply Forall_alter; auto. Qed.

(** No statement of the service assigns [final_metrics]. *)
Lemma step_final_metrics s s' :
  step s s' ->
  Forall (fun j => TrainingJob.final_metrics j = []) (heap (service s)) ->
  Forall (fun j => TrainingJob.final_metrics j = []) (heap (service s')).
Proof.
  intros [e ev _ Hrun] Hall. destruct s as [self ws rs]. cbn [service] in *.
  destruct ev as [i | r | c]; cbn [run_event] in Hrun.
  - unfold worker_step in Hrun. cbn [workers service] in Hrun.
    destruct (ws !! i) as [pc|]; [|done].
    destruct pc as [| id | id p |]; cbn in Hrun.
    + destruct (job_queue self); by injection Hrun as <-.
    + destruct (Py.dict_contains id (training_jobs self)); by injection Hrun as <-.
    + destruct p as [| job | job | job | job [k | k | k] | job | job | job | job | job
                     | job msg | job msg | job |]; cbn in Hrun;
        try (destruct (Py.dict_get id (training_jobs self)));
        try (destruct (Z.of_nat k `mod` 10 =? 0)%Z);
        injection Hrun as <-; cbn; try done; by apply Forall_assign.
    + by injection Hrun as <-.
  - unfold request_step in Hrun. cbn [requests service workers] in Hrun.
    destruct (rs !! r) as [pc|]; [|done].
    destruct pc as [id | id | id job | id job | id job | id | b]; cbn in Hrun;
      try (destruct (Py.dict_get id (training_jobs self)));
      try (destruct (heap self !! job)); try (destruct (_ || _));
      try done; injection Hrun as <-; cbn; try done; by apply Forall_assign.
  - destruct c as [job_id config | job_id request | job_id]; cbn [call_step] in Hrun.
    + destruct (new_training_job_queued e job_id config) as (j & Hnew & _ & _ & _ & Hfm).
      rewrite Hnew in Hrun.
      injection Hrun as <-. cbn. apply Forall_app. by split; [|repeat constructor].
    + destruct (new_tuning_job e job_id request) as [j|] eqn:Hnew; [|done].
      destruct (new_tuning_job_queued _ _ _ _ Hnew) as (_ & _ & _ & Hfm).
      injection Hrun as <-. cbn. apply Forall_app. by split; [|repeat constructor].
    + by injection Hrun as <-.
Qed.

Lemma final_metrics_stay_empty config s0 s job_id j :
  __init__ config = Ok s0 -> reachable s0 s ->
  get_training_job job_id (service s) = Some j ->
  TrainingJob.final_metrics j = [].
Proof.
  intros Hinit Hr.
  assert (Hall : Forall (fun j => TrainingJob.final_metrics j = []) (heap (service s))).
  { induction Hr as [|s s' _ IH Hstep]; [|by apply (step_final_metrics s s')].
    revert Hinit. unfold __init__. destruct (TrainingJob.as_int _ _); [|done].
    cbn. by intros [= <-]. }
  unfold get_training_job, lookup. destruct (Py.dict_get job_id _) as [l|]; [|done].
  intros Hj. rewrite Forall_lookup in Hall. by apply (Hall l).
Qed.

End FinalMetrics.

(** ** Listing the jobs *)

Section Sorting.

Context {A : Type} (key : A -> Z).

Local Abbreviation sorted := (StronglySorted (Notions.newer_or_equal key)).

Lemma insert_desc_Forall (P : A -> Prop) x l :
  P x -> Forall P l -> Forall P (Py.insert_desc key x l).
Proof.
  intros Hx Hl. induction Hl as [|y l Hy Hl IH]; simpl; [by repeat constructor|].
  destruct (key x <? key y)%Z; repeat constructor; auto.
Qed.

Lemma insert_desc_sorted x l :
  sorted l ->
  sorted (Py.insert_desc key x l).
Proof.
  induction 1 as [|y l Hs IH Hy]; simpl; [by repeat constructor|].
  destruct (Z.ltb_spec (key x) (key y)).
  - constructor; [done|].
    apply insert_desc_Forall; [unfold Notions.newer_or_equal; lia | done].
  - constructor; [by constructor|]. constructor; [unfold Notions.newer_or_equal; lia|].
    eapply Forall_impl; [exact Hy|]. unfold Notions.newer_or_equal.
    intros z Hz. simpl in *. lia.
Qed.

Lemma sort_desc_sorted l : sorted (Py.sort_desc key l).
Proof. induction l; simpl; [constructor | by apply insert_desc_sorted]. Qed.

Lemma sort_desc_Forall (P : A -> Prop) l : Forall P l -> Forall P (Py.sort_desc key l).
Proof. induction 1; simpl; [constructor | by apply insert_desc_Forall]. Qed.

Lemma firstn_sorted n l :
  sorted l -> sorted (firstn n l).
Proof.
  intros Hs. revert n. induction Hs as [|y l Hs IH Hy]; intros [|n]; simpl; try constructor.
  - apply IH.
  - by apply Forall_take.
Qed.

Lemma slice_to_sorted n l :
  sorted l -> sorted (Py.slice_to n l).
Proof. unfold Py.slice_to. destruct (0 <=? n)%Z; apply firstn_sorted. Qed.

Lemma slice_to_Forall (P : A -> Prop) n l : Forall P l -> Forall P (Py.slice_to n l).
Proof. unfold Py.slice_to. destruct (0 <=? n)%Z; apply Forall_take. Qed.

Lemma slice_to_length n (l : list A) :
  (0 <= n)%Z -> length (Py.slice_to n l) <= Z.to_nat n.
Proof.
  intros Hn. unfold Py.slice_to. destruct (Z.leb_spec 0 n); [|lia].
  rewrite length_take. lia.
Qed.

End Sorting.

(** What [list_training_jobs] of the service returns when it is called with
    its own parameters: jobs of the store, newest first, of the wanted status
    when one is given, and no more than [limit] of them. *)
Lemma list_training_jobs_newest_first limit status self :
  let listed := TrainingService.list_training_jobs limit status self in
  StronglySorted (Notions.newer_or_equal TrainingJob.started_at) listed
  /\ Forall (fun j => In j (TrainingService.jobs self)) listed
  /\ (forall wanted, status = Some wanted -> wanted <> EmptyString ->
      Forall (fun j => TrainingJob.status j = wanted) listed)
  /\ ((0 <= limit)%Z -> length listed <= Z.to_nat limit).
Proof.
  unfold TrainingService.list_training_jobs. cbn zeta.
  split; [apply slice_to_sorted, sort_desc_sorted|].
  split; [|split; [|apply slice_to_length]].
  - apply slice_to_Forall, sort_desc_Forall.
    destruct (TrainingService.truthy status).
    + apply List.Forall_forall. intros j Hj. by apply List.filter_In in Hj as [Hj _].
    + by apply List.Forall_forall.
  - intros wanted -> Hne. apply slice_to_Forall, sort_desc_Forall.
    simpl. apply String.eqb_neq in Hne. rewrite Hne. simpl.
    apply List.Forall_forall. intros j Hj. apply List.filter_In in Hj as [_ Hj].
    by apply String.eqb_eq.
Qed.

(** ** The route [GET /jobs] *)

Section ListRoute.

Import TrainingService.

Lemma list_training_jobs_call_offset status limit offset self :
  list_training_jobs_call
    [ ("status", status); ("limit", limit); ("offset", offset) ] self
  = Raise (unexpected_keyword "offset").
Proof. reflexivity. Qed.

(** C4. [list_training_jobs] of the service has the parameters [limit] and
    [status] only; the route calls it with a keyword [offset], the call raises
    [TypeError], and the route answers 500 whatever the store holds and
    whatever the query asks: no record is listed, skipped or counted. *)
Theorem list_route_always_fails (isoformat : Py.datetime -> string)
    (parse_int : string -> option Z) (e : Py.env) (args : Py.dict string)
    (training_svc : TrainingService.t) :
  TrainingController.status_code
    (TrainingController.list_training_jobs isoformat parse_int e args training_svc)
  = 500%Z.
Proof.
  unfold TrainingController.list_training_jobs.
  destruct (TrainingController.int_arg parse_int "limit" 50 args) as [limit|]; [|done].
  cbn [bind].
  destruct (TrainingController.int_arg parse_int "offset" 0 args) as [offset|]; [|done].
  cbn [bind]. by rewrite list_training_jobs_call_offset.
Qed.

End ListRoute.

(** ** The invariant is kept by every transition *)

(** Facts about a job at a program point, by unfolding and arithmetic. *)
Ltac job_facts :=
  unfold Invariant.job_of, Invariant.job_at, Invariant.not_started,
    Invariant.started, Invariant.is_done, Invariant.evolves,
    TrainingService.total_steps, compose in *;
  cbn [TrainingJob.set_status TrainingJob.set_started_at TrainingJob.set_completed_at
       TrainingJob.set_progress TrainingJob.set_current_metrics
       TrainingJob.set_model_path TrainingJob.set_attr TrainingJob.set_error_message
       TrainingJob.status TrainingJob.progress TrainingJob.job_id
       Invariant.progress_after] in *;
  solve [intuition (try congruence; try lia; auto)].

Section SystemInvariant.

Import TrainingService Invariant.

Implicit Types (h : list TrainingJob.t) (st : Py.dict loc) (q : list string)
  (ws : list worker_pc) (rs : list request_pc) (j : TrainingJob.t) (l : nat).

Lemma dict_set_fresh {V} (k : string) (v : V) (d : Py.dict V) :
  Py.dict_get k d = None -> Py.dict_set k v d = d ++ [(k, v)].
Proof.
  induction d as [|[k' v'] d IH]; simpl; [done|].
  destruct (String.eqb k k'); [done|]. intros H. by rewrite IH.
Qed.

Lemma alter_as_insert {A} (f : A -> A) (l : nat) (h : list A) (x : A) :
  h !! l = Some x -> alter f l h = <[l:=f x]> h.
Proof.
  revert l. induction h as [|y h IH]; intros [|l]; simpl; try done.
  - by intros [= ->].
  - intros H. f_equal. by apply IH.
Qed.

Lemma alter_out_of_range {A} (f : A -> A) (l : nat) (h : list A) :
  h !! l = None -> alter f l h = h.
Proof.
  revert l. induction h as [|y h IH]; intros [|l]; simpl; try done.
  intros H. f_equal. by apply IH.
Qed.

Lemma holds_on_init n : holds_on [] [] [] (replicate n AtGet) [].
Proof.
  split; try done.
  - constructor.
  - intros id Hin. by apply elem_of_nil in Hin.
  - intros i pc id Hpc. apply lookup_replicate in Hpc as [-> _]. done.
  - intros i i' pc pc' id Hpc. apply lookup_replicate in Hpc as [-> _]. done.
  - intros i pc id Hpc. apply lookup_replicate in Hpc as [-> _]. done.
Qed.

(** A new object is stored under a fresh id; its thread goes on to put the
    id on the queue. *)
Lemma holds_on_store h st q ws rs id j0 :
  holds_on h st q ws rs ->
  Py.dict_get id st = None ->
  TrainingJob.job_id j0 = id -> not_started j0 ->
  holds_on (h ++ [j0]) (Py.dict_set id (length h) st) q ws (rs ++ [AtPut id]).
Proof.
  intros [I1 I2 I3 I4 I5 I6 I7 I8 P1 P2 P3 P4 I9] Hfresh Hid Hns.
  split.
  - intros l j Hl. apply lookup_app_Some in Hl as [Hl | [Hge Hl]].
    + pose proof (I1 _ _ Hl) as Hst. rewrite dict_get_set_ne; [done|].
      intros ->. congruence.
    + apply list_lookup_singleton_Some in Hl as [Hl Hj]. subst j id.
      rewrite dict_get_set_eq. f_equal. lia.
  - intros id' l. rewrite dict_get_set.
    destruct (String.eqb id id') eqn:E.
    + apply String.eqb_eq in E. subst id'. intros [= <-].
      exists j0. split; [|done]. by rewrite lookup_app_r, Nat.sub_diag.
    + intros Hl. destruct (I2 _ _ Hl) as (j & Hj & Hjid).
      exists j. split; [|done]. by apply lookup_app_l_Some.
  - rewrite dict_set_fresh by done. unfold Py.dict_values in *.
    rewrite map_app, I3, length_app. simpl. by rewrite Nat.add_1_r, seq_S.
  - exact I4.
  - intros id' Hin. destruct (I5 _ Hin) as (l & j & Hl & Hj & Hn).
    exists l, j. split; [|split; [by apply lookup_app_l_Some | done]].
    rewrite dict_get_set_ne; [done|]. intros ->. congruence.
  - exact I6.
  - exact I7.
  - intros i pc id' Hpc Hh. destruct (I8 _ _ _ Hpc Hh) as (l & j & Hl & Hj & Hjob).
    exists l, j. split; [|split; [by apply lookup_app_l_Some | done]].
    rewrite dict_get_set_ne; [done|]. intros ->. congruence.
  - intros r id' Hr Hin. apply lookup_app_Some in Hr as [Hr | [_ Hr]].
    + exact (P1 _ _ Hr Hin).
    + apply list_lookup_singleton_Some in Hr as [_ [= <-]].
      destruct (I5 _ Hin) as (l & j & Hl & _). congruence.
  - intros r id' i pc Hr Hpc Hh. apply lookup_app_Some in Hr as [Hr | [_ Hr]].
    + exact (P2 _ _ _ _ Hr Hpc Hh).
    + apply list_lookup_singleton_Some in Hr as [_ [= <-]].
      destruct (I8 _ _ _ Hpc Hh) as (l & j & Hl & _). congruence.
  - intros r r' id' Hr Hr'.
    apply lookup_app_Some in Hr as [Hr | [Hge Hr]];
      apply lookup_app_Some in Hr' as [Hr' | [Hge' Hr']].
    + exact (P3 _ _ _ Hr Hr').
    + apply list_lookup_singleton_Some in Hr' as [_ [= <-]].
      destruct (P4 _ _ Hr) as (l & j & Hl & _). congruence.
    + apply list_lookup_singleton_Some in Hr as [_ [= <-]].
      destruct (P4 _ _ Hr') as (l & j & Hl & _). congruence.
    + apply list_lookup_singleton_Some in Hr as [Hr _].
      apply list_lookup_singleton_Some in Hr' as [Hr' _]. lia.
  - intros r id' Hr. apply lookup_app_Some in Hr as [Hr | [_ Hr]].
    + destruct (P4 _ _ Hr) as (l & j & Hl & Hj & Hn).
      exists l, j. split; [|split; [by apply lookup_app_l_Some | done]].
      rewrite dict_get_set_ne; [done|]. intros ->. congruence.
    + apply list_lookup_singleton_Some in Hr as [_ [= <-]].
      exists (length h), j0. rewrite dict_get_set_eq.
      split; [done|]. split; [|done]. by rewrite lookup_app_r, Nat.sub_diag.
  - intros l j Hl. apply lookup_app_Some in Hl as [Hl | [Hge Hl]].
    + destruct (I9 _ _ Hl) as [(r & Hr) | [Hin | [Hw | Hd]]];
        [left | right; by left | right; right; by left | right; right; by right].
      exists r. by apply lookup_app_l_Some.
    + apply list_lookup_singleton_Some in Hl as [Hl Hj]. subst j id. left.
      exists (length rs). by rewrite lookup_app_r, Nat.sub_diag.
Qed.

(** The thread of a submission puts its id on the queue and returns. *)
Lemma holds_on_put h st q ws rs r id :
  holds_on h st q ws rs ->
  rs !! r = Some (AtPut id) ->
  holds_on h st (q ++ [id]) ws (<[r:=Returned None]> rs).
Proof.
  intros [I1 I2 I3 I4 I5 I6 I7 I8 P1 P2 P3 P4 I9] Hr.
  assert (Hold : forall r' id', <[r:=Returned None]> rs !! r' = Some (AtPut id') ->
                   r' <> r /\ rs !! r' = Some (AtPut id')).
  { intros r' id' H.
    apply list_lookup_insert_Some in H as [(_ & H & _) | (Hne & H)]; [done|].
    split; [congruence | done]. }
  split; try done.
  - apply NoDup_app. split; [done|]. split; [|apply NoDup_singleton].
    intros x Hx Hx'. apply list_elem_of_singleton in Hx'. subst x.
    exact (P1 _ _ Hr Hx).
  - intros id' Hin. apply elem_of_app in Hin as [Hin | Hin]; [by apply I5|].
    apply list_elem_of_singleton in Hin. subst id'. exact (P4 _ _ Hr).
  - intros i pc id' Hpc Hh Hin.
    apply elem_of_app in Hin as [Hin | Hin]; [exact (I6 _ _ _ Hpc Hh Hin)|].
    apply list_elem_of_singleton in Hin. subst id'. exact (P2 _ _ _ _ Hr Hpc Hh).
  - intros r' id' H Hin. apply Hold in H as [Hne H].
    apply elem_of_app in Hin as [Hin | Hin]; [exact (P1 _ _ H Hin)|].
    apply list_elem_of_singleton in Hin. subst id'. apply Hne. exact (P3 _ _ _ H Hr).
  - intros r' id' i pc H. apply Hold in H as [_ H]. exact (P2 _ _ _ _ H).
  - intros r1 r2 id' H1 H2. apply Hold in H1 as [_ H1]. apply Hold in H2 as [_ H2].
    exact (P3 _ _ _ H1 H2).
  - intros r' id' H. apply Hold in H as [_ H]. exact (P4 _ _ H).
  - intros l j Hl. destruct (I9 _ _ Hl) as [(r' & Hr') | [Hin | [Hw | Hd]]].
    + destruct (decide (r' = r)) as [-> | Hne].
      * right. left. rewrite Hr in Hr'. injection Hr' as <-.
        apply elem_of_app. right. by apply list_elem_of_singleton.
      * left. exists r'. by rewrite list_lookup_insert_ne.
    + right. left. apply elem_of_app. by left.
    + right; right; by left.
    + right; right; by right.
Qed.

(** The request threads change, but not those that are about to put an id on
    the queue. *)
Lemma holds_on_requests h st q ws rs rs' :
  holds_on h st q ws rs ->
  (forall r id, rs' !! r = Some (AtPut id) <-> rs !! r = Some (AtPut id)) ->
  holds_on h st q ws rs'.
Proof.
  intros [I1 I2 I3 I4 I5 I6 I7 I8 P1 P2 P3 P4 I9] Hsame. split; try done.
  - intros r id H. apply Hsame in H. exact (P1 _ _ H).
  - intros r id i pc H. apply Hsame in H. exact (P2 _ _ _ _ H).
  - intros r r' id H H'. apply Hsame in H. apply Hsame in H'. exact (P3 _ _ _ H H').
  - intros r id H. apply Hsame in H. exact (P4 _ _ H).
  - intros l j Hl. destruct (I9 _ _ Hl) as [(r & Hr) | ?]; [|by right].
    left. exists r. by apply Hsame.
Qed.

Lemma same_puts_insert rs r pc pc' :
  rs !! r = Some pc -> (forall id, pc <> AtPut id) -> (forall id, pc' <> AtPut id) ->
  forall r' id, <[r:=pc']> rs !! r' = Some (AtPut id) <-> rs !! r' = Some (AtPut id).
Proof.
  intros Hr Hpc Hpc' r' id. rewrite list_lookup_insert_Some. split.
  - intros [(_ & H & _) | (_ & H)]; [by destruct (Hpc' id) | done].
  - intros H. right. split; [|done]. intros <-.
    rewrite Hr in H. injection H as ->. by destruct (Hpc id).
Qed.

Lemma same_puts_app rs pc :
  (forall id, pc <> AtPut id) ->
  forall r id, (rs ++ [pc]) !! r = Some (AtPut id) <-> rs !! r = Some (AtPut id).
Proof.
  intros Hpc r id. rewrite lookup_app_Some, list_lookup_singleton_Some. split.
  - intros [H | (_ & _ & H)]; [done | by destruct (Hpc id)].
  - by left.
Qed.

Lemma same_loc_same_id h st q ws rs id id' l :
  holds_on h st q ws rs ->
  Py.dict_get id st = Some l -> Py.dict_get id' st = Some l -> id = id'.
Proof.
  intros I H1 H2.
  destruct (store_valid _ _ _ _ _ I _ _ H1) as (j & Hj & <-).
  destruct (store_valid _ _ _ _ _ I _ _ H2) as (j' & Hj' & <-). congruence.
Qed.

(** An assignment to a job by a thread that is not its worker. *)
Lemma holds_on_assign h st q ws rs l j f :
  holds_on h st q ws rs ->
  h !! l = Some j ->
  TrainingJob.job_id (f j) = TrainingJob.job_id j ->
  (not_started j -> not_started (f j)) ->
  (forall pc, job_of pc l j -> job_of pc l (f j)) ->
  (is_done j -> is_done (f j)) ->
  holds_on (alter f l h) st q ws rs.
Proof.
  intros I Hj Hid Hns Hjob Hdone. rewrite (alter_as_insert _ _ _ _ Hj).
  pose proof (lookup_lt_Some _ _ _ Hj) as Hlt.
  destruct I as [I1 I2 I3 I4 I5 I6 I7 I8 P1 P2 P3 P4 I9]. split; try done.
  - intros l0 j0 H0. apply list_lookup_insert_Some in H0 as [(<- & <- & _) | (Hne & H0)].
    + rewrite Hid. by apply I1.
    + by apply I1.
  - intros id l0 Hl0. destruct (I2 _ _ Hl0) as (j0 & Hj0 & Hid0).
    destruct (decide (l0 = l)) as [-> | Hne].
    + exists (f j). rewrite list_lookup_insert_eq by done. split; [done|]. congruence.
    + exists j0. by rewrite list_lookup_insert_ne.
  - by rewrite length_insert.
  - intros id Hin. destruct (I5 _ Hin) as (l0 & j0 & Hl0 & Hj0 & Hn0).
    destruct (decide (l0 = l)) as [-> | Hne].
    + exists l, (f j). rewrite list_lookup_insert_eq by done.
      split; [done|]. split; [done|]. apply Hns. congruence.
    + exists l0, j0. by rewrite list_lookup_insert_ne.
  - intros i pc id Hpc Hh. destruct (I8 _ _ _ Hpc Hh) as (l0 & j0 & Hl0 & Hj0 & Hjob0).
    destruct (decide (l0 = l)) as [-> | Hne].
    + exists l, (f j). rewrite list_lookup_insert_eq by done.
      split; [done|]. split; [done|]. apply Hjob. congruence.
    + exists l0, j0. by rewrite list_lookup_insert_ne.
  - intros r id Hr. destruct (P4 _ _ Hr) as (l0 & j0 & Hl0 & Hj0 & Hn0).
    destruct (decide (l0 = l)) as [-> | Hne].
    + exists l, (f j). rewrite list_lookup_insert_eq by done.
      split; [done|]. split; [done|]. apply Hns. congruence.
    + exists l0, j0. by rewrite list_lookup_insert_ne.
  - intros l0 j0 H0. apply list_lookup_insert_Some in H0 as [(<- & <- & _) | (Hne & H0)].
    + rewrite Hid. destruct (I9 _ _ Hj) as [? | [? | [? | ?]]]; auto 6.
    + exact (I9 _ _ H0).
Qed.

(** A worker goes on with the job it holds, and may assign to it. *)
Lemma holds_on_advance h st q ws rs i pc pc' id l j f :
  holds_on h st q ws rs ->
  ws !! i = Some pc -> holds pc = Some id -> holds pc' = Some id ->
  Py.dict_get id st = Some l -> h !! l = Some j ->
  TrainingJob.job_id (f j) = TrainingJob.job_id j ->
  (job_of pc l j -> job_of pc' l (f j)) ->
  holds_on (alter f l h) st q (<[i:=pc']> ws) rs.
Proof.
  intros I Hpc Hh Hh' Hl Hj Hid Hjob. rewrite (alter_as_insert _ _ _ _ Hj).
  pose proof (lookup_lt_Some _ _ _ Hj) as Hlt.
  pose proof (fun a b c => same_loc_same_id h st q ws rs a b c I) as Hinj.
  destruct I as [I1 I2 I3 I4 I5 I6 I7 I8 P1 P2 P3 P4 I9]. split; try done.
  - intros l0 j0 H0. apply list_lookup_insert_Some in H0 as [(<- & <- & _) | (Hne & H0)].
    + rewrite Hid. by apply I1.
    + by apply I1.
  - intros id0 l0 Hl0. destruct (I2 _ _ Hl0) as (j0 & Hj0 & Hid0).
    destruct (decide (l0 = l)) as [-> | Hne].
    + exists (f j). rewrite list_lookup_insert_eq by done. split; [done|]. congruence.
    + exists j0. by rewrite list_lookup_insert_ne.
  - by rewrite length_insert.
  - intros id0 Hin. destruct (I5 _ Hin) as (l0 & j0 & Hl0 & Hj0 & Hn0).
    exists l0, j0. split; [done|]. split; [|done].
    rewrite list_lookup_insert_ne; [done|]. intros <-.
    apply (I6 _ _ _ Hpc Hh). by rewrite (Hinj _ _ _ Hl Hl0).
  - intros i0 pc0 id0 H0 Hh0.
    apply list_lookup_insert_Some in H0 as [(<- & <- & _) | (Hne & H0)].
    + rewrite Hh' in Hh0. injection Hh0 as <-. exact (I6 _ _ _ Hpc Hh).
    + exact (I6 _ _ _ H0 Hh0).
  - intros i0 i1 pc0 pc1 id0 H0 H1 Hh0 Hh1.
    apply list_lookup_insert_Some in H0 as [(<- & <- & _) | (Hne0 & H0)];
      apply list_lookup_insert_Some in H1 as [(<- & <- & _) | (Hne1 & H1)]; try done.
    + rewrite Hh' in Hh0. injection Hh0 as <-. exact (I7 _ _ _ _ _ Hpc H1 Hh Hh1).
    + rewrite Hh' in Hh1. injection Hh1 as <-. exact (I7 _ _ _ _ _ H0 Hpc Hh0 Hh).
    + exact (I7 _ _ _ _ _ H0 H1 Hh0 Hh1).
  - intros i0 pc0 id0 H0 Hh0.
    apply list_lookup_insert_Some in H0 as [(<- & <- & _) | (Hne & H0)].
    + rewrite Hh' in Hh0. injection Hh0 as <-.
      exists l, (f j). rewrite list_lookup_insert_eq by done.
      split; [done|]. split; [done|]. apply Hjob.
      destruct (I8 _ _ _ Hpc Hh) as (l0 & j0 & Hl0 & Hj0 & Hjob0). congruence.
    + destruct (I8 _ _ _ H0 Hh0) as (l0 & j0 & Hl0 & Hj0 & Hjob0).
      exists l0, j0. split; [done|]. split; [|done].
      rewrite list_lookup_insert_ne; [done|]. intros <-.
      apply Hne. apply (I7 _ _ _ _ _ Hpc H0 Hh). by rewrite (Hinj _ _ _ Hl Hl0).
  - intros r id0 i0 pc0 Hr H0.
    apply list_lookup_insert_Some in H0 as [(<- & <- & _) | (Hne & H0)].
    + rewrite Hh', <- Hh. exact (P2 _ _ _ _ Hr Hpc).
    + exact (P2 _ _ _ _ Hr H0).
  - intros r id0 Hr. destruct (P4 _ _ Hr) as (l0 & j0 & Hl0 & Hj0 & Hn0).
    exists l0, j0. split; [done|]. split; [|done].
    rewrite list_lookup_insert_ne; [done|]. intros <-.
    apply (P2 _ _ _ _ Hr Hpc). by rewrite (Hinj _ _ _ Hl0 Hl).
  - intros l0 j0 H0. apply list_lookup_insert_Some in H0 as [(<- & <- & _) | (Hne & H0)].
    + right. right. left. exists i, pc'.
      rewrite list_lookup_insert_eq by (by eapply lookup_lt_Some).
      split; [done|]. rewrite Hid, Hh'. f_equal. symmetry.
      apply (Hinj _ _ l); [by apply I1 | done].
    + destruct (I9 _ _ H0) as [? | [? | [(i0 & pc0 & Hpc0 & Hh0) | ?]]]; auto.
      right. right. left. destruct (decide (i0 = i)) as [-> | Hni].
      * exists i, pc'. rewrite list_lookup_insert_eq by (by eapply lookup_lt_Some).
        split; [done|]. congruence.
      * exists i0, pc0. by rewrite list_lookup_insert_ne.
Qed.

(** A worker takes the oldest id off the queue. *)
Lemma holds_on_get h st q ws rs i id :
  holds_on h st (id :: q) ws rs ->
  ws !! i = Some AtGet ->
  holds_on h st q (<[i:=AtCheck id]> ws) rs.
Proof.
  intros [I1 I2 I3 I4 I5 I6 I7 I8 P1 P2 P3 P4 I9] Hpc.
  pose proof (lookup_lt_Some _ _ _ Hpc) as Hlt.
  apply NoDup_cons in I4 as [Hnin I4]. split; try done.
  - intros id0 Hin. apply I5. by right.
  - intros i0 pc0 id0 H0 Hh0.
    apply list_lookup_insert_Some in H0 as [(<- & <- & _) | (Hne & H0)].
    + by injection Hh0 as <-.
    + intros Hin. apply (I6 _ _ _ H0 Hh0). by right.
  - intros i0 i1 pc0 pc1 id0 H0 H1 Hh0 Hh1.
    apply list_lookup_insert_Some in H0 as [(<- & <- & _) | (Hne0 & H0)];
      apply list_lookup_insert_Some in H1 as [(<- & <- & _) | (Hne1 & H1)]; try done.
    + injection Hh0 as <-. destruct (I6 _ _ _ H1 Hh1). by left.
    + injection Hh1 as <-. destruct (I6 _ _ _ H0 Hh0). by left.
    + exact (I7 _ _ _ _ _ H0 H1 Hh0 Hh1).
  - intros i0 pc0 id0 H0 Hh0.
    apply list_lookup_insert_Some in H0 as [(<- & <- & _) | (Hne & H0)].
    + injection Hh0 as <-. apply I5. by left.
    + exact (I8 _ _ _ H0 Hh0).
  - intros r id0 Hr Hin. apply (P1 _ _ Hr). by right.
  - intros r id0 i0 pc0 Hr H0.
    apply list_lookup_insert_Some in H0 as [(<- & <- & _) | (Hne & H0)].
    + intros [= <-]. apply (P1 _ _ Hr). by left.
    + exact (P2 _ _ _ _ Hr H0).
  - intros l0 j0 H0.
    destruct (I9 _ _ H0) as [? | [Hin | [(i0 & pc0 & Hpc0 & Hh0) | ?]]]; auto.
    + apply elem_of_cons in Hin as [Heq | Hin]; [|right; by left].
      right. right. left. exists i, (AtCheck id).
      rewrite list_lookup_insert_eq by done. split; [done|]. simpl. by rewrite Heq.
    + right. right. left. exists i0, pc0. split; [|done].
      rewrite list_lookup_insert_ne; [done|]. intros <-.
      rewrite Hpc in Hpc0. by injection Hpc0 as <-.
Qed.

(** A worker lets go of its job, or had none. *)
Lemma holds_on_release h st q ws rs i pc pc' :
  holds_on h st q ws rs ->
  ws !! i = Some pc -> holds pc' = None ->
  (forall id l j, holds pc = Some id -> Py.dict_get id st = Some l ->
                  h !! l = Some j -> job_of pc l j -> is_done j) ->
  holds_on h st q (<[i:=pc']> ws) rs.
Proof.
  intros [I1 I2 I3 I4 I5 I6 I7 I8 P1 P2 P3 P4 I9] Hpc Hh' Hdone. split; try done.
  - intros i0 pc0 id0 H0 Hh0.
    apply list_lookup_insert_Some in H0 as [(<- & <- & _) | (Hne & H0)]; [congruence|].
    exact (I6 _ _ _ H0 Hh0).
  - intros i0 i1 pc0 pc1 id0 H0 H1 Hh0 Hh1.
    apply list_lookup_insert_Some in H0 as [(<- & <- & _) | (Hne0 & H0)]; [congruence|].
    apply list_lookup_insert_Some in H1 as [(<- & <- & _) | (Hne1 & H1)]; [congruence|].
    exact (I7 _ _ _ _ _ H0 H1 Hh0 Hh1).
  - intros i0 pc0 id0 H0 Hh0.
    apply list_lookup_insert_Some in H0 as [(<- & <- & _) | (Hne & H0)]; [congruence|].
    exact (I8 _ _ _ H0 Hh0).
  - intros r id0 i0 pc0 Hr H0.
    apply list_lookup_insert_Some in H0 as [(<- & <- & _) | (Hne & H0)]; [congruence|].
    exact (P2 _ _ _ _ Hr H0).
  - intros l0 j0 H0.
    destruct (I9 _ _ H0) as [? | [Hin | [(i0 & pc0 & Hpc0 & Hh0) | ?]]]; auto.
    destruct (decide (i0 = i)) as [-> | Hni].
    + right. right. right. rewrite Hpc in Hpc0. injection Hpc0 as <-.
      destruct (I8 _ _ _ Hpc Hh0) as (l1 & j1 & Hl1 & Hj1 & Hjob1).
      pose proof (I1 _ _ H0) as Hl0. rewrite Hl0 in Hl1. injection Hl1 as <-.
      rewrite H0 in Hj1. injection Hj1 as <-. by eapply Hdone.
    + right. right. left. exists i0, pc0. by rewrite list_lookup_insert_ne.
Qed.

Lemma holds_on_move h st q ws rs i pc pc' id l j :
  holds_on h st q ws rs ->
  ws !! i = Some pc -> holds pc = Some id -> holds pc' = Some id ->
  Py.dict_get id st = Some l -> h !! l = Some j ->
  (job_of pc l j -> job_of pc' l j) ->
  holds_on h st q (<[i:=pc']> ws) rs.
Proof.
  intros I Hpc Hh Hh' Hl Hj Hjob.
  rewrite <- (list_alter_id (fun x => x) h l) by done.
  by eapply holds_on_advance.
Qed.
Lemma evolves_refl j : evolves j j.
Proof. split; [done|]. split; [lia | done]. Qed.

Lemma heap_evolves_refl h : heap_evolves h h.
Proof. intros l j Hj. exists j. split; [done | apply evolves_refl]. Qed.

Lemma heap_evolves_app h j0 : heap_evolves h (h ++ [j0]).
Proof.
  intros l j Hj. exists j. split; [by apply lookup_app_l_Some | apply evolves_refl].
Qed.

Lemma heap_evolves_alter h l j f :
  h !! l = Some j -> evolves j (f j) -> heap_evolves h (alter f l h).
Proof.
  intros Hj Hev l0 j0 H0. destruct (decide (l0 = l)) as [-> | Hne].
  - exists (f j). rewrite list_lookup_alter_eq, Hj. split; [done|]. congruence.
  - exists j0. rewrite list_lookup_alter_ne by done. split; [done | apply evolves_refl].
Qed.

(** The progress values of the training loop, step by step. *)
Lemma progress_table :
  forallb
    (fun k => (0 <=? progress_after k)%Z && (progress_after k <=? progress_at k)%Z
              && (progress_at k <=? 100)%Z)
    (seq 0 total_steps)
  = true.
Proof. vm_compute. reflexivity. Qed.

Lemma progress_steps k :
  k < total_steps ->
  (0 <= progress_after k /\ progress_after k <= progress_at k /\ progress_at k <= 100)%Z.
Proof.
  intros Hk. pose proof progress_table as H.
  rewrite forallb_forall in H. specialize (H k).
  rewrite in_seq in H. specialize (H ltac:(lia)).
  apply andb_true_iff in H as [H H3]. apply andb_true_iff in H as [H1 H2].
  lia.
Qed.

Lemma progress_at_last : progress_at 99 = 100%Z.
Proof. vm_compute. reflexivity. Qed.

Lemma progress_after_bounds k :
  k <= total_steps -> (0 <= progress_after k <= 100)%Z.
Proof.
  intros Hk. destruct k as [|k]; [simpl; lia|].
  simpl. pose proof (progress_steps k ltac:(lia)). lia.
Qed.

Lemma worker_step_inv e i self ws rs s' :
  holds_on (heap self) (training_jobs self) (job_queue self) ws rs ->
  worker_step e i (System self ws rs) = Some s' ->
  inv s' /\ heap_evolves (heap self) (heap (service s')).
Proof.
  intros I Hrun. unfold worker_step in Hrun. cbn [workers service requests] in Hrun.
  destruct (ws !! i) as [pc|] eqn:Hpc; [|done].
  destruct pc as [| id | id p |].
  - cbn in Hrun. destruct (job_queue self) as [|id rest] eqn:Hq;
      injection Hrun as <-; unfold inv; cbn; rewrite ?Hq.
    + split; [|apply heap_evolves_refl]. by eapply holds_on_release.
    + split; [|apply heap_evolves_refl]. by eapply holds_on_get.
  - destruct (held _ _ _ _ _ I _ _ _ Hpc eq_refl) as (l & j & Hl & Hj & Hjob).
    cbn in Hrun. unfold Py.dict_contains in Hrun. rewrite Hl in Hrun.
    injection Hrun as <-. unfold inv; cbn.
    split; [|apply heap_evolves_refl].
    eapply holds_on_move; [exact I | exact Hpc | reflexivity | reflexivity
                          | exact Hl | exact Hj | done].
  - destruct (held _ _ _ _ _ I _ _ _ Hpc eq_refl) as (l & j & Hl & Hj & Hjob).
    destruct p as [| job | job | job | job [k | k | k] | job | job | job | job | job
                   | job msg | job msg | job |];
      cbn in Hrun; rewrite ?Hl in Hrun; cbn in Hjob;
      try (destruct Hjob as [-> Hjob]); try done.
    all: injection Hrun as <-; unfold inv; cbn.
    all: try (pose proof (progress_steps k)); unfold total_steps in *.
    all: try (split;
      [ eapply holds_on_advance;
          [exact I | exact Hpc | reflexivity | reflexivity | exact Hl | exact Hj | | ]
      | eapply heap_evolves_alter; [exact Hj|] ]; job_facts; fail).
    all: try (split;
      [ eapply holds_on_move;
          [exact I | exact Hpc | reflexivity | reflexivity | exact Hl | exact Hj | ]
      | apply heap_evolves_refl ]; job_facts; fail).
    + assert (Hlast : k = 99 -> TrainingJob.progress j = 100%Z).
      { intros ->. destruct Hjob as (_ & _ & ->). apply progress_at_last. }
      destruct (Z.of_nat k `mod` 10 =? 0)%Z; destruct (Nat.leb_spec k 98); cbn.
      all: try (split;
        [ eapply holds_on_advance;
            [exact I | exact Hpc | reflexivity | reflexivity | exact Hl | exact Hj | | ]
        | eapply heap_evolves_alter; [exact Hj|] ]; job_facts; fail).
      all: try (split;
        [ eapply holds_on_move;
            [exact I | exact Hpc | reflexivity | reflexivity | exact Hl | exact Hj | ]
        | apply heap_evolves_refl ]; job_facts; fail).
    + split; [|apply heap_evolves_refl].
      eapply holds_on_release; [exact I | exact Hpc | reflexivity |].
      intros id0 l0 j0 [= <-] Hl0 Hj0 Hjob0. exact Hjob0.
  - cbn in Hrun. injection Hrun as <-. unfold inv; cbn.
    split; [|apply heap_evolves_refl]. by eapply holds_on_release.
Qed.

(** An assignment of [cancel_training_job]: whatever the job is doing by
    then, it keeps its place. *)
Lemma cancel_assign_inv h st q ws rs l f :
  holds_on h st q ws rs ->
  (forall j, TrainingJob.job_id (f j) = TrainingJob.job_id j) ->
  (forall j, TrainingJob.progress (f j) = TrainingJob.progress j) ->
  (forall j, TrainingJob.status (f j) = TrainingJob.status j
             \/ TrainingJob.status (f j) = "cancelled") ->
  holds_on (alter f l h) st q ws rs /\ heap_evolves h (alter f l h).
Proof.
  intros I Hid Hprogress Hstatus.
  destruct (h !! l) as [j|] eqn:Hj;
    [|rewrite alter_out_of_range by done; split; [done | apply heap_evolves_refl]].
  pose proof (Hid j). pose proof (Hprogress j). pose proof (Hstatus j). split.
  - eapply holds_on_assign; [exact I | exact Hj | done | | | ].
    + job_facts.
    + intros [| id | id p |]; [done | job_facts | | done].
      destruct p as [| job | job | job | job [k | k | k] | job | job | job | job | job
                     | job msg | job msg | job |]; job_facts.
    + job_facts.
  - eapply heap_evolves_alter; [exact Hj|]. job_facts.
Qed.

Lemma request_step_inv e r self ws rs s' :
  holds_on (heap self) (training_jobs self) (job_queue self) ws rs ->
  request_step e r (System self ws rs) = Some s' ->
  inv s' /\ heap_evolves (heap self) (heap (service s')).
Proof.
  intros I Hrun. unfold request_step in Hrun. cbn [workers service requests] in Hrun.
  destruct (rs !! r) as [pc|] eqn:Hr; [|done].
  assert (Hrest : forall pc', (forall id, pc <> AtPut id) -> (forall id, pc' <> AtPut id) ->
            holds_on (heap self) (training_jobs self) (job_queue self) ws (<[r:=pc']> rs)).
  { intros pc' Hpc Hpc'. eapply holds_on_requests; [exact I|].
    by eapply same_puts_insert. }
  destruct pc as [id | id | id job | id job | id job | id | b]; cbn [_request] in Hrun.
  - injection Hrun as <-. unfold inv; cbn.
    split; [by apply holds_on_put | apply heap_evolves_refl].
  - destruct (Py.dict_get id (training_jobs self)); injection Hrun as <-;
      unfold inv; cbn; (split; [by apply Hrest | apply heap_evolves_refl]).
  - destruct (heap self !! job) as [j|];
      [destruct (String.eqb (TrainingJob.status j) "queued"
                 || String.eqb (TrainingJob.status j) "running")|];
      injection Hrun as <-; unfold inv; cbn;
      (split; [by apply Hrest | apply heap_evolves_refl]).
  - injection Hrun as <-. unfold inv; cbn.
    apply cancel_assign_inv; [by apply Hrest | done | done | by right].
  - injection Hrun as <-. unfold inv; cbn.
    apply cancel_assign_inv; [by apply Hrest | done | done | by left].
  - injection Hrun as <-. unfold inv; cbn.
    split; [by apply Hrest | apply heap_evolves_refl].
  - done.
Qed.

Lemma call_step_inv e c self ws rs s' :
  holds_on (heap self) (training_jobs self) (job_queue self) ws rs ->
  fresh (Call c) (System self ws rs) ->
  call_step e c (System self ws rs) = Some s' ->
  inv s' /\ heap_evolves (heap self) (heap (service s')).
Proof.
  intros I Hfresh Hrun. destruct c as [job_id config | job_id request | job_id];
    cbn [call_step fresh service workers requests] in *.
  - destruct (new_training_job_queued e job_id config) as (j & Hnew & Hid & Hs & Hp & _).
    rewrite Hnew in Hrun. injection Hrun as <-. unfold inv; cbn.
    split; [|apply heap_evolves_app].
    apply holds_on_store; [exact I | exact Hfresh | exact Hid | by split; [left|]].
  - destruct (new_tuning_job e job_id request) as [j|] eqn:Hnew; [|done].
    apply new_tuning_job_queued in Hnew as (Hid & Hs & Hp & _).
    injection Hrun as <-. unfold inv; cbn.
    split; [|apply heap_evolves_app].
    apply holds_on_store; [exact I | exact Hfresh | exact Hid | by split; [left|]].
  - injection Hrun as <-. unfold inv; cbn.
    split; [|apply heap_evolves_refl].
    eapply holds_on_requests; [exact I|]. by apply same_puts_app.
Qed.

(** Every transition of the system keeps the invariant, and changes the jobs
    only as [evolves] allows. *)
Lemma step_inv s s' :
  inv s -> step s s' ->
  inv s' /\ heap_evolves (heap (service s)) (heap (service s')).
Proof.
  intros I [e ev Hfresh Hrun]. destruct s as [self ws rs]. unfold inv in I.
  cbn [service workers requests] in I.
  destruct ev as [i | r | c]; cbn [run_event service] in *.
  - by eapply worker_step_inv.
  - by eapply request_step_inv.
  - by eapply call_step_inv.
Qed.

Lemma init_inv config s0 : __init__ config = Ok s0 -> inv s0.
Proof.
  unfold __init__. destruct (TrainingJob.as_int _ _) as [n|]; [|done].
  cbn. intros [= <-]. apply holds_on_init.
Qed.

Lemma reachable_inv s0 s : inv s0 -> reachable s0 s -> inv s.
Proof.
  intros I0 Hr. induction Hr as [|s s' _ IH Hstep]; [done|].
  by apply (step_inv s s').
Qed.

End SystemInvariant.

(** ** The progress of a job *)

Section Progress.

Import TrainingService Invariant.

(** The state of a job, from the place it is in. *)
Lemma job_state s l j :
  inv s -> heap (service s) !! l = Some j ->
  not_started j
  \/ (exists pc id, holds pc = Some id /\ job_of pc l j)
  \/ is_done j.
Proof.
  intros I Hj. pose proof (stored _ _ _ _ _ I _ _ Hj) as Hl.
  destruct (placed _ _ _ _ _ I _ _ Hj) as [(r & Hr) | [Hin | [(i & pc & Hpc & Hh) | Hd]]].
  - left. destruct (put_stored _ _ _ _ _ I _ _ Hr) as (l' & j' & Hl' & Hj' & Hns).
    rewrite Hl in Hl'. injection Hl' as <-. congruence.
  - left. destruct (queued _ _ _ _ _ I _ Hin) as (l' & j' & Hl' & Hj' & Hns).
    rewrite Hl in Hl'. injection Hl' as <-. congruence.
  - right. left. destruct (held _ _ _ _ _ I _ _ _ Hpc Hh) as (l' & j' & Hl' & Hj' & Hjob).
    rewrite Hl in Hl'. injection Hl' as <-. exists pc, (TrainingJob.job_id j).
    split; [done|]. congruence.
  - by right; right.
Qed.

Lemma job_progress s l j :
  inv s -> heap (service s) !! l = Some j ->
  (0 <= TrainingJob.progress j <= 100)%Z
  /\ (TrainingJob.status j = "completed" -> TrainingJob.progress j = 100%Z).
Proof.
  intros I Hj. destruct (job_state _ _ _ I Hj) as [Hns | [(pc & id & Hh & Hjob) | Hd]].
  - job_facts.
  - destruct pc as [| id' | id' p |]; [done | job_facts | | done].
    destruct p as [| job | job | job | job [k | k | k] | job | job | job | job | job
                   | job msg | job msg | job |];
      try (pose proof (progress_steps k));
      try (pose proof (progress_after_bounds k)); job_facts.
  - job_facts.
Qed.

Lemma lookup_stored s id l j :
  inv s -> heap (service s) !! l = Some j -> TrainingJob.job_id j = id ->
  get_training_job id (service s) = Some j.
Proof.
  intros I Hj <-. unfold get_training_job, lookup.
  by rewrite (stored _ _ _ _ _ I _ _ Hj).
Qed.

Lemma lookup_heap s id j :
  inv s -> get_training_job id (service s) = Some j ->
  exists l, heap (service s) !! l = Some j /\ TrainingJob.job_id j = id.
Proof.
  intros I. unfold get_training_job, lookup.
  destruct (Py.dict_get id _) as [l|] eqn:Hl; [|done]. intros Hj.
  destruct (store_valid _ _ _ _ _ I _ _ Hl) as (j' & Hj' & Hid).
  exists l. split; [done|]. congruence.
Qed.

(** C6, amended. Jobs are submitted under new ids.  The progress of a job is
    an integer between 0 and 100; no transition of the system decreases it,
    so it does not decrease while the job runs; once the job is completed or
    failed no transition changes it; and a completed job has progress 100. *)
Theorem progress_of_a_job (config : Py.dict Py.value) (s0 s : system) :
  __init__ config = Ok s0 ->
  reachable s0 s ->
  (forall job_id j, get_training_job job_id (service s) = Some j ->
     (0 <= TrainingJob.progress j <= 100)%Z
     /\ (TrainingJob.status j = "completed" -> TrainingJob.progress j = 100%Z))
  /\ (forall s' job_id j, step s s' -> get_training_job job_id (service s) = Some j ->
      exists j', get_training_job job_id (service s') = Some j'
        /\ (TrainingJob.progress j <= TrainingJob.progress j')%Z
        /\ (TrainingJob.status j = "completed" \/ TrainingJob.status j = "failed" ->
            TrainingJob.progress j' = TrainingJob.progress j)).
Proof.
  intros Hinit Hreach.
  assert (I : inv s) by (eapply reachable_inv; [by eapply init_inv | done]).
  split.
  - intros job_id j Hget. destruct (lookup_heap _ _ _ I Hget) as (l & Hj & _).
    by eapply job_progress.
  - intros s' job_id j Hstep Hget.
    destruct (lookup_heap _ _ _ I Hget) as (l & Hj & Hid).
    destruct (step_inv _ _ I Hstep) as [I' Hev].
    destruct (Hev _ _ Hj) as (j' & Hj' & Hid' & Hle & Hfrozen).
    exists j'. split; [|done]. eapply lookup_stored; [done | done | congruence].
Qed.

Lemma run_reachable hash schedule s0 s s' :
  reachable s0 s -> all_fresh hash schedule s -> run hash schedule s = Some s' ->
  reachable s0 s'.
Proof.
  revert s. induction schedule as [|[now ev] rest IH]; intros s Hr Hf Hrun.
  - by injection Hrun as <-.
  - cbn in Hf, Hrun. destruct Hf as [Hf Hrest].
    destruct (run_event _ ev s) as [s1|] eqn:Hev; [|done].
    apply (IH s1); [|done|done].
    eapply reachable_step; [done|]. by econstructor.
Qed.

End Progress.

(** ** A pool whose executor blocks *)

Section BlockingPool.

Import TrainingService Invariant.

Lemma count_insert {A} (P : A -> bool) (l : list A) i x y :
  l !! i = Some x ->
  Blocking.count P (<[i:=y]> l) + Nat.b2n (P x) = Blocking.count P l + Nat.b2n (P y).
Proof.
  unfold Blocking.count. revert i.
  induction l as [|z l IH]; intros [|i]; simpl; try done.
  - intros [= ->]. destruct (P x), (P y); simpl; lia.
  - intros H. specialize (IH _ H). destruct (P z); simpl; lia.
Qed.

Lemma count_alter {A} (P : A -> bool) (f : A -> A) (l : list A) i x :
  l !! i = Some x ->
  Blocking.count P (alter f i l) + Nat.b2n (P x) = Blocking.count P l + Nat.b2n (P (f x)).
Proof. intros H. rewrite (alter_as_insert _ _ _ _ H). by apply count_insert. Qed.

Lemma sum_insert {A} (f : A -> nat) (l : list A) i x y :
  l !! i = Some x ->
  sum_list_with f (<[i:=y]> l) + f x = sum_list_with f l + f y.
Proof.
  revert i. induction l as [|z l IH]; intros [|i]; simpl; try done.
  - intros [= ->]. lia.
  - intros H. specialize (IH _ H). lia.
Qed.

Lemma count_app {A} (P : A -> bool) (l1 l2 : list A) :
  Blocking.count P (l1 ++ l2) = Blocking.count P l1 + Blocking.count P l2.
Proof. unfold Blocking.count. by rewrite List.filter_app, length_app. Qed.

Lemma count_le {A} (P : A -> bool) (l : list A) : Blocking.count P l <= length l.
Proof. apply List.filter_length_le. Qed.

Lemma count_all {A} (P : A -> bool) (l : list A) :
  (forall i x, l !! i = Some x -> P x = true) -> Blocking.count P l = length l.
Proof.
  unfold Blocking.count. induction l as [|z l IH]; intros H; simpl; [done|].
  rewrite (H 0 z eq_refl). simpl. f_equal. apply IH. intros i x Hx. by apply (H (S i)).
Qed.

Lemma count_queued_running (h : list TrainingJob.t) :
  (forall l j, h !! l = Some j ->
     TrainingJob.status j = "queued" \/ TrainingJob.status j = "running") ->
  Blocking.count (fun j => String.eqb (TrainingJob.status j) "queued") h
  + Blocking.count (fun j => String.eqb (TrainingJob.status j) "running") h
  = length h.
Proof.
  unfold Blocking.count. induction h as [|j h IH]; intros H; simpl; [done|].
  specialize (IH (fun l => H (S l))).
  destruct (H 0 j eq_refl) as [-> | ->]; simpl; lia.
Qed.

Lemma sum_zero {A} (f : A -> nat) (l : list A) :
  sum_list_with f l = 0 <-> forall i x, l !! i = Some x -> f x = 0.
Proof.
  induction l as [|z l IH]; simpl.
  - split; [by intros _ i x | done].
  - split.
    + intros H [|i] x; simpl.
      * intros [= ->]. lia.
      * apply IH. lia.
    + intros H. pose proof (H 0 z eq_refl).
      assert (sum_list_with f l = 0) by (apply IH; intros i x; apply (H (S i))). lia.
Qed.

Lemma sum_nonzero {A} (f : A -> nat) (l : list A) :
  sum_list_with f l <> 0 -> exists i x, l !! i = Some x /\ f x <> 0.
Proof.
  induction l as [|z l IH]; simpl; [done|]. intros H.
  destruct (decide (f z = 0)) as [Hz | Hz].
  - destruct IH as (i & x & Hx & Hfx); [lia|]. by exists (S i), x.
  - by exists 0, z.
Qed.

Lemma omap_lookup_seq {A} (pre h : list A) :
  omap (fun l => (pre ++ h) !! l) (seq (length pre) (length h)) = h.
Proof.
  revert pre. induction h as [|x h IH]; intros pre; [done|].
  simpl. rewrite lookup_app_r, Nat.sub_diag by done. simpl. f_equal.
  specialize (IH (pre ++ [x])). rewrite length_app, Nat.add_1_r in IH.
  by rewrite <- app_assoc in IH.
Qed.

Lemma jobs_heap s : inv s -> jobs (service s) = heap (service s).
Proof.
  intros I. unfold jobs. rewrite (store_order _ _ _ _ _ I).
  apply (omap_lookup_seq []).
Qed.


Lemma count_none {A} (P : A -> bool) (l : list A) :
  (forall i x, l !! i = Some x -> P x = false) -> Blocking.count P l = 0.
Proof.
  unfold Blocking.count. induction l as [|z l IH]; intros H; simpl; [done|].
  rewrite (H 0 z eq_refl). apply IH. intros i x Hx. by apply (H (S i)).
Qed.

Lemma bounded_init n :
  Blocking.bounded
    (System (Build [] [] [] n []) (_start_workers (Build [] [] [] n [])) []).
Proof.
  unfold _start_workers. cbn [max_concurrent_jobs].
  split; cbn [heap service workers requests job_queue].
  - intros i pc Hpc. by apply lookup_replicate in Hpc as [-> _].
  - done.
  - done.
  - unfold Blocking.count. induction (Z.to_nat n); [done|]. by simpl.
  - unfold Blocking.count. induction (Z.to_nat n); [done|]. by simpl.
Qed.

Lemma bounded_store self ws rs job_id j0 :
  Blocking.bounded (System self ws rs) ->
  TrainingJob.status j0 = "queued" ->
  Blocking.bounded (System (snd (store job_id j0 self)) ws (rs ++ [AtPut job_id])).
Proof.
  intros [B1 Bs B2 B3 B4] Hq. cbn [service workers requests] in *.
  split; cbn [heap service workers requests job_queue store alloc snd
              with_training_jobs with_heap].
  - done.
  - intros r pc Hr. apply lookup_app_Some in Hr as [Hr | [_ Hr]]; [by eapply Bs|].
    by apply list_lookup_singleton_Some in Hr as [_ <-].
  - intros l j Hj. apply lookup_app_Some in Hj as [Hj | [_ Hj]]; [by eapply B2|].
    apply list_lookup_singleton_Some in Hj as [_ <-]. by left.
  - rewrite count_app, B3. unfold Blocking.count at 2. simpl. rewrite Hq. simpl. lia.
  - rewrite length_app, count_app, B4. cbn [length].
    change (Blocking.count Blocking.putting [AtPut job_id]) with 1. lia.
Qed.

Lemma bounded_put self ws rs r job_id :
  Blocking.bounded (System self ws rs) ->
  rs !! r = Some (AtPut job_id) ->
  Blocking.bounded (System (put job_id self) ws (<[r:=Returned None]> rs)).
Proof.
  intros [B1 Bs B2 B3 B4] Hr. cbn [service workers requests] in *.
  pose proof (count_insert Blocking.putting rs r (AtPut job_id) (Returned None) Hr) as Hc.
  cbn in Hc.
  split; cbn [heap service workers requests job_queue put with_job_queue].
  - done.
  - intros r' pc H.
    apply list_lookup_insert_Some in H as [(_ & <- & _) | (_ & H)]; [done | by eapply Bs].
  - done.
  - done.
  - rewrite length_app. simpl. lia.
Qed.

Lemma bounded_worker e i pc self ws rs s' :
  holds_on (heap self) (training_jobs self) (job_queue self) ws rs ->
  Blocking.bounded (System self ws rs) ->
  ws !! i = Some pc -> Blocking.sleeping pc = false ->
  worker_step e i (System self ws rs) = Some s' ->
  Blocking.bounded s'
  /\ (job_queue self <> [] ->
      S (Blocking.work_left s') = Blocking.work_left (System self ws rs))
  /\ ((job_queue self = [] -> pc <> AtGet) -> s' <> System self ws rs).
Proof.
  intros I [B1 Bs B2 B3 B4] Hpc Hsleep Hrun. cbn [service workers requests] in *.
  pose proof (B1 _ _ Hpc) as Hearly.
  unfold worker_step in Hrun. cbn [workers service requests] in Hrun. rewrite Hpc in Hrun.
  pose proof (count_insert Blocking.runs_a_job ws i pc) as Hruns.
  pose proof (count_insert Blocking.busy ws i pc) as Hbusy.
  pose proof (sum_insert Blocking.statements_to_sleep ws i pc) as Hsum.
  assert (Hearly' : forall pc', Blocking.early pc' = true ->
            forall i0 pc0, <[i:=pc']> ws !! i0 = Some pc0 -> Blocking.early pc0 = true).
  { intros pc' Hpc' i0 pc0 H0.
    apply list_lookup_insert_Some in H0 as [(_ & <- & _) | (_ & H0)]; [done | by eapply B1]. }
  assert (Hneq : forall self' pc', pc' <> pc ->
            System self' (<[i:=pc']> ws) rs <> System self ws rs).
  { intros self' pc' Hne [= _ Hws]. apply Hne.
    assert (<[i:=pc']> ws !! i = Some pc') as Hi
      by (apply list_lookup_insert_eq; by eapply lookup_lt_Some).
    rewrite Hws, Hpc in Hi. by injection Hi. }
  destruct pc as [| id | id p |]; [| | |done].
  - cbn in Hrun. destruct (job_queue self) as [|id rest] eqn:Hq; injection Hrun as <-.
    + specialize (Hruns AtGet Hpc). specialize (Hbusy AtGet Hpc).
      cbn in Hruns, Hbusy.
      split; [|split; [done | intros H; by destruct (H eq_refl)]].
      split; cbn [heap service workers requests job_queue]; [by apply Hearly' | done | done | lia | ].
      rewrite Hq. simpl. simpl in B4. lia.
    + specialize (Hruns (AtCheck id) Hpc). specialize (Hbusy (AtCheck id) Hpc).
      specialize (Hsum (AtCheck id) Hpc). cbn in Hruns, Hbusy, Hsum.
      split; [|split; [intros _; unfold Blocking.work_left; cbn [workers]; lia
                      | intros _; by apply Hneq]].
      split; cbn [heap service workers requests job_queue with_job_queue];
        [by apply Hearly' | done | done | lia | simpl in B4; lia].
  - destruct (held _ _ _ _ _ I _ _ _ Hpc eq_refl) as (l & j & Hl & Hj & Hjob).
    cbn in Hrun. unfold Py.dict_contains in Hrun. rewrite Hl in Hrun.
    injection Hrun as <-.
    specialize (Hruns (AtExecute id AtLookup) Hpc).
    specialize (Hbusy (AtExecute id AtLookup) Hpc).
    specialize (Hsum (AtExecute id AtLookup) Hpc). cbn in Hruns, Hbusy, Hsum.
    split; [|split; [intros _; unfold Blocking.work_left; cbn [workers]; lia
                    | intros _; by apply Hneq]].
    split; cbn [heap service workers requests job_queue]; [by apply Hearly' | done | done | lia | lia].
  - destruct (held _ _ _ _ _ I _ _ _ Hpc eq_refl) as (l & j & Hl & Hj & Hjob).
    pose proof (B2 _ _ Hj) as Hstatus.
    pose proof (count_alter (fun j => String.eqb (TrainingJob.status j) "running")) as Hjobs.
    destruct p as [| job | job | job | job [k | k | k] | job | job | job | job | job
                   | job msg | job msg | job |]; try done;
      cbn in Hrun; rewrite ?Hl in Hrun; cbn in Hjob;
      try (destruct Hjob as [-> Hjob]); injection Hrun as <-.
    + specialize (Hruns (AtExecute id (AtSetRunning l)) Hpc).
      specialize (Hbusy (AtExecute id (AtSetRunning l)) Hpc).
      specialize (Hsum (AtExecute id (AtSetRunning l)) Hpc).
      cbn in Hruns, Hbusy, Hsum.
      split; [|split; [intros _; unfold Blocking.work_left; cbn [workers]; lia
                      | intros _; by apply Hneq]].
      split; cbn [heap service workers requests job_queue]; [by apply Hearly' | done | done | lia | lia].
    + specialize (Hruns (AtExecute id (AtSetStartedAt l)) Hpc).
      specialize (Hbusy (AtExecute id (AtSetStartedAt l)) Hpc).
      specialize (Hsum (AtExecute id (AtSetStartedAt l)) Hpc).
      specialize (Hjobs (TrainingJob.set_status "running") _ _ _ Hj).
      assert (Hqueued : TrainingJob.status j = "queued").
      { destruct Hjob as [[? | ?] _]; destruct Hstatus; congruence. }
      cbn in Hjobs. rewrite Hqueued in Hjobs. cbn in Hruns, Hbusy, Hsum, Hjobs.
      split; [|split; [intros _; unfold Blocking.work_left; cbn [workers]; lia
                      | intros _; by apply Hneq]].
      split; cbn [heap service workers requests job_queue assign with_heap].
      * by apply Hearly'.
      * done.
      * intros l0 j0 H0. destruct (decide (l0 = l)) as [-> | Hne].
        -- rewrite list_lookup_alter_eq, Hj in H0. injection H0 as <-. by right.
        -- rewrite list_lookup_alter_ne in H0 by done. by eapply B2.
      * lia.
      * rewrite length_alter. lia.
    + specialize (Hruns (AtExecute id (AtRegister l)) Hpc).
      specialize (Hbusy (AtExecute id (AtRegister l)) Hpc).
      specialize (Hsum (AtExecute id (AtRegister l)) Hpc).
      specialize (Hjobs (TrainingJob.set_started_at (Py.now e)) _ _ _ Hj).
      cbn in Hruns, Hbusy, Hsum, Hjobs.
      split; [|split; [intros _; unfold Blocking.work_left; cbn [workers]; lia
                      | intros _; by apply Hneq]].
      split; cbn [heap service workers requests job_queue assign with_heap].
      * by apply Hearly'.
      * done.
      * intros l0 j0 H0. destruct (decide (l0 = l)) as [-> | Hne].
        -- rewrite list_lookup_alter_eq, Hj in H0. injection H0 as <-. done.
        -- rewrite list_lookup_alter_ne in H0 by done. by eapply B2.
      * lia.
      * rewrite length_alter. lia.
    + specialize (Hruns (AtExecute id (AtSimulate l (AtSleep 0))) Hpc).
      specialize (Hbusy (AtExecute id (AtSimulate l (AtSleep 0))) Hpc).
      specialize (Hsum (AtExecute id (AtSimulate l (AtSleep 0))) Hpc).
      cbn in Hruns, Hbusy, Hsum.
      split; [|split; [intros _; unfold Blocking.work_left; cbn [workers]; lia
                      | intros _; by apply Hneq]].
      split; cbn [heap service workers requests job_queue with_running_jobs];
        [by apply Hearly' | done | done | lia | lia].
Qed.


Lemma blocking_step_is_step s s' : Blocking.step s s' -> step s s'.
Proof.
  intros [e ev _ Hfresh Hrun | (e & i & pc & _ & _ & Hrun)].
  - by econstructor.
  - by apply (step_event s s' e (Worker i)).
Qed.

Lemma worker_step_length e i s s' :
  worker_step e i s = Some s' -> length (workers s') = length (workers s).
Proof.
  unfold worker_step. destruct (workers s !! i) as [pc|]; [|done].
  destruct (_training_worker e pc (service s)) as [self1 pc'].
  intros [= <-]. cbn. apply length_insert.
Qed.

Lemma blocking_step_inv s s' :
  inv s -> Blocking.bounded s -> Blocking.step s s' ->
  Blocking.bounded s' /\ length (workers s') = length (workers s).
Proof.
  intros I B [e ev Hsub Hfresh Hrun | (e & i & pc & Hpc & Hsleep & Hrun)].
  - destruct s as [self ws rs].
    destruct ev as [i | r | [job_id config | job_id request | job_id]]; try done;
      cbn [run_event] in Hrun.
    + unfold request_step in Hrun. cbn [requests service workers] in Hrun.
      destruct (rs !! r) as [pc|] eqn:Hr; [|done].
      pose proof (Blocking.all_submit _ B _ _ Hr) as Hs.
      destruct pc as [id | id | id job | id job | id job | id | [b|]]; try done.
      cbn in Hrun. injection Hrun as <-. split; [|done]. by apply bounded_put.
    + cbn [call_step service workers requests] in Hrun.
      destruct (new_training_job_queued e job_id config) as (j & Hnew & _ & Hst & _).
      rewrite Hnew in Hrun. injection Hrun as <-. split; [|done].
      by apply bounded_store.
    + cbn [call_step service workers requests] in Hrun.
      destruct (new_tuning_job e job_id request) as [j|] eqn:Hnew; [|done].
      apply new_tuning_job_queued in Hnew as (_ & Hst & _).
      injection Hrun as <-. split; [|done]. by apply bounded_store.
  - split; [|by eapply worker_step_length].
    destruct s as [self ws rs]. by eapply bounded_worker.
Qed.

Lemma blocking_reachable_inv config s0 s :
  __init__ config = Ok s0 -> Blocking.reachable s0 s ->
  inv s /\ Blocking.bounded s
  /\ Z.of_nat (length (workers s)) = Z.max 0 (max_concurrent_jobs (service s0)).
Proof.
  intros Hinit Hr. induction Hr as [|s s' Hr IH Hstep].
  - split; [by eapply init_inv|]. revert Hinit. unfold __init__.
    destruct (TrainingJob.as_int _ _) as [n|]; [|done]. cbn. intros [= <-].
    split; [apply bounded_init|].
    unfold _start_workers. cbn. rewrite length_replicate. lia.
  - destruct IH as (I & B & Hlen).
    destruct (blocking_step_inv _ _ I B Hstep) as [B' Hlen'].
    split; [|split; [done | by rewrite Hlen']].
    apply (step_inv s s' I). by apply blocking_step_is_step.
Qed.

Lemma early_at_rest pc :
  Blocking.early pc = true -> Blocking.statements_to_sleep pc = 0 ->
  Blocking.sleeping pc = true.
Proof.
  destruct pc as [| id | id p |]; try done.
  by destruct p as [| job | job | job | job [k | k | k] | job | job | job | job | job
                    | job msg | job msg | job |].
Qed.

Lemma sleeping_runs_a_job pc :
  Blocking.sleeping pc = true ->
  Blocking.runs_a_job pc = true /\ Blocking.statements_to_sleep pc = 0.
Proof.
  destruct pc as [| id | id p |]; try done.
  by destruct p as [| job | job | job | job [k | k | k] | job | job | job | job | job
                    | job msg | job msg | job |].
Qed.

(** C9. A pool of [n] workers whose jobs block in [time.sleep]: at any time
    at most [n] jobs are running.  Once [n + 1] jobs are submitted and the
    calls have returned, every job is running or queued; each statement a worker can still execute brings
    the pool one statement closer to the state where no worker can do
    anything, some worker can execute one as long as that state is not
    reached, and in that state exactly [n] jobs are running and one is
    queued. *)
Theorem pool_of_n_workers (n : nat) (config : Py.dict Py.value) (s0 s : system) :
  __init__ config = Ok s0 ->
  max_concurrent_jobs (service s0) = Z.of_nat n ->
  Blocking.reachable s0 s ->
  let running := Notions.count_status "running" (jobs (service s)) in
  let queued := Notions.count_status "queued" (jobs (service s)) in
  (running <= Z.of_nat n)%Z
  /\ (Blocking.submitted (n + 1) s ->
      (running + queued = Z.of_nat n + 1)%Z
      /\ (Blocking.quiescent s -> running = Z.of_nat n /\ queued = 1%Z)
      /\ (Blocking.quiescent s <-> Blocking.work_left s = 0)
      /\ (forall s', Blocking.worker_moves s s' ->
            S (Blocking.work_left s') = Blocking.work_left s)
      /\ (Blocking.work_left s <> 0 -> exists s', Blocking.worker_moves s s')).
Proof.
  intros Hinit Hn Hr running queued.
  destruct (blocking_reachable_inv _ _ _ Hinit Hr) as (I & B & Hlen).
  rewrite Hn in Hlen. assert (Hws : length (workers s) = n) by lia. clear Hlen.
  subst running queued. unfold Notions.count_status.
  rewrite (jobs_heap _ I).
  fold (Blocking.count (fun j => String.eqb (TrainingJob.status j) "running") (heap (service s))).
  fold (Blocking.count (fun j => String.eqb (TrainingJob.status j) "queued") (heap (service s))).
  pose proof (Blocking.running_workers _ B) as Hrun.
  pose proof (Blocking.all_placed _ B) as Hplaced.
  pose proof (count_queued_running _ (Blocking.queued_or_running _ B)) as Hsum.
  pose proof (count_le Blocking.runs_a_job (workers s)) as Hle.
  pose proof (count_le Blocking.busy (workers s)) as Hbusy.
  split; [lia|]. intros [Hjobs Hreturned]. rewrite (jobs_heap _ I) in Hjobs.
  assert (Hput : Blocking.count Blocking.putting (requests s) = 0).
  { apply count_none. intros r pc Hpc. by rewrite (Hreturned _ _ Hpc). }
  assert (Hqueue : job_queue (service s) <> []).
  { intros Hq. rewrite Hq in Hplaced. simpl in Hplaced. lia. }
  assert (Hmoves : forall s', Blocking.worker_moves s s' ->
            S (Blocking.work_left s') = Blocking.work_left s /\ s' <> s).
  { intros s' (e & i & pc & Hpc & Hsleep & Hstep). destruct s as [self ws rs].
    destruct (bounded_worker _ _ _ _ _ _ _ I B Hpc Hsleep Hstep) as (_ & Hwork & Hne).
    split; [by apply Hwork | apply Hne; by intros ?]. }
  assert (Hrest : Blocking.quiescent s ->
            forall i pc, workers s !! i = Some pc -> Blocking.sleeping pc = true).
  { intros Hq i pc Hpc. destruct (Blocking.sleeping pc) eqn:Hsleep; [done|].
    destruct (worker_step (Py.Env 0%Z (fun _ => 0%Z)) i s) as [s'|] eqn:Hstep.
    - assert (Hm : Blocking.worker_moves s s') by (by eexists _, i, pc).
      destruct (Hmoves _ Hm) as [_ Hne]. by destruct (Hne (Hq _ Hm)).
    - unfold worker_step in Hstep. rewrite Hpc in Hstep.
      by destruct (_training_worker _ pc (service s)). }
  split; [lia|]. split; [|split; [|split]].
  - intros Hq. specialize (Hrest Hq).
    assert (Blocking.count Blocking.runs_a_job (workers s) = length (workers s)).
    { apply count_all. intros i pc Hpc. by apply sleeping_runs_a_job, (Hrest i). }
    lia.
  - split.
    + intros Hq. apply sum_zero. intros i pc Hpc.
      by apply sleeping_runs_a_job, (Hrest Hq i).
    + intros Hzero s' (e & i & pc & Hpc & Hsleep & _).
      pose proof (proj1 (sum_zero _ _) Hzero _ _ Hpc) as Hz.
      pose proof (early_at_rest _ (Blocking.all_early _ B _ _ Hpc) Hz). congruence.
  - intros s' Hm. by apply Hmoves.
  - intros Hwork. destruct (sum_nonzero _ _ Hwork) as (i & pc & Hpc & Hpos).
    assert (Hsleep : Blocking.sleeping pc = false).
    { destruct (Blocking.sleeping pc) eqn:E; [|done].
      by destruct (sleeping_runs_a_job _ E). }
    destruct (worker_step (Py.Env 0%Z (fun _ => 0%Z)) i s) as [s'|] eqn:Hstep.
    + exists s'. by eexists _, i, pc.
    + unfold worker_step in Hstep. rewrite Hpc in Hstep.
      by destruct (_training_worker _ pc (service s)).
Qed.

End BlockingPool.

(** ** The statements above on concrete data *)

Section Witnesses.

Import TrainingService.

Local Open Scope Z_scope.

Lemma cancel_training_job_spec_witness :
  exists s, Sample.after 1 Sample.submitted = Some s
    /\ fst (cancel_training_job (Sample.env 11) "job-1" (service s)) = true
    /\ fst (cancel_training_job (Sample.env 12) "job-1"
              (snd (cancel_training_job (Sample.env 11) "job-1" (service s))))
       = false.
Proof.
  eexists. split; [vm_compute; reflexivity|].
  match goal with
  | |- fst (cancel_training_job ?e ?id ?self) = _ /\ _ =>
      destruct (cancel_training_job_spec e id self) as (Hiff & _ & Hagain & _)
  end.
  split; [|apply Hagain].
  apply Hiff. eexists. split; [vm_compute; reflexivity|]. left. reflexivity.
Defined.

Lemma start_training_queued_witness :
  exists s l self' j,
    Sample.pool 2 = Some s
    /\ start_hyperparameter_tuning (Sample.env 10) "job-2" Sample.tuning_request
         (service s) = Ok (l, self')
    /\ uninterrupted (Sample.env 10) (StartTuning "job-2" Sample.tuning_request) s
       = Some (System self' (workers s) [Returned None])
    /\ get_training_job "job-2" self' = Some j
    /\ TrainingJob.status j = "queued"
    /\ TrainingJob.progress j = 0%Z
    /\ job_queue self' = ["job-2"].
Proof.
  eexists. eexists. eexists.
  assert (Hpool : Sample.pool 2 = Some _) by (vm_compute; reflexivity).
  assert (Hcall : start_hyperparameter_tuning (Sample.env 10) "job-2"
                    Sample.tuning_request
                    (service (System (Build [] [] [] 2 []) [AtGet; AtGet] []))
                  = Ok _) by (vm_compute; reflexivity).
  destruct (start_training_queued (Sample.env 10) "job-2") as [_ Htune].
  destruct (Htune _ _ _ _ Hcall) as (j & Hun & Hq & Hget & _ & _ & Hst & Hpr).
  exists j. split; [exact Hpool|]. split; [exact Hcall|]. split; [exact Hun|].
  split; [exact Hget|]. split; [exact Hst|]. split; [exact Hpr|]. exact Hq.
Defined.

Lemma blocking_run_reachable hash schedule s0 s s' :
  Blocking.reachable s0 s -> Blocking.allows hash schedule s ->
  run hash schedule s = Some s' -> Blocking.reachable s0 s'.
Proof.
  revert s. induction schedule as [|[now ev] rest IH]; intros s Hr Ha Hrun.
  - by injection Hrun as <-.
  - cbn in Ha, Hrun. destruct Ha as [Ha Hrest].
    destruct (run_event _ ev s) as [s1|] eqn:Hev; [|done].
    apply (IH s1); [|done|done].
    eapply Blocking.one_more; [done|].
    destruct ev as [i | r | [job_id config | job_id request | job_id]]; [| | | |done].
    + destruct Ha as (pc & Hpc & Hsleep). apply Blocking.step_worker.
      by eexists _, i, pc.
    + by apply (Blocking.step_submit _ _ (Py.Env now hash) (Request r)).
    + by apply (Blocking.step_submit _ _ (Py.Env now hash)
                  (Call (StartTraining job_id config))).
    + by apply (Blocking.step_submit _ _ (Py.Env now hash)
                  (Call (StartTuning job_id request))).
Qed.

(** C6, as stated, fails.  After its last training step a job has progress
    100 while its status is still [running]; and the progress of a job that
    is cancelled while it runs goes on rising, here from 48 to 49. *)
Lemma progress_counterexample :
  let last_step := Sample.after 1 (Sample.submitted ++ Sample.worker_runs 0 20 306) in
  let cancelled :=
    Sample.submitted ++ Sample.worker_runs 0 20 150 ++ Sample.cancel 500 in
  (Sample.observe TrainingJob.status "job-1" last_step = Some "running"
   /\ Sample.observe TrainingJob.progress "job-1" last_step = Some 100)
  /\ (Sample.observe TrainingJob.status "job-1" (Sample.after 1 cancelled)
      = Some "cancelled"
      /\ Sample.observe TrainingJob.progress "job-1" (Sample.after 1 cancelled)
         = Some 48
      /\ Sample.observe TrainingJob.status "job-1"
           (Sample.after 1 (cancelled ++ Sample.worker_runs 0 600 3))
         = Some "cancelled"
      /\ Sample.observe TrainingJob.progress "job-1"
           (Sample.after 1 (cancelled ++ Sample.worker_runs 0 600 3))
         = Some 49).
Proof. repeat split; vm_compute; reflexivity. Qed.

Lemma progress_of_a_job_witness :
  exists s j,
    Sample.after 1 (Sample.submitted ++ Sample.worker_runs 0 20 9) = Some s
    /\ get_training_job "job-1" (service s) = Some j
    /\ (0 <= TrainingJob.progress j <= 100)
    /\ (TrainingJob.status j = "completed" -> TrainingJob.progress j = 100).
Proof.
  eexists. eexists. split; [vm_compute; reflexivity|].
  split; [vm_compute; reflexivity|].
  edestruct (progress_of_a_job [ ("max_concurrent_jobs", Py.VInt 1) ]) as [H _];
    [ reflexivity | | ].
  - eapply (run_reachable Sample.hash
              (Sample.submitted ++ Sample.worker_runs 0 20 9));
      [ apply reachable_init | vm_compute; repeat split | vm_compute; reflexivity ].
  - apply (H "job-1"). vm_compute. reflexivity.
Defined.

Lemma pool_of_n_workers_witness :
  exists s,
    Sample.after 1 Sample.one_asleep = Some s
    /\ Notions.count_status "running" (jobs (service s)) = 1
    /\ Notions.count_status "queued" (jobs (service s)) = 1.
Proof.
  eexists. split; [vm_compute; reflexivity|].
  edestruct (pool_of_n_workers 1 [ ("max_concurrent_jobs", Py.VInt 1) ])
    as [_ H]; [ reflexivity | reflexivity | | ].
  - eapply (blocking_run_reachable Sample.hash Sample.one_asleep);
      [ apply Blocking.from_start
      | vm_compute; repeat (split || eexists)
      | vm_compute; reflexivity ].
  - destruct H as (_ & Hq & Hiff & _).
    { split; [vm_compute; reflexivity|]. intros [|[|r]] pc; vm_compute; congruence. }
    apply Hq. apply Hiff. vm_compute. reflexivity.
Defined.

Lemma sample_fromisoformat_isoformat d :
  Sample.fromisoformat (Sample.isoformat d) = Some d.
Proof.
  unfold Sample.fromisoformat, Sample.isoformat.
  rewrite NilEmpty.isi. simpl. f_equal. apply DecimalZ.of_to.
Qed.

Lemma from_dict_to_dict_roundtrip_witness :
  exists job',
    TrainingJob.from_dict Sample.fromisoformat (Sample.env 0)
      (TrainingJob.to_dict Sample.isoformat Sample.job) = Ok job'
    /\ TrainingJob.same_serialized_fields job' Sample.job.
Proof.
  exact (from_dict_to_dict_roundtrip Sample.isoformat Sample.fromisoformat
           sample_fromisoformat_isoformat (Sample.env 0) Sample.job).
Defined.

End Witnesses.

(** * Further properties of the code *)

(** ** One worker for a job *)

Section Exclusion.

Import TrainingService Invariant.

(** X1.  In every state that the service reaches, the queue holds no id twice,
    the id that a worker has taken from the queue is not in the queue any
    more, and no two workers hold the same id: a job is executed by one
    worker at most. *)
Theorem one_worker_per_job (config : Py.dict Py.value) (s0 s : system) :
  __init__ config = Ok s0 ->
  reachable s0 s ->
  NoDup (job_queue (service s))
  /\ (forall i pc id, workers s !! i = Some pc -> holds pc = Some id ->
        id ∉ job_queue (service s))
  /\ (forall i i' pc pc' id,
        workers s !! i = Some pc -> workers s !! i' = Some pc' ->
        holds pc = Some id -> holds pc' = Some id -> i = i').
Proof.
  intros Hinit Hreach.
  assert (I : inv s) by (eapply reachable_inv; [by eapply init_inv | done]).
  destruct I as [_ _ _ I4 _ I6 I7 _ _ _ _ _ _]. done.
Qed.

(** X2.  A worker always finds the id that it has taken from the queue: in
    every reachable state the test [job_id in self.training_jobs] of
    [_training_worker] holds, so that [_execute_training_job] is called, and
    the lookup [self.training_jobs.get(job_id)] there returns the job. *)
Theorem dequeued_id_is_executed (config : Py.dict Py.value) (s0 s s' : system)
    (e : Py.env) (i : nat) :
  __init__ config = Ok s0 ->
  reachable s0 s ->
  worker_step e i s = Some s' ->
  (forall id, workers s !! i = Some (AtCheck id) ->
     workers s' !! i = Some (AtExecute id AtLookup))
  /\ (forall id, workers s !! i = Some (AtExecute id AtLookup) ->
     exists job, Py.dict_get id (training_jobs (service s)) = Some job
       /\ workers s' !! i = Some (AtExecute id (AtSetRunning job))).
Proof.
  intros Hinit Hreach Hstep.
  assert (I : inv s) by (eapply reachable_inv; [by eapply init_inv | done]).
  unfold worker_step in Hstep. split; intros id Hpc; rewrite Hpc in Hstep;
    destruct (held _ _ _ _ _ I _ _ _ Hpc eq_refl) as (l & j & Hl & _ & _);
    cbn in Hstep; unfold Py.dict_contains in Hstep; rewrite Hl in Hstep;
    injection Hstep as <-; cbn [workers].
  - apply list_lookup_insert_eq. by eapply lookup_lt_Some.
  - exists l. split; [done|]. apply list_lookup_insert_eq. by eapply lookup_lt_Some.
Qed.

End Exclusion.

(** ** No job fails *)

Section NoFailure.

Import TrainingService Invariant.

Lemma no_except_pc h st q ws rs i id p :
  holds_on h st q ws rs -> ws !! i = Some (AtExecute id p) ->
  match p with
  | AtExceptStatus _ _ | AtExceptMessage _ _ | AtExceptCompletedAt _ => False
  | _ => True
  end.
Proof.
  intros I Hpc. destruct (held _ _ _ _ _ I _ _ _ Hpc eq_refl) as (l & j & _ & _ & Hjob).
  by destruct p.
Qed.

Lemma new_job_error_message e c s s' :
  call_step e c s = Some s' ->
  Forall (fun j => TrainingJob.error_message j = None) (heap (service s)) ->
  Forall (fun j => TrainingJob.error_message j = None) (heap (service s')).
Proof.
  destruct c as [job_id config | job_id request | job_id]; cbn [call_step].
  - unfold new_training_job. rewrite init_no_kwargs. intros [= <-] Hall. cbn.
    apply Forall_app. by split; [|repeat constructor].
  - unfold new_tuning_job.
    destruct (subscript "model_name" request) as [v1|]; cbn [bind]; [|done].
    destruct (TrainingJob.as_str "model_name" v1) as [m|]; cbn [bind]; [|done].
    destruct (subscript "algorithm" request) as [v2|]; cbn [bind]; [|done].
    destruct (TrainingJob.as_str "algorithm" v2) as [a|]; cbn [bind]; [|done].
    rewrite init_no_kwargs. cbn [bind].
    destruct (TrainingJob.as_opt_str _ _) as [strategy|]; cbn [bind]; [|done].
    destruct (TrainingJob.as_int _ _) as [n|]; cbn [bind]; [|done].
    intros [= <-] Hall. cbn. apply Forall_app. by split; [|repeat constructor].
  - by intros [= <-].
Qed.

(** No statement that is ever executed assigns [error_message]. *)
Lemma step_error_message s s' :
  inv s -> step s s' ->
  Forall (fun j => TrainingJob.error_message j = None) (heap (service s)) ->
  Forall (fun j => TrainingJob.error_message j = None) (heap (service s')).
Proof.
  intros I [e ev _ Hrun] Hall. destruct ev as [i | r | c]; cbn [run_event] in Hrun.
  - destruct s as [self ws rs]. unfold inv in I. cbn [service workers requests] in *.
    unfold worker_step in Hrun. cbn [workers service] in Hrun.
    destruct (ws !! i) as [pc|] eqn:Hpc; [|done].
    destruct pc as [| id | id p |]; cbn in Hrun.
    + destruct (job_queue self); by injection Hrun as <-.
    + destruct (Py.dict_contains id (training_jobs self)); by injection Hrun as <-.
    + pose proof (no_except_pc _ _ _ _ _ _ _ _ I Hpc) as Hp.
      destruct p as [| job | job | job | job [k | k | k] | job | job | job | job | job
                     | job msg | job msg | job |]; cbn in Hrun; try done;
        try (destruct (Py.dict_get id (training_jobs self)));
        try (destruct (Z.of_nat k `mod` 10 =? 0)%Z);
        injection Hrun as <-; cbn; try done; by apply Forall_assign.
    + by injection Hrun as <-.
  - destruct s as [self ws rs]. cbn [service workers requests] in *.
    unfold request_step in Hrun. cbn [requests service workers] in Hrun.
    destruct (rs !! r) as [pc|]; [|done].
    destruct pc as [id | id | id job | id job | id job | id | b]; cbn in Hrun;
      try (destruct (Py.dict_get id (training_jobs self)));
      try (destruct (heap self !! job)); try (destruct (_ || _));
      try done; injection Hrun as <-; cbn; try done; by apply Forall_assign.
  - by eapply new_job_error_message.
Qed.

(** The status of a job, from the place it is in. *)
Lemma job_status s l j :
  inv s -> heap (service s) !! l = Some j ->
  TrainingJob.status j = "queued" \/ TrainingJob.status j = "running"
  \/ TrainingJob.status j = "completed" \/ TrainingJob.status j = "cancelled".
Proof.
  intros I Hj. destruct (job_state _ _ _ I Hj) as [Hns | [(pc & id & Hh & Hjob) | Hd]].
  - job_facts.
  - destruct pc as [| id' | id' p |]; [done | job_facts | | done].
    destruct p as [| job | job | job | job [k | k | k] | job | job | job | job | job
                   | job msg | job msg | job |]; job_facts.
  - job_facts.
Qed.

Lemma count_status_none status all :
  Forall (fun j => TrainingJob.status j <> status) all ->
  Notions.count_status status all = 0%Z.
Proof.
  induction 1 as [|j all Hj _ IH]; [done|].
  rewrite count_status_cons, IH. apply String.eqb_neq in Hj. by rewrite Hj.
Qed.

Lemma count_statuses_missing status all :
  Forall (fun j => TrainingJob.status j <> status) all ->
  Py.dict_get status (count_statuses all) = None.
Proof.
  unfold count_statuses.
  assert (H : forall acc, Forall (fun j => TrainingJob.status j <> status) all ->
            Py.dict_get status acc = None ->
            Py.dict_get status
              (fold_left
                 (fun status_counts job =>
                    Py.dict_set (TrainingJob.status job)
                      (Py.dict_get_default (TrainingJob.status job) 0%Z status_counts + 1)%Z
                      status_counts) all acc) = None).
  { intros acc Hall. revert acc. induction Hall as [|j all Hj _ IH]; intros acc Hacc; [done|].
    cbn [fold_left]. apply IH. rewrite dict_get_set_ne; done. }
  intros Hall. by apply H.
Qed.

(** X3.  No job fails.  In every reachable state the status of a stored job
    is [queued], [running], [completed] or [cancelled] and its
    [error_message] is [None]; the statistics have no key [failed] in
    [status_breakdown], and [success_rate] is the integer 0 while no job is
    completed and the float [completed / completed] afterwards. *)
Theorem no_job_fails (config : Py.dict Py.value) (s0 s : system) (e : Py.env) :
  __init__ config = Ok s0 ->
  reachable s0 s ->
  (forall job_id j, get_training_job job_id (service s) = Some j ->
     (TrainingJob.status j = "queued" \/ TrainingJob.status j = "running"
      \/ TrainingJob.status j = "completed" \/ TrainingJob.status j = "cancelled")
     /\ TrainingJob.error_message j = None)
  /\ Py.dict_get "failed" (status_breakdown (get_training_statistics e (service s))) = None
  /\ success_rate (get_training_statistics e (service s))
     = (let completed := Notions.count_status "completed" (jobs (service s)) in
        if (completed =? 0)%Z then Py.VInt 0
        else Py.VFloat (Py.int_truediv completed completed)).
Proof.
  intros Hinit Hreach.
  assert (Hboth : inv s
            /\ Forall (fun j => TrainingJob.error_message j = None) (heap (service s))).
  { induction Hreach as [|s s' Hr IH Hstep].
    - split; [by eapply init_inv|].
      revert Hinit. unfold __init__. destruct (TrainingJob.as_int _ _); [|done].
      cbn. by intros [= <-].
    - destruct IH as [I Hall]. split; [by apply (step_inv s s') | by apply (step_error_message s s')]. }
  destruct Hboth as [I Hall].
  assert (Hnone : Forall (fun j => TrainingJob.status j <> "failed") (jobs (service s))).
  { rewrite (jobs_heap _ I). apply Forall_lookup. intros l j Hj.
    destruct (job_status _ _ _ I Hj) as [H | [H | [H | H]]]; by rewrite H. }
  split; [|split].
  - intros job_id j Hget. destruct (lookup_heap _ _ _ I Hget) as (l & Hj & _).
    split; [by eapply job_status|]. rewrite Forall_lookup in Hall. by apply (Hall l).
  - cbn [get_training_statistics status_breakdown]. by apply count_statuses_missing.
  - cbn [get_training_statistics success_rate]. unfold success_rate_of.
    rewrite !count_statuses_get, (count_status_none "failed") by done.
    rewrite Z.add_0_r. cbn zeta.
    pose proof (count_status_nonneg "completed" (jobs (service s))).
    destruct (Z.ltb_spec 0 (Notions.count_status "completed" (jobs (service s))));
      destruct (Z.eqb_spec (Notions.count_status "completed" (jobs (service s))) 0);
      (done || lia).
Qed.

End NoFailure.

(** ** The jobs registered as running *)

Section RunningJobs.

Import TrainingService Invariant.

Context {V : Type}.
Implicit Types (d : Py.dict V) (k : string) (v : V).

Lemma dict_get_elem_of k v d : Py.dict_get k d = Some v -> (k, v) ∈ d.
Proof.
  induction d as [|[k' v'] d IH]; cbn [Py.dict_get]; [done|].
  destruct (String.eqb k k') eqn:E.
  - apply String.eqb_eq in E. subst. intros [= ->]. by left.
  - intros H. right. by apply IH.
Qed.

Lemma dict_get_Some_keys k v d : Py.dict_get k d = Some v -> k ∈ Py.dict_keys d.
Proof.
  induction d as [|[k' v'] d IH]; simpl; [done|].
  destruct (String.eqb k k') eqn:E.
  - apply String.eqb_eq in E. subst. intros _. by left.
  - intros H. right. by apply IH.
Qed.

Lemma dict_get_None_keys k d : Py.dict_get k d = None -> k ∉ Py.dict_keys d.
Proof.
  induction d as [|[k' v'] d IH]; simpl; [intros _; apply not_elem_of_nil|].
  destruct (String.eqb k k') eqn:E; [done|]. apply String.eqb_neq in E.
  intros H Hin. apply elem_of_cons in Hin as [? | Hin]; [done|]. by apply IH.
Qed.

Lemma dict_keys_set k v d :
  Py.dict_keys (Py.dict_set k v d)
  = if Py.dict_contains k d then Py.dict_keys d else Py.dict_keys d ++ [k].
Proof.
  unfold Py.dict_contains. induction d as [|[k' v'] d IH]; simpl; [done|].
  destruct (String.eqb k k') eqn:E; simpl; [done|]. rewrite IH.
  by destruct (Py.dict_get k d).
Qed.

Lemma dict_set_keys_once k v d :
  NoDup (Py.dict_keys d) -> NoDup (Py.dict_keys (Py.dict_set k v d)).
Proof.
  intros Hd. rewrite dict_keys_set. unfold Py.dict_contains.
  destruct (Py.dict_get k d) eqn:E; [done|].
  apply NoDup_app. split; [done|]. split; [|apply NoDup_singleton].
  intros x Hx Hx'. apply list_elem_of_singleton in Hx'. subst x.
  by apply dict_get_None_keys in E.
Qed.

Lemma dict_pop_keys_once k d :
  NoDup (Py.dict_keys d) -> NoDup (Py.dict_keys (Py.dict_pop k d)).
Proof.
  induction d as [|[k' v'] d IH]; simpl; [done|]. intros Hd.
  apply NoDup_cons in Hd as [Hk Hd].
  destruct (String.eqb k k') eqn:E; [done|]. simpl. apply NoDup_cons. split; [|by apply IH].
  intros Hin. apply Hk. clear -Hin. induction d as [|[k0 v0] d IH]; simpl in *; [done|].
  destruct (String.eqb k k0); [by right|]. simpl in Hin.
  apply elem_of_cons in Hin as [-> | Hin]; [by left | right; by apply IH].
Qed.

Lemma dict_get_pop k k' d :
  NoDup (Py.dict_keys d) ->
  Py.dict_get k' (Py.dict_pop k d) = if String.eqb k k' then None else Py.dict_get k' d.
Proof.
  induction d as [|[k0 v0] d IH]; simpl; intros Hd.
  - by destruct (String.eqb k k').
  - apply NoDup_cons in Hd as [Hk Hd]. destruct (String.eqb k k0) eqn:E.
    + apply String.eqb_eq in E. subst k0. destruct (String.eqb k k') eqn:E'.
      * apply String.eqb_eq in E'. subst k'.
        destruct (Py.dict_get k d) eqn:Hg; [|done].
        by apply dict_get_Some_keys in Hg.
      * rewrite String.eqb_sym in E'. by rewrite E'.
    + simpl. rewrite IH by done. destruct (String.eqb k' k0) eqn:E0; [|done].
      apply String.eqb_eq in E0. subst k0. by rewrite E.
Qed.

End RunningJobs.

Section RunningJobsBound.

Import TrainingService Invariant.

Implicit Types (h : list TrainingJob.t) (st rj : Py.dict loc) (q : list string)
  (ws : list worker_pc) (rs : list request_pc).

(** A worker goes from one statement to the next between the registration and
    the removal of its job, or outside of them. *)
Lemma tracked_move rj ws i pc pc' :
  Running.tracked rj ws ->
  ws !! i = Some pc ->
  (Running.registered pc = true ->
   Running.registered pc' = true /\ holds pc' = holds pc) ->
  Running.tracked rj (<[i:=pc']> ws).
Proof.
  intros [T1 T2] Hpc Hreg. split; [done|]. intros id l Hl.
  destruct (T2 _ _ Hl) as (i0 & pc0 & H0 & Hh0 & Hr0).
  destruct (decide (i0 = i)) as [-> | Hne].
  - rewrite Hpc in H0. injection H0 as <-. destruct (Hreg Hr0) as [Hr' Hh'].
    exists i, pc'. rewrite list_lookup_insert_eq by (by eapply lookup_lt_Some).
    by rewrite Hh'.
  - exists i0, pc0. by rewrite list_lookup_insert_ne.
Qed.

(** [self.running_jobs[job_id] = job]. *)
Lemma tracked_register rj ws i pc pc' id job :
  Running.tracked rj ws ->
  ws !! i = Some pc -> holds pc = Some id ->
  holds pc' = Some id -> Running.registered pc' = true ->
  Running.tracked (Py.dict_set id job rj) (<[i:=pc']> ws).
Proof.
  intros [T1 T2] Hpc Hh Hh' Hr'. split; [by apply dict_set_keys_once|].
  intros id0 l. rewrite dict_get_set. destruct (String.eqb id id0) eqn:E.
  - apply String.eqb_eq in E. subst id0. intros _. exists i, pc'.
    by rewrite list_lookup_insert_eq by (by eapply lookup_lt_Some).
  - apply String.eqb_neq in E. intros Hl.
    destruct (T2 _ _ Hl) as (i0 & pc0 & H0 & Hh0 & Hr0).
    exists i0, pc0. rewrite list_lookup_insert_ne; [done|]. intros <-. congruence.
Qed.

(** [self.running_jobs.pop(job_id, None)], by the worker of the job or by
    [cancel_training_job]. *)
Lemma tracked_pop rj ws id :
  Running.tracked rj ws -> Running.tracked (Py.dict_pop id rj) ws.
Proof.
  intros [T1 T2]. split; [by apply dict_pop_keys_once|].
  intros id0 l. rewrite dict_get_pop by done.
  destruct (String.eqb id id0); [done|]. apply T2.
Qed.

Lemma tracked_release rj ws i pc pc' id :
  Running.tracked rj ws ->
  ws !! i = Some pc -> holds pc = Some id ->
  (forall i' pc'', ws !! i' = Some pc'' -> holds pc'' = Some id -> i' = i) ->
  Running.tracked (Py.dict_pop id rj) (<[i:=pc']> ws).
Proof.
  intros [T1 T2] Hpc Hh Honce. split; [by apply dict_pop_keys_once|].
  intros id0 l. rewrite dict_get_pop by done.
  destruct (String.eqb id id0) eqn:E; [done|]. apply String.eqb_neq in E. intros Hl.
  destruct (T2 _ _ Hl) as (i0 & pc0 & H0 & Hh0 & Hr0).
  exists i0, pc0. rewrite list_lookup_insert_ne; [done|]. intros <-. congruence.
Qed.

Lemma tracked_step s s' :
  inv s -> step s s' ->
  Running.tracked (running_jobs (service s)) (workers s) ->
  Running.tracked (running_jobs (service s')) (workers s').
Proof.
  intros I [e ev _ Hrun] T. destruct s as [self ws rs]. unfold inv in I.
  cbn [service workers requests] in *.
  destruct ev as [i | r | c]; cbn [run_event] in Hrun.
  - unfold worker_step in Hrun. cbn [workers service requests] in Hrun.
    destruct (ws !! i) as [pc|] eqn:Hpc; [|done].
    destruct pc as [| id | id p |]; cbn in Hrun.
    + destruct (job_queue self); injection Hrun as <-; cbn;
        by eapply tracked_move.
    + destruct (Py.dict_contains id (training_jobs self)); injection Hrun as <-; cbn;
        by eapply tracked_move.
    + destruct p as [| job | job | job | job [k | k | k] | job | job | job | job | job
                     | job msg | job msg | job |]; cbn in Hrun;
        try (destruct (Py.dict_get id (training_jobs self)));
        try (destruct (Z.of_nat k `mod` 10 =? 0)%Z);
        injection Hrun as <-; cbn; try (destruct (_ <=? _)%nat);
        first [ eapply tracked_move; [exact T | exact Hpc | done]
              | by eapply tracked_register
              | eapply tracked_release; [exact T | exact Hpc | done |] ].
      all: intros i' pc'' H' Hh';
        exact (held_once _ _ _ _ _ I _ _ _ _ _ H' Hpc Hh' eq_refl).
    + injection Hrun as <-. cbn. by eapply tracked_move.
  - unfold request_step in Hrun. cbn [requests service workers] in Hrun.
    destruct (rs !! r) as [pc|]; [|done].
    destruct pc as [id | id | id job | id job | id job | id | b]; cbn in Hrun;
      try (destruct (Py.dict_get id (training_jobs self)));
      try (destruct (heap self !! job)); try (destruct (_ || _));
      try done; injection Hrun as <-; cbn; first [done | by apply tracked_pop].
  - destruct c as [job_id config | job_id request | job_id]; cbn [call_step] in Hrun.
    + destruct (new_training_job e job_id config); [|done]. by injection Hrun as <-.
    + destruct (new_tuning_job e job_id request); [|done]. by injection Hrun as <-.
    + by injection Hrun as <-.
Qed.

(** The pool and its size stay as [__init__] made them. *)
Lemma step_pool s s' :
  step s s' ->
  length (workers s') = length (workers s)
  /\ max_concurrent_jobs (service s') = max_concurrent_jobs (service s).
Proof.
  intros [e ev _ Hrun]. destruct s as [self ws rs].
  destruct ev as [i | r | c]; cbn [run_event] in Hrun.
  - split; [by eapply (worker_step_length e i (System self ws rs))|].
    unfold worker_step in Hrun. cbn [workers service requests] in Hrun.
    destruct (ws !! i) as [pc|] eqn:Hpc; [|done].
    destruct pc as [| id | id p |]; cbn in Hrun.
    + destruct (job_queue self); by injection Hrun as <-.
    + destruct (Py.dict_contains id (training_jobs self)); by injection Hrun as <-.
    + destruct p as [| job | job | job | job [k | k | k] | job | job | job | job | job
                     | job msg | job msg | job |]; cbn in Hrun;
        try (destruct (Py.dict_get id (training_jobs self)));
        try (destruct (Z.of_nat k `mod` 10 =? 0)%Z);
        by injection Hrun as <-.
    + by injection Hrun as <-.
  - unfold request_step in Hrun. cbn [requests service workers] in Hrun.
    destruct (rs !! r) as [pc|]; [|done].
    destruct pc as [id | id | id job | id job | id job | id | b]; cbn in Hrun;
      try (destruct (Py.dict_get id (training_jobs self)));
      try (destruct (heap self !! job)); try (destruct (_ || _));
      try done; by injection Hrun as <-.
  - destruct c as [job_id config | job_id request | job_id]; cbn [call_step] in Hrun.
    + destruct (new_training_job e job_id config); [|done]. by injection Hrun as <-.
    + destruct (new_tuning_job e job_id request); [|done]. by injection Hrun as <-.
    + by injection Hrun as <-.
Qed.

Lemma reachable_pool config s0 s :
  __init__ config = Ok s0 -> reachable s0 s ->
  Z.of_nat (length (workers s)) = Z.max 0 (max_concurrent_jobs (service s))
  /\ max_concurrent_jobs (service s) = max_concurrent_jobs (service s0).
Proof.
  intros Hinit Hr. induction Hr as [|s s' Hr IH Hstep].
  - revert Hinit. unfold __init__. destruct (TrainingJob.as_int _ _) as [n|]; [|done].
    cbn. intros [= <-]. unfold _start_workers. cbn. rewrite length_replicate. lia.
  - destruct IH as [IH1 IH2]. destruct (step_pool _ _ Hstep) as [H1 H2].
    rewrite H1, H2. done.
Qed.

Lemma reachable_tracked config s0 s :
  __init__ config = Ok s0 -> reachable s0 s ->
  inv s /\ Running.tracked (running_jobs (service s)) (workers s).
Proof.
  intros Hinit Hr. induction Hr as [|s s' Hr IH Hstep].
  - split; [by eapply init_inv|].
    revert Hinit. unfold __init__. destruct (TrainingJob.as_int _ _) as [n|]; [|done].
    cbn. intros [= <-]. cbn. split; [constructor | done].
  - destruct IH as [I T]. split; [by apply (step_inv s s') | by apply (tracked_step s s')].
Qed.

Lemma omap_length_le {A B} (f : A -> option B) (l : list A) :
  length (omap f l) <= length l.
Proof.
  induction l as [|x l IH]; [done|].
  change (omap f (x :: l))
    with (match f x with Some y => y :: omap f l | None => omap f l end).
  destruct (f x); simpl; lia.
Qed.

(** A list without duplicates whose elements workers hold, each its own, is
    no longer than the list of workers. *)
Lemma held_keys_length (keys : list string) ws :
  NoDup keys ->
  (forall id, id ∈ keys -> exists i pc, ws !! i = Some pc /\ holds pc = Some id) ->
  length keys <= length ws.
Proof.
  intros Hnd Hheld. transitivity (length (omap holds ws)); [|apply omap_length_le].
  apply submseteq_length, NoDup_submseteq; [done|].
  intros id Hin. destruct (Hheld _ Hin) as (i & pc & Hpc & Hh).
  apply list_elem_of_omap. exists pc. split; [|done]. by eapply list_elem_of_lookup_2.
Qed.

(** X4.  In every reachable state [currently_running], the size of
    [running_jobs], is at most [max_concurrent_jobs] (at most 0 if that is
    negative), which the statistics report as it was configured; and every
    id in [running_jobs] is the id of a job that a worker executes, between
    its registration and its removal. *)
Theorem running_jobs_bounded (config : Py.dict Py.value) (s0 s : system) (e : Py.env) :
  __init__ config = Ok s0 ->
  reachable s0 s ->
  let stats := get_training_statistics e (service s) in
  (currently_running stats <= Z.max 0 (stat_max_concurrent_jobs stats))%Z
  /\ stat_max_concurrent_jobs stats = max_concurrent_jobs (service s0)
  /\ (forall job_id job, Py.dict_get job_id (running_jobs (service s)) = Some job ->
        exists i pc, workers s !! i = Some pc /\ holds pc = Some job_id
          /\ Running.registered pc = true).
Proof.
  intros Hinit Hreach stats. subst stats.
  destruct (reachable_tracked _ _ _ Hinit Hreach) as [I [T1 T2]].
  destruct (reachable_pool _ _ _ Hinit Hreach) as [Hlen Hmax].
  cbn [get_training_statistics currently_running stat_max_concurrent_jobs].
  split; [|split; [done | exact T2]].
  rewrite <- Hlen. apply inj_le.
  replace (length (running_jobs (service s)))
    with (length (Py.dict_keys (running_jobs (service s))))
    by apply length_map.
  apply held_keys_length; [done|]. intros id Hin.
  destruct (Py.dict_get id (running_jobs (service s))) as [l|] eqn:Hl.
  - destruct (T2 _ _ Hl) as (i & pc & Hpc & Hh & _). by exists i, pc.
  - by apply dict_get_None_keys in Hl.
Qed.

End RunningJobsBound.

(** ** The statistics *)

Section Breakdown.

Import TrainingService Invariant.

Local Abbreviation total := (fun d : Py.dict Z => fold_right Z.add 0%Z (Py.dict_values d)).

Lemma total_increment (k : string) (d : Py.dict Z) :
  total (Py.dict_set k (Py.dict_get_default k 0%Z d + 1)%Z d) = (total d + 1)%Z.
Proof.
  unfold Py.dict_get_default. induction d as [|[k' v'] d IH]; simpl; [lia|].
  destruct (String.eqb k k'); simpl; lia.
Qed.

Lemma count_statuses_total (all : list TrainingJob.t) :
  total (count_statuses all) = Z.of_nat (length all).
Proof.
  unfold count_statuses.
  assert (H : forall acc,
            total (fold_left
                     (fun status_counts job =>
                        Py.dict_set (TrainingJob.status job)
                          (Py.dict_get_default (TrainingJob.status job) 0%Z status_counts + 1)%Z
                          status_counts) all acc)
            = (total acc + Z.of_nat (length all))%Z).
  { induction all as [|j all IH]; intros acc; cbn [fold_left length]; [lia|].
    rewrite IH, total_increment. lia. }
  by rewrite H.
Qed.

Lemma count_status_zero status all :
  Notions.count_status status all = 0%Z ->
  Forall (fun j => TrainingJob.status j <> status) all.
Proof.
  induction all as [|j all IH]; [done|].
  rewrite count_status_cons. pose proof (count_status_nonneg status all).
  destruct (String.eqb (TrainingJob.status j) status) eqn:E; [lia|].
  apply String.eqb_neq in E. intros Hz. constructor; [done | apply IH; lia].
Qed.

(** X5.  [status_breakdown] accounts for every job: in every reachable state
    its values sum to [total_jobs]; a status that it has is mapped to the
    number of the jobs of that status, which is positive; and a status that
    it does not have is the status of no job. *)
Theorem status_breakdown_total (config : Py.dict Py.value) (s0 s : system) (e : Py.env) :
  __init__ config = Ok s0 ->
  reachable s0 s ->
  let stats := get_training_statistics e (service s) in
  fold_right Z.add 0%Z (Py.dict_values (status_breakdown stats)) = total_jobs stats
  /\ (forall status n, Py.dict_get status (status_breakdown stats) = Some n ->
        (0 < n)%Z /\ n = Notions.count_status status (jobs (service s)))
  /\ (forall status, Py.dict_get status (status_breakdown stats) = None ->
        Notions.count_status status (jobs (service s)) = 0%Z).
Proof.
  intros Hinit Hreach stats. subst stats.
  assert (I : inv s) by (eapply reachable_inv; [by eapply init_inv | done]).
  cbn [get_training_statistics status_breakdown total_jobs]. split; [|split].
  - rewrite count_statuses_total, (jobs_heap _ I). f_equal.
    transitivity (length (Py.dict_values (training_jobs (service s))));
      [|apply length_map].
    by rewrite (store_order _ _ _ _ _ I), length_seq.
  - intros status n Hn. pose proof (count_statuses_get status (jobs (service s))) as Hget.
    unfold Py.dict_get_default in Hget. rewrite Hn in Hget. split; [|done]. subst n.
    destruct (Z.eq_dec (Notions.count_status status (jobs (service s))) 0%Z) as [Hz|Hz].
    + apply count_status_zero, (count_statuses_missing status) in Hz. congruence.
    + pose proof (count_status_nonneg status (jobs (service s))). lia.
  - intros status Hn. pose proof (count_statuses_get status (jobs (service s))) as Hget.
    unfold Py.dict_get_default in Hget. by rewrite Hn in Hget.
Qed.

End Breakdown.

(** ** What [list_training_jobs] lists *)

Section Listing.

Import TrainingService.

Context {A : Type} (key : A -> Z).

Lemma insert_desc_Permutation x (l : list A) : Py.insert_desc key x l ≡ₚ x :: l.
Proof.
  induction l as [|y l IH]; simpl; [done|].
  destruct (key x <? key y)%Z; [|done]. rewrite IH. apply Permutation_swap.
Qed.

Lemma sort_desc_Permutation (l : list A) : Py.sort_desc key l ≡ₚ l.
Proof.
  induction l as [|x l IH]; simpl; [done|]. by rewrite insert_desc_Permutation, IH.
Qed.

Lemma sorted_app_elem_of (R : A -> A -> Prop) (l1 l2 : list A) x1 x2 :
  StronglySorted R (l1 ++ l2) -> x1 ∈ l1 -> x2 ∈ l2 -> R x1 x2.
Proof.
  induction l1 as [|y l1 IH]; simpl; intros Hs H1 H2; [by apply elem_of_nil in H1|].
  apply StronglySorted_inv in Hs as [Hs Hy].
  apply elem_of_cons in H1 as [-> | H1]; [|by apply IH].
  rewrite List.Forall_forall in Hy. apply Hy, list_elem_of_In, elem_of_app. by right.
Qed.

(** The first [n] elements of a sorted list come before every other one. *)
Lemma take_sorted_first (l : list A) n x x' :
  StronglySorted (Notions.newer_or_equal key) l ->
  x ∈ take n l -> x' ∈ l -> x' ∉ take n l -> (key x' <= key x)%Z.
Proof.
  intros Hs Hx Hx' Hnot. rewrite <- (take_drop n l) in Hs, Hx'.
  apply elem_of_app in Hx' as [? | Hx']; [done|].
  exact (sorted_app_elem_of _ _ _ _ _ Hs Hx Hx').
Qed.

End Listing.

Section ListingJobs.

Import TrainingService.

(** X6.  [list_training_jobs(limit, status)] returns jobs of the wanted
    status (of any status if [status] is [None] or empty), each as often as
    it is stored, sorted by [started_at] with the newest first.  It returns
    [min(limit, n)] of the [n] such jobs if [limit >= 0], and [n - |limit|]
    of them (none if that is negative) otherwise; and a job that it leaves
    out did not start after any job that it returns. *)
Theorem list_training_jobs_spec (limit : Z) (status : option string)
    (self : TrainingService.t) :
  let matching :=
    match status with
    | Some wanted =>
        if String.eqb wanted EmptyString then jobs self
        else List.filter (fun job => String.eqb (TrainingJob.status job) wanted) (jobs self)
    | None => jobs self
    end in
  let listed := list_training_jobs limit status self in
  StronglySorted (Notions.newer_or_equal TrainingJob.started_at) listed
  /\ listed ⊆+ matching
  /\ length listed
     = (if (0 <=? limit)%Z then Nat.min (Z.to_nat limit) (length matching)
        else length matching - Z.to_nat (- limit))
  /\ (forall j j', j ∈ listed -> j' ∈ matching -> j' ∉ listed ->
        (TrainingJob.started_at j' <= TrainingJob.started_at j)%Z).
Proof.
  intros matching listed.
  assert (Hlisted : listed
                    = Py.slice_to limit (Py.sort_desc TrainingJob.started_at matching)).
  { subst listed matching. unfold list_training_jobs, truthy.
    destruct status as [wanted|]; simpl; [|done].
    by destruct (String.eqb wanted EmptyString). }
  rewrite Hlisted. clearbody matching. clear Hlisted listed.
  pose proof (sort_desc_sorted TrainingJob.started_at matching) as Hs.
  pose proof (sort_desc_Permutation TrainingJob.started_at matching) as Hp.
  unfold Py.slice_to.
  set (n := if (0 <=? limit)%Z then Z.to_nat limit
            else length (Py.sort_desc TrainingJob.started_at matching) - Z.to_nat (- limit)).
  assert (Hn : (if (0 <=? limit)%Z
                then firstn (Z.to_nat limit) (Py.sort_desc TrainingJob.started_at matching)
                else firstn (length (Py.sort_desc TrainingJob.started_at matching)
                             - Z.to_nat (- limit))
                       (Py.sort_desc TrainingJob.started_at matching))
               = take n (Py.sort_desc TrainingJob.started_at matching))
    by (subst n; by destruct (0 <=? limit)%Z).
  rewrite Hn. split; [by apply firstn_sorted|]. split; [|split].
  - trans (Py.sort_desc TrainingJob.started_at matching); [apply submseteq_take|].
    by rewrite Hp.
  - rewrite length_take. subst n. rewrite (Permutation_length Hp).
    destruct (0 <=? limit)%Z; lia.
  - intros j j' Hj Hj' Hnot.
    assert (j' ∈ Py.sort_desc TrainingJob.started_at matching) by (by rewrite Hp).
    by eapply take_sorted_first.
Qed.

End ListingJobs.

(** ** Training configurations *)

Section Configurations.

Import TrainingConfig.

(** X7.  [is_valid] and [get_validation_issues] agree: a configuration is
    valid exactly if it has no issue, which is exactly if its model name is
    not empty and its algorithm is one of the five valid ones; and no
    configuration has more than two issues. *)
Theorem is_valid_iff_no_issue (self : TrainingConfig.t) :
  (TrainingConfig.is_valid self = true <-> TrainingConfig.get_validation_issues self = [])
  /\ (TrainingConfig.is_valid self = true
      <-> model_name self <> EmptyString
          /\ In (algorithm self) TrainingConfig.valid_algorithms)
  /\ length (TrainingConfig.get_validation_issues self) <= 2.
Proof.
  unfold TrainingConfig.is_valid, TrainingConfig.get_validation_issues,
    TrainingConfig.falsy.
  destruct (String.eqb_spec (model_name self) EmptyString) as [Hm | Hm];
    destruct (String.eqb_spec (algorithm self) EmptyString) as [Ha | Ha];
    destruct (existsb (String.eqb (algorithm self)) TrainingConfig.valid_algorithms)
      eqn:Hv; cbn.
  all: try (apply existsb_exists in Hv as (a & Hin & Heq);
            apply String.eqb_eq in Heq; subst a).
  all: assert (Hnin : existsb (String.eqb (algorithm self)) TrainingConfig.valid_algorithms
                      = false -> ~ In (algorithm self) TrainingConfig.valid_algorithms)
    by (intros Hf Hin'; apply not_true_iff_false in Hf; apply Hf, existsb_exists;
        exists (algorithm self); by rewrite String.eqb_refl).
  all: repeat split; try done; try lia; try tauto; intros; try tauto.
  all: try (rewrite Ha in *; cbn in *; intuition congruence).
  all: match goal with H : _ /\ _ |- _ => destruct H as [_ H] end.
  all: exfalso; by apply (Hnin Hv).
Qed.

(** *** Objects made of a dictionary *)

Section Objects.

Import PyObject TrainingConfig.Object.

Variable str : Py.value -> string.

Lemma default_experiment_name s : (s ++ "_experiment")%string <> EmptyString.
Proof. by destruct s. Qed.

Lemma set_kwargs_raises kwargs ex : set_kwargs kwargs (Raises ex) = Raises ex.
Proof. induction kwargs as [|kv l IH]; [done | apply IH]. Qed.

(** Where no key is [__dict__], the loop leaves alone every attribute that
    [kwargs] does not name. *)
Lemma set_kwargs_get kwargs name : forall self config,
  set_kwargs kwargs (Returns self) = Returns config ->
  Forall (fun kv => fst kv <> "__dict__") kwargs ->
  Forall (fun kv => fst kv <> name) kwargs ->
  Py.dict_get name config = Py.dict_get name self.
Proof.
  induction kwargs as [|[k v] l IH]; intros self config Hset Hd Hn.
  - by injection Hset as ->.
  - apply Forall_cons in Hd as [Hk Hd]. apply Forall_cons in Hn as [Hkn Hn].
    cbn [fst] in Hk, Hkn. unfold set_kwargs in Hset. cbn [fold_left and_then fst snd] in Hset.
    fold (set_kwargs l) in Hset. unfold setattr in Hset.
    apply String.eqb_neq in Hk. rewrite Hk in Hset.
    destruct (String.eqb k "__class__"); [by rewrite set_kwargs_raises in Hset|].
    destruct (String.eqb k "__weakref__"); [by rewrite set_kwargs_raises in Hset|].
    rewrite (IH _ _ Hset Hd Hn). by apply dict_get_set_ne.
Qed.

Lemma kwargs_not_parameter (data : Py.dict Py.value) name :
  In name parameters ->
  Forall (fun kv => fst kv <> name)
    (List.filter (fun kv => negb (existsb (String.eqb (fst kv)) parameters)) data).
Proof.
  intros Hin. induction data as [|[k v] l IH]; cbn [List.filter fst]; [constructor|].
  destruct (existsb (String.eqb k) parameters) eqn:E; cbn [negb]; [done|].
  constructor; [|done]. cbn [fst]. intros ->.
  apply not_true_iff_false in E. apply E, existsb_exists.
  exists name. by rewrite String.eqb_refl.
Qed.

Lemma kwargs_not_dict (data : Py.dict Py.value) f :
  Py.dict_contains "__dict__" data = false ->
  Forall (fun kv => fst kv <> "__dict__") (List.filter f data).
Proof.
  unfold Py.dict_contains. induction data as [|[k v] l IH]; cbn [List.filter Py.dict_get];
    [constructor|].
  destruct (String.eqb_spec "__dict__" k) as [<- | Hne]; [done|]. intros Hl.
  destruct (f (k, v)); [constructor|]; auto.
Qed.

(** The object that [from_dict] makes of a dictionary without the key
    [__dict__] has the six attributes as [__init__] sets them. *)
Lemma from_dict_attributes (data : Py.dict Py.value) (config : instance) :
  Py.dict_contains "__dict__" data = false ->
  from_dict str data = Returns config ->
  exists model_name algorithm,
    Py.dict_get "model_name" data = Some model_name
    /\ Py.dict_get "algorithm" data = Some algorithm
    /\ let experiment_name := Py.dict_get_default "experiment_name" Py.VNone data in
       let config' := Py.dict_get_default "config" Py.VNone data in
       Py.dict_get "model_name" config = Some model_name
       /\ Py.dict_get "algorithm" config = Some algorithm
       /\ Py.dict_get "dataset_version" config
          = Some (Py.dict_get_default "dataset_version" (Py.VStr "latest") data)
       /\ Py.dict_get "experiment_name" config
          = Some (if truthy experiment_name then experiment_name
                  else Py.VStr (format str model_name ++ "_experiment"))
       /\ Py.dict_get "hyperparameter_tuning" config
          = Some (Py.dict_get_default "hyperparameter_tuning" (Py.VBool false) data)
       /\ Py.dict_get "config" config
          = Some (if truthy config' then config' else Py.VDict []).
Proof.
  intros Hd. unfold from_dict.
  destruct (Py.dict_contains "self" data); [done|].
  destruct (Py.dict_get "model_name" data) as [model_name|]; [|done].
  destruct (Py.dict_get "algorithm" data) as [algorithm|]; [|done].
  unfold __init__. intros Hset. exists model_name, algorithm.
  split; [done|]. split; [done|]. cbn zeta.
  repeat split;
    (erewrite (set_kwargs_get _ _ _ _ Hset);
     [reflexivity | by apply kwargs_not_dict | apply kwargs_not_parameter; cbn; tauto]).
Qed.

(** The exceptions of [from_dict] are [TypeError] and [AttributeError]. *)
Lemma set_kwargs_exception kwargs : forall self ex,
  set_kwargs kwargs (Returns self) = Raises ex ->
  (exists msg, ex = Exception (TypeError msg)) \/ (exists msg, ex = AttributeError msg).
Proof.
  induction kwargs as [|[k v] l IH]; intros self ex; [done|].
  unfold set_kwargs. cbn [fold_left and_then fst snd]. fold (set_kwargs l).
  unfold setattr.
  destruct (String.eqb k "__dict__").
  { destruct v; rewrite ?set_kwargs_raises; try (intros [= <-]; left; by eexists).
    apply IH. }
  destruct (String.eqb k "__class__");
    [rewrite set_kwargs_raises; intros [= <-]; left; by eexists|].
  destruct (String.eqb k "__weakref__");
    [rewrite set_kwargs_raises; intros [= <-]; right; by eexists|].
  apply IH.
Qed.

Lemma from_dict_exception data ex :
  from_dict str data = Raises ex ->
  (exists msg, ex = Exception (TypeError msg)) \/ (exists msg, ex = AttributeError msg).
Proof.
  unfold from_dict.
  destruct (Py.dict_contains "self" data); [intros [= <-]; left; by eexists|].
  destruct (Py.dict_get "model_name" data); [|intros [= <-]; left; by eexists].
  destruct (Py.dict_get "algorithm" data); [|intros [= <-]; left; by eexists].
  apply set_kwargs_exception.
Qed.

End Objects.

(** On the dictionary of a configuration with attributes of the declared
    types, the methods of an object are the functions on the record. *)
Lemma typed_object (self : TrainingConfig.t) :
  TrainingConfig.Object.fields (to_dict self) = Ok self
  /\ TrainingConfig.Object.to_dict (to_dict self) = PyObject.Returns (to_dict self)
  /\ TrainingConfig.Object.is_valid (to_dict self)
     = PyObject.Returns (TrainingConfig.is_valid self)
  /\ TrainingConfig.Object.get_validation_issues (to_dict self)
     = PyObject.Returns (TrainingConfig.get_validation_issues self).
Proof.
  destruct self as [m a d x h cfg]. split; [done|]. split; [done|].
  unfold TrainingConfig.Object.is_valid, TrainingConfig.Object.get_validation_issues,
    TrainingConfig.is_valid, TrainingConfig.get_validation_issues, TrainingConfig.falsy.
  cbn. destruct (String.eqb m EmptyString); destruct (String.eqb a EmptyString); cbn;
    try done.
  all: by destruct (negb _).
Qed.

(** X8.  [from_dict(to_dict(c))], for a configuration [c] whose attributes
    have the declared types, makes an object with the six attributes of [c]
    and no other, if the experiment name of [c] is not empty; if it is empty,
    the name [<model_name>_experiment] takes its place.  And of every object
    that [from_dict] makes of a dictionary without the key [__dict__],
    whatever the types of its values, and in which no attribute hides the
    method [to_dict], [to_dict] returns a dictionary [d] such that
    [from_dict(d)] is an object with exactly the attributes [d]: the round
    trip gives back the six attributes of such an object.  An entry
    [__dict__] of the dictionary is not covered: [setattr] makes its value
    the attributes of the object. *)
Theorem config_from_dict_to_dict (str : Py.value -> string) (self : TrainingConfig.t) :
  TrainingConfig.Object.from_dict str (to_dict self)
  = PyObject.Returns
      (to_dict
         (Build (model_name self) (algorithm self) (dataset_version self)
            (if String.eqb (experiment_name self) EmptyString
             then model_name self ++ "_experiment" else experiment_name self)
            (hyperparameter_tuning self) (config self)))
  /\ (experiment_name self <> EmptyString ->
      TrainingConfig.Object.from_dict str (to_dict self) = PyObject.Returns (to_dict self)
      /\ TrainingConfig.Object.to_dict (to_dict self) = PyObject.Returns (to_dict self)
      /\ TrainingConfig.Object.fields (to_dict self) = Ok self)
  /\ (forall data config,
        Py.dict_contains "__dict__" data = false ->
        TrainingConfig.Object.from_dict str data = PyObject.Returns config ->
        PyObject.bound_method "to_dict" config = Ok tt ->
        exists d,
          TrainingConfig.Object.to_dict config = PyObject.Returns d
          /\ TrainingConfig.Object.from_dict str d = PyObject.Returns d).
Proof.
  assert (H : TrainingConfig.Object.from_dict str (to_dict self)
              = PyObject.Returns
                  (to_dict
                     (Build (model_name self) (algorithm self) (dataset_version self)
                        (if String.eqb (experiment_name self) EmptyString
                         then model_name self ++ "_experiment" else experiment_name self)
                        (hyperparameter_tuning self) (config self)))).
  { destruct self as [m a d x h cfg]. cbn.
    destruct (String.eqb x EmptyString); by destruct cfg. }
  split; [exact H|]. split.
  - intros Hx. rewrite H. apply String.eqb_neq in Hx. rewrite Hx.
    by destruct self.
  - intros data config Hd Hconfig _.
    destruct (from_dict_attributes str data config Hd Hconfig)
      as (m & a & _ & _ & Hm & Ha & Hv & Hx & Hh & Hc).
    unfold TrainingConfig.Object.to_dict, TrainingConfig.Object.getattr,
      PyObject.getattr.
    rewrite Hm, Ha, Hv, Hx, Hh, Hc. cbn [PyObject.and_then].
    eexists. split; [reflexivity|].
    cbn -[PyObject.truthy TrainingConfig.Object.format].
    assert (Htrue : forall v s,
              PyObject.truthy (if PyObject.truthy v then v
                               else Py.VStr (s ++ "_experiment")) = true).
    { intros v s. destruct (PyObject.truthy v) eqn:E; [done|]. by destruct s. }
    rewrite Htrue.
    by destruct (PyObject.truthy (Py.dict_get_default "config" Py.VNone data)) eqn:E;
      rewrite ?E.
Qed.

End Configurations.

(** ** Validation of a request body *)

Section Validation.

Import ValidateJson.

Variable str : Py.value -> string.

Lemma flat_map_nil {A B} (f : A -> list B) (l : list A) :
  flat_map f l = [] -> forall x, x ∈ l -> f x = [].
Proof.
  induction l as [|a l IH]; cbn [flat_map]; intros Hnil x Hx.
  - by apply elem_of_nil in Hx.
  - apply app_eq_nil in Hnil as [Ha Hl].
    apply elem_of_cons in Hx as [-> | Hx]; [done | by apply IH].
Qed.

Lemma nonempty_str_inv (value : Py.value) :
  nonempty_str value = true -> exists s, value = Py.VStr s /\ s <> EmptyString.
Proof.
  destruct value as [| | | | s | | |]; try done. intros Hs. exists s. split; [done|].
  by destruct s.
Qed.

(** The fields of a body without validation errors that [validations] names. *)
Lemma validated_field (data : Py.dict Py.value) field value validation :
  field_errors str data = [] -> (field, value) ∈ data ->
  Py.dict_get field validations = Some validation ->
  validation value = true.
Proof.
  intros Hnil Hin Hv. pose proof (flat_map_nil _ _ Hnil _ Hin) as H.
  cbn [fst snd] in H. rewrite Hv in H. by destruct (validation value).
Qed.

(** The two fields that [TrainingConfig] requires, in a body without
    validation errors. *)
Lemma validate_field_types_fields (data : Py.dict Py.value) :
  validate_field_types str data = [] ->
  (forall s, Py.dict_get "model_name" data = Some (Py.VStr s) -> s <> EmptyString)
  /\ (forall s, Py.dict_get "algorithm" data = Some (Py.VStr s) -> s <> EmptyString).
Proof.
  unfold validate_field_types. intros Hnil. apply app_eq_nil in Hnil as [Hfields _].
  split; intros s Hget;
    pose proof (validated_field data _ _ _ Hfields (dict_get_elem_of _ _ _ Hget) eq_refl)
      as Hv; by destruct s.
Qed.

(** X24.  A body in which [validate_field_types] finds no error: the values of
    [transaction_id], [customer_id], [merchant_id], [model_name] and
    [algorithm] that it has are strings that are not empty; its [amount] is
    a number from 0 to 1000000; its [fraud_probability], if a number, is
    from 0 to 1; and its [risk_level], if a string, is [LOW], [MEDIUM] or
    [HIGH]. *)
Theorem validate_field_types_accepts (data : Py.dict Py.value) :
  validate_field_types str data = [] ->
  (forall field value,
     (field, value) ∈ data ->
     field ∈ [ "transaction_id"; "customer_id"; "merchant_id"; "model_name"; "algorithm" ] ->
     exists s, value = Py.VStr s /\ s <> EmptyString)
  /\ (forall value,
        Py.dict_get "amount" data = Some value ->
        is_number value = true /\ ge value 0 = true /\ gt value 1000000 = false)
  /\ (forall value,
        Py.dict_get "fraud_probability" data = Some value -> is_number value = true ->
        ge value 0 = true /\ le value 1 = true)
  /\ (forall risk_level,
        Py.dict_get "risk_level" data = Some (Py.VStr risk_level) ->
        In risk_level valid_levels).
Proof.
  unfold validate_field_types. intros Hnil.
  apply app_eq_nil in Hnil as [Hfields Hnil]. apply app_eq_nil in Hnil as [Hamount Hnil].
  apply app_eq_nil in Hnil as [Hprob Hrisk].
  split; [|split; [|split]].
  - intros field value Hin Hfield. apply nonempty_str_inv.
    apply (validated_field data field value _ Hfields Hin).
    repeat (apply elem_of_cons in Hfield as [-> | Hfield]; [reflexivity|]).
    by apply elem_of_nil in Hfield.
  - intros value Hget.
    pose proof (validated_field data "amount" value _ Hfields (dict_get_elem_of _ _ _ Hget)
                  eq_refl) as Hv.
    cbn beta in Hv. apply andb_true_iff in Hv as [Hnum Hge].
    split; [done|]. split; [done|].
    unfold amount_errors in Hamount. rewrite Hget, Hnum in Hamount.
    destruct (lt value 0); [done|]. by destruct (gt value 1000000).
  - intros value Hget Hnum. unfold probability_errors in Hprob.
    rewrite Hget, Hnum in Hprob.
    destruct (ge value 0); [|done]. by destruct (le value 1).
  - intros risk_level Hget. unfold risk_level_errors in Hrisk. rewrite Hget in Hrisk.
    destruct (existsb (String.eqb risk_level) valid_levels) eqn:E; [|done].
    apply existsb_exists in E as (x & Hx & Heq). apply String.eqb_eq in Heq. by subst.
Qed.

End Validation.

(** ** The routes of the controller *)

Section TrainRoute.

Import TrainingService.

Variable isoformat : Py.datetime -> string.
Variable str : Py.value -> string.

(** The job that [start_training] has stored. *)
Lemma start_training_stored e job_id config self :
  exists j,
    start_training e job_id config self
    = Ok (length (heap self), put job_id (snd (store job_id j self)))
    /\ heap (put job_id (snd (store job_id j self))) !! length (heap self) = Some j
    /\ get_training_job job_id (put job_id (snd (store job_id j self))) = Some j
    /\ TrainingJob.status j = "queued" /\ TrainingJob.progress j = 0%Z
    /\ TrainingJob.attrs j = []
    /\ TrainingJob.model_name j = TrainingConfig.model_name config.
Proof.
  unfold start_training, new_training_job. rewrite init_no_kwargs. cbn [bind].
  eexists. split; [reflexivity|]. split; [apply heap_after_alloc|].
  split; [apply lookup_after_store|]. done.
Qed.

(** *** The decorators *)

Lemma rate_limit_answer limit per_second name enable client_id t storage answer storage' :
  RateLimit.decorated_function limit per_second name enable client_id t storage
  = (Some answer, storage') ->
  TrainingController.status_code answer = 429%Z.
Proof.
  unfold RateLimit.decorated_function. destruct (negb enable); [done|].
  destruct (RateLimit.is_rate_limited _ _ _ _ _) as [[|] storage1]; [|done].
  by intros [= <- _].
Qed.

Lemma validate_json_answer required_fields max_size r answer :
  ValidateJson.decorated_function str required_fields max_size r = Some answer ->
  TrainingController.status_code answer = 400%Z
  \/ TrainingController.status_code answer = 413%Z.
Proof.
  unfold ValidateJson.decorated_function.
  destruct (negb (ValidateJson.is_json r)); [intros [= <-]; by left|].
  destruct (ValidateJson.content_length r) as [n|];
    [destruct (negb (n =? 0)%Z && (max_size <? n)%Z); [intros [= <-]; by right|]|].
  all: destruct (ValidateJson.get_json r) as [msg | [json_data|]];
    try (intros [= <-]; by left).
  all: destruct (match required_fields with Some _ => _ | None => _ end);
    destruct required_fields;
    try (intros [= <-]; by left);
    destruct (ValidateJson.validate_field_types str json_data);
    try done; intros [= <-]; by left.
Qed.

(** A body that [validate_json] accepts has been parsed and has no
    validation error. *)
Lemma validate_json_passes max_size r :
  ValidateJson.decorated_function str None max_size r = None ->
  exists json_data,
    ValidateJson.get_json r = inr (Some json_data)
    /\ ValidateJson.validate_field_types str json_data = [].
Proof.
  unfold ValidateJson.decorated_function.
  destruct (negb (ValidateJson.is_json r)); [done|].
  destruct (ValidateJson.content_length r) as [n|];
    [destruct (negb (n =? 0)%Z && (max_size <? n)%Z); [done|]|].
  all: destruct (ValidateJson.get_json r) as [msg | [json_data|]]; try done.
  all: cbn [List.filter];
    destruct (ValidateJson.validate_field_types str json_data) eqn:E; [|done];
    intros _; by exists json_data.
Qed.

(** Who answers a decorated call: the limiter, [validate_json], or the
    function that they wrap. *)
Lemma decorated_answer limit per_second name (f : training_bp.view) c a answer a' :
  training_bp.rate_limit limit per_second name
    (training_bp.validate_json str (training_bp.monitor_performance name f)) c a
  = Some (answer, a') ->
  (TrainingController.status_code answer = 429%Z
   /\ training_bp.training_svc a' = training_bp.training_svc a
   /\ training_bp.mlflow_svc a' = training_bp.mlflow_svc a)
  \/ (ValidateJson.decorated_function str None (1024 * 1024) (training_bp.request c)
      = Some answer
      /\ training_bp.training_svc a' = training_bp.training_svc a
      /\ training_bp.mlflow_svc a' = training_bp.mlflow_svc a)
  \/ (training_bp.passes str limit per_second name c a
      /\ exists a1 a2,
           f c a1 = Some (answer, a2)
           /\ training_bp.training_svc a1 = training_bp.training_svc a
           /\ training_bp.mlflow_svc a1 = training_bp.mlflow_svc a
           /\ training_bp.training_svc a' = training_bp.training_svc a2
           /\ training_bp.mlflow_svc a' = training_bp.mlflow_svc a2).
Proof.
  unfold training_bp.rate_limit, training_bp.validate_json,
    training_bp.monitor_performance, training_bp.passes.
  destruct (RateLimit.decorated_function _ _ _ _ _ _ _) as [[limited|] storage] eqn:Hlimit.
  { intros [= <- <-]. left. split; [|done]. by eapply rate_limit_answer. }
  destruct (ValidateJson.decorated_function _ _ _ _) as [invalid|] eqn:Hvalid.
  { intros [= <- <-]. right. left. done. }
  destruct (f c _) as [[answer' a2]|] eqn:Hf; [|done].
  intros [= <- <-]. right. right. split; [done|]. by eexists _, _.
Qed.

(** A call that passes the two decorators is a call of the function that
    they wrap, with the limiter's count before it and the monitor's after
    it. *)
Lemma decorated_passes limit per_second name (f : training_bp.view) c a :
  training_bp.passes str limit per_second name c a ->
  training_bp.rate_limit limit per_second name
    (training_bp.validate_json str (training_bp.monitor_performance name f)) c a
  = training_bp.monitor_performance name f c
      (training_bp.App (training_bp.training_svc a) (training_bp.mlflow_svc a)
         (snd (RateLimit.decorated_function limit per_second name
                 (training_bp.enable_rate_limiting c) (training_bp.client_id c)
                 (training_bp.limiter c) (training_bp.rate_limit_storage a)))
         (training_bp.metrics_storage a)).
Proof.
  unfold training_bp.passes, training_bp.rate_limit, training_bp.validate_json.
  intros [Hlimit Hvalid].
  destruct (RateLimit.decorated_function _ _ _ _ _ _ _) as [answer storage].
  cbn [fst snd] in *. subst answer. by rewrite Hvalid.
Qed.

(** *** [POST /train] *)

(** The function that the decorators wrap answers 400 or 500; 400 leaves
    the service as it was. *)
Lemma train_model_body_answer e answered job_id training_request training_svc answer svc :
  TrainingController.train_model_body isoformat str e answered job_id training_request
    training_svc = Some (answer, svc) ->
  (TrainingController.status_code answer = 400%Z /\ svc = training_svc)
  \/ TrainingController.status_code answer = 500%Z.
Proof.
  unfold TrainingController.train_model_body.
  destruct (TrainingController.missing_field _ training_request) as [field|].
  { intros [= <- <-]. by left. }
  assert (Hraise : forall ex,
            option_map (fun answer => (answer, training_svc))
              (TrainingController.train_model_except isoformat answered ex)
            = Some (answer, svc) ->
            (TrainingController.status_code answer = 400%Z /\ svc = training_svc)
            \/ TrainingController.status_code answer = 500%Z).
  { intros [[msg | msg | key | attribute] | msg]; cbn; intros [= <- <-]; auto. }
  destruct (TrainingConfig.Object.from_dict str training_request) as [config|ex];
    cbn [PyObject.and_then]; [|apply Hraise].
  destruct (PyObject.bound_method "is_valid" config) as [[]|ex];
    cbn [PyObject.of_result PyObject.and_then]; [|apply Hraise].
  destruct (TrainingConfig.Object.is_valid config) as [[|]|ex];
    cbn [PyObject.and_then negb]; [| |apply Hraise].
  - destruct (TrainingConfig.Object.getattr "model_name" config) as [?|ex];
      cbn [PyObject.and_then]; [|apply Hraise].
    destruct (TrainingConfig.Object.getattr "algorithm" config) as [?|ex];
      cbn [PyObject.and_then]; [|apply Hraise].
    destruct (PyObject.bound_method "to_dict" config) as [[]|ex];
      cbn [PyObject.of_result PyObject.and_then]; [|apply Hraise].
    destruct (TrainingConfig.Object.to_dict config) as [?|ex];
      cbn [PyObject.and_then]; [|apply Hraise].
    destruct (TrainingConfig.Object.fields config) as [typed|ex];
      cbn [PyObject.of_result PyObject.and_then]; [|apply Hraise].
    destruct (start_training_stored e job_id typed training_svc)
      as (j & Hstart & Hj & _ & _ & _ & Hattrs & _).
    rewrite Hstart. cbn [PyObject.of_result PyObject.and_then]. rewrite Hj, Hattrs.
    cbn [Py.dict_get]. intros [= <- <-]. by right.
  - destruct (PyObject.bound_method "get_validation_issues" config) as [[]|ex];
      cbn [PyObject.of_result PyObject.and_then]; [|apply Hraise].
    destruct (TrainingConfig.Object.get_validation_issues config) as [issues|ex];
      cbn [PyObject.and_then]; [|apply Hraise].
    intros [= <- <-]. by left.
Qed.

(** The function is defined in this model unless a valid configuration has
    an attribute of a type that [TrainingConfig.__init__] does not declare. *)
Lemma train_model_body_defined e answered job_id training_request training_svc :
  TrainingController.train_model_body isoformat str e answered job_id training_request
    training_svc = None ->
  exists config attribute,
    TrainingConfig.Object.from_dict str training_request = PyObject.Returns config
    /\ TrainingConfig.Object.is_valid config = PyObject.Returns true
    /\ TrainingConfig.Object.fields config = Raise (IllTyped attribute).
Proof.
  unfold TrainingController.train_model_body.
  destruct (TrainingController.missing_field _ training_request) as [field|]; [done|].
  destruct (TrainingConfig.Object.from_dict str training_request) as [config|ex] eqn:Hc;
    cbn [PyObject.and_then].
  2:{ by destruct (from_dict_exception str _ _ Hc) as [[? ->] | [? ->]]. }
  unfold PyObject.bound_method.
  destruct (Py.dict_get "is_valid" config); cbn [PyObject.of_result PyObject.and_then];
    [done|].
  destruct (TrainingConfig.Object.is_valid config) as [[|]|ex] eqn:Hvalid;
    cbn [PyObject.and_then negb]; unfold TrainingConfig.Object.getattr, PyObject.getattr.
  - destruct (Py.dict_get "model_name" config); cbn [PyObject.and_then]; [|done].
    destruct (Py.dict_get "algorithm" config); cbn [PyObject.and_then]; [|done].
    destruct (Py.dict_get "to_dict" config); cbn [PyObject.of_result PyObject.and_then];
      [done|].
    destruct (TrainingConfig.Object.to_dict config) as [?|ex] eqn:Hd;
      cbn [PyObject.and_then].
    2:{ revert Hd. unfold TrainingConfig.Object.to_dict, TrainingConfig.Object.getattr,
          PyObject.getattr.
        repeat (match goal with
                | |- context [Py.dict_get ?k config] =>
                    destruct (Py.dict_get k config); cbn [PyObject.and_then]
                end; [|by intros [= <-]]).
        done. }
    destruct (TrainingConfig.Object.fields config) as [typed|ex] eqn:Ht;
      cbn [PyObject.of_result PyObject.and_then].
    2:{ intros _. exists config. revert Ht. unfold TrainingConfig.Object.fields.
        repeat (match goal with
                | |- context [match Py.dict_get ?k config with _ => _ end] =>
                    destruct (Py.dict_get k config) as [[| | | | ? | | |]|]
                end; try (intros [= <-]; by eexists)). }
    destruct (start_training_stored e job_id typed training_svc)
      as (j & Hstart & Hj & _ & _ & _ & Hattrs & _).
    rewrite Hstart. cbn [PyObject.of_result PyObject.and_then]. by rewrite Hj, Hattrs.
  - destruct (Py.dict_get "get_validation_issues" config);
      cbn [PyObject.of_result PyObject.and_then]; [done|].
    destruct (TrainingConfig.Object.get_validation_issues config) as [issues|ex] eqn:Hi;
      cbn [PyObject.and_then]; [done|].
    revert Hi. unfold TrainingConfig.Object.get_validation_issues,
      TrainingConfig.Object.getattr, PyObject.getattr.
    destruct (Py.dict_get "model_name" config); cbn [PyObject.and_then];
      [|by intros [= <-]].
    destruct (Py.dict_get "algorithm" config); cbn [PyObject.and_then];
      [|by intros [= <-]].
    done.
  - revert Hvalid. unfold TrainingConfig.Object.is_valid, TrainingConfig.Object.getattr,
      PyObject.getattr.
    destruct (Py.dict_get "model_name" config) as [m|]; cbn [PyObject.and_then];
      [|by intros [= <-]].
    destruct (negb (PyObject.truthy m)); [done|].
    destruct (Py.dict_get "algorithm" config) as [al|]; cbn [PyObject.and_then];
      [|by intros [= <-]].
    destruct (negb (PyObject.truthy al)); [done|]. by destruct (negb _).
Qed.

(** X9.  The route [POST /train], with its three decorators, never answers
    202.  Its answer is 429 (from the limiter), 400 or 413 (from
    [validate_json]), or 400 or 500 (from [train_model]); unless it is 500
    the training service is as it was, and the registry of the models is as
    it was in any case.  For a request that the limiter lets through and
    [validate_json] accepts, and of which [from_dict] makes a valid
    configuration, with attributes of the declared types and with the methods
    [is_valid] and [to_dict] not hidden by attributes, the answer is 500,
    [Training job failed], although the job is stored and queued by then: the
    answer reads [training_job.mlflow_run_id], which no [TrainingJob] has.
    The route has an answer in this model for every request but those of
    which [from_dict] makes a valid configuration with an attribute of a type
    that [__init__] does not declare. *)
Theorem train_model_never_accepts (c : training_bp.call) (a : training_bp.app) :
  (forall answer a',
     training_bp.train_model isoformat str c a = Some (answer, a') ->
     In (TrainingController.status_code answer) [ 400; 413; 429; 500 ]%Z
     /\ (TrainingController.status_code answer <> 500%Z ->
         training_bp.training_svc a' = training_bp.training_svc a)
     /\ training_bp.mlflow_svc a' = training_bp.mlflow_svc a)
  /\ (training_bp.train_model isoformat str c a = None ->
      exists training_request config attribute,
        ValidateJson.get_json (training_bp.request c) = inr (Some training_request)
        /\ TrainingConfig.Object.from_dict str training_request
           = PyObject.Returns config
        /\ TrainingConfig.Object.is_valid config = PyObject.Returns true
        /\ TrainingConfig.Object.fields config = Raise (IllTyped attribute))
  /\ (forall training_request config typed,
        training_bp.passes str 5 300 "train_model" c a ->
        ValidateJson.get_json (training_bp.request c) = inr (Some training_request) ->
        TrainingConfig.Object.from_dict str training_request = PyObject.Returns config ->
        Py.dict_get "is_valid" config = None ->
        Py.dict_get "to_dict" config = None ->
        TrainingConfig.Object.is_valid config = PyObject.Returns true ->
        TrainingConfig.Object.fields config = Ok typed ->
        exists a',
          training_bp.train_model isoformat str c a
          = Some (TrainingController.train_model_failed isoformat
                    (training_bp.answered c), a')
          /\ job_queue (training_bp.training_svc a')
             = job_queue (training_bp.training_svc a) ++ [ training_bp.uuid4 c ]
          /\ exists j,
               get_training_job (training_bp.uuid4 c) (training_bp.training_svc a')
               = Some j
               /\ TrainingJob.status j = "queued" /\ TrainingJob.progress j = 0%Z
               /\ TrainingJob.model_name j = TrainingConfig.model_name typed).
Proof.
  split; [|split].
  - intros answer a' Hroute. unfold training_bp.train_model in Hroute.
    apply decorated_answer in Hroute
      as [(Hcode & Hsvc & Hml) | [(Hvalid & Hsvc & Hml)
          | (_ & a1 & a2 & Hf & Hsvc1 & Hml1 & Hsvc2 & Hml2)]].
    + rewrite Hcode. cbn. split; [tauto|]. done.
    + apply validate_json_answer in Hvalid as [-> | ->]; cbn; (split; [tauto|]); done.
    + destruct (training_bp.get_json c) as [training_request|]; [|done].
      destruct (TrainingController.train_model_body _ _ _ _ _ _ _)
        as [[answer' svc]|] eqn:Hbody; [|done].
      injection Hf as <- <-. cbn [training_bp.training_svc training_bp.mlflow_svc] in *.
      apply train_model_body_answer in Hbody as [[-> ->] | ->]; cbn;
        (split; [tauto|]); split; congruence.
  - unfold training_bp.train_model, training_bp.rate_limit, training_bp.validate_json,
      training_bp.monitor_performance.
    destruct (RateLimit.decorated_function _ _ _ _ _ _ _) as [[limited|] storage];
      [done|].
    destruct (ValidateJson.decorated_function _ _ _ _) as [invalid|] eqn:Hvalid; [done|].
    destruct (validate_json_passes _ _ Hvalid) as (training_request & Hjson & _).
    unfold training_bp.get_json. rewrite Hjson. cbn [training_bp.training_svc].
    destruct (TrainingController.train_model_body _ _ _ _ _ _ _) as [[answer svc]|] eqn:Hb;
      [done|].
    intros _. destruct (train_model_body_defined _ _ _ _ _ Hb) as (config & attribute & H).
    by exists training_request, config, attribute.
  - intros training_request config typed Hpasses Hjson Hconfig Hvalid Hdict Hv Htyped.
    unfold training_bp.train_model. rewrite (decorated_passes _ _ _ _ _ _ Hpasses).
    unfold training_bp.monitor_performance, training_bp.get_json. rewrite Hjson.
    cbn [training_bp.training_svc].
    assert (Hmissing : TrainingController.missing_field [ "model_name"; "algorithm" ]
                         training_request = None).
    { revert Hconfig. unfold TrainingConfig.Object.from_dict,
        TrainingController.missing_field, Py.dict_contains. cbn [List.find].
      destruct (match Py.dict_get "self" training_request with Some _ => _ | None => _ end);
        [done|].
      destruct (Py.dict_get "model_name" training_request); [|done].
      by destruct (Py.dict_get "algorithm" training_request). }
    unfold TrainingController.train_model_body. rewrite Hmissing, Hconfig.
    cbn [PyObject.and_then]. unfold PyObject.bound_method. rewrite Hvalid, Hdict, Hv.
    cbn [PyObject.of_result PyObject.and_then negb].
    assert (Hattrs : exists m al,
              TrainingConfig.Object.getattr "model_name" config = PyObject.Returns m
              /\ TrainingConfig.Object.getattr "algorithm" config = PyObject.Returns al
              /\ exists d, TrainingConfig.Object.to_dict config = PyObject.Returns d).
    { revert Htyped. unfold TrainingConfig.Object.fields, TrainingConfig.Object.to_dict,
        TrainingConfig.Object.getattr, PyObject.getattr.
      destruct (Py.dict_get "model_name" config) as [[| | | | ? | | |]|]; try done.
      destruct (Py.dict_get "algorithm" config) as [[| | | | ? | | |]|]; try done.
      destruct (Py.dict_get "dataset_version" config) as [[| | | | ? | | |]|]; try done.
      destruct (Py.dict_get "experiment_name" config) as [[| | | | ? | | |]|]; try done.
      destruct (Py.dict_get "hyperparameter_tuning" config) as [[| | | | ? | | |]|];
        try done.
      destruct (Py.dict_get "config" config) as [[| | | | ? | | |]|]; try done.
      intros _. cbn [PyObject.and_then]. eexists _, _. split; [done|]. split; [done|].
      by eexists. }
    destruct Hattrs as (m & al & -> & -> & d & ->). cbn [PyObject.and_then].
    rewrite Htyped. cbn [PyObject.of_result PyObject.and_then].
    destruct (start_training_stored (training_bp.env c) (training_bp.uuid4 c) typed
                (training_bp.training_svc a))
      as (j & Hstart & Hj & Hget & Hst & Hpr & Hattrs & Hname).
    rewrite Hstart. cbn [PyObject.of_result PyObject.and_then]. rewrite Hj, Hattrs.
    cbn [Py.dict_get]. eexists. split; [reflexivity|].
    cbn [training_bp.training_svc]. split; [done|]. by exists j.
Qed.

(** *** [POST /jobs/<job_id>/cancel] *)

(** X11.  The function of the route [POST /jobs/<job_id>/cancel] answers 200
    or 404: 200 exactly if the job exists and is queued or running at the
    time of the request.  With 404 the service is as it was; with 200 the job
    is cancelled, completed now.  In any later state of the service, a
    further request for this id is answered 404 if the status of the job is
    [cancelled] then, and 200 if it is [running] then, as it is once a worker
    has taken the cancelled job from the queue. *)
Theorem cancel_route (e : Py.env) (job_id : string) (training_svc : TrainingService.t) :
  let answer :=
    TrainingController.cancel_training_job isoformat e job_id training_svc in
  (TrainingController.status_code (fst answer) = 200%Z
   \/ TrainingController.status_code (fst answer) = 404%Z)
  /\ (TrainingController.status_code (fst answer) = 200%Z
      <-> exists j, get_training_job job_id training_svc = Some j
            /\ (TrainingJob.status j = "queued" \/ TrainingJob.status j = "running"))
  /\ (TrainingController.status_code (fst answer) = 404%Z -> snd answer = training_svc)
  /\ (TrainingController.status_code (fst answer) = 200%Z ->
      exists j, get_training_job job_id (snd answer) = Some j
        /\ TrainingJob.status j = "cancelled"
        /\ TrainingJob.completed_at j = Some (Py.now e))
  /\ (forall e' later j,
        get_training_job job_id later = Some j ->
        (TrainingJob.status j = "cancelled" ->
         TrainingController.status_code
           (fst (TrainingController.cancel_training_job isoformat e' job_id later))
         = 404%Z)
        /\ (TrainingJob.status j = "running" ->
            TrainingController.status_code
              (fst (TrainingController.cancel_training_job isoformat e' job_id later))
            = 200%Z)).
Proof.
  assert (Hcode : forall e svc,
            TrainingController.status_code
              (fst (TrainingController.cancel_training_job isoformat e job_id svc))
            = if fst (cancel_training_job e job_id svc) then 200%Z else 404%Z).
  { intros e0 svc. unfold TrainingController.cancel_training_job.
    by destruct (cancel_training_job e0 job_id svc) as [[|] svc1]. }
  assert (Hsnd : forall e svc,
            snd (TrainingController.cancel_training_job isoformat e job_id svc)
            = snd (cancel_training_job e job_id svc)).
  { intros e0 svc. unfold TrainingController.cancel_training_job.
    by destruct (cancel_training_job e0 job_id svc) as [[|] svc1]. }
  intros answer. subst answer. rewrite Hcode, Hsnd.
  pose proof (cancel_true_iff e job_id training_svc) as Hiff.
  destruct (cancel_stores e job_id training_svc) as [Hstores _].
  assert (Hsame : fst (cancel_training_job e job_id training_svc) = false ->
                  snd (cancel_training_job e job_id training_svc) = training_svc).
  { unfold cancel_training_job.
    destruct (Py.dict_get job_id (training_jobs training_svc)) as [l|]; [|done].
    destruct (heap training_svc !! l) as [j|]; [|done].
    by destruct (_ || _). }
  destruct (cancel_training_job e job_id training_svc) as [success svc1] eqn:Hcancel.
  cbn [fst snd] in *.
  split; [destruct success; auto|].
  split; [destruct success; [by rewrite <- Hiff | split; [done|]; intros H;
                               apply Hiff in H; done]|].
  split; [destruct success; cbn [negb snd]; [done | by intros _; apply Hsame]|].
  split.
  - destruct success; [|done]. intros _. cbn [negb snd].
    destruct (Hstores eq_refl) as (j & _ & Hj). eexists. split; [exact Hj|]. done.
  - intros e' later j Hget. rewrite Hcode.
    pose proof (cancel_true_iff e' job_id later) as Hiff'.
    destruct (fst (cancel_training_job e' job_id later)); split; intros Hstatus;
      try done.
    + destruct Hiff' as [Hiff' _]. destruct (Hiff' eq_refl) as (j' & Hj' & Hs).
      rewrite Hget in Hj'. injection Hj' as <-. rewrite Hstatus in Hs.
      by destruct Hs.
    + destruct Hiff' as [_ Hiff']. discriminate Hiff'. exists j. auto.
Qed.

End TrainRoute.

(** *** [POST /hyperparameter-tuning] *)

Section TuningRoute.

Import TrainingService.

Variable isoformat : Py.datetime -> string.
Variable str : Py.value -> string.
Variable overflow : Py.dict Py.value -> string.

(** X10.  The route [POST /hyperparameter-tuning], with its three decorators,
    for a request that the limiter lets through and [validate_json] accepts.
    If the body lacks [model_name], [algorithm] or [parameter_space], the
    answer is 400 with the first missing field, and the training service is
    as it was.  If it has them, with a tuning strategy that is a string or
    [None] and a [max_trials] that is an [int] (they are [random] and 50 by
    default), the answer depends on the estimated completion, two minutes
    per trial after the reading of the clock, which is a datetime.  If it is
    a datetime as well, the answer is 202 with status [queued], [max_trials]
    and the estimated completion; the job is put last in the queue, and
    [GET /jobs/<job_id>] then answers 200 with the dictionary of this job,
    which holds the request as its configuration.  If it is no datetime, the
    date arithmetic of the service overflows: the answer is 500,
    [Tuning job failed], and the training service is as it was. *)
Theorem hyperparameter_tuning_route (c : training_bp.call) (a : training_bp.app)
    (tuning_request : Py.dict Py.value) :
  let required_fields := [ "model_name"; "algorithm"; "parameter_space" ] in
  let e := training_bp.env c in
  let job_id := training_bp.uuid4 c in
  training_bp.passes str 2 3600 "hyperparameter_tuning" c a ->
  ValidateJson.get_json (training_bp.request c) = inr (Some tuning_request) ->
  (forall field,
     TrainingController.missing_field required_fields tuning_request = Some field ->
     exists a',
       training_bp.hyperparameter_tuning isoformat str overflow c a
       = Some (TrainingController.missing_field_response isoformat
                 (training_bp.answered c) field, a')
       /\ training_bp.training_svc a' = training_bp.training_svc a)
  /\ (forall strategy trials,
        TrainingController.missing_field required_fields tuning_request = None ->
        TrainingJob.as_opt_str "tuning_strategy"
          (Py.dict_get_default "tuning_strategy" (Py.VStr "random") tuning_request)
        = Ok strategy ->
        TrainingJob.as_int "max_trials"
          (Py.dict_get_default "max_trials" (Py.VInt 50) tuning_request)
        = Ok trials ->
        PyObject.is_datetime (Py.now e) = true ->
        PyObject.is_datetime (Py.now e + minutes (trials * 2))%Z = true ->
        exists answer a' j,
          training_bp.hyperparameter_tuning isoformat str overflow c a = Some (answer, a')
          /\ TrainingController.status_code answer = 202%Z
          /\ Py.dict_get "status" (TrainingController.body answer)
             = Some (Py.VStr "queued")
          /\ Py.dict_get "max_trials" (TrainingController.body answer)
             = Some (Py.VInt trials)
          /\ Py.dict_get "estimated_completion" (TrainingController.body answer)
             = Some (Py.VStr (isoformat (Py.now e + minutes (trials * 2))%Z))
          /\ job_queue (training_bp.training_svc a')
             = job_queue (training_bp.training_svc a) ++ [job_id]
          /\ TrainingController.get_training_job isoformat e job_id
               (training_bp.training_svc a')
             = TrainingController.Response 200 (TrainingJob.to_dict isoformat j)
          /\ TrainingJob.job_id j = job_id
          /\ TrainingJob.status j = "queued"
          /\ TrainingJob.progress j = 0%Z
          /\ TrainingJob.job_type j = "hyperparameter_tuning"
          /\ TrainingJob.config j = tuning_request
          /\ TrainingJob.tuning_strategy j = strategy
          /\ TrainingJob.max_trials j = Some trials)
  /\ (forall strategy trials,
        TrainingController.missing_field required_fields tuning_request = None ->
        TrainingJob.as_opt_str "tuning_strategy"
          (Py.dict_get_default "tuning_strategy" (Py.VStr "random") tuning_request)
        = Ok strategy ->
        TrainingJob.as_int "max_trials"
          (Py.dict_get_default "max_trials" (Py.VInt 50) tuning_request)
        = Ok trials ->
        PyObject.is_datetime (Py.now e) = true ->
        PyObject.is_datetime (Py.now e + minutes (trials * 2))%Z = false ->
        exists answer a',
          training_bp.hyperparameter_tuning isoformat str overflow c a
          = Some (answer, a')
          /\ TrainingController.status_code answer = 500%Z
          /\ Py.dict_get "error" (TrainingController.body answer)
             = Some (Py.VStr "Tuning job failed")
          /\ training_bp.training_svc a' = training_bp.training_svc a).
Proof.
  intros required_fields e job_id Hpasses Hjson. subst required_fields e job_id.
  unfold training_bp.hyperparameter_tuning.
  rewrite (decorated_passes str _ _ _ _ _ _ Hpasses).
  unfold training_bp.monitor_performance, training_bp.get_json. rewrite Hjson.
  cbn [training_bp.training_svc].
  destruct (validate_json_passes str _ _ (proj2 Hpasses)) as (json_data & Hjson' & Hvalid).
  rewrite Hjson in Hjson'. injection Hjson' as <-.
  unfold TrainingController.hyperparameter_tuning_body.
  assert (Hfields :
            TrainingController.missing_field
              [ "model_name"; "algorithm"; "parameter_space" ] tuning_request = None ->
            exists model_name algorithm,
              Py.dict_get "model_name" tuning_request = Some (Py.VStr model_name)
              /\ Py.dict_get "algorithm" tuning_request = Some (Py.VStr algorithm)).
  { unfold TrainingController.missing_field, Py.dict_contains. cbn [List.find].
    destruct (Py.dict_get "model_name" tuning_request) as [v1|] eqn:H1; [|done].
    destruct (Py.dict_get "algorithm" tuning_request) as [v2|] eqn:H2; [|done].
    intros _. unfold ValidateJson.validate_field_types in Hvalid.
    apply app_eq_nil in Hvalid as [Hfields _].
    pose proof (validated_field str tuning_request _ _ _ Hfields
                  (dict_get_elem_of _ _ _ H1) eq_refl) as Hv1.
    pose proof (validated_field str tuning_request _ _ _ Hfields
                  (dict_get_elem_of _ _ _ H2) eq_refl) as Hv2.
    destruct v1; try done. destruct v2; try done. by eexists _, _. }
  split; [|split].
  - intros field ->. eexists. split; [reflexivity|]. done.
  - intros strategy trials Hmissing Hs Ht Hnow Hdate.
    destruct (Hfields Hmissing) as (model_name & algorithm & Hm & Ha).
    rewrite Hmissing.
    unfold start_hyperparameter_tuning, new_tuning_job, subscript.
    rewrite Hm, Ha. cbn [bind TrainingJob.as_str]. rewrite init_no_kwargs. cbn [bind].
    rewrite Hs. cbn [bind]. rewrite Ht. cbn [bind].
    cbn [store alloc put with_job_queue with_training_jobs with_heap heap
         training_jobs job_queue].
    rewrite heap_after_alloc.
    cbn [TrainingJob.estimated_completion TrainingJob.set_estimated_completion].
    rewrite Hdate. cbn [negb].
    eexists _, _, _. split; [reflexivity|].
    do 4 (split; [reflexivity|]). cbn [training_bp.training_svc]. split; [reflexivity|].
    split.
    + unfold TrainingController.get_training_job, get_training_job, lookup.
      cbn [training_jobs heap put with_job_queue with_training_jobs with_heap].
      by rewrite dict_get_set_eq, heap_after_alloc.
    + done.
  - intros strategy trials Hmissing Hs Ht Hnow Hdate.
    destruct (Hfields Hmissing) as (model_name & algorithm & Hm & Ha).
    rewrite Hmissing.
    unfold start_hyperparameter_tuning, new_tuning_job, subscript.
    rewrite Hm, Ha. cbn [bind TrainingJob.as_str]. rewrite init_no_kwargs. cbn [bind].
    rewrite Hs. cbn [bind]. rewrite Ht. cbn [bind].
    cbn [store alloc put with_job_queue with_training_jobs with_heap heap
         training_jobs job_queue].
    rewrite heap_after_alloc.
    cbn [TrainingJob.estimated_completion TrainingJob.set_estimated_completion].
    rewrite Hdate. cbn [negb].
    eexists _, _. split; [reflexivity|]. done.
Qed.

End TuningRoute.

(** ** The answers 400 of [POST /train] *)

Section ValidatedTrain.

Import PyObject.

Variable isoformat : Py.datetime -> string.
Variable str : Py.value -> string.

(** An answer 400 of the function that the decorators wrap names a missing
    field, or the issues of a configuration that [is_valid] rejects. *)
Lemma train_model_body_400 e answered job_id training_request training_svc answer svc :
  TrainingController.train_model_body isoformat str e answered job_id training_request
    training_svc = Some (answer, svc) ->
  TrainingController.status_code answer = 400%Z ->
  svc = training_svc
  /\ ((exists field,
         TrainingController.missing_field [ "model_name"; "algorithm" ] training_request
         = Some field
         /\ answer = TrainingController.missing_field_response isoformat answered field)
      \/ (exists config issues,
            TrainingConfig.Object.from_dict str training_request = Returns config
            /\ TrainingConfig.Object.is_valid config = Returns false
            /\ TrainingConfig.Object.get_validation_issues config = Returns issues
            /\ answer
               = TrainingController.Response 400
                   [ ("error", Py.VStr "Invalid training configuration");
                     ("issues", Py.VList (map Py.VStr issues));
                     ("timestamp", Py.VStr (isoformat (Py.now answered))) ])).
Proof.
  unfold TrainingController.train_model_body.
  destruct (TrainingController.missing_field _ training_request) as [field|].
  { intros [= <- <-] _. split; [done|]. left. by exists field. }
  assert (Hraise : forall ex,
            (forall msg, ex <> Exception (ValueError msg)) ->
            option_map (fun answer => (answer, training_svc))
              (TrainingController.train_model_except isoformat answered ex)
            = Some (answer, svc) ->
            TrainingController.status_code answer <> 400%Z).
  { intros [[msg | msg | key | attribute] | msg] Hne; cbn; intros [= <- <-]; try done.
    by destruct (Hne msg). }
  destruct (TrainingConfig.Object.from_dict str training_request) as [config|ex] eqn:Hc;
    cbn [and_then].
  2:{ intros H1 H2. exfalso. revert H1 H2. apply Hraise. intros msg.
      by destruct (from_dict_exception str _ _ Hc) as [[? ->] | [? ->]]. }
  unfold bound_method.
  destruct (Py.dict_get "is_valid" config); cbn [of_result and_then];
    [intros H1 H2; exfalso; revert H1 H2; by apply Hraise|].
  destruct (TrainingConfig.Object.is_valid config) as [[|]|ex] eqn:Hvalid;
    cbn [and_then negb]; unfold TrainingConfig.Object.getattr, getattr.
  - destruct (Py.dict_get "model_name" config); cbn [and_then];
      [|intros H1 H2; exfalso; revert H1 H2; by apply Hraise].
    destruct (Py.dict_get "algorithm" config); cbn [and_then];
      [|intros H1 H2; exfalso; revert H1 H2; by apply Hraise].
    destruct (Py.dict_get "to_dict" config); cbn [of_result and_then];
      [intros H1 H2; exfalso; revert H1 H2; by apply Hraise|].
    destruct (TrainingConfig.Object.to_dict config) as [?|ex] eqn:Hd; cbn [and_then].
    2:{ intros H1 H2. exfalso. revert H1 H2. apply Hraise. intros msg.
        revert Hd. unfold TrainingConfig.Object.to_dict, TrainingConfig.Object.getattr,
          getattr.
        repeat (match goal with
                | |- context [Py.dict_get ?k config] =>
                    destruct (Py.dict_get k config); cbn [and_then]
                end; [|by intros [= <-]]).
        done. }
    destruct (TrainingConfig.Object.fields config) as [typed|ex] eqn:Ht;
      cbn [of_result and_then].
    2:{ intros H1 H2. exfalso. revert H1 H2. apply Hraise. intros msg.
        revert Ht. unfold TrainingConfig.Object.fields.
        repeat (match goal with
                | |- context [match Py.dict_get ?k config with _ => _ end] =>
                    destruct (Py.dict_get k config) as [[| | | | ? | | |]|]
                end; try (by intros [= <-])). }
    destruct (start_training_stored e job_id typed training_svc)
      as (j & Hstart & Hj & _ & _ & _ & Hattrs & _).
    rewrite Hstart. cbn [of_result and_then]. rewrite Hj, Hattrs.
    cbn [Py.dict_get]. by intros [= <- <-].
  - destruct (Py.dict_get "get_validation_issues" config); cbn [of_result and_then];
      [intros H1 H2; exfalso; revert H1 H2; by apply Hraise|].
    destruct (TrainingConfig.Object.get_validation_issues config) as [issues|ex] eqn:Hi;
      cbn [and_then].
    + intros [= <- <-] _. split; [done|]. right. by exists config, issues.
    + intros H1 H2. exfalso. revert H1 H2. apply Hraise. intros msg.
      revert Hi. unfold TrainingConfig.Object.get_validation_issues,
        TrainingConfig.Object.getattr, getattr.
      destruct (Py.dict_get "model_name" config); cbn [and_then]; [|by intros [= <-]].
      destruct (Py.dict_get "algorithm" config); cbn [and_then]; [|by intros [= <-]].
      done.
  - intros H1 H2. exfalso. revert H1 H2. apply Hraise. intros msg.
    revert Hvalid. unfold TrainingConfig.Object.is_valid, TrainingConfig.Object.getattr,
      getattr.
    destruct (Py.dict_get "model_name" config) as [m|]; cbn [and_then];
      [|by intros [= <-]].
    destruct (negb (truthy m)); [done|].
    destruct (Py.dict_get "algorithm" config) as [al|]; cbn [and_then];
      [|by intros [= <-]].
    destruct (negb (truthy al)); [done|]. by destruct (negb _).
Qed.

(** The issues of a configuration made of a validated body that has no key
    [__dict__]. *)
Lemma validated_issues training_request config issues :
  ValidateJson.validate_field_types str training_request = [] ->
  Py.dict_contains "__dict__" training_request = false ->
  TrainingConfig.Object.from_dict str training_request = Returns config ->
  TrainingConfig.Object.is_valid config = Returns false ->
  TrainingConfig.Object.get_validation_issues config = Returns issues ->
  exists model_name algorithm,
    Py.dict_get "model_name" training_request = Some (Py.VStr model_name)
    /\ model_name <> EmptyString
    /\ Py.dict_get "algorithm" training_request = Some (Py.VStr algorithm)
    /\ algorithm <> EmptyString
    /\ ~ In algorithm TrainingConfig.valid_algorithms
    /\ issues = [ TrainingConfig.must_be_one_of ].
Proof.
  intros Hvalid Hd Hconfig.
  destruct (from_dict_attributes str _ _ Hd Hconfig)
    as (m & al & Hm & Ha & Hcm & Hca & _).
  unfold ValidateJson.validate_field_types in Hvalid.
  apply app_eq_nil in Hvalid as [Hfields _].
  pose proof (validated_field str training_request _ _ _ Hfields
                (dict_get_elem_of _ _ _ Hm) eq_refl) as Hv1.
  pose proof (validated_field str training_request _ _ _ Hfields
                (dict_get_elem_of _ _ _ Ha) eq_refl) as Hv2.
  apply nonempty_str_inv in Hv1 as (model_name & -> & Hne1).
  apply nonempty_str_inv in Hv2 as (algorithm & -> & Hne2).
  unfold TrainingConfig.Object.is_valid, TrainingConfig.Object.get_validation_issues,
    TrainingConfig.Object.getattr, getattr.
  rewrite Hcm, Hca. cbn [and_then truthy].
  apply String.eqb_neq in Hne1 as Hne1'. apply String.eqb_neq in Hne2 as Hne2'.
  rewrite Hne1', Hne2'. cbn [negb andb app TrainingConfig.Object.is_valid_algorithm].
  destruct (existsb (String.eqb algorithm) TrainingConfig.valid_algorithms) eqn:Hex;
    cbn [negb]; [done|].
  intros _ [= <-]. exists model_name, algorithm. do 4 (split; [done|]). split; [|done].
  intros Hin. apply not_true_iff_false in Hex. apply Hex, existsb_exists.
  eexists. split; [exact Hin|]. apply String.eqb_refl.
Qed.

(** X25.  The answers 400 of [POST /train], with its three decorators.  If the
    route answers 400, the training service is as it was, and the answer is
    the one of [validate_json], or, for a body that [validate_json] accepts,
    it is [Missing required field], for the first of [model_name] and
    [algorithm] that the body lacks, or [Invalid training configuration] with
    the issues of the configuration.  If the body has no key [__dict__],
    these are the one issue that the algorithm, a string that is not empty,
    is none of the valid ones: the issues [Model name is required] and
    [Algorithm is required] are answered only for a body with the key
    [__dict__], whose value [setattr] makes the attributes of the
    configuration. *)
Theorem validated_train_model (c : training_bp.call) (a a' : training_bp.app)
    (answer : TrainingController.response) :
  training_bp.train_model isoformat str c a = Some (answer, a') ->
  TrainingController.status_code answer = 400%Z ->
  training_bp.training_svc a' = training_bp.training_svc a
  /\ (ValidateJson.decorated_function str None (1024 * 1024) (training_bp.request c)
      = Some answer
      \/ exists training_request,
           ValidateJson.get_json (training_bp.request c) = inr (Some training_request)
           /\ ValidateJson.validate_field_types str training_request = []
           /\ ((exists field,
                  TrainingController.missing_field [ "model_name"; "algorithm" ]
                    training_request = Some field
                  /\ answer
                     = TrainingController.missing_field_response isoformat
                         (training_bp.answered c) field)
               \/ (exists issues,
                     answer
                     = TrainingController.Response 400
                         [ ("error", Py.VStr "Invalid training configuration");
                           ("issues", Py.VList (map Py.VStr issues));
                           ("timestamp",
                            Py.VStr (isoformat (Py.now (training_bp.answered c)))) ]
                     /\ (Py.dict_contains "__dict__" training_request = false ->
                         exists model_name algorithm,
                           Py.dict_get "model_name" training_request
                           = Some (Py.VStr model_name)
                           /\ model_name <> EmptyString
                           /\ Py.dict_get "algorithm" training_request
                              = Some (Py.VStr algorithm)
                           /\ algorithm <> EmptyString
                           /\ ~ In algorithm TrainingConfig.valid_algorithms
                           /\ issues = [ TrainingConfig.must_be_one_of ])))).
Proof.
  intros Hroute Hcode. unfold training_bp.train_model in Hroute.
  apply decorated_answer in Hroute
    as [(Hcode' & _) | [(Hvalid & Hsvc & _)
        | ([_ Hpasses] & a1 & a2 & Hf & Hsvc1 & _ & Hsvc2 & _)]].
  - congruence.
  - split; [done|]. by left.
  - destruct (validate_json_passes str _ _ Hpasses) as (training_request & Hjson & Hvalid).
    unfold training_bp.get_json in Hf. rewrite Hjson in Hf.
    destruct (TrainingController.train_model_body _ _ _ _ _ _ _)
      as [[answer' svc]|] eqn:Hbody; [|done].
    injection Hf as <- <-. cbn [training_bp.training_svc] in Hsvc2.
    destruct (train_model_body_400 _ _ _ _ _ _ _ Hbody Hcode)
      as [-> [Hmissing | (config & issues & Hconfig & Hv & Hissues & ->)]].
    + split; [congruence|]. right. exists training_request. do 2 (split; [done|]).
      by left.
    + split; [congruence|]. right. exists training_request. do 2 (split; [done|]).
      right. exists issues. split; [done|]. intros Hd.
      by eapply validated_issues.
Qed.

End ValidatedTrain.

(** ** A worker that runs on its own *)

Section WorkerAlone.

Import TrainingService Invariant.

Lemma worker_step_reachable s0 s e i s1 :
  reachable s0 s -> worker_step e i s = Some s1 -> reachable s0 s1.
Proof.
  intros Hr Hstep. eapply reachable_step; [exact Hr|].
  by apply (step_event s s1 e (Worker i)).
Qed.

Lemma executes_split i n m s s' :
  Alone.executes i (n + m) s s' ->
  exists s1, Alone.executes i n s s1 /\ Alone.executes i m s1 s'.
Proof.
  revert s. induction n as [|n IH]; intros s H.
  - exists s. split; [constructor | done].
  - inversion H as [|e n' s0' s1 s'' Hstep Hrest]; subst.
    destruct (IH _ Hrest) as (s2 & H1 & H2). exists s2. split; [|done].
    by econstructor.
Qed.

Lemma executes_total (e : Py.env) i n s :
  i < length (workers s) -> exists s', Alone.executes i n s s'.
Proof.
  revert s. induction n as [|n IH]; intros s Hi; [exists s; constructor|].
  destruct (lookup_lt_is_Some_2 _ _ Hi) as [pc Hpc].
  destruct (worker_step e i s) as [s1|] eqn:Hstep.
  - destruct (IH s1) as [s' Hs']; [by rewrite (worker_step_length _ _ _ _ Hstep)|].
    exists s'. by econstructor.
  - unfold worker_step in Hstep. rewrite Hpc in Hstep.
    by destruct (_training_worker e pc (service s)).
Qed.

(** One statement of a worker on the job it holds. *)
Lemma alone_step s e i pc id j s1 :
  inv s ->
  workers s !! i = Some pc -> holds pc = Some id ->
  get_training_job id (service s) = Some j -> Alone.done_at id pc j ->
  worker_step e i s = Some s1 ->
  exists pc' j',
    workers s1 !! i = Some pc'
    /\ S (Alone.statements_left pc') = Alone.statements_left pc
    /\ get_training_job id (service s1) = Some j'
    /\ Alone.done_at id pc' j'
    /\ job_queue (service s1) = job_queue (service s)
    /\ (holds pc' = Some id \/ pc' = AtTaskDone).
Proof.
  intros I Hpc Hh Hget Hdone Hstep. destruct s as [self ws rs]. unfold inv in I.
  cbn [service workers requests] in *.
  pose proof (lookup_lt_Some _ _ _ Hpc) as Hi.
  destruct (held _ _ _ _ _ I _ _ _ Hpc Hh) as (l & j0 & Hl & Hj & Hjob).
  unfold get_training_job, lookup in Hget. rewrite Hl, Hj in Hget. injection Hget as ->.
  unfold worker_step in Hstep. cbn [service workers requests] in Hstep.
  rewrite Hpc in Hstep.
  assert (Hlook : forall f, lookup id (assign l f self) = Some (f j)).
  { intros f. unfold lookup, assign. cbn [training_jobs heap with_heap].
    by rewrite Hl, list_lookup_alter_eq, Hj. }
  assert (Hsame : lookup id self = Some j) by (unfold lookup; by rewrite Hl, Hj).
  destruct pc as [| id' | id' p |]; [done | | | done]; injection Hh as ->.
  - cbn in Hstep. unfold Py.dict_contains in Hstep. rewrite Hl in Hstep.
    injection Hstep as <-. cbn [workers service].
    eexists _, j. rewrite list_lookup_insert_eq by done.
    split; [done|]. split; [done|]. split; [done|]. split; [done|]. split; [done|].
    by left.
  - destruct p as [| job | job | job | job [k | k | k] | job | job | job | job | job
                   | job msg | job msg | job |];
      cbn in Hstep; rewrite ?Hl in Hstep; cbn in Hjob;
      try (destruct Hjob as [-> Hjob]); try done.
    all: try (destruct (Z.of_nat k `mod` 10 =? 0)%Z).
    all: injection Hstep as <-; cbn [workers service].
    all: unfold get_training_job; rewrite ?list_lookup_insert_eq by done.
    all: try (destruct (Nat.leb_spec k 98)).
    all: eexists _, _; (split; [reflexivity|]).
    all: unfold total_steps in *.
    all: (split; [cbn; lia|]).
    all: first [ split; [apply Hlook|] | split; [exact Hsame|] ].
    all: cbn in Hdone |- *.
    all: try (split; [|split; [done | (by left) || (by right)]]).
    all: try done.
    all: try (unfold Py.dict_contains; rewrite dict_get_set_eq).
    all: intuition (try done; try lia).
Qed.

Lemma alone_run s0 i id n :
  forall s pc j s',
    reachable s0 s -> inv s0 ->
    workers s !! i = Some pc -> holds pc = Some id ->
    Alone.statements_left pc = S n ->
    get_training_job id (service s) = Some j -> Alone.done_at id pc j ->
    Alone.executes i n s s' ->
    reachable s0 s'
    /\ workers s' !! i = Some AtTaskDone
    /\ job_queue (service s') = job_queue (service s)
    /\ exists j', get_training_job id (service s') = Some j'
         /\ Alone.done_at id AtTaskDone j'.
Proof.
  induction n as [|n IH]; intros s pc j s' Hr I0 Hpc Hh Hleft Hget Hdone Hrun.
  - destruct pc as [| id' | id' p |]; try done.
    destruct p as [| job | job | job | job [k | k | k] | job | job | job | job | job
                   | job msg | job msg | job |]; cbn in Hleft; try done;
      unfold total_steps in *; lia.
  - inversion Hrun as [|e n' s_ s1 s'_ Hstep Hrest]; subst.
    assert (I : inv s) by (by eapply reachable_inv).
    destruct (alone_step _ _ _ _ _ _ _ I Hpc Hh Hget Hdone Hstep)
      as (pc' & j' & Hpc' & Hleft' & Hget' & Hdone' & Hq & Hnext).
    pose proof (worker_step_reachable _ _ _ _ _ Hr Hstep) as Hr1.
    rewrite Hleft in Hleft'. injection Hleft' as Hleft'.
    destruct Hnext as [Hh' | ->].
    + destruct (IH _ _ _ _ Hr1 I0 Hpc' Hh' Hleft' Hget' Hdone' Hrest)
        as (Hr' & Hw & Hq' & Hj').
      split; [done|]. split; [done|]. split; [congruence | done].
    + cbn in Hleft'. injection Hleft' as <-. inversion Hrest; subst.
      split; [done|]. split; [done|]. split; [done|]. by exists j'.
Qed.

(** X12.  A worker that is left alone completes the job at the head of the
    queue.  From a reachable state in which the worker waits at
    [job_queue.get] and the queue is [job_id :: rest], the worker can
    execute 313 statements, the 100 steps of the training of three
    statements each and 13 statements around them, none of which fails;
    after them it waits at [job_queue.get] again,
    the queue is [rest], and the job is completed, with [completed_at] set,
    progress 100, its model path and an attribute [metrics], while
    [final_metrics] is still empty.  This holds whatever the status of the
    job was, also if it was cancelled. *)
Theorem worker_completes_its_job (config : Py.dict Py.value) (s0 s : system)
    (i : nat) (job_id : string) (rest : list string) :
  __init__ config = Ok s0 ->
  reachable s0 s ->
  workers s !! i = Some AtGet ->
  job_queue (service s) = job_id :: rest ->
  (exists s', Alone.executes i 313 s s')
  /\ (forall s', Alone.executes i 313 s s' ->
       workers s' !! i = Some AtGet
       /\ job_queue (service s') = rest
       /\ exists j, get_training_job job_id (service s') = Some j
            /\ TrainingJob.status j = "completed"
            /\ TrainingJob.completed_at j <> None
            /\ TrainingJob.progress j = 100%Z
            /\ TrainingJob.model_path j = Some (model_path_of job_id j)
            /\ Py.dict_contains "metrics" (TrainingJob.attrs j) = true
            /\ TrainingJob.final_metrics j = []).
Proof.
  intros Hinit Hr Hpc Hq.
  assert (I0 : inv s0) by (by eapply init_inv).
  split.
  { apply (executes_total (Py.Env 0%Z (fun _ => 0%Z))). by eapply lookup_lt_Some. }
  intros s' Hrun.
  change 313 with (1 + (311 + 1)) in Hrun.
  apply executes_split in Hrun as (s1 & H1 & Hrun).
  apply executes_split in Hrun as (s2 & H2 & H3).
  (* the id is taken from the queue *)
  inversion H1 as [|e n' s_ s1' s1_ Hstep Hnone]; subst. inversion Hnone; subst.
  pose proof (worker_step_reachable _ _ _ _ _ Hr Hstep) as Hr1.
  assert (Hinv : inv s) by (by eapply reachable_inv).
  destruct (queued _ _ _ _ _ Hinv job_id) as (l & j & Hl & Hj & _);
    [rewrite Hq; by left|].
  assert (Hstart : workers s1 !! i = Some (AtCheck job_id)
                   /\ job_queue (service s1) = rest
                   /\ get_training_job job_id (service s1) = Some j).
  { unfold worker_step in Hstep. rewrite Hpc in Hstep. cbn in Hstep.
    rewrite Hq in Hstep. injection Hstep as <-. cbn [workers service].
    split; [apply list_lookup_insert_eq; by eapply lookup_lt_Some|].
    split; [done|]. unfold get_training_job, lookup. cbn. by rewrite Hl, Hj. }
  destruct Hstart as (Hpc1 & Hq1 & Hget1).
  (* the job is executed *)
  destruct (alone_run s0 i job_id 311 _ _ _ _ Hr1 I0 Hpc1 eq_refl eq_refl Hget1 I H2)
    as (Hr2 & Hpc2 & Hq2 & j' & Hget2 & Hdone).
  (* [task_done] *)
  inversion H3 as [|e' n' s_ s3 s3_ Hlast Hnone']; subst. inversion Hnone'; subst.
  pose proof (worker_step_reachable _ _ _ _ _ Hr2 Hlast) as Hr3.
  unfold worker_step in Hlast. rewrite Hpc2 in Hlast. cbn in Hlast.
  injection Hlast as <-. cbn [workers service].
  split; [apply list_lookup_insert_eq; by eapply lookup_lt_Some|].
  split; [congruence|]. exists j'. split; [done|].
  destruct Hdone as (H4 & H5 & H6 & H7 & H8). repeat (split; [done|]).
  by eapply final_metrics_stay_empty.
Qed.

End WorkerAlone.

(** ** The rate limiter *)

Section RateLimiter.

Import RateLimit.

Lemma filter_sublist {A} (f : A -> bool) (l : list A) : List.filter f l `sublist_of` l.
Proof.
  induction l as [|x l IH]; simpl; [constructor|].
  destruct (f x); by constructor.
Qed.

Lemma key_inj (name c1 c2 : string) :
  rate_limit_key name c1 = rate_limit_key name c2 -> c1 = c2.
Proof.
  unfold rate_limit_key. induction name as [|a name IH]; cbn.
  - intros H. by injection H.
  - intros H. injection H as H. by apply IH.
Qed.

Lemma let_through_app client_id calls1 calls2 answers1 answers2 :
  length calls1 = length answers1 ->
  let_through client_id (calls1 ++ calls2) (answers1 ++ answers2)
  = let_through client_id calls1 answers1 ++ let_through client_id calls2 answers2.
Proof.
  revert answers1. induction calls1 as [|[c t] calls1 IH]; intros [|a answers1]; try done.
  simpl. intros [= Hlen]. rewrite (IH _ Hlen).
  destruct (String.eqb c client_id); [|done]. by destruct a.
Qed.

(** One call keeps the accounts. *)
Lemma decorated_function_accounts limit per_second name client_id t st history :
  accounts limit name st history ->
  let answer := decorated_function limit per_second name true client_id t st in
  accounts limit name (snd answer)
    (fun c => history c ++ let_through c [(client_id, t)] [fst answer]).
Proof.
  intros Hacc answer. subst answer. unfold decorated_function, is_rate_limited. cbn [negb].
  set (key := rate_limit_key name client_id).
  set (en := entry_of (at_check t) key st).
  set (kept := List.filter _ (requests en)).
  assert (Hen : (Z.of_nat (length (requests en)) <= Z.max 0 limit)%Z
                /\ count en = Z.of_nat (length (history client_id))
                /\ requests en `sublist_of` map at_record (history client_id)).
  { subst en. unfold entry_of. specialize (Hacc client_id). fold key in Hacc.
    destruct (Py.dict_get key st) as [en|]; [done|]. rewrite Hacc. cbn.
    split; [lia|]. split; [done | constructor]. }
  destruct Hen as (Hlen & Hcount & Hsub).
  assert (Hkept : kept `sublist_of` requests en) by apply filter_sublist.
  pose proof (sublist_length _ _ Hkept) as Hkl.
  destruct (Z.leb_spec limit (Z.of_nat (length kept))) as [Hlim | Hlim];
    cbn [fst snd]; intros c; cbn [let_through].
  - (* rejected *)
    destruct (String.eqb_spec client_id c) as [<- | Hne].
    + fold key. rewrite dict_get_set_eq. cbn. rewrite app_nil_r.
      split; [lia|]. split; [done|]. by etrans.
    + rewrite dict_get_set_ne by (intros Hk; by apply key_inj in Hk).
      rewrite app_nil_r. apply Hacc.
  - (* let through *)
    unfold record_request, entry_of. rewrite dict_get_set_eq. cbn [count window_start requests].
    destruct (String.eqb_spec client_id c) as [<- | Hne].
    + fold key. rewrite dict_get_set_eq. cbn. rewrite !length_app, map_app. cbn.
      split; [lia|]. split; [lia|]. apply sublist_app; [by etrans | done].
    + rewrite !dict_get_set_ne by (intros Hk; by apply key_inj in Hk).
      rewrite app_nil_r. apply Hacc.
Qed.

Lemma serve_accounts limit per_second name calls :
  forall st history,
    accounts limit name st history ->
    let served := serve limit per_second name calls st in
    length (fst served) = length calls
    /\ accounts limit name (snd served)
         (fun c => history c ++ let_through c calls (fst served)).
Proof.
  induction calls as [|[client_id t] calls IH]; intros st history Hacc; cbn [serve].
  - cbn. split; [done|]. intros c. rewrite app_nil_r. apply Hacc.
  - pose proof (decorated_function_accounts limit per_second name client_id t st history Hacc)
      as Hone. cbn zeta in Hone.
    destruct (decorated_function limit per_second name true client_id t st)
      as [answer st1]. cbn [fst snd] in Hone.
    destruct (IH _ _ Hone) as [Hlen Hrest].
    destruct (serve limit per_second name calls st1) as [answers st2].
    cbn [fst snd] in *. split; [cbn [length]; by rewrite Hlen|].
    intros c. specialize (Hrest c). cbn beta in Hrest |- *.
    rewrite <- app_assoc in Hrest.
    replace (let_through c ((client_id, t) :: calls) (answer :: answers))
      with (let_through c [(client_id, t)] [answer] ++ let_through c calls answers); [done|].
    by rewrite <- (let_through_app c [(client_id, t)] calls [answer] answers).
Qed.

(** X13.  The rate limiter, on calls that arrive one after the other with an
    empty storage at first: the entry of a client
    never holds more than [limit] timestamps (none if [limit] is negative),
    its [count] is the number of the calls of the client that were let
    through, and its timestamps are timestamps of such calls, in their
    order.  With a limit of 0 or less every call is answered 429. *)
Theorem rate_limit_accounts (limit per_second : Z) (name : string)
    (calls : list (string * clock)) :
  let served := serve limit per_second name calls [] in
  length (fst served) = length calls
  /\ (forall client_id entry,
        Py.dict_get (rate_limit_key name client_id) (snd served) = Some entry ->
        (Z.of_nat (length (requests entry)) <= Z.max 0 limit)%Z
        /\ count entry = Z.of_nat (length (let_through client_id calls (fst served)))
        /\ requests entry
             `sublist_of` map at_record (let_through client_id calls (fst served)))
  /\ ((limit <= 0)%Z -> Forall (fun answer => answer <> None) (fst served)).
Proof.
  intros served. subst served.
  destruct (serve_accounts limit per_second name calls [] (fun _ => []))
    as [Hlen Hacc]; [by intros c|].
  split; [done|]. split.
  - intros client_id entry Hentry. specialize (Hacc client_id).
    rewrite Hentry in Hacc. done.
  - intros Hlimit. clear Hlen Hacc. generalize (@nil (string * entry)) as st.
    induction calls as [|[client_id t] calls IH]; intros st; cbn [serve]; [by constructor|].
    unfold decorated_function, is_rate_limited. cbn [negb].
    destruct (Z.leb_spec limit (Z.of_nat (length
              (List.filter (fun req_time => fgt req_time
                 (Py.fsub (at_check t) (Py.float_of_int per_second)))
                 (requests (entry_of (at_check t) (rate_limit_key name client_id) st))))));
      [|lia].
    specialize (IH (Py.dict_set (rate_limit_key name client_id)
                      (Entry (count (entry_of (at_check t) (rate_limit_key name client_id) st))
                         (window_start (entry_of (at_check t) (rate_limit_key name client_id) st))
                         (List.filter (fun req_time => fgt req_time
                            (Py.fsub (at_check t) (Py.float_of_int per_second)))
                            (requests (entry_of (at_check t) (rate_limit_key name client_id) st))))
                      st)).
    destruct (serve limit per_second name calls _) as [answers st2].
    cbn [fst] in *. by constructor.
Qed.

End RateLimiter.

(** ** The model registry *)

Section Registry.

Import MLflowService.

Variable isoformat : Py.datetime -> string.

Lemma int_of_str_of_int n : int_of_str (str_of_int n) = Ok n.
Proof.
  unfold int_of_str, str_of_int. rewrite NilZero.isi.
  - by rewrite DecimalZ.of_to.
  - destruct n; cbn; try done. intros [= H]. by apply Unsigned.to_uint_nonnil in H.
  - destruct n; cbn; try done. intros [= H]. by apply Unsigned.to_uint_nonnil in H.
Qed.

Lemma str_of_int_inj a b : str_of_int a = str_of_int b -> a = b.
Proof.
  intros H. pose proof (int_of_str_of_int a) as Ha. rewrite H, int_of_str_of_int in Ha.
  by injection Ha.
Qed.

(** *** The versions are numbered *)

Lemma set_stage_versions version stage versions versions' :
  set_stage version stage versions = Some versions' ->
  map VersionInfo.version versions' = map VersionInfo.version versions
  /\ length versions' = length versions.
Proof.
  revert versions'. induction versions as [|v versions IH]; intros versions'; cbn; [done|].
  destruct (String.eqb (VersionInfo.version v) version).
  - by intros [= <-].
  - destruct (set_stage version stage versions) as [vs|]; cbn; [|done].
    intros [= <-]. destruct (IH _ eq_refl) as [H1 H2]. cbn. by rewrite H1, H2.
Qed.

Lemma register_model_numbered e run_id model_name model_path description self :
  registry_numbered self ->
  exists model_version self',
    register_model isoformat e run_id model_name model_path description self
    = Ok (model_version, self')
    /\ registry_numbered self'.
Proof.
  intros Hnum. unfold register_model.
  set (entry := match Py.dict_get model_name (models_cache self) with
                | Some entry => entry
                | None => _
                end).
  assert (Hentry : numbered entry /\ ModelEntry.name entry = model_name).
  { subst entry. destruct (Py.dict_get model_name (models_cache self)) as [en|] eqn:E.
    - by apply Hnum.
    - by split. }
  destruct Hentry as [[Hvs Hlatest] Hname].
  rewrite Hlatest, int_of_str_of_int. cbn [bind]. eexists _, _. split; [reflexivity|].
  intros name en. cbn [models_cache with_models_cache]. rewrite dict_get_set.
  destruct (String.eqb_spec model_name name) as [<- | Hne]; [|by apply Hnum].
  intros [= <-]. split; [|done]. unfold numbered. cbn [ModelEntry.versions ModelEntry.latest_version].
  rewrite length_app, map_app, Hvs. cbn [length map VersionInfo.version].
  rewrite Nat.add_1_r, seq_S, map_app. cbn [map].
  replace (Z.of_nat (length (ModelEntry.versions entry)) + 1)%Z
    with (Z.of_nat (1 + length (ModelEntry.versions entry))) by lia.
  done.
Qed.

Lemma reachable_numbered self : reachable isoformat self -> registry_numbered self.
Proof.
  induction 1 as [e config | e c self Hr IH].
  - intros name en. cbn. destruct (String.eqb_spec name "fraud_detection_model"); [|done].
    intros [= <-]. by subst.
  - destruct c as [run_id model_name model_path description | model_name version stage
                   | name artifact_location]; cbn [run_call].
    + destruct (register_model_numbered e run_id model_name model_path description self IH)
        as (mv & self' & -> & H). done.
    + unfold transition_model_stage.
      destruct (Py.dict_get model_name (models_cache self)) as [en|] eqn:E; [|done].
      destruct (set_stage version stage (ModelEntry.versions en)) as [vs|] eqn:Es; [|done].
      destruct (set_stage_versions _ _ _ _ Es) as [Hv Hl].
      destruct (IH _ _ E) as [[H1 H2] H3].
      intros name en'. cbn [snd models_cache with_models_cache]. rewrite dict_get_set.
      destruct (String.eqb_spec model_name name) as [<- | Hne]; [|by apply IH].
      intros [= <-]. split; [|done]. unfold numbered. cbn. by rewrite Hv, Hl.
    + done.
Qed.

(** *** Looking a version up *)

Lemma find_version_app version (versions : list VersionInfo.t) info :
  List.find (fun v => String.eqb (VersionInfo.version v) version) (versions ++ [info])
  = match List.find (fun v => String.eqb (VersionInfo.version v) version) versions with
    | Some v => Some v
    | None => if String.eqb (VersionInfo.version info) version then Some info else None
    end.
Proof.
  induction versions as [|v versions IH]; cbn; [done|].
  by destruct (String.eqb (VersionInfo.version v) version).
Qed.

Lemma find_version_none version (versions : list VersionInfo.t) :
  version ∉ map VersionInfo.version versions ->
  List.find (fun v => String.eqb (VersionInfo.version v) version) versions = None.
Proof.
  induction versions as [|v versions IH]; cbn; [done|]. intros Hnot.
  destruct (String.eqb_spec (VersionInfo.version v) version) as [<- | Hne].
  - destruct Hnot. by left.
  - apply IH. intros Hin. apply Hnot. by right.
Qed.

Lemma numbers_fresh n :
  str_of_int (Z.of_nat n + 1) ∉ map (fun k => str_of_int (Z.of_nat k)) (seq 1 n).
Proof.
  intros Hin. apply list_elem_of_fmap in Hin as (k & Heq & Hk).
  apply str_of_int_inj in Heq. apply list_elem_of_In, in_seq in Hk. lia.
Qed.

(** *** The latest version *)

Lemma last_cons_default {A} (x d : A) (l : list A) :
  List.last (x :: l) d = List.last l x.
Proof.
  revert x d. induction l as [|y l IH]; intros x d; [done|].
  change (List.last (x :: y :: l) d) with (List.last (y :: l) d).
  by rewrite !IH.
Qed.

Lemma max_by_version_last (ks : list Z) :
  forall best best_key versions,
    map VersionInfo.version versions = map str_of_int ks ->
    StronglySorted Z.lt (best_key :: ks) ->
    max_by_version best best_key versions = Ok (List.last versions best).
Proof.
  induction ks as [|k ks IH]; intros best best_key [|v versions] Hmap Hs; try done.
  cbn in Hmap. injection Hmap as Hv Hmap. cbn [max_by_version].
  rewrite Hv, int_of_str_of_int. cbn [bind].
  apply StronglySorted_inv in Hs as [Hs Hall].
  assert (Hlt : (best_key < k)%Z) by (by apply Forall_inv in Hall).
  apply Z.ltb_lt in Hlt. rewrite Hlt. rewrite (IH v k versions Hmap Hs).
  by rewrite last_cons_default.
Qed.

Lemma filter_numbers (p : VersionInfo.t -> bool) (ks : list Z) :
  forall versions,
    map VersionInfo.version versions = map str_of_int ks ->
    exists ks', map VersionInfo.version (List.filter p versions) = map str_of_int ks'
      /\ ks' `sublist_of` ks.
Proof.
  induction ks as [|k ks IH]; intros [|v versions] Hmap; try done.
  - by exists [].
  - cbn in Hmap. injection Hmap as Hv Hmap. destruct (IH _ Hmap) as (ks' & Hks & Hsub).
    cbn [List.filter]. destruct (p v).
    + exists (k :: ks'). cbn. rewrite Hv, Hks. split; [done | by constructor].
    + exists ks'. split; [done | by constructor].
Qed.

Lemma sublist_sorted (ks ks' : list Z) :
  ks' `sublist_of` ks -> StronglySorted Z.lt ks -> StronglySorted Z.lt ks'.
Proof.
  induction 1 as [|k l1 l2 Hsub IH | k l1 l2 Hsub IH]; intros Hs; [done| |].
  - apply StronglySorted_inv in Hs as [Hs Hall]. constructor; [by apply IH|].
    rewrite List.Forall_forall in *. intros x Hx. apply Hall.
    apply list_elem_of_In. apply list_elem_of_In in Hx.
    eapply elem_of_submseteq; [exact Hx | by apply sublist_submseteq].
  - apply StronglySorted_inv in Hs as [Hs _]. by apply IH.
Qed.

Lemma numbers_sorted n m : StronglySorted Z.lt (map Z.of_nat (seq m n)).
Proof.
  revert m. induction n as [|n IH]; intros m; cbn; constructor; [apply IH|].
  rewrite List.Forall_forall. intros x Hx. apply in_map_iff in Hx as (k & <- & Hk).
  apply in_seq in Hk. lia.
Qed.

Lemma latest_of_sorted (versions : list VersionInfo.t) (ks : list Z) :
  map VersionInfo.version versions = map str_of_int ks ->
  StronglySorted Z.lt ks ->
  match versions with
  | [] => Ok None
  | first :: rest =>
      let! key := int_of_str (VersionInfo.version first) in
      let! latest := max_by_version first key rest in
      Ok (Some latest)
  end = Ok (last versions).
Proof.
  intros Hmap Hs. destruct versions as [|v versions]; [done|].
  destruct ks as [|k ks]; [done|]. cbn in Hmap. injection Hmap as Hv Hmap.
  rewrite Hv, int_of_str_of_int. cbn [bind].
  rewrite (max_by_version_last ks v k versions Hmap Hs). cbn [bind]. f_equal.
  clear. revert v. induction versions as [|v' versions IH]; intros v; [done|].
  rewrite last_cons_default, IH. symmetry. apply last_cons_cons.
Qed.

Lemma get_model_version_versions_of model_name version self :
  get_model_version model_name version self
  = List.find (fun v => String.eqb (VersionInfo.version v) version)
      (versions_of model_name self).
Proof.
  unfold get_model_version, versions_of.
  by destruct (Py.dict_get model_name (models_cache self)).
Qed.

Lemma get_latest_versions_of model_name self :
  registry_numbered self ->
  get_latest_model_version model_name None self
  = Ok (last (versions_of model_name self)).
Proof.
  intros Hnum. unfold get_latest_model_version, versions_of.
  destruct (Py.dict_get model_name (models_cache self)) as [en|] eqn:E; [|done].
  destruct (Hnum _ _ E) as [[Hmap _] _].
  apply (latest_of_sorted _ (map Z.of_nat (seq 1 (length (ModelEntry.versions en))))).
  - by rewrite Hmap, map_map.
  - apply numbers_sorted.
Qed.

Lemma versions_of_numbered model_name self :
  registry_numbered self ->
  map VersionInfo.version (versions_of model_name self)
  = map (fun k => str_of_int (Z.of_nat k)) (seq 1 (length (versions_of model_name self))).
Proof.
  intros Hnum. unfold versions_of.
  destruct (Py.dict_get model_name (models_cache self)) as [en|] eqn:E; [|done].
  by destruct (Hnum _ _ E) as [[Hmap _] _].
Qed.

Lemma register_model_versions e run_id model_name model_path description self :
  registry_numbered self ->
  exists model_version self',
    register_model isoformat e run_id model_name model_path description self
    = Ok (model_version, self')
    /\ ModelVersion.name model_version = model_name
    /\ ModelVersion.version model_version
       = str_of_int (Z.of_nat (length (versions_of model_name self)) + 1)
    /\ versions_of model_name self'
       = versions_of model_name self
         ++ [VersionInfo.Build
               (str_of_int (Z.of_nat (length (versions_of model_name self)) + 1))
               "None" run_id (isoformat (Py.now e)) (Some description)]
    /\ (forall other, other <> model_name ->
          Py.dict_get other (models_cache self')
          = Py.dict_get other (models_cache self)).
Proof.
  intros Hnum. unfold register_model, versions_of.
  destruct (Py.dict_get model_name (models_cache self)) as [en|] eqn:E.
  - destruct (Hnum _ _ E) as [[_ Hlatest] _].
    rewrite Hlatest, int_of_str_of_int. cbn [bind]. eexists _, _. split; [reflexivity|].
    cbn [models_cache with_models_cache]. rewrite dict_get_set_eq.
    split; [done|]. split; [done|]. split; [done|].
    intros other Hne. by rewrite dict_get_set_ne.
  - cbn [ModelEntry.latest_version]. change (int_of_str "0") with (Ok 0%Z). cbn [bind].
    eexists _, _. split; [reflexivity|].
    cbn [models_cache with_models_cache]. rewrite dict_get_set_eq.
    split; [done|]. split; [done|]. split; [done|].
    intros other Hne. by rewrite dict_get_set_ne.
Qed.

(** X14.  [register_model] on a registry that any calls have made: it does not
    raise; the new version has the number [n + 1] where the model has [n]
    versions, a number that no version of the model had; the version is put
    last, in stage [None], and is then what [get_model_version] returns for
    its number and what [get_latest_model_version] returns; the other
    versions and the other models are as they were. *)
Theorem register_model_numbers (e : Py.env)
    (run_id model_name model_path description : string) (self : MLflowService.t) :
  reachable isoformat self ->
  let number := (Z.of_nat (length (versions_of model_name self)) + 1)%Z in
  let version_info :=
    VersionInfo.Build (str_of_int number) "None" run_id (isoformat (Py.now e))
      (Some description) in
  exists model_version self',
    register_model isoformat e run_id model_name model_path description self
    = Ok (model_version, self')
    /\ ModelVersion.name model_version = model_name
    /\ ModelVersion.version model_version = str_of_int number
    /\ get_model_version model_name (str_of_int number) self = None
    /\ versions_of model_name self' = versions_of model_name self ++ [version_info]
    /\ get_model_version model_name (str_of_int number) self' = Some version_info
    /\ get_latest_model_version model_name None self' = Ok (Some version_info)
    /\ (forall version, version <> str_of_int number ->
          get_model_version model_name version self'
          = get_model_version model_name version self)
    /\ (forall other, other <> model_name ->
          Py.dict_get other (models_cache self')
          = Py.dict_get other (models_cache self)).
Proof.
  intros Hr number version_info.
  pose proof (reachable_numbered _ Hr) as Hnum.
  assert (Hr' : reachable isoformat
                  (run_call isoformat e
                     (RegisterModel run_id model_name model_path description) self))
    by (by constructor).
  apply reachable_numbered in Hr'. cbn [run_call] in Hr'.
  destruct (register_model_versions e run_id model_name model_path description self Hnum)
    as (mv & self' & Hreg & Hname & Hversion & Hversions & Hother).
  rewrite Hreg in Hr'. exists mv, self'. fold number in Hversion, Hversions.
  fold version_info in Hversions.
  assert (Hfresh : List.find
                     (fun v => String.eqb (VersionInfo.version v) (str_of_int number))
                     (versions_of model_name self) = None).
  { apply find_version_none. rewrite (versions_of_numbered _ _ Hnum).
    apply numbers_fresh. }
  rewrite !get_model_version_versions_of, (get_latest_versions_of _ _ Hr'), Hversions.
  rewrite find_version_app, Hfresh, last_snoc. cbn [VersionInfo.version version_info].
  rewrite String.eqb_refl.
  do 7 (split; [done|]). split; [|done].
  intros version Hne. rewrite !get_model_version_versions_of, Hversions, find_version_app.
  subst version_info. cbn [VersionInfo.version].
  apply not_eq_sym, String.eqb_neq in Hne. rewrite Hne.
  by case_match.
Qed.

End Registry.

(** ** Stages, and experiments *)

Section RegistryStages.

Import MLflowService.

Variable isoformat : Py.datetime -> string.

Lemma set_stage_find version stage versions :
  match set_stage version stage versions with
  | Some versions' =>
      exists info,
        List.find (fun v => String.eqb (VersionInfo.version v) version) versions
        = Some info
        /\ List.find (fun v => String.eqb (VersionInfo.version v) version) versions'
           = Some (VersionInfo.set_stage stage info)
        /\ forall other, other <> version ->
             List.find (fun v => String.eqb (VersionInfo.version v) other) versions'
             = List.find (fun v => String.eqb (VersionInfo.version v) other) versions
  | None =>
      List.find (fun v => String.eqb (VersionInfo.version v) version) versions = None
  end.
Proof.
  induction versions as [|a versions IH]; cbn [set_stage List.find]; [done|].
  destruct (String.eqb (VersionInfo.version a) version) eqn:E.
  - exists a. split; [done|]. cbn [List.find VersionInfo.set_stage VersionInfo.version].
    rewrite E. split; [done|]. intros other Hne.
    apply String.eqb_eq in E. rewrite E.
    apply not_eq_sym, String.eqb_neq in Hne. by rewrite Hne.
  - destruct (set_stage version stage versions) as [versions'|]; cbn [option_map]; [|done].
    destruct IH as (info & Hfind & Hnew & Hother). exists info.
    cbn [List.find]. rewrite E. split; [done|]. split; [done|].
    intros other Hne. rewrite (Hother other Hne). done.
Qed.

(** X15.  [transition_model_stage] returns [True] exactly if the model has the
    version.  If it returns [False] the registry is as it was; otherwise
    [get_model_version] returns the version with the new stage and nothing
    else changed in it; for every other number it returns what it returned
    before, so a version that was in the new stage stays there; the numbers
    of the versions and the other models are as they were. *)
Theorem transition_model_stage_spec (e : Py.env) (model_name version stage : string)
    (self : MLflowService.t) :
  let result := transition_model_stage isoformat e model_name version stage self in
  (fst result = true
   <-> exists info, get_model_version model_name version self = Some info)
  /\ (fst result = false -> snd result = self)
  /\ (forall info, get_model_version model_name version self = Some info ->
        get_model_version model_name version (snd result)
        = Some (VersionInfo.set_stage stage info))
  /\ (forall other, other <> version ->
        get_model_version model_name other (snd result)
        = get_model_version model_name other self)
  /\ map VersionInfo.version (versions_of model_name (snd result))
     = map VersionInfo.version (versions_of model_name self)
  /\ (forall other, other <> model_name ->
        Py.dict_get other (models_cache (snd result))
        = Py.dict_get other (models_cache self)).
Proof.
  unfold transition_model_stage, get_model_version, versions_of. cbn zeta.
  destruct (Py.dict_get model_name (models_cache self)) as [entry|] eqn:Hentry;
    [|cbn [fst snd]; rewrite ?Hentry].
  - pose proof (set_stage_find version stage (ModelEntry.versions entry)) as Hfind.
    destruct (set_stage version stage (ModelEntry.versions entry)) as [versions'|] eqn:Hset;
      cbn [fst snd].
    + destruct Hfind as (info & Hold & Hnew & Hother).
      cbn [models_cache with_models_cache]. rewrite !dict_get_set_eq.
      cbn [ModelEntry.versions]. rewrite Hold, Hnew.
      split; [split; [by exists info | done]|]. split; [done|].
      split; [by intros ? [= <-]|]. split; [done|].
      split; [by apply (proj1 (set_stage_versions _ _ _ _ Hset))|].
      intros other Hne. apply dict_get_set_ne. congruence.
    + rewrite ?Hentry, Hfind. split; [split; [done | by intros [? ?]]|]. done.
  - split; [split; [done | by intros [? ?]]|]. done.
Qed.

Lemma sorted_last_max (ks : list Z) k m :
  StronglySorted Z.lt ks -> k ∈ ks -> last ks = Some m -> (k <= m)%Z.
Proof.
  induction 1 as [|x l Hl IH Hx]; intros Hk Hm; [by apply elem_of_nil in Hk|].
  rewrite last_cons in Hm. destruct (last l) as [y|] eqn:Hlast.
  - injection Hm as ->. apply elem_of_cons in Hk as [-> | Hk]; [|by apply IH].
    apply last_Some_elem_of in Hlast. rewrite Forall_forall in Hx.
    specialize (Hx _ Hlast). lia.
  - injection Hm as ->. apply last_None in Hlast. subst l.
    apply elem_of_cons in Hk as [-> | Hk]; [lia | by apply elem_of_nil in Hk].
Qed.

(** X16.  [get_latest_model_version] with a stage, on a registry that any
    calls have made: it does not raise and returns the version registered
    last among the versions of the model in this stage; [None] exactly if
    the model has no version in the stage; and the number of the version it
    returns is the largest of the numbers of the versions in the stage. *)
Theorem latest_model_version_by_stage (model_name stage : string)
    (self : MLflowService.t) :
  reachable isoformat self ->
  stage <> EmptyString ->
  let staged :=
    List.filter (fun v => String.eqb (VersionInfo.stage v) stage)
      (versions_of model_name self) in
  get_latest_model_version model_name (Some stage) self = Ok (last staged)
  /\ (last staged = None
      <-> forall v, v ∈ versions_of model_name self -> VersionInfo.stage v <> stage)
  /\ (forall v v',
        last staged = Some v -> v' ∈ versions_of model_name self ->
        VersionInfo.stage v' = stage ->
        exists n n',
          int_of_str (VersionInfo.version v) = Ok n
          /\ int_of_str (VersionInfo.version v') = Ok n'
          /\ (n' <= n)%Z).
Proof.
  intros Hreach Hstage staged.
  pose proof (versions_of_numbered model_name self (reachable_numbered isoformat _ Hreach))
    as Hnum.
  rewrite <- (map_map Z.of_nat str_of_int) in Hnum.
  destruct (filter_numbers (fun v => String.eqb (VersionInfo.stage v) stage) _ _ Hnum)
    as (ks & Hks & Hsub).
  fold staged in Hks.
  assert (Hsorted : StronglySorted Z.lt ks).
  { eapply sublist_sorted; [done|]. apply numbers_sorted. }
  split; [|split].
  - pose proof (latest_of_sorted staged ks Hks Hsorted) as Hlatest.
    unfold get_latest_model_version. subst staged. unfold versions_of in *.
    apply String.eqb_neq in Hstage. rewrite Hstage.
    by destruct (Py.dict_get model_name (models_cache self)).
  - rewrite last_None. subst staged. split.
    + intros Hnil v Hv Hst.
      assert (Hin : v ∈ List.filter (fun v => String.eqb (VersionInfo.stage v) stage)
                         (versions_of model_name self)).
      { apply list_elem_of_In, filter_In. split; [by apply list_elem_of_In|].
        by apply String.eqb_eq. }
      rewrite Hnil in Hin. by apply elem_of_nil in Hin.
    + intros Hall.
      destruct (List.filter _ _) as [|v l] eqn:Hf; [done|].
      assert (Hin : In v (List.filter (fun v => String.eqb (VersionInfo.stage v) stage)
                         (versions_of model_name self))) by (rewrite Hf; by left).
      apply filter_In in Hin as [Hin Hst]. apply String.eqb_eq in Hst.
      by destruct (Hall v (proj2 (list_elem_of_In _ _) Hin)).
  - intros v v' Hlast Hv' Hst.
    assert (Hin : v' ∈ staged).
    { apply list_elem_of_In, filter_In. split; [by apply list_elem_of_In|].
      by apply String.eqb_eq. }
    assert (Hlast' : last (map VersionInfo.version staged) = Some (VersionInfo.version v)).
    { change (map VersionInfo.version staged) with (VersionInfo.version <$> staged).
      by rewrite fmap_last, Hlast. }
    rewrite Hks in Hlast'.
    change (map str_of_int ks) with (str_of_int <$> ks) in Hlast'.
    rewrite fmap_last in Hlast'.
    destruct (last ks) as [n|] eqn:Hn; [|done]. injection Hlast' as Hvn.
    assert (Hin' : VersionInfo.version v' ∈ map str_of_int ks).
    { rewrite <- Hks. by apply list_elem_of_fmap_2. }
    apply list_elem_of_fmap in Hin' as (n' & Hvn' & Hn').
    exists n, n'. rewrite <- Hvn, Hvn', !int_of_str_of_int.
    split; [done|]. split; [done|]. by eapply sorted_last_max.
Qed.

(** *** Experiments *)

Lemma dict_get_not_keys {V} (k : string) (d : Py.dict V) :
  k ∉ Py.dict_keys d -> Py.dict_get k d = None.
Proof.
  intros Hk. destruct (Py.dict_get k d) eqn:E; [|done].
  by apply dict_get_Some_keys in E.
Qed.

Lemma create_experiment_fresh (self : MLflowService.t) :
  experiments_numbered self ->
  Py.dict_get (str_of_int (Z.of_nat (length (experiments_cache self)) + 1))
    (experiments_cache self) = None.
Proof.
  intros Hnum. apply dict_get_not_keys. rewrite Hnum. apply numbers_fresh.
Qed.

Lemma create_experiment_numbered e name artifact_location self :
  experiments_numbered self ->
  experiments_numbered (snd (create_experiment isoformat e name artifact_location self)).
Proof.
  intros Hnum. pose proof (create_experiment_fresh self Hnum) as Hfresh.
  unfold experiments_numbered, create_experiment in *.
  cbn [snd experiments_cache with_experiments_cache].
  rewrite dict_set_fresh by done. unfold Py.dict_keys in *.
  rewrite map_app, length_app, Hnum. cbn [length map fst].
  rewrite Nat.add_1_r, seq_S, map_app. cbn [map]. do 3 f_equal. lia.
Qed.

Lemma reachable_experiments self :
  reachable isoformat self -> experiments_numbered self.
Proof.
  induction 1 as [e config | e c self Hr IH]; [done|].
  destruct c as [run_id model_name model_path description | model_name version stage
                 | name artifact_location]; cbn [run_call].
  - destruct (register_model _ _ _ _ _ _ _) as [[mv self']|] eqn:Hreg; [|done].
    unfold register_model in Hreg.
    destruct (int_of_str _) as [n|]; cbn [bind] in Hreg; [|done].
    injection Hreg as _ <-. done.
  - unfold transition_model_stage.
    destruct (Py.dict_get _ _) as [entry|]; [|done].
    by destruct (set_stage _ _ _).
  - by apply create_experiment_numbered.
Qed.

(** X17.  [create_experiment] on a registry that any calls have made returns
    the id [n + 1] where there are [n] experiments, an id that no experiment
    had; the new experiment is active, has the given name and the given
    artifact location, or [./mlruns/<id>] if none or an empty one is given;
    it is listed last and is what [get_experiment] returns for its id; the
    other experiments and the models are as they were. *)
Theorem create_experiment_numbers (e : Py.env) (name : string)
    (artifact_location : option string) (self : MLflowService.t) :
  reachable isoformat self ->
  let created := create_experiment isoformat e name artifact_location self in
  let experiment_id := str_of_int (Z.of_nat (length (list_experiments self)) + 1) in
  let experiment :=
    Experiment.Build experiment_id name "active"
      (PyObject.str_or artifact_location ("./mlruns/" ++ experiment_id)%string)
      (isoformat (Py.now e)) (isoformat (Py.now e)) in
  fst created = experiment_id
  /\ get_experiment experiment_id self = None
  /\ list_experiments (snd created) = list_experiments self ++ [experiment]
  /\ get_experiment experiment_id (snd created) = Some experiment
  /\ (forall other, other <> experiment_id ->
        get_experiment other (snd created) = get_experiment other self)
  /\ models_cache (snd created) = models_cache self.
Proof.
  intros Hreach. pose proof (create_experiment_fresh self (reachable_experiments _ Hreach))
    as Hfresh.
  unfold list_experiments, get_experiment, create_experiment, Py.dict_values.
  rewrite length_map. cbn zeta. cbn [fst snd experiments_cache with_experiments_cache
                                     models_cache].
  split; [done|]. split; [done|].
  split; [by rewrite dict_set_fresh, map_app by done|].
  split; [by apply dict_get_set_eq|]. split; [|done].
  intros other Hne. apply dict_get_set_ne. congruence.
Qed.

End RegistryStages.

(** ** The route [POST /models/register] *)

Section RegisterRoute.

Import MLflowService.

Variable isoformat : Py.datetime -> string.

Lemma set_stage_last version stage (versions : list VersionInfo.t) info :
  List.find (fun v => String.eqb (VersionInfo.version v) version) versions = None ->
  VersionInfo.version info = version ->
  set_stage version stage (versions ++ [info])
  = Some (versions ++ [VersionInfo.set_stage stage info]).
Proof.
  intros Hnone <-. induction versions as [|a versions IH]; cbn [set_stage app].
  - by rewrite String.eqb_refl.
  - cbn [List.find] in Hnone.
    destruct (String.eqb (VersionInfo.version a) (VersionInfo.version info)); [done|].
    by rewrite IH.
Qed.

(** X18.  The route [POST /models/register], with its three decorators, on a
    registry that any calls have made, for a request that the limiter lets
    through and [validate_json] accepts and that has [run_id] and
    [model_name] (strings, as the path and the description, and the stage if
    they are given): the answer is 201 with the model name, the new version
    number and the stage, [None] if no stage or an empty one is given; and
    the registry then holds this version, last and latest of its model, in
    the stage that the answer shows, with the run id and the description of
    the request.  The other models and the training service are as they
    were. *)
Theorem register_model_route (str : Py.value -> string) (c : training_bp.call)
    (a : training_bp.app) (registration_request : Py.dict Py.value)
    (run_id model_name model_path description : string) (stage : option string) :
  let e := training_bp.env c in
  let mlflow_svc := training_bp.mlflow_svc a in
  training_bp.passes str 10 300 "register_model" c a ->
  ValidateJson.get_json (training_bp.request c) = inr (Some registration_request) ->
  reachable isoformat mlflow_svc ->
  Py.dict_get "run_id" registration_request = Some (Py.VStr run_id) ->
  Py.dict_get "model_name" registration_request = Some (Py.VStr model_name) ->
  Py.dict_get_default "model_path" (Py.VStr "model") registration_request
  = Py.VStr model_path ->
  Py.dict_get_default "description" (Py.VStr EmptyString) registration_request
  = Py.VStr description ->
  TrainingJob.as_opt_str "stage"
    (Py.dict_get_default "stage" Py.VNone registration_request) = Ok stage ->
  let version := str_of_int (Z.of_nat (length (versions_of model_name mlflow_svc)) + 1) in
  let version_info :=
    VersionInfo.Build version (PyObject.str_or stage "None") run_id
      (isoformat (Py.now e)) (Some description) in
  exists answer a',
    training_bp.register_model isoformat str c a = Some (answer, a')
    /\ TrainingController.status_code answer = 201%Z
    /\ Py.dict_get "model_name" (TrainingController.body answer)
       = Some (Py.VStr model_name)
    /\ Py.dict_get "version" (TrainingController.body answer) = Some (Py.VStr version)
    /\ Py.dict_get "stage" (TrainingController.body answer)
       = Some (Py.VStr (PyObject.str_or stage "None"))
    /\ versions_of model_name (training_bp.mlflow_svc a')
       = versions_of model_name mlflow_svc ++ [version_info]
    /\ get_model_version model_name version (training_bp.mlflow_svc a')
       = Some version_info
    /\ get_latest_model_version model_name None (training_bp.mlflow_svc a')
       = Ok (Some version_info)
    /\ (forall other, other <> model_name ->
          Py.dict_get other (models_cache (training_bp.mlflow_svc a'))
          = Py.dict_get other (models_cache mlflow_svc))
    /\ training_bp.training_svc a' = training_bp.training_svc a.
Proof.
  intros e mlflow_svc Hpasses Hjson Hreach Hrun Hname Hpath Hdesc Hstage version
    version_info.
  pose proof (reachable_numbered isoformat _ Hreach) as Hnum.
  destruct (register_model_versions isoformat e run_id model_name model_path description
              mlflow_svc Hnum)
    as (model_version & svc1 & Hreg & Hmvname & Hmvversion & Hversions & Hothers).
  fold version in Hmvversion, Hversions.
  assert (Hfresh : List.find (fun v => String.eqb (VersionInfo.version v) version)
                     (versions_of model_name mlflow_svc) = None).
  { apply find_version_none. rewrite (versions_of_numbered _ _ Hnum).
    apply numbers_fresh. }
  assert (Hanswer : exists svc2,
    TrainingController.register_model_body isoformat e (training_bp.answered c)
      registration_request mlflow_svc
    = Some
        (TrainingController.Response 201
           [ ("model_name", Py.VStr model_name); ("version", Py.VStr version);
             ("stage", Py.VStr (PyObject.str_or stage "None"));
             ("run_id", Py.VStr run_id);
             ("registration_time",
              Py.VStr (isoformat (Py.now (training_bp.answered c))));
             ("message", Py.VStr "Model registered successfully") ], svc2)
    /\ reachable isoformat svc2
    /\ versions_of model_name svc2 = versions_of model_name mlflow_svc ++ [version_info]
    /\ (forall other, other <> model_name ->
          Py.dict_get other (models_cache svc2)
          = Py.dict_get other (models_cache mlflow_svc))).
  { assert (Hr1 : reachable isoformat svc1).
    { pose proof (reachable_call isoformat e
                    (RegisterModel run_id model_name model_path description) _ Hreach)
        as Hr. cbn [run_call] in Hr. by rewrite Hreg in Hr. }
    unfold TrainingController.register_model_body,
      TrainingController.missing_field, Py.dict_contains, TrainingService.subscript.
    cbn [List.find]. rewrite Hrun, Hname. cbn [negb bind TrainingJob.as_str].
    rewrite Hpath, Hdesc. cbn [bind TrainingJob.as_str]. rewrite Hreg. cbn [bind].
    rewrite Hstage. cbn [bind]. rewrite Hmvname, Hmvversion.
    eexists. split; [reflexivity|].
    destruct stage as [s|]; cbn [PyObject.str_or] in *; [|done].
    destruct (String.eqb s EmptyString) eqn:Es; [done|].
    pose proof (reachable_call isoformat e (TransitionModelStage model_name version s)
                  _ Hr1) as Hr2. cbn [run_call] in Hr2.
    split; [done|]. clear Hr2.
    unfold transition_model_stage. unfold versions_of in Hversions at 1.
    destruct (Py.dict_get model_name (models_cache svc1)) as [entry|] eqn:Hentry;
      [|by destruct (versions_of model_name mlflow_svc)].
    rewrite Hversions,
      (set_stage_last version s _
         (VersionInfo.Build version "None" run_id (isoformat (Py.now e))
            (Some description)) Hfresh eq_refl).
    cbn [snd]. unfold versions_of at 1. cbn [models_cache with_models_cache].
    rewrite dict_get_set_eq. cbn [ModelEntry.versions]. split; [done|].
    intros other Hne. rewrite dict_get_set_ne by congruence. by apply Hothers. }
  destruct Hanswer as (svc2 & Hbody & Hr2 & Hv2 & Ho2).
  unfold training_bp.register_model. rewrite (decorated_passes _ _ _ _ _ _ _ Hpasses).
  unfold training_bp.monitor_performance, training_bp.get_json. rewrite Hjson.
  cbn [training_bp.mlflow_svc]. fold mlflow_svc. fold e. rewrite Hbody.
  eexists _, _. split; [reflexivity|].
  cbn [TrainingController.status_code TrainingController.body training_bp.mlflow_svc
       training_bp.training_svc].
  split; [done|]. do 3 (split; [done|]). split; [done|].
  rewrite get_model_version_versions_of,
    (get_latest_versions_of _ _ (reachable_numbered isoformat _ Hr2)), Hv2.
  rewrite find_version_app, Hfresh, last_snoc. subst version_info.
  cbn [VersionInfo.version]. rewrite String.eqb_refl. done.
Qed.

End RegisterRoute.

(** ** The metrics of the endpoints *)

Section Metrics.

Import MonitorPerformance.

Lemma rolling_window_if {A} (l : list A) :
  (if (1000 <? length l)%nat then skipn (length l - 1000) l else l) = rolling_window l.
Proof.
  unfold rolling_window. destruct (Nat.ltb_spec 1000 (length l)); [done|].
  by replace (length l - 1000)%nat with 0%nat by lia.
Qed.

Lemma rolling_window_snoc {A} (l : list A) (x : A) :
  rolling_window (rolling_window l ++ [x]) = rolling_window (l ++ [x]).
Proof.
  unfold rolling_window. rewrite !length_app, length_skipn. cbn [length].
  destruct (Nat.le_gt_cases (length l) 1000) as [Hle | Hgt].
  - replace (length l - 1000)%nat with 0%nat by lia. cbn [skipn]. by rewrite Nat.sub_0_r.
  - replace (length l - (length l - 1000) + 1 - 1000)%nat with 1%nat by lia.
    replace (length l + 1 - 1000)%nat with (S (length l - 1000)) by lia.
    rewrite !skipn_app.
    replace (1 - length (skipn (length l - 1000) l))%nat with 0%nat
      by (rewrite length_skipn; lia).
    replace (S (length l - 1000) - length l)%nat with 0%nat by lia.
    cbn [skipn]. f_equal. change 1%nat with (0 + 1)%nat at 1.
    rewrite skipn_skipn. f_equal; lia.
Qed.

Lemma rolling_window_length {A} (l : list A) : length (rolling_window l) <= 1000.
Proof. unfold rolling_window. rewrite length_skipn. lia. Qed.

Lemma initial_records : records initial [].
Proof. by split. Qed.

Lemma sum_snoc (l : list Z) (x : Z) :
  fold_right Z.add 0%Z (l ++ [x]) = (fold_right Z.add 0%Z l + x)%Z.
Proof. induction l as [|y l IH]; cbn [fold_right app]; lia. Qed.

Lemma last_app_cons {A} (l : list A) (x : A) (l' : list A) :
  last (l ++ x :: l') = last (x :: l').
Proof.
  induction l as [|y l IH]; [done|]. cbn [app]. rewrite <- IH.
  by destruct l.
Qed.

Lemma update_records (m : metrics) (history : list call) (c : call) :
  records m history -> records (try_except m c) (history ++ [c]).
Proof.
  intros [Hreq Herr Htimes Htypes Hlast].
  split; rewrite ?map_app, ?flat_map_app; cbn [map flat_map];
    rewrite ?sum_snoc, ?app_nil_r, <- ?Hreq, <- ?Herr;
    unfold try_except, updates, errors, measured, readings;
    destruct (run c) as [end_time at_update [| |error_type end_time' at_update']
                        |error_type end_time at_update|];
    cbn [update_success_metrics update_error_metrics total_requests total_errors
         response_times error_types last_request];
    rewrite ?app_nil_r, ?rolling_window_if, ?Htimes, ?rolling_window_snoc,
      ?last_app_cons, ?total_increment;
    try done; try lia.
Qed.

Lemma counted_snoc key calls endpoint c :
  counted key (calls ++ [(endpoint, c)])
  = if String.eqb (metric_key endpoint c) key then counted key calls ++ [c]
    else counted key calls.
Proof.
  unfold counted. rewrite List.filter_app, map_app. cbn [List.filter fst snd].
  destruct (String.eqb (metric_key endpoint c) key); cbn [map]; [done|].
  by rewrite app_nil_r.
Qed.

(** What the storage holds after the calls: an entry for every key under
    which a call is counted, and no other. *)
Lemma serve_records (calls : list (string * call)) (key : string) :
  match Py.dict_get key (serve calls []) with
  | Some m => records m (counted key calls) /\ counted key calls <> []
  | None => counted key calls = []
  end.
Proof.
  induction calls as [|[endpoint c] calls IH] using rev_ind; [done|].
  unfold serve in *. rewrite fold_left_app. cbn [fold_left fst snd].
  unfold decorated_function at 1. cbn zeta.
  rewrite counted_snoc, dict_get_set.
  destruct (String.eqb_spec (metric_key endpoint c) key) as [<- | Hne]; [|done].
  split; [|by destruct (counted _ calls)].
  destruct (Py.dict_get (metric_key endpoint c) _) as [m|].
  - apply update_records. by destruct IH.
  - rewrite IH. apply (update_records initial []), initial_records.
Qed.

Lemma updates_errors (history : list call) :
  (0 <= fold_right Z.add 0 (map errors history)
   <= fold_right Z.add 0 (map updates history))%Z
  /\ (fold_right Z.add 0 (map updates history)
      - fold_right Z.add 0 (map errors history)
      = Z.of_nat (length (flat_map measured history)))%Z.
Proof.
  induction history as [|c l IH]; [done|]. cbn [map fold_right flat_map].
  rewrite length_app.
  set (U := fold_right Z.add 0%Z (map updates l)) in *.
  set (E := fold_right Z.add 0%Z (map errors l)) in *.
  set (M := length (flat_map measured l)) in *.
  unfold updates, errors, measured.
  destruct (run c) as [? ? [| |]| |]; cbn [length]; lia.
Qed.

(** X19.  The metrics of an endpoint, after calls that are made one after the
    other with an empty storage at first.  An entry of the storage is the
    entry of a key under which a call was made.  A call counts once in
    [total_requests] if the function returns a result or raises an
    [Exception], twice if the header step raises after the function has
    returned, as [result[0]] does on a result that cannot be subscripted, and
    not at all if the call leaves the [try] statement in neither way;
    [total_errors] counts the calls that raised in the function or in the
    header step.  [response_times] holds the durations of the last 1000 calls
    whose function returned, in their order, so it is never longer than 1000
    nor than [total_requests - total_errors]; the counts of [error_types] sum
    to [total_errors]; and [last_request] is the time of the last update.  If
    every call returns its result or raises in the function, as the calls of
    functions that return pairs do, [total_requests] is the number of the
    calls and [total_errors] the number of those that raised. *)
Theorem metrics_record_the_calls (calls : list (string * call)) (key : string)
    (m : metrics) :
  Py.dict_get key (serve calls []) = Some m ->
  let history := counted key calls in
  history <> []
  /\ total_requests m = fold_right Z.add 0%Z (map updates history)
  /\ total_errors m = fold_right Z.add 0%Z (map errors history)
  /\ (0 <= total_errors m <= total_requests m)%Z
  /\ response_times m = rolling_window (flat_map measured history)
  /\ length (response_times m) <= 1000
  /\ (Z.of_nat (length (response_times m)) <= total_requests m - total_errors m)%Z
  /\ fold_right Z.add 0%Z (Py.dict_values (error_types m)) = total_errors m
  /\ last_request m = last (flat_map readings history)
  /\ (Forall (fun c => returns c = true \/ exists t e u, run c = Raises t e u) history ->
      total_requests m = Z.of_nat (length history)
      /\ total_errors m
         = Z.of_nat (length (List.filter (fun c => negb (returns c)) history))).
Proof.
  intros Hget history. pose proof (serve_records calls key) as H. rewrite Hget in H.
  destruct H as [[Hreq Herr Htimes Htypes Hlast] Hne].
  fold history in Hreq, Herr, Htimes, Hlast, Hne.
  destruct (updates_errors history) as [Hbounds Hdiff].
  split; [done|]. split; [done|]. split; [done|]. split; [lia|]. split; [done|].
  split; [rewrite Htimes; apply rolling_window_length|].
  split; [rewrite Htimes; unfold rolling_window; rewrite length_skipn; lia|].
  split; [done|]. split; [done|].
  intros Hall. rewrite Hreq, Herr. clear -Hall.
  induction Hall as [|c l Hc _ [IH1 IH2]]; [done|].
  cbn [map fold_right List.filter length]. rewrite IH1, IH2.
  unfold updates, errors, returns in *.
  destruct Hc as [Hc | (t & e & u & ->)].
  - destruct (run c) as [? ? [| |]| |]; try done; cbn [negb length]; lia.
  - cbn [negb length]. lia.
Qed.

(** *** The health of the system *)

Lemma sum_dict_set (f : metrics -> Z) (key : string) (m : metrics) (d : storage) :
  f initial = 0%Z ->
  fold_right Z.add 0%Z (map f (Py.dict_values (Py.dict_set key m d)))
  = (fold_right Z.add 0%Z (map f (Py.dict_values d)) + f m
     - f (match Py.dict_get key d with Some old => old | None => initial end))%Z.
Proof.
  intros Hf. unfold Py.dict_values.
  induction d as [|[k v] d IH]; cbn [Py.dict_set Py.dict_get map fold_right snd]; [lia|].
  destruct (String.eqb key k); cbn [map fold_right snd]; lia.
Qed.

Lemma Forall_dict_set (P : metrics -> Prop) (key : string) (m : metrics) (d : storage) :
  Forall P (Py.dict_values d) -> P m -> Forall P (Py.dict_values (Py.dict_set key m d)).
Proof.
  unfold Py.dict_values. intros Hd Hm.
  induction d as [|[k v] d IH]; cbn [Py.dict_set map snd]; [by constructor|].
  apply Forall_cons in Hd as [Hv Hd].
  destruct (String.eqb key k); cbn [map snd]; constructor; auto.
Qed.

Lemma update_counts (m : metrics) (c : call) : counts m -> counts (try_except m c).
Proof.
  unfold counts, try_except. intros [He Hr].
  assert (Hlen : forall x, (Z.of_nat (length (rolling_window (response_times m ++ [x])))
                            <= Z.of_nat (length (response_times m)) + 1)%Z).
  { intros x. unfold rolling_window. rewrite length_skipn, length_app. cbn [length]. lia. }
  destruct (run c) as [end_time at_update [| |error_type end_time' at_update']
                      |error_type end_time at_update|];
    cbn [update_success_metrics update_error_metrics total_requests total_errors
         response_times];
    rewrite ?rolling_window_if;
    try specialize (Hlen (duration (start_time c) end_time)); lia.
Qed.

(** Every entry counts in this way, and the entries have counted every
    update of every call. *)
Lemma serve_totals (calls : list (string * call)) :
  Forall counts (Py.dict_values (serve calls []))
  /\ fold_right Z.add 0%Z (map total_requests (Py.dict_values (serve calls [])))
     = fold_right Z.add 0%Z (map (fun ec => updates (snd ec)) calls)
  /\ fold_right Z.add 0%Z (map total_errors (Py.dict_values (serve calls [])))
     = fold_right Z.add 0%Z (map (fun ec => errors (snd ec)) calls).
Proof.
  induction calls as [|[endpoint c] calls IH] using rev_ind; [by repeat constructor|].
  destruct IH as (Hcounts & Hreq & Herr).
  unfold serve in *. rewrite fold_left_app. cbn [fold_left fst snd].
  unfold decorated_function at 1 3 5. cbn zeta.
  set (m := match Py.dict_get _ _ with Some m => m | None => initial end).
  rewrite !sum_dict_set, Hreq, Herr by done. fold m.
  rewrite !map_app. cbn [map snd]. rewrite !sum_snoc.
  assert (Hm : counts m).
  { subst m. destruct (Py.dict_get _ _) as [m|] eqn:Hget; [|by unfold counts].
    apply dict_get_elem_of in Hget. rewrite Forall_forall in Hcounts.
    apply Hcounts, list_elem_of_fmap. by exists (metric_key endpoint c, m). }
  split; [apply Forall_dict_set; [done | by apply update_counts]|].
  unfold try_except, updates, errors.
  destruct (run c) as [? ? [| |]| |];
    cbn [update_success_metrics update_error_metrics total_requests total_errors]; lia.
Qed.

Lemma recent_returns (entries : list metrics) :
  Forall counts entries ->
  exists recent_errors recent_requests,
    recent entries = Some (recent_errors, recent_requests).
Proof.
  unfold recent. intros Hall. generalize (Py.VInt 0, 0%Z).
  induction Hall as [|m entries Hm _ IH]; intros [a n]; cbn [fold_left];
    [by eexists _, _|].
  destruct (response_times m) eqn:Htimes; [apply IH|].
  unfold truediv. destruct (Z.eqb_spec (total_requests m) 0) as [Hz|]; [|apply IH].
  destruct Hm as [He Hr]. rewrite Htimes in Hr. cbn [length] in Hr. lia.
Qed.

(** X20.  [get_health_metrics], after calls that are made one after the other
    with an empty storage at first, returns: the division
    [total_errors / total_requests] of its loop never divides by 0, also
    where an entry has counted no request.  Its [total_requests] is the
    number of the updates of all calls, two for a call whose header step
    raises, and its [total_errors] the number of the calls that raised in the
    function or in the header step; [active_endpoints] is the number of the
    entries that have counted a request.  If every call returns its result or
    raises in the function, [total_requests] is the number of the calls and
    [total_errors] the number of those that raised. *)
Theorem health_metrics_of_the_calls (fsum : list Py.float -> Py.value)
    (now : Py.float) (calls : list (string * call)) :
  exists health,
    get_health_metrics fsum now (serve calls []) = Some health
    /\ Py.dict_get "total_requests" health
       = Some (Py.VInt (fold_right Z.add 0%Z (map (fun ec => updates (snd ec)) calls)))
    /\ Py.dict_get "total_errors" health
       = Some (Py.VInt (fold_right Z.add 0%Z (map (fun ec => errors (snd ec)) calls)))
    /\ Py.dict_get "active_endpoints" health
       = Some (Py.VInt
                 (Z.of_nat
                    (length
                       (List.filter (fun m => (0 <? total_requests m)%Z)
                          (Py.dict_values (serve calls []))))))
    /\ (Forall (fun ec => returns (snd ec) = true
                          \/ exists t e u, run (snd ec) = Raises t e u) calls ->
        Py.dict_get "total_requests" health = Some (Py.VInt (Z.of_nat (length calls)))
        /\ Py.dict_get "total_errors" health
           = Some (Py.VInt
                     (Z.of_nat
                        (length (List.filter (fun ec => negb (returns (snd ec))) calls))))).
Proof.
  destruct (serve_totals calls) as (Hcounts & Hreq & Herr).
  destruct (recent_returns _ Hcounts) as (recent_errors & recent_requests & Hrecent).
  unfold get_health_metrics. rewrite Hrecent, Hreq, Herr.
  eexists. split; [reflexivity|].
  cbn [Py.dict_get String.eqb Ascii.eqb Bool.eqb].
  split; [done|]. split; [done|]. split; [done|].
  intros Hall. clear -Hall.
  assert (H : fold_right Z.add 0%Z (map (fun ec => updates (snd ec)) calls)
              = Z.of_nat (length calls)
              /\ fold_right Z.add 0%Z (map (fun ec => errors (snd ec)) calls)
                 = Z.of_nat
                     (length (List.filter (fun ec => negb (returns (snd ec))) calls))).
  { induction Hall as [|[endpoint c] l Hc _ [IH1 IH2]]; [done|].
    cbn [map fold_right List.filter length snd] in *. rewrite IH1, IH2.
    unfold updates, errors, returns in *.
    destruct Hc as [Hc | (t & e & u & ->)].
    - destruct (run c) as [? ? [| |]| |]; try done; cbn [negb length]; lia.
    - cbn [negb length]. lia. }
  destruct H as [-> ->]. done.
Qed.

End Metrics.

(** ** The registry of the services *)

Section Services.

Import ServiceRegistry.

Variable isoformat : Py.datetime -> string.
Variable constructed : string -> Py.dict Py.value -> result unit.

Lemma get_service_held (fuel : nat) (e : Py.env) (service_name : string) (self : t) :
  _lock self = true ->
  Py.dict_get service_name (_services self) = None ->
  get_service isoformat constructed (S fuel) e service_name self = Some (Blocks, self).
Proof. intros Hlock Hnone. cbn [get_service]. by rewrite Hnone, Hlock. Qed.

Lemma get_service_present (fuel : nat) (e : Py.env) (service_name : string) (self : t)
    (service : instance) :
  Py.dict_get service_name (_services self) = Some service ->
  get_service isoformat constructed (S fuel) e service_name self
  = Some (Returns service, self).
Proof. intros Hsome. cbn [get_service]. by rewrite Hsome. Qed.

(** X21.  A registry whose lock is free and in which neither the training
    service nor the MLflow service is created: [get_service] of
    [training_service] never returns.  It takes the lock and, in
    [_create_service], calls [get_service] of [mlflow_service], which waits
    for the lock that its own thread holds.  So [get_services] of the
    training controller blocks as well, and from then on every [get_service]
    of a service that is not created blocks. *)
Theorem training_service_first_blocks (e : Py.env) (fuel : nat) (self : t) :
  _lock self = false ->
  Py.dict_get "training_service" (_services self) = None ->
  Py.dict_get "mlflow_service" (_services self) = None ->
  get_service isoformat constructed (S (S fuel)) e "training_service" self
  = Some (Blocks, with_lock true self)
  /\ TrainingController.get_services isoformat constructed (S (S fuel)) e None None self
     = Some (Blocks, (None, None), with_lock true self)
  /\ (forall fuel' e' service_name,
        Py.dict_get service_name (_services self) = None ->
        get_service isoformat constructed (S fuel') e' service_name (with_lock true self)
        = Some (Blocks, with_lock true self)).
Proof.
  intros Hlock Htraining Hmlflow.
  assert (Hblocks : get_service isoformat constructed (S (S fuel)) e "training_service" self
                    = Some (Blocks, with_lock true self)).
  { cbn [get_service]. rewrite Htraining, Hlock. cbn [with_lock _services].
    rewrite Htraining. unfold _create_service. cbn [String.eqb Ascii.eqb Bool.eqb].
    cbn [_services _lock with_lock]. by rewrite Hmlflow. }
  split; [exact Hblocks|]. split.
  - unfold TrainingController.get_services. by rewrite Hblocks.
  - intros fuel' e' service_name Hnone. by apply get_service_held.
Qed.

(** X22.  If the MLflow service is asked for first, it is created and
    registered, and the lock is free again; [get_service] of
    [training_service] then returns a training service made from its
    configuration and registers it; and from then on both calls, and
    [get_services] of the controller, return these two objects and leave the
    registry as it is. *)
Theorem mlflow_service_first (e e1 : Py.env) (fuel : nat) (self : t)
    (s : TrainingService.system) :
  _lock self = false ->
  Py.dict_get "training_service" (_services self) = None ->
  Py.dict_get "mlflow_service" (_services self) = None ->
  TrainingService.__init__ (get_service_config "training_service" self) = Ok s ->
  let mlflow_service :=
    MLflow (MLflowService.__init__ isoformat e (get_service_config "mlflow_service" self)) in
  let self1 :=
    with_services (Py.dict_set "mlflow_service" mlflow_service (_services self)) self in
  let self2 :=
    with_services (Py.dict_set "training_service" (Training s) (_services self1)) self1 in
  get_service isoformat constructed (S fuel) e "mlflow_service" self
  = Some (Returns mlflow_service, self1)
  /\ get_service isoformat constructed (S (S fuel)) e1 "training_service" self1
     = Some (Returns (Training s), self2)
  /\ (forall fuel' e',
        get_service isoformat constructed (S fuel') e' "training_service" self2
        = Some (Returns (Training s), self2)
        /\ get_service isoformat constructed (S fuel') e' "mlflow_service" self2
           = Some (Returns mlflow_service, self2)
        /\ TrainingController.get_services isoformat constructed (S fuel') e' None None
             self2
           = Some (Returns tt, (Some (Training s), Some mlflow_service), self2)).
Proof.
  destruct self as [services configs lock]. cbn [_lock _services get_service_config
    _service_configs with_services]. intros -> Htraining Hmlflow Hinit.
  cbn zeta. unfold get_service_config in *.
  cbn [_services _service_configs _lock with_services with_lock] in *.
  assert (Hm : Py.dict_get "mlflow_service"
                 (Py.dict_set "mlflow_service"
                    (MLflow (MLflowService.__init__ isoformat e
                               (Py.dict_get_default "mlflow_service" [] configs)))
                    services)
               = Some (MLflow (MLflowService.__init__ isoformat e
                               (Py.dict_get_default "mlflow_service" [] configs))))
    by apply dict_get_set_eq.
  assert (Ht : Py.dict_get "training_service"
                 (Py.dict_set "mlflow_service"
                    (MLflow (MLflowService.__init__ isoformat e
                               (Py.dict_get_default "mlflow_service" [] configs)))
                    services) = None)
    by (by rewrite dict_get_set_ne).
  split; [|split].
  - cbn [get_service _services _service_configs _lock with_lock with_services].
    rewrite Hmlflow.
    unfold _create_service. cbn [String.eqb Ascii.eqb Bool.eqb].
    by cbn [_services _service_configs _lock with_lock with_services].
  - cbn [get_service _services _service_configs _lock with_lock with_services]. rewrite Ht.
    unfold _create_service. cbn [String.eqb Ascii.eqb Bool.eqb].
    cbn [_services _service_configs _lock with_lock with_services]. rewrite Hm.
    cbn [_service_configs]. rewrite Hinit.
    by cbn [_services _service_configs _lock with_lock with_services].
  - intros fuel' e'.
    match goal with
    | |- get_service _ _ _ _ _ ?r = _ /\ _ => set (self2 := r)
    end.
    assert (H1 : get_service isoformat constructed (S fuel') e' "training_service" self2
                 = Some (Returns (Training s), self2)).
    { apply get_service_present. subst self2. cbn [_services with_services].
      apply dict_get_set_eq. }
    assert (H2 : get_service isoformat constructed (S fuel') e' "mlflow_service" self2
                 = Some (Returns
                           (MLflow
                              (MLflowService.__init__ isoformat e
                                 (Py.dict_get_default "mlflow_service" [] configs))),
                         self2)).
    { apply get_service_present. subst self2. cbn [_services with_services].
      rewrite dict_get_set_ne by done. apply dict_get_set_eq. }
    split; [exact H1|]. split; [exact H2|].
    unfold TrainingController.get_services. by rewrite H1, H2.
Qed.

(** X23.  [register_service], while the lock is free, returns and stores the
    object under its name: [get_service] of this name then returns the
    object and leaves the registry as it is, and the services of the other
    names are as they were.  But [get_service] of a name that is not
    registered and is none of the five names of [_create_service] raises
    [ValueError], [Unknown service: <name>], and leaves the registry as it
    was, with the lock free. *)
Theorem register_service_get_service (e : Py.env) (fuel : nat) (service_name : string)
    (service_instance : instance) (self : t) :
  _lock self = false ->
  let registered := register_service service_name service_instance self in
  fst registered = Returns tt
  /\ get_service isoformat constructed (S fuel) e service_name (snd registered)
     = Some (Returns service_instance, snd registered)
  /\ (forall other, other <> service_name ->
        Py.dict_get other (_services (snd registered))
        = Py.dict_get other (_services self))
  /\ (Py.dict_get service_name (_services self) = None ->
      ~ In service_name
          [ "fraud_service"; "training_service"; "mlflow_service"; "validation_service";
            "health_service" ] ->
      get_service isoformat constructed (S fuel) e service_name self
      = Some (Raises (ValueError ("Unknown service: " ++ service_name)%string), self)).
Proof.
  intros Hlock. unfold register_service. rewrite Hlock. cbn zeta. cbn [fst snd].
  split; [done|]. split; [|split].
  - apply get_service_present. cbn [_services with_services]. apply dict_get_set_eq.
  - intros other Hne. cbn [_services with_services]. apply dict_get_set_ne. congruence.
  - intros Hnone Hnot. cbn [get_service]. rewrite Hnone, Hlock.
    cbn [with_lock _services]. rewrite Hnone. unfold _create_service.
    destruct (String.eqb_spec service_name "fraud_service"); [destruct Hnot; subst; cbn; auto 10|].
    destruct (String.eqb_spec service_name "training_service"); [destruct Hnot; subst; cbn; auto 10|].
    destruct (String.eqb_spec service_name "mlflow_service"); [destruct Hnot; subst; cbn; auto 10|].
    destruct (String.eqb_spec service_name "validation_service"); [destruct Hnot; subst; cbn; auto 10|].
    destruct (String.eqb_spec service_name "health_service"); [destruct Hnot; subst; cbn; auto 10|].
    cbn [with_lock _services _service_configs]. by destruct self; cbn in *; subst.
Qed.

End Services.

(** ** The further statements on concrete data *)

Section MoreWitnesses.

Import TrainingService.

Local Open Scope Z_scope.

(** A pool of one worker in which two jobs are submitted and the worker has
    taken the first is a state of the system. *)
Lemma one_asleep_reachable :
  exists s0 s,
    __init__ [ ("max_concurrent_jobs", Py.VInt 1) ] = Ok s0
    /\ Sample.after 1 Sample.one_asleep = Some s
    /\ reachable s0 s.
Proof.
  eexists. eexists. split; [reflexivity|]. split; [vm_compute; reflexivity|].
  eapply (run_reachable Sample.hash Sample.one_asleep);
    [ apply reachable_init | vm_compute; repeat split | vm_compute; reflexivity ].
Qed.

(** And so is the pool in which one job is submitted and no worker has run. *)
Lemma submitted_reachable :
  exists s0 s,
    __init__ [ ("max_concurrent_jobs", Py.VInt 1) ] = Ok s0
    /\ Sample.after 1 Sample.submitted = Some s
    /\ workers s !! 0%nat = Some AtGet
    /\ job_queue (service s) = ["job-1"]
    /\ reachable s0 s.
Proof.
  eexists. eexists. split; [reflexivity|]. split; [vm_compute; reflexivity|].
  split; [reflexivity|]. split; [reflexivity|].
  eapply (run_reachable Sample.hash Sample.submitted);
    [ apply reachable_init | vm_compute; repeat split | vm_compute; reflexivity ].
Qed.

Lemma one_worker_per_job_witness :
  exists s, Sample.after 1 Sample.one_asleep = Some s /\ NoDup (job_queue (service s)).
Proof.
  destruct one_asleep_reachable as (s0 & s & Hinit & Hafter & Hreach).
  exists s. split; [exact Hafter|].
  exact (proj1 (one_worker_per_job _ s0 s Hinit Hreach)).
Defined.

(** And so is the pool whose worker has taken the job from the queue. *)
Lemma dequeued_reachable :
  exists s0 s s',
    __init__ [ ("max_concurrent_jobs", Py.VInt 1) ] = Ok s0
    /\ Sample.after 1 (Sample.submitted ++ Sample.worker_runs 0 20 1) = Some s
    /\ workers s !! 0%nat = Some (AtCheck "job-1")
    /\ worker_step (Sample.env 21) 0 s = Some s'
    /\ reachable s0 s.
Proof.
  eexists. eexists. eexists. split; [reflexivity|]. split; [vm_compute; reflexivity|].
  split; [reflexivity|]. split; [vm_compute; reflexivity|].
  eapply (run_reachable Sample.hash (Sample.submitted ++ Sample.worker_runs 0 20 1));
    [ apply reachable_init | vm_compute; repeat split | vm_compute; reflexivity ].
Qed.

Lemma dequeued_id_is_executed_witness :
  exists s s',
    Sample.after 1 (Sample.submitted ++ Sample.worker_runs 0 20 1) = Some s
    /\ worker_step (Sample.env 21) 0 s = Some s'
    /\ workers s' !! 0%nat = Some (AtExecute "job-1" AtLookup).
Proof.
  destruct dequeued_reachable as (s0 & s & s' & Hinit & Hafter & Hpc & Hstep & Hreach).
  exists s, s'. split; [exact Hafter|]. split; [exact Hstep|].
  exact (proj1 (dequeued_id_is_executed _ s0 s s' (Sample.env 21) 0%nat Hinit Hreach Hstep)
           "job-1" Hpc).
Defined.

Lemma no_job_fails_witness :
  exists s j,
    Sample.after 1 Sample.one_asleep = Some s
    /\ get_training_job "job-1" (service s) = Some j
    /\ TrainingJob.error_message j = None.
Proof.
  destruct one_asleep_reachable as (s0 & s & Hinit & Hafter & Hreach).
  exists s.
  destruct (get_training_job "job-1" (service s)) as [j|] eqn:Hj.
  - exists j. split; [exact Hafter|]. split; [reflexivity|].
    exact (proj2 (proj1 (no_job_fails _ s0 s (Sample.env 0) Hinit Hreach) "job-1" j Hj)).
  - exfalso. revert Hafter Hj. vm_compute. intros [= <-]. vm_compute. discriminate.
Defined.

Lemma running_jobs_bounded_witness :
  exists s,
    Sample.after 1 Sample.one_asleep = Some s
    /\ currently_running (get_training_statistics (Sample.env 30) (service s)) <= 1.
Proof.
  destruct one_asleep_reachable as (s0 & s & Hinit & Hafter & Hreach).
  exists s. split; [exact Hafter|].
  destruct (running_jobs_bounded _ s0 s (Sample.env 30) Hinit Hreach) as (Hle & Hmax & _).
  rewrite Hmax in Hle. injection Hinit as <-. exact Hle.
Defined.

Lemma status_breakdown_total_witness :
  exists s,
    Sample.after 1 Sample.one_asleep = Some s
    /\ fold_right Z.add 0
         (Py.dict_values
            (status_breakdown (get_training_statistics (Sample.env 30) (service s))))
       = total_jobs (get_training_statistics (Sample.env 30) (service s)).
Proof.
  destruct one_asleep_reachable as (s0 & s & Hinit & Hafter & Hreach).
  exists s. split; [exact Hafter|].
  exact (proj1 (status_breakdown_total _ s0 s (Sample.env 30) Hinit Hreach)).
Defined.

Lemma list_training_jobs_spec_witness :
  exists s,
    Sample.after 1 Sample.one_asleep = Some s
    /\ length (list_training_jobs 1 None (service s)) = 1%nat
    /\ length (list_training_jobs (-1) (Some "queued") (service s)) = 0%nat.
Proof.
  eexists. split; [vm_compute; reflexivity|].
  split.
  - rewrite (proj1 (proj2 (proj2 (list_training_jobs_spec 1 None _)))).
    vm_compute. reflexivity.
  - rewrite (proj1 (proj2 (proj2 (list_training_jobs_spec (-1) (Some "queued") _)))).
    vm_compute. reflexivity.
Defined.

Lemma is_valid_iff_no_issue_witness :
  TrainingConfig.get_validation_issues Sample.rf = [].
Proof.
  apply (proj1 (proj1 (is_valid_iff_no_issue Sample.rf))). reflexivity.
Defined.

Lemma config_from_dict_to_dict_witness :
  TrainingConfig.Object.from_dict Requests.str (TrainingConfig.to_dict Sample.rf)
  = PyObject.Returns (TrainingConfig.to_dict Sample.rf)
  /\ TrainingConfig.Object.fields (TrainingConfig.to_dict Sample.rf) = Ok Sample.rf.
Proof.
  destruct (proj1 (proj2 (config_from_dict_to_dict Requests.str Sample.rf)))
    as (Hfrom & _ & Hfields); [discriminate|].
  split; [exact Hfrom | exact Hfields].
Defined.

Lemma train_model_never_accepts_witness :
  let c := Requests.post Requests.training_request "job-1" in
  exists a',
    training_bp.train_model Sample.isoformat Requests.str c Requests.app
    = Some (TrainingController.train_model_failed Sample.isoformat (Sample.env 11), a')
    /\ job_queue (training_bp.training_svc a') = ["job-1"].
Proof.
  intros c.
  destruct (proj2 (proj2 (train_model_never_accepts Sample.isoformat Requests.str c
                            Requests.app))
              Requests.training_request (TrainingConfig.to_dict Sample.rf) Sample.rf)
    as (a' & Hroute & Hqueue & _);
    [split; vm_compute; reflexivity | reflexivity | reflexivity | reflexivity
     | reflexivity | reflexivity | reflexivity |].
  exists a'. split; [exact Hroute | exact Hqueue].
Defined.

Lemma hyperparameter_tuning_route_witness :
  let c := Requests.post Sample.tuning_request "job-2" in
  exists answer a' j,
    training_bp.hyperparameter_tuning Sample.isoformat Requests.str Requests.overflow c
      Requests.app
    = Some (answer, a')
    /\ TrainingController.status_code answer = 202
    /\ TrainingController.get_training_job Sample.isoformat (Sample.env 10) "job-2"
         (training_bp.training_svc a')
       = TrainingController.Response 200 (TrainingJob.to_dict Sample.isoformat j)
    /\ TrainingJob.max_trials j = Some 10.
Proof.
  intros c.
  destruct (hyperparameter_tuning_route Sample.isoformat Requests.str Requests.overflow c
              Requests.app
              Sample.tuning_request) as (_ & Haccepted & _);
    [split; vm_compute; reflexivity | reflexivity |].
  destruct (Haccepted (Some "random") 10)
    as (answer & a' & j & Hroute & Hcode & _ & _ & _ & _ & Hget & _ & _ & _ & _ & _ & _
        & Htrials); try reflexivity.
  exists answer, a', j. split; [exact Hroute|]. split; [exact Hcode|].
  split; [exact Hget | exact Htrials].
Defined.

Lemma cancel_route_witness :
  exists s s',
    Sample.after 1 Sample.submitted = Some s
    /\ Sample.after 1 (Sample.submitted ++ Sample.cancel 11 ++ Sample.worker_runs 0 20 4)
       = Some s'
    /\ TrainingController.status_code
         (fst (TrainingController.cancel_training_job Sample.isoformat (Sample.env 11)
                 "job-1" (service s)))
       = 200
    /\ TrainingController.status_code
         (fst (TrainingController.cancel_training_job Sample.isoformat (Sample.env 30)
                 "job-1" (service s')))
       = 200.
Proof.
  eexists. eexists. split; [vm_compute; reflexivity|]. split; [vm_compute; reflexivity|].
  match goal with
  | |- TrainingController.status_code
         (fst (TrainingController.cancel_training_job _ ?e ?id ?self)) = _ /\ _ =>
      destruct (cancel_route Sample.isoformat e id self) as (_ & Hiff & _ & _ & Hlater)
  end.
  split.
  - apply Hiff. eexists. split; [vm_compute; reflexivity|]. left. reflexivity.
  - match goal with
    | |- TrainingController.status_code
           (fst (TrainingController.cancel_training_job _ ?e ?id ?later)) = _ =>
        destruct (get_training_job id later) as [j|] eqn:Hget;
          [|exfalso; vm_compute in Hget; discriminate];
          apply (proj2 (Hlater e later j Hget))
    end.
    vm_compute in Hget. injection Hget as <-. reflexivity.
Defined.

Lemma worker_completes_its_job_witness :
  exists s s',
    Sample.after 1 Sample.submitted = Some s
    /\ Alone.executes 0 313 s s'
    /\ job_queue (service s') = []
    /\ exists j, get_training_job "job-1" (service s') = Some j
         /\ TrainingJob.status j = "completed".
Proof.
  destruct submitted_reachable as (s0 & s & Hinit & Hafter & Hpc & Hqueue & Hreach).
  destruct (worker_completes_its_job _ s0 s 0%nat "job-1" [] Hinit Hreach Hpc Hqueue)
    as [[s' Hrun] Hall].
  destruct (Hall s' Hrun) as (_ & Hrest & j & Hj & Hstatus & _).
  exists s, s'. split; [exact Hafter|]. split; [exact Hrun|]. split; [exact Hrest|].
  exists j. split; [exact Hj | exact Hstatus].
Defined.

Lemma rate_limit_accounts_witness :
  let t := RateLimit.Clock (Py.float_of_int 5) (Py.float_of_int 5) (Py.float_of_int 5) in
  Forall (fun answer => answer <> None)
    (fst (RateLimit.serve 0 300 "train_model" [ ("10.0.0.1", t); ("10.0.0.2", t) ] [])).
Proof.
  intros t.
  apply (proj2 (proj2 (rate_limit_accounts 0 300 "train_model"
                         [ ("10.0.0.1", t); ("10.0.0.2", t) ]))).
  lia.
Defined.

Lemma register_model_numbers_witness :
  exists model_version self',
    MLflowService.register_model Sample.isoformat (Sample.env 5) "run_1"
      "fraud_detection_model" "model" "retrained"
      (MLflowService.__init__ Sample.isoformat (Sample.env 0) [])
    = Ok (model_version, self')
    /\ ModelVersion.version model_version = "4"
    /\ MLflowService.get_latest_model_version "fraud_detection_model" None self'
       = Ok (Some (MLflowService.VersionInfo.Build "4" "None" "run_1"
                     (Sample.isoformat 5) (Some "retrained"))).
Proof.
  destruct (register_model_numbers Sample.isoformat (Sample.env 5) "run_1"
              "fraud_detection_model" "model" "retrained" _
              (MLflowService.reachable_init Sample.isoformat (Sample.env 0) []))
    as (model_version & self' & Hreg & _ & Hversion & _ & _ & _ & Hlatest & _).
  exists model_version, self'. split; [exact Hreg|].
  split; [exact Hversion | exact Hlatest].
Defined.

Lemma transition_model_stage_spec_witness :
  fst (MLflowService.transition_model_stage Sample.isoformat (Sample.env 5)
         "fraud_detection_model" "2" "Production"
         (MLflowService.__init__ Sample.isoformat (Sample.env 0) []))
  = true.
Proof.
  apply (proj1 (transition_model_stage_spec Sample.isoformat (Sample.env 5)
                  "fraud_detection_model" "2" "Production" _)).
  eexists. vm_compute. reflexivity.
Defined.

Lemma latest_model_version_by_stage_witness :
  MLflowService.get_latest_model_version "fraud_detection_model" (Some "Staging")
    (MLflowService.__init__ Sample.isoformat (Sample.env 0) [])
  = Ok (Some (MLflowService.VersionInfo.Build "2" "Staging" "run_456"
                (Sample.isoformat 0) None)).
Proof.
  rewrite (proj1 (latest_model_version_by_stage Sample.isoformat
                    "fraud_detection_model" "Staging" _
                    (MLflowService.reachable_init Sample.isoformat (Sample.env 0) [])
                    ltac:(discriminate))).
  reflexivity.
Defined.

Lemma create_experiment_numbers_witness :
  fst (MLflowService.create_experiment Sample.isoformat (Sample.env 5) "drift" None
         (MLflowService.__init__ Sample.isoformat (Sample.env 0) []))
  = "3".
Proof.
  exact (proj1 (create_experiment_numbers Sample.isoformat (Sample.env 5) "drift" None _
                  (MLflowService.reachable_init Sample.isoformat (Sample.env 0) []))).
Defined.

Lemma register_model_route_witness :
  let c := Requests.post Requests.registration_request "job-3" in
  exists answer a',
    training_bp.register_model Sample.isoformat Requests.str c Requests.app
    = Some (answer, a')
    /\ TrainingController.status_code answer = 201
    /\ MLflowService.get_model_version "fraud_detection_model" "4"
         (training_bp.mlflow_svc a')
       = Some (MLflowService.VersionInfo.Build "4" "Staging" "run_1"
                 (Sample.isoformat 10) (Some EmptyString)).
Proof.
  intros c.
  destruct (register_model_route Sample.isoformat Requests.str c Requests.app
              Requests.registration_request "run_1" "fraud_detection_model" "model"
              EmptyString (Some "Staging"))
    as (answer & a' & Hroute & Hcode & _ & _ & _ & _ & Hget & _);
    [ split; vm_compute; reflexivity | reflexivity
    | exact (MLflowService.reachable_init Sample.isoformat (Sample.env 0) [])
    | reflexivity | reflexivity | reflexivity | reflexivity | reflexivity |].
  exists answer, a'. split; [exact Hroute|]. split; [exact Hcode | exact Hget].
Defined.

Lemma validate_field_types_accepts_witness :
  let data :=
    [ ("model_name", Py.VStr "rf"); ("algorithm", Py.VStr "svm");
      ("amount", Py.VInt 250) ] in
  ValidateJson.validate_field_types (fun _ : Py.value => "...") data = []
  /\ ValidateJson.ge (Py.VInt 250) 0 = true
  /\ ValidateJson.gt (Py.VInt 250) 1000000 = false.
Proof.
  intros data. split; [reflexivity|].
  destruct (validate_field_types_accepts (fun _ : Py.value => "...") data eq_refl)
    as (_ & Hamount & _).
  destruct (Hamount (Py.VInt 250) eq_refl) as (_ & Hge & Hgt).
  split; [exact Hge | exact Hgt].
Defined.

Lemma validated_train_model_witness :
  let training_request :=
    [ ("model_name", Py.VStr "rf"); ("algorithm", Py.VStr "svm") ] in
  let c := Requests.post training_request "job-1" in
  exists answer a',
    training_bp.train_model Sample.isoformat Requests.str c Requests.app
    = Some (answer, a')
    /\ TrainingController.status_code answer = 400
    /\ training_bp.training_svc a' = training_bp.training_svc Requests.app
    /\ Py.dict_get "issues" (TrainingController.body answer)
       = Some (Py.VList [ Py.VStr TrainingConfig.must_be_one_of ]).
Proof.
  intros training_request c.
  destruct (training_bp.train_model Sample.isoformat Requests.str c Requests.app)
    as [[answer a']|] eqn:Hroute; [|exfalso; vm_compute in Hroute; discriminate].
  exists answer, a'. split; [reflexivity|].
  assert (Hcode : TrainingController.status_code answer = 400).
  { vm_compute in Hroute. injection Hroute as <- <-. reflexivity. }
  split; [exact Hcode|].
  destruct (validated_train_model Sample.isoformat Requests.str c Requests.app a' answer
              Hroute Hcode)
    as [Hsvc [Hinvalid | (request & Hjson & _ & [(field & Hmissing & _)
                                                 | (issues & Hanswer & Hissues)])]].
  - exfalso. vm_compute in Hinvalid. discriminate.
  - exfalso. injection Hjson as <-. vm_compute in Hmissing. discriminate.
  - split; [exact Hsvc|]. injection Hjson as <-.
    destruct (Hissues eq_refl) as (m & al & _ & _ & _ & _ & _ & ->).
    rewrite Hanswer. reflexivity.
Defined.

Lemma metrics_record_the_calls_witness :
  let t := Py.float_of_int 7 in
  let calls :=
    [ ("train_model",
       MonitorPerformance.Call "POST" t
         (MonitorPerformance.Returns t t MonitorPerformance.HeadersSet));
      ("get_training_job",
       MonitorPerformance.Call "GET" t
         (MonitorPerformance.Returns t t MonitorPerformance.HeadersSet));
      ("train_model",
       MonitorPerformance.Call "POST" t
         (MonitorPerformance.Returns t t (MonitorPerformance.HeaderError "TypeError" t t)));
      ("train_model", MonitorPerformance.Call "POST" t MonitorPerformance.Escapes) ] in
  exists m,
    Py.dict_get "POST:train_model" (MonitorPerformance.serve calls []) = Some m
    /\ MonitorPerformance.total_requests m = 3
    /\ MonitorPerformance.total_errors m = 1
    /\ (length (MonitorPerformance.response_times m) <= 1000)%nat.
Proof.
  intros t calls.
  destruct (Py.dict_get "POST:train_model" (MonitorPerformance.serve calls []))
    as [m|] eqn:Hget; [|exfalso; vm_compute in Hget; discriminate].
  exists m. split; [reflexivity|].
  destruct (metrics_record_the_calls calls "POST:train_model" m Hget)
    as (_ & Hrequests & Herrors & _ & _ & Hwindow & _).
  split; [exact Hrequests|]. split; [exact Herrors | exact Hwindow].
Defined.

Lemma training_service_first_blocks_witness :
  TrainingController.get_services Sample.isoformat (fun _ _ => Ok tt) 2 (Sample.env 0)
    None None (ServiceRegistry.Build [] [] false)
  = Some (ServiceRegistry.Blocks, (None, None), ServiceRegistry.Build [] [] true).
Proof.
  exact (proj1 (proj2 (training_service_first_blocks Sample.isoformat (fun _ _ => Ok tt)
                         (Sample.env 0) 0 (ServiceRegistry.Build [] [] false)
                         eq_refl eq_refl eq_refl))).
Defined.

Lemma mlflow_service_first_witness :
  let configs := [ ("training_service", [ ("max_concurrent_jobs", Py.VInt 1) ]) ] in
  let mlflow_service :=
    ServiceRegistry.MLflow (MLflowService.__init__ Sample.isoformat (Sample.env 0) []) in
  exists self1,
    ServiceRegistry.get_service Sample.isoformat (fun _ _ => Ok tt) 1 (Sample.env 0)
      "mlflow_service" (ServiceRegistry.Build [] configs false)
    = Some (ServiceRegistry.Returns mlflow_service, self1)
    /\ exists self2,
         ServiceRegistry.get_service Sample.isoformat (fun _ _ => Ok tt) 2 (Sample.env 1)
           "training_service" self1
         = Some (ServiceRegistry.Returns
                   (ServiceRegistry.Training (System (Build [] [] [] 1 []) [AtGet] [])),
                 self2).
Proof.
  intros configs mlflow_service.
  destruct (mlflow_service_first Sample.isoformat (fun _ _ => Ok tt) (Sample.env 0)
              (Sample.env 1) 0 (ServiceRegistry.Build [] configs false)
              (System (Build [] [] [] 1 []) [AtGet] []) eq_refl eq_refl eq_refl eq_refl)
    as (Hfirst & Hsecond & _).
  eexists. split; [exact Hfirst|]. eexists. exact Hsecond.
Defined.

Lemma register_service_get_service_witness :
  ServiceRegistry.get_service Sample.isoformat (fun _ _ => Ok tt) 1 (Sample.env 0)
    "cache_service"
    (snd (ServiceRegistry.register_service "cache_service" (ServiceRegistry.Health [])
            (ServiceRegistry.Build [] [] false)))
  = Some (ServiceRegistry.Returns (ServiceRegistry.Health []),
          snd (ServiceRegistry.register_service "cache_service"
                 (ServiceRegistry.Health []) (ServiceRegistry.Build [] [] false))).
Proof.
  exact (proj1 (proj2 (register_service_get_service Sample.isoformat (fun _ _ => Ok tt)
                         (Sample.env 0) 0 "cache_service" (ServiceRegistry.Health [])
                         (ServiceRegistry.Build [] [] false) eq_refl))).
Defined.

End MoreWitnesses.
